(** * Verification of the immediate-mode UI engine (ui.cpp / ui.h)

    A shallow embedding of the layout and interaction core of the
    Win32 Direct2D template: identifier hashing and per-frame
    deduplication, the panel arena and the stack-based builder, the
    row/column layout passes, the size-override store, the divider
    drag resolution, click detection and render-list emission.

    Conventions of the embedding.
    - A C [int] / [int32_t] is a [Z]; every arithmetic result is
      normalised by [i32] (two's complement wrap-around, which is what
      the MSVC target computes).
    - A C [float] is an IEEE-754 binary32 number ([spec_float] with
      precision 24 and maximal exponent 128, round to nearest even).
    - A [const char *] is an [option string] ([None] is the null
      pointer); the characters of a string are read up to the first
      NUL, and a [char] is signed (the build uses [cl] without [/J]).
    - A fixed array together with its element count ([panels] and
      [panel_count], [parent_stack], [used_ids], [size_overrides],
      [rectangles], [texts]) is the list of its live elements; the
      capacity tests of the code are tests on the length.
    - The loops over a sibling chain and the recursive tree walks take a
      fuel argument; running out of fuel is [None] (the C code would
      not return on a cyclic chain). *)

From Stdlib Require Import ZArith Lia String Ascii List Bool.
From Stdlib Require Import DecimalString SpecFloat.
From stdpp Require Import base list.
Import ListNotations.

Local Open Scope string_scope.
Local Open Scope list_scope.
Local Open Scope Z_scope.

(** ** Machine integers *)

Definition INT32_MAX : Z := 2147483647.
Definition INT32_MIN : Z := -2147483648.

(** Two's complement wrap-around of a 32-bit signed result. *)
Definition i32 (z : Z) : Z := (z + 2147483648) mod 4294967296 - 2147483648.

(** C truth value of an [int]. *)
Definition c_true (z : Z) : bool := negb (z =? 0).

(** [a && b], [!a] on C ints, as 0/1. *)
Definition c_and (a b : Z) : Z := if c_true a && c_true b then 1 else 0.
Definition c_not (a : Z) : Z := if c_true a then 0 else 1.

(** ** Single-precision floats *)

Definition f32 : Type := spec_float.

Definition f32_zero : f32 := S754_zero false.
Definition f32_add (a b : f32) : f32 := SFadd 24 128 a b.
Definition f32_mul (a b : f32) : f32 := SFmul 24 128 a b.
Definition f32_div (a b : f32) : f32 := SFdiv 24 128 a b.

(** [a > b] on floats (false on NaN). *)
Definition f32_gt (a b : f32) : bool := SFltb b a.

(** [(float)n] for an [int] n. *)
Definition f32_of_int (n : Z) : f32 := binary_normalize 24 128 n 0 false.

Definition f32_one : f32 := f32_of_int 1.

(** The integer part (toward zero) of a finite float, unbounded. *)
Definition f32_trunc (f : f32) : option Z :=
  match f with
  | S754_zero _ => Some 0
  | S754_finite s m e =>
      let a := if 0 <=? e then Z.pos m * 2 ^ e else Z.pos m / 2 ^ (- e) in
      Some (if s then - a else a)
  | _ => None
  end.

(** [(int)f]: truncation toward zero; a NaN, an infinity or a value
    outside the [int] range gives the "integer indefinite" value
    [INT32_MIN], as the x86 conversion instruction does. *)
Definition f32_to_int (f : f32) : Z :=
  match f32_trunc f with
  | Some v => if (INT32_MIN <=? v) && (v <=? INT32_MAX) then v else INT32_MIN
  | None => INT32_MIN
  end.

(** The floor of the exact value of a finite float. *)
Definition f32_floor (f : f32) : option Z :=
  match f with
  | S754_zero _ => Some 0
  | S754_finite s m e =>
      let v := if s then Z.neg m else Z.pos m in
      Some (if 0 <=? e then v * 2 ^ e else v / 2 ^ (- e))
  | _ => None
  end.

(** ** C strings *)

(** Value of a [char] promoted to [int]: [char] is signed. *)
Definition char_val (a : ascii) : Z :=
  let n := Z.of_N (N_of_ascii a) in
  if n <? 128 then n else n - 256.

(** The characters of a C string: everything before the first NUL. *)
Fixpoint cstr (s : string) : string :=
  match s with
  | EmptyString => EmptyString
  | String a r => if char_val a =? 0 then EmptyString else String a (cstr r)
  end.

(** First [n] characters of a string. *)
Fixpoint str_take (n : nat) (s : string) : string :=
  match n, s with
  | O, _ => EmptyString
  | S _, EmptyString => EmptyString
  | S k, String a r => String a (str_take k r)
  end.

Definition MAX_UI_TEXT_LENGTH : Z := 256.
Definition MAX_UI_RECTANGLES : Z := 256.
Definition MAX_UI_TEXTS : Z := 256.
Definition UI_MAX_PANELS : Z := 1024.

(** The bounded copy loop
    [while (len < MAX_UI_TEXT_LENGTH - 1 && text[len]) dst[len] = text[len]]. *)
Definition copy_text (s : string) : string := str_take 255 (cstr s).

(** [%d] of an [int]. *)
Definition fmt_d (z : Z) : string := NilZero.string_of_int (Z.to_int z).

(** [%s] of a string argument; the C runtime prints a null pointer as
    the text "(null)". *)
Definition fmt_s (str : option string) : string :=
  match str with
  | Some s => cstr s
  | None => "(null)"
  end.

(** [snprintf(unique_str, sizeof(unique_str), "%s##%d", str, count)]
    with a buffer of [MAX_UI_TEXT_LENGTH] bytes: at most 255 characters
    are kept. *)
Definition snprintf_unique (str : option string) (count : Z) : string :=
  str_take 255 (fmt_s str ++ "##" ++ fmt_d count)%string.

(** ** Identifier hashing (UI_HashString) *)

(** One step of the loop body [hash = ((hash << 5) + hash) + c]. *)
Definition hash_step (hash c : Z) : Z :=
  i32 (i32 (i32 (Z.shiftl hash 5) + hash) + c).

(** [while ((c = *str++)) hash = ...]. *)
Fixpoint hash_loop (hash : Z) (s : string) : Z :=
  match s with
  | EmptyString => hash
  | String a r =>
      let c := char_val a in
      if c =? 0 then hash else hash_loop (hash_step hash c) r
  end.

Definition UI_HashString (str : option string) : Z :=
  match str with
  | None => 0
  | Some s => hash_loop 5381 s
  end.

(** ** Data model (ui.h) *)

Record UI_RectI := mkRect { x : Z; y : Z; w : Z; h : Z }.

Record UI_Style := mkStyle {
  color : Z;
  min_w : Z; max_w : Z;
  min_h : Z; max_h : Z;
  pref_w : Z; pref_h : Z;
  pad_l : Z; pad_t : Z; pad_r : Z; pad_b : Z;
  flex_grow : f32;
  flex_shrink : f32;
  flex_basis : Z;
  direction : Z;
  gap : Z;
  resizable : Z;
  resize_hitbox_padding : Z
}.

Record UI_Panel := mkPanel {
  p_id : Z;
  style : UI_Style;
  parent : Z;
  first_child : Z;
  last_child : Z;
  next_sibling : Z;
  rect : UI_RectI;
  label_text : string;
  label_color : Z;
  is_label : Z
}.

(** [UI_State]: the live prefix [panels[0 .. panel_count-1]] of the arena. *)
Abbreviation UI_State := (list UI_Panel).

Definition panel_count (s : UI_State) : Z := Z.of_nat (length s).

Record UI_Rectangle := mkRectangle {
  r_left : Z; r_top : Z; r_right : Z; r_bottom : Z; r_color : Z
}.

Record UI_Text := mkText {
  t_x : Z; t_y : Z; t_w : Z; t_h : Z;
  t_color : Z;
  t_text : string;
  t_font_size : Z;
  t_align_h : Z;
  t_align_v : Z
}.

(** [rect_count] and [text_count] are the lengths of the two lists. *)
Record UI_Render_List := mkRenderList {
  rectangles : list UI_Rectangle;
  texts : list UI_Text
}.

Record UI_Input := mkInput {
  mouse_x : Z; mouse_y : Z;
  mouse_x_prev : Z; mouse_y_prev : Z;
  mouse_dx : Z; mouse_dy : Z;
  mouse_down : list Z;
  mouse_pressed : list Z;
  mouse_released : list Z;
  mouse_wheel_delta : f32;
  key_down : list Z;
  key_pressed : list Z;
  key_released : list Z;
  char_buffer : list Z;
  last_char : Z;
  ctrl : Z; shift : Z; alt : Z
}.

Record UI_Interaction := mkInteraction {
  hot_widget : Z;
  hot_widget_prev : Z;
  active_widget : Z;
  active_widget_prev : Z;
  focused_widget : Z;
  dragging_divider : Z;
  drag_start_pos : Z;
  drag_start_size_left : Z;
  drag_start_size_right : Z;
  resize_target_left_id : Z;
  resize_target_right_id : Z
}.

Record UI_Size_Override := mkOverride {
  panel_id : Z;
  so_pref_w : Z;
  so_pref_h : Z
}.

(** [used_ids] pairs [used_ids[i]] with [used_id_counts[i]]. *)
Record UI_Context := mkContext {
  screen_w : Z;
  screen_h : Z;
  state : UI_State;
  parent_stack : list Z;
  measure_text : option (string -> Z -> UI_RectI);
  used_ids : list (Z * Z);
  input : UI_Input;
  input_prev : UI_Input;
  interaction : UI_Interaction;
  size_overrides : list UI_Size_Override;
  frame_number : Z;
  delta_time_ms : f32;
  current_fps : Z;
  last_button_clicked : string
}.

Definition UI_DIRECTION_ROW : Z := 0.
Definition UI_DIRECTION_COLUMN : Z := 1.
Definition UI_ALIGN_START : Z := 0.
Definition UI_ALIGN_CENTER : Z := 1.
Definition UI_DIVIDER_VERTICAL : Z := 0.
Definition UI_DIVIDER_HORIZONTAL : Z := 1.
Definition UI_MOUSE_LEFT : Z := 0.
Definition UI_MOUSE_BUTTON_COUNT : Z := 3.
Definition UI_KEY_COUNT : Z := 256.
Definition UI_SIZE_AUTO : Z := -1.
Definition UI_SIZE_FLEX : Z := -2.

(** *** Field updates *)

Definition set_color (c : Z) (s : UI_Style) : UI_Style :=
  mkStyle c (min_w s) (max_w s) (min_h s) (max_h s) (pref_w s) (pref_h s)
    (pad_l s) (pad_t s) (pad_r s) (pad_b s) (flex_grow s) (flex_shrink s)
    (flex_basis s) (direction s) (gap s) (resizable s) (resize_hitbox_padding s).

Definition set_pref_w (v : Z) (s : UI_Style) : UI_Style :=
  mkStyle (color s) (min_w s) (max_w s) (min_h s) (max_h s) v (pref_h s)
    (pad_l s) (pad_t s) (pad_r s) (pad_b s) (flex_grow s) (flex_shrink s)
    (flex_basis s) (direction s) (gap s) (resizable s) (resize_hitbox_padding s).

Definition set_pref_h (v : Z) (s : UI_Style) : UI_Style :=
  mkStyle (color s) (min_w s) (max_w s) (min_h s) (max_h s) (pref_w s) v
    (pad_l s) (pad_t s) (pad_r s) (pad_b s) (flex_grow s) (flex_shrink s)
    (flex_basis s) (direction s) (gap s) (resizable s) (resize_hitbox_padding s).

Definition set_padding (l t r b : Z) (s : UI_Style) : UI_Style :=
  mkStyle (color s) (min_w s) (max_w s) (min_h s) (max_h s) (pref_w s) (pref_h s)
    l t r b (flex_grow s) (flex_shrink s)
    (flex_basis s) (direction s) (gap s) (resizable s) (resize_hitbox_padding s).

Definition set_flex_grow (g : f32) (s : UI_Style) : UI_Style :=
  mkStyle (color s) (min_w s) (max_w s) (min_h s) (max_h s) (pref_w s) (pref_h s)
    (pad_l s) (pad_t s) (pad_r s) (pad_b s) g (flex_shrink s)
    (flex_basis s) (direction s) (gap s) (resizable s) (resize_hitbox_padding s).

Definition set_direction (d : Z) (s : UI_Style) : UI_Style :=
  mkStyle (color s) (min_w s) (max_w s) (min_h s) (max_h s) (pref_w s) (pref_h s)
    (pad_l s) (pad_t s) (pad_r s) (pad_b s) (flex_grow s) (flex_shrink s)
    (flex_basis s) d (gap s) (resizable s) (resize_hitbox_padding s).

Definition set_gap (g : Z) (s : UI_Style) : UI_Style :=
  mkStyle (color s) (min_w s) (max_w s) (min_h s) (max_h s) (pref_w s) (pref_h s)
    (pad_l s) (pad_t s) (pad_r s) (pad_b s) (flex_grow s) (flex_shrink s)
    (flex_basis s) (direction s) g (resizable s) (resize_hitbox_padding s).

Definition set_resizable (r hp : Z) (s : UI_Style) : UI_Style :=
  mkStyle (color s) (min_w s) (max_w s) (min_h s) (max_h s) (pref_w s) (pref_h s)
    (pad_l s) (pad_t s) (pad_r s) (pad_b s) (flex_grow s) (flex_shrink s)
    (flex_basis s) (direction s) (gap s) r hp.

Definition set_style (f : UI_Style -> UI_Style) (p : UI_Panel) : UI_Panel :=
  mkPanel (p_id p) (f (style p)) (parent p) (first_child p) (last_child p)
    (next_sibling p) (rect p) (label_text p) (label_color p) (is_label p).

Definition set_rect (r : UI_RectI) (p : UI_Panel) : UI_Panel :=
  mkPanel (p_id p) (style p) (parent p) (first_child p) (last_child p)
    (next_sibling p) r (label_text p) (label_color p) (is_label p).

Definition set_parent (v : Z) (p : UI_Panel) : UI_Panel :=
  mkPanel (p_id p) (style p) v (first_child p) (last_child p)
    (next_sibling p) (rect p) (label_text p) (label_color p) (is_label p).

Definition set_first_child (v : Z) (p : UI_Panel) : UI_Panel :=
  mkPanel (p_id p) (style p) (parent p) v (last_child p)
    (next_sibling p) (rect p) (label_text p) (label_color p) (is_label p).

Definition set_last_child (v : Z) (p : UI_Panel) : UI_Panel :=
  mkPanel (p_id p) (style p) (parent p) (first_child p) v
    (next_sibling p) (rect p) (label_text p) (label_color p) (is_label p).

Definition set_next_sibling (v : Z) (p : UI_Panel) : UI_Panel :=
  mkPanel (p_id p) (style p) (parent p) (first_child p) (last_child p)
    v (rect p) (label_text p) (label_color p) (is_label p).

Definition set_label (txt : string) (col : Z) (p : UI_Panel) : UI_Panel :=
  mkPanel (p_id p) (style p) (parent p) (first_child p) (last_child p)
    (next_sibling p) (rect p) txt col 1.

Definition set_state (s : UI_State) (ui : UI_Context) : UI_Context :=
  mkContext (screen_w ui) (screen_h ui) s (parent_stack ui) (measure_text ui)
    (used_ids ui) (input ui) (input_prev ui) (interaction ui) (size_overrides ui)
    (frame_number ui) (delta_time_ms ui) (current_fps ui) (last_button_clicked ui).

Definition set_parent_stack (st : list Z) (ui : UI_Context) : UI_Context :=
  mkContext (screen_w ui) (screen_h ui) (state ui) st (measure_text ui)
    (used_ids ui) (input ui) (input_prev ui) (interaction ui) (size_overrides ui)
    (frame_number ui) (delta_time_ms ui) (current_fps ui) (last_button_clicked ui).

Definition set_used_ids (u : list (Z * Z)) (ui : UI_Context) : UI_Context :=
  mkContext (screen_w ui) (screen_h ui) (state ui) (parent_stack ui) (measure_text ui)
    u (input ui) (input_prev ui) (interaction ui) (size_overrides ui)
    (frame_number ui) (delta_time_ms ui) (current_fps ui) (last_button_clicked ui).

Definition set_input (i : UI_Input) (ui : UI_Context) : UI_Context :=
  mkContext (screen_w ui) (screen_h ui) (state ui) (parent_stack ui) (measure_text ui)
    (used_ids ui) i (input_prev ui) (interaction ui) (size_overrides ui)
    (frame_number ui) (delta_time_ms ui) (current_fps ui) (last_button_clicked ui).

Definition set_input_prev (i : UI_Input) (ui : UI_Context) : UI_Context :=
  mkContext (screen_w ui) (screen_h ui) (state ui) (parent_stack ui) (measure_text ui)
    (used_ids ui) (input ui) i (interaction ui) (size_overrides ui)
    (frame_number ui) (delta_time_ms ui) (current_fps ui) (last_button_clicked ui).

Definition set_interaction (i : UI_Interaction) (ui : UI_Context) : UI_Context :=
  mkContext (screen_w ui) (screen_h ui) (state ui) (parent_stack ui) (measure_text ui)
    (used_ids ui) (input ui) (input_prev ui) i (size_overrides ui)
    (frame_number ui) (delta_time_ms ui) (current_fps ui) (last_button_clicked ui).

Definition set_size_overrides (o : list UI_Size_Override) (ui : UI_Context) : UI_Context :=
  mkContext (screen_w ui) (screen_h ui) (state ui) (parent_stack ui) (measure_text ui)
    (used_ids ui) (input ui) (input_prev ui) (interaction ui) o
    (frame_number ui) (delta_time_ms ui) (current_fps ui) (last_button_clicked ui).

Definition set_last_button_clicked (t : string) (ui : UI_Context) : UI_Context :=
  mkContext (screen_w ui) (screen_h ui) (state ui) (parent_stack ui) (measure_text ui)
    (used_ids ui) (input ui) (input_prev ui) (interaction ui) (size_overrides ui)
    (frame_number ui) (delta_time_ms ui) (current_fps ui) t.

Definition set_hot_widget (v : Z) (i : UI_Interaction) : UI_Interaction :=
  mkInteraction v (hot_widget_prev i) (active_widget i) (active_widget_prev i)
    (focused_widget i) (dragging_divider i) (drag_start_pos i)
    (drag_start_size_left i) (drag_start_size_right i)
    (resize_target_left_id i) (resize_target_right_id i).

Definition set_active_widget (v : Z) (i : UI_Interaction) : UI_Interaction :=
  mkInteraction (hot_widget i) (hot_widget_prev i) v (active_widget_prev i)
    (focused_widget i) (dragging_divider i) (drag_start_pos i)
    (drag_start_size_left i) (drag_start_size_right i)
    (resize_target_left_id i) (resize_target_right_id i).

(** The six fields written at drag start and cleared at drag end. *)
Definition set_drag (div pos sl sr lid rid : Z) (i : UI_Interaction) : UI_Interaction :=
  mkInteraction (hot_widget i) (hot_widget_prev i) (active_widget i)
    (active_widget_prev i) (focused_widget i) div pos sl sr lid rid.

(** ** Arena access *)

Definition zero_rect : UI_RectI := mkRect 0 0 0 0.

Definition zero_style : UI_Style :=
  mkStyle 0 0 0 0 0 0 0 0 0 0 0 f32_zero f32_zero 0 0 0 0 0.

(** An all-zero panel record. *)
Definition zero_panel : UI_Panel :=
  mkPanel 0 zero_style 0 0 0 0 zero_rect "" 0 0.

(** [s->panels[i]] for a live index; an index outside the live prefix
    reads as the all-zero record (the source gives it no meaning). *)
Definition get_panel (s : UI_State) (i : Z) : UI_Panel :=
  if i <? 0 then zero_panel else default zero_panel (s !! Z.to_nat i).

(** In-place update of [s->panels[i]]; nothing outside the live prefix
    is written. *)
Definition upd_panel (s : UI_State) (i : Z) (f : UI_Panel -> UI_Panel) : UI_State :=
  if i <? 0 then s else alter f (Z.to_nat i) s.

(** [arr[i]] of an [int] array. *)
Definition get_int (l : list Z) (i : Z) : Z :=
  if i <? 0 then 0 else default 0 (l !! Z.to_nat i).

(** ** Panel arena (UI_NewPanel, UI_AddChild) *)

Definition new_panel_style : UI_Style :=
  mkStyle 4280427042 200 INT32_MAX 200 INT32_MAX (-1) (-1) 0 0 0 0
    f32_zero f32_one (-1) 0 0 0 4.

Definition new_panel (id : Z) : UI_Panel :=
  mkPanel id new_panel_style (-1) (-1) (-1) (-1) zero_rect "" 4294967295 0.

(** Returns the arena and the index of the new panel, or [-1] when the
    arena is full. *)
Definition UI_NewPanel (s : UI_State) (id : Z) : UI_State * Z :=
  if panel_count s >=? UI_MAX_PANELS then (s, -1)
  else (s ++ [new_panel id], panel_count s).

Definition UI_AddChild (s : UI_State) (parent_idx child_idx : Z) : UI_State :=
  let s1 := upd_panel s child_idx (fun c => set_next_sibling (-1) (set_parent parent_idx c)) in
  if first_child (get_panel s1 parent_idx) =? -1 then
    upd_panel s1 parent_idx (fun p => set_last_child child_idx (set_first_child child_idx p))
  else
    let s2 := upd_panel s1 (last_child (get_panel s1 parent_idx))
                (set_next_sibling child_idx) in
    upd_panel s2 parent_idx (set_last_child child_idx).

(** ** Identifier deduplication (UI_Generate_Id) *)

(** The scan [for i < used_id_count: if used_ids[i] == base_id] with the
    post-increment of the matching counter: the old count and the
    updated table, or [None] when no entry matches. *)
Fixpoint used_find_bump (base : Z) (u : list (Z * Z)) : option (Z * list (Z * Z)) :=
  match u with
  | [] => None
  | (id, cnt) :: r =>
      if id =? base then Some (cnt, (id, i32 (cnt + 1)) :: r)
      else match used_find_bump base r with
           | Some (k, r') => Some (k, (id, cnt) :: r')
           | None => None
           end
  end.

Definition UI_Generate_Id (ctx : UI_Context) (str : option string) : Z * UI_Context :=
  let base_id := UI_HashString str in
  match used_find_bump base_id (used_ids ctx) with
  | Some (count, u') =>
      (UI_HashString (Some (snprintf_unique str count)), set_used_ids u' ctx)
  | None =>
      if Z.of_nat (length (used_ids ctx)) <? 1024
      then (base_id, set_used_ids (used_ids ctx ++ [(base_id, 0)]) ctx)
      else (base_id, ctx)
  end.

(** ** Render list (UI_AddRectangle, UI_AddText)

    The file-scope pointer [g_render_list] is an [option]: [None] is the
    null pointer. *)

Definition UI_AddRectangle (l t r b col : Z) (g : option UI_Render_List)
  : option UI_Render_List :=
  match g with
  | None => None
  | Some rl =>
      if Z.of_nat (length (rectangles rl)) >=? MAX_UI_RECTANGLES then Some rl
      else Some (mkRenderList (rectangles rl ++ [mkRectangle l t r b col]) (texts rl))
  end.

Definition UI_AddText (tx ty tw th : Z) (text_str : option string)
    (col font_size align_h align_v : Z) (g : option UI_Render_List)
  : option UI_Render_List :=
  match g with
  | None => None
  | Some rl =>
      if Z.of_nat (length (texts rl)) >=? MAX_UI_TEXTS then Some rl
      else match text_str with
           | None => Some rl
           | Some t =>
               Some (mkRenderList (rectangles rl)
                       (texts rl ++ [mkText tx ty tw th col (copy_text t)
                                       font_size align_h align_v]))
           end
  end.

(** ** Layout engine (UI_LayoutRow, UI_LayoutColumn, UI_LayoutPanelTree) *)

(** Fuel of one walk along a sibling chain: a chain without repetition
    has at most [panel_count] members. *)
Definition chain_fuel (s : UI_State) : nat := length s.

(** Fuel of a recursive tree walk: every call moves to a child or to a
    next sibling. *)
Definition tree_fuel (s : UI_State) : nat := (2 * length s + 2)%nat.

(** The members of the sibling chain that starts at [c]:
    [for (c = ...; c != -1; c = s->panels[c].next_sibling)]. *)
Fixpoint sibling_chain (fuel : nat) (s : UI_State) (c : Z) : option (list Z) :=
  if c =? -1 then Some []
  else match fuel with
       | O => None
       | S f =>
           match sibling_chain f s (next_sibling (get_panel s c)) with
           | Some l => Some (c :: l)
           | None => None
           end
       end.

Section LayoutPass.
(** The two passes of [UI_LayoutRow] and [UI_LayoutColumn] differ only
    in the preferred size they read ([pref_w] or [pref_h]) and in the
    rect they assign from the cursor and the main-axis size. *)
Variable pref : UI_Style -> Z.
Variable mk_rect : Z -> Z -> UI_RectI.

(** [int w = (child->style.pref_w >= 0) ? child->style.pref_w : 0]. *)
Definition fixed_size (child : UI_Panel) : Z :=
  if pref (style child) >=? 0 then pref (style child) else 0.

(** First pass: count children, sum fixed sizes, sum flex grow. *)
Fixpoint layout_measure (fuel : nat) (s : UI_State) (c : Z)
    (child_count fixed_sum : Z) (grow_sum : f32) : option (Z * Z * f32) :=
  if c =? -1 then Some (child_count, fixed_sum, grow_sum)
  else match fuel with
       | O => None
       | S f =>
           let child := get_panel s c in
           layout_measure f s (next_sibling child)
             (i32 (child_count + 1))
             (i32 (fixed_sum + fixed_size child))
             (if f32_gt (flex_grow (style child)) f32_zero
              then f32_add grow_sum (flex_grow (style child))
              else grow_sum)
       end.

(** Main-axis size of one child in the second pass. *)
Definition child_main_size (child : UI_Panel) (grow_sum : f32) (remaining : Z) : Z :=
  if f32_gt (flex_grow (style child)) f32_zero && f32_gt grow_sum f32_zero
  then
    let t := f32_div (flex_grow (style child)) grow_sum in
    let flex_w := f32_to_int (f32_mul t (f32_of_int remaining)) in
    i32 (fixed_size child + flex_w)
  else fixed_size child.

(** Second pass: assign child rects, advancing the cursor. *)
Fixpoint layout_place (fuel : nat) (s : UI_State) (c : Z)
    (cursor gap_ : Z) (grow_sum : f32) (remaining : Z) : option UI_State :=
  if c =? -1 then Some s
  else match fuel with
       | O => None
       | S f =>
           let sz := child_main_size (get_panel s c) grow_sum remaining in
           let s' := upd_panel s c (set_rect (mk_rect cursor sz)) in
           layout_place f s' (next_sibling (get_panel s' c))
             (i32 (cursor + i32 (sz + gap_))) gap_ grow_sum remaining
       end.

(** Both passes for a content box whose main-axis origin is [origin]
    and main-axis extent is [extent]. *)
Definition layout_pass (s : UI_State) (p : UI_Panel) (origin extent : Z)
  : option UI_State :=
  match layout_measure (chain_fuel s) s (first_child p) 0 0 f32_zero with
  | None => None
  | Some (child_count, fixed_sum, grow_sum) =>
      let gaps_total :=
        if child_count >? 1 then i32 (gap (style p) * i32 (child_count - 1)) else 0 in
      let remaining := i32 (i32 (extent - fixed_sum) - gaps_total) in
      let remaining := if remaining <? 0 then 0 else remaining in
      layout_place (chain_fuel s) s (first_child p) origin (gap (style p))
        grow_sum remaining
  end.
End LayoutPass.

(** Content box of a panel: origin and size inside the padding, the
    size clamped at zero. *)
Definition content_x0 (p : UI_Panel) : Z := i32 (x (rect p) + pad_l (style p)).
Definition content_y0 (p : UI_Panel) : Z := i32 (y (rect p) + pad_t (style p)).
Definition content_w (p : UI_Panel) : Z :=
  let cw := i32 (w (rect p) - i32 (pad_l (style p) + pad_r (style p))) in
  if cw <? 0 then 0 else cw.
Definition content_h (p : UI_Panel) : Z :=
  let ch := i32 (h (rect p) - i32 (pad_t (style p) + pad_b (style p))) in
  if ch <? 0 then 0 else ch.

Definition UI_LayoutRow (s : UI_State) (panel_idx : Z) : option UI_State :=
  let p := get_panel s panel_idx in
  layout_pass pref_w
    (fun cursor_x sz => mkRect cursor_x (content_y0 p) sz (content_h p))
    s p (content_x0 p) (content_w p).

Definition UI_LayoutColumn (s : UI_State) (panel_idx : Z) : option UI_State :=
  let p := get_panel s panel_idx in
  layout_pass pref_h
    (fun cursor_y sz => mkRect (content_x0 p) cursor_y (content_w p) sz)
    s p (content_y0 p) (content_h p).

(** The layout of one container by its direction. *)
Definition layout_container (s : UI_State) (panel_idx : Z) : option UI_State :=
  let p := get_panel s panel_idx in
  if direction (style p) =? 0 then UI_LayoutRow s panel_idx
  else if direction (style p) =? 1 then UI_LayoutColumn s panel_idx
  else Some s.

Fixpoint layout_tree (fuel : nat) (s : UI_State) (panel_idx : Z) : option UI_State :=
  match fuel with
  | O => None
  | S f =>
      let p := get_panel s panel_idx in
      if first_child p =? -1 then Some s
      else match layout_container s panel_idx with
           | None => None
           | Some s1 => layout_children f s1 (first_child (get_panel s1 panel_idx))
           end
  end
with layout_children (fuel : nat) (s : UI_State) (c : Z) : option UI_State :=
  match fuel with
  | O => if c =? -1 then Some s else None
  | S f =>
      if c =? -1 then Some s
      else match layout_tree f s c with
           | None => None
           | Some s' => layout_children f s' (next_sibling (get_panel s' c))
           end
  end.

Definition UI_LayoutPanelTree (s : UI_State) (panel_idx : Z) : option UI_State :=
  layout_tree (tree_fuel s) s panel_idx.

(** ** Emitter (UI_EmitPanels) *)

Definition label_nonempty (p : UI_Panel) : bool :=
  match label_text p with
  | EmptyString => false
  | String a _ => negb (char_val a =? 0)
  end.

(** The primitives of one panel: its rectangle unless it is a label with
    a fully transparent color, then its text if it is a non-empty label. *)
Definition emit_panel (p : UI_Panel) (g : option UI_Render_List) : option UI_Render_List :=
  let g1 :=
    if negb (c_true (is_label p) && (color (style p) =? 0))
    then UI_AddRectangle (x (rect p)) (y (rect p))
           (i32 (x (rect p) + w (rect p))) (i32 (y (rect p) + h (rect p)))
           (color (style p)) g
    else g in
  if c_true (is_label p) && label_nonempty p
  then UI_AddText (x (rect p)) (y (rect p)) (w (rect p)) (h (rect p))
         (Some (label_text p)) (label_color p) 14 UI_ALIGN_START UI_ALIGN_CENTER g1
  else g1.

Fixpoint emit_tree (fuel : nat) (s : UI_State) (panel_idx : Z)
    (g : option UI_Render_List) : option (option UI_Render_List) :=
  match fuel with
  | O => None
  | S f =>
      let p := get_panel s panel_idx in
      emit_children f s (first_child p) (emit_panel p g)
  end
with emit_children (fuel : nat) (s : UI_State) (c : Z)
    (g : option UI_Render_List) : option (option UI_Render_List) :=
  match fuel with
  | O => if c =? -1 then Some g else None
  | S f =>
      if c =? -1 then Some g
      else match emit_tree f s c g with
           | None => None
           | Some g' => emit_children f s (next_sibling (get_panel s c)) g'
           end
  end.

(** The new value of [g_render_list]'s target after the walk. *)
Definition UI_EmitPanels (s : UI_State) (panel_idx : Z) (g : option UI_Render_List)
  : option (option UI_Render_List) :=
  emit_tree (tree_fuel s) s panel_idx g.

(** ** Frame start (UI_Input_NewFrame, UI_BeginFrame_WithTime) *)

(** An [int] array of [n] cells filled by index. *)
Definition fill_array (n : nat) (f : Z -> Z) : list Z :=
  map (fun i => f (Z.of_nat i)) (seq 0 n).

Definition UI_Input_NewFrame (ui : UI_Context) : UI_Context :=
  let i := input ui in
  let pv := input_prev ui in
  let down := mouse_down i in
  let kdown := key_down i in
  set_input
    (mkInput (mouse_x i) (mouse_y i) (mouse_x_prev i) (mouse_y_prev i)
       (i32 (mouse_x i - mouse_x pv)) (i32 (mouse_y i - mouse_y pv))
       down
       (fill_array 3 (fun b => c_and (get_int down b) (c_not (get_int (mouse_down pv) b))))
       (fill_array 3 (fun b => c_and (c_not (get_int down b)) (get_int (mouse_down pv) b)))
       f32_zero
       kdown
       (fill_array 256 (fun k => c_and (get_int kdown k) (c_not (get_int (key_down pv) k))))
       (fill_array 256 (fun k => c_and (c_not (get_int kdown k)) (get_int (key_down pv) k)))
       []
       (last_char i)
       (get_int kdown 17) (get_int kdown 16) (get_int kdown 18))
    ui.

Definition empty_render_list : UI_Render_List := mkRenderList [] [].

(** Returns the context of the new frame and the new target of
    [g_render_list] (the caller's list, reset). *)
Definition UI_BeginFrame_WithTime (ui : UI_Context) (w_ h_ : Z) (dt : f32)
  : UI_Context * option UI_Render_List :=
  let it := interaction ui in
  let it' :=
    mkInteraction (hot_widget it) (hot_widget it) (active_widget it) (active_widget it)
      (focused_widget it) (dragging_divider it) (drag_start_pos it)
      (drag_start_size_left it) (drag_start_size_right it)
      (resize_target_left_id it) (resize_target_right_id it) in
  let ui1 :=
    mkContext w_ h_ [] [] (measure_text ui) [] (input ui) (input_prev ui) it'
      (size_overrides ui) (i32 (frame_number ui + 1)) dt (current_fps ui)
      (last_button_clicked ui) in
  (UI_Input_NewFrame ui1, Some empty_render_list).

Definition UI_BeginFrame (ui : UI_Context) (w_ h_ : Z)
  : UI_Context * option UI_Render_List :=
  UI_BeginFrame_WithTime ui w_ h_ f32_zero.

(** [UI_Input_EndFrame]: the current input becomes the previous one. *)
Definition UI_Input_EndFrame (ui : UI_Context) : UI_Context :=
  set_input_prev (input ui) ui.

(** ** Builder API *)

(** [ui->parent_stack[ui->parent_stack_count - 1]]. *)
Definition stack_top (st : list Z) : Z := default 0 (last st).

(** The part of [UI_Begin_Panel] and [UI_Begin_Panel_With_Id] after the
    identifier is known: allocate, link or make root, push. *)
Definition begin_panel_with (ctx : UI_Context) (id : Z) : UI_Context :=
  let '(s1, panel_idx) := UI_NewPanel (state ctx) id in
  if panel_idx <? 0 then ctx
  else
    let parent_idx :=
      if Z.of_nat (length (parent_stack ctx)) >? 0
      then stack_top (parent_stack ctx) else -1 in
    let s2 :=
      if parent_idx >=? 0 then UI_AddChild s1 parent_idx panel_idx
      else upd_panel s1 panel_idx
             (set_rect (mkRect 0 0 (screen_w ctx) (screen_h ctx))) in
    let st :=
      if Z.of_nat (length (parent_stack ctx)) <? 32
      then parent_stack ctx ++ [panel_idx] else parent_stack ctx in
    set_parent_stack st (set_state s2 ctx).

Definition UI_Begin_Panel (ctx : UI_Context) (id_str : option string) : UI_Context :=
  let '(id, ctx1) := UI_Generate_Id ctx id_str in
  begin_panel_with ctx1 id.

Definition UI_Begin_Panel_With_Id (ctx : UI_Context) (id : Z) : UI_Context :=
  begin_panel_with ctx id.

Definition UI_End_Panel (ctx : UI_Context) : UI_Context :=
  if Z.of_nat (length (parent_stack ctx)) >? 0
  then set_parent_stack (removelast (parent_stack ctx)) ctx
  else ctx.

(** The common shape of the style setters:
    [if (ui->parent_stack_count == 0) return;
     idx = top of stack; ui->state.panels[idx] ... = ...]. *)
Definition on_current_panel (f : UI_Panel -> UI_Panel) (ui : UI_Context) : UI_Context :=
  if Z.of_nat (length (parent_stack ui)) =? 0 then ui
  else set_state (upd_panel (state ui) (stack_top (parent_stack ui)) f) ui.

Definition UI_Begin_Panel_Ex (ctx : UI_Context) (id_str : option string)
    (st : UI_Style) : UI_Context :=
  let ctx1 := UI_Begin_Panel ctx id_str in
  if Z.of_nat (length (parent_stack ctx1)) >? 0
  then on_current_panel (set_style (fun _ => st)) ctx1
  else ctx1.

Definition UI_Panel_Set_Color (ui : UI_Context) (c : Z) : UI_Context :=
  on_current_panel (set_style (set_color c)) ui.

Definition UI_Panel_Set_Size (ui : UI_Context) (width height : Z) : UI_Context :=
  on_current_panel (set_style (fun s => set_pref_h height (set_pref_w width s))) ui.

Definition UI_Panel_Set_Padding (ui : UI_Context) (l t r b : Z) : UI_Context :=
  on_current_panel (set_style (set_padding l t r b)) ui.

Definition UI_Panel_Set_Direction (ui : UI_Context) (dir : Z) : UI_Context :=
  on_current_panel (set_style (set_direction dir)) ui.

Definition UI_Panel_Set_Gap (ui : UI_Context) (g : Z) : UI_Context :=
  on_current_panel (set_style (set_gap g)) ui.

Definition UI_Panel_Set_Grow (ui : UI_Context) (grow : f32) : UI_Context :=
  on_current_panel (set_style (set_flex_grow grow)) ui.

Definition UI_Panel_Set_Padding_Uniform (ui : UI_Context) (padding : Z) : UI_Context :=
  UI_Panel_Set_Padding ui padding padding padding padding.

Definition UI_Panel_Set_Resizable (ui : UI_Context) (r hitbox_padding : Z) : UI_Context :=
  on_current_panel (set_style (set_resizable r hitbox_padding)) ui.

(** The three optional trailing calls shared by [UI_BeginPanel] and
    [UI_Panel_Resizable]. *)
Definition apply_padding_gap_color (ui : UI_Context) (padding gap_ col : Z) : UI_Context :=
  let ui1 := if padding >? 0 then UI_Panel_Set_Padding_Uniform ui padding else ui in
  let ui2 := if gap_ >=? 0 then UI_Panel_Set_Gap ui1 gap_ else ui1 in
  if negb (col =? 0) then UI_Panel_Set_Color ui2 col else ui2.

Definition UI_BeginPanel (ui : UI_Context) (id : option string)
    (dir w_ h_ padding gap_ col : Z) : UI_Context :=
  let ui1 := UI_Begin_Panel ui id in
  let ui2 := UI_Panel_Set_Direction ui1 dir in
  let ui3 := if (w_ >=? 0) || (h_ >=? 0) then UI_Panel_Set_Size ui2 w_ h_ else ui2 in
  apply_padding_gap_color ui3 padding gap_ col.

(** ** Size-override store *)

(** The update of the first entry for [id], or [None] without one. *)
Fixpoint override_update (id pw ph : Z) (l : list UI_Size_Override)
  : option (list UI_Size_Override) :=
  match l with
  | [] => None
  | o :: r =>
      if panel_id o =? id then
        Some (mkOverride (panel_id o)
                (if pw >=? 0 then pw else so_pref_w o)
                (if ph >=? 0 then ph else so_pref_h o) :: r)
      else match override_update id pw ph r with
           | Some r' => Some (o :: r')
           | None => None
           end
  end.

Definition UI_Set_Size_Override (ui : UI_Context) (id pw ph : Z) : UI_Context :=
  match override_update id pw ph (size_overrides ui) with
  | Some l' => set_size_overrides l' ui
  | None =>
      if Z.of_nat (length (size_overrides ui)) <? 32
      then set_size_overrides (size_overrides ui ++ [mkOverride id pw ph]) ui
      else ui
  end.

(** The first entry for [id]. *)
Fixpoint override_find (id : Z) (l : list UI_Size_Override) : option UI_Size_Override :=
  match l with
  | [] => None
  | o :: r => if panel_id o =? id then Some o else override_find id r
  end.

Definition UI_Get_Size_Override_W (ui : UI_Context) (id : Z) : Z :=
  match override_find id (size_overrides ui) with
  | Some o => so_pref_w o
  | None => -1
  end.

Definition UI_Get_Size_Override_H (ui : UI_Context) (id : Z) : Z :=
  match override_find id (size_overrides ui) with
  | Some o => so_pref_h o
  | None => -1
  end.

(** ** The resizable-panel helper (UI_Panel_Resizable) *)

Definition UI_Panel_Resizable (ui : UI_Context) (id : option string)
    (dir default_w default_h padding gap_ col : Z) : UI_Context :=
  let ui1 := UI_Begin_Panel ui id in
  let ui2 := UI_Panel_Set_Direction ui1 dir in
  let pid := UI_HashString id in
  let w0 := UI_Get_Size_Override_W ui2 pid in
  let h0 := UI_Get_Size_Override_H ui2 pid in
  let w1 := if w0 <? 0 then default_w else w0 in
  let h1 := if h0 <? 0 then default_h else h0 in
  let wants_flex_w := default_w =? -2 in
  let wants_flex_h := default_h =? -2 in
  let ui3 :=
    if (w1 =? -2) || ((w1 <? 0) && wants_flex_w) then
      let u := if (h1 >=? 0) && negb (h1 =? -2) then UI_Panel_Set_Size ui2 (-1) h1 else ui2 in
      UI_Panel_Set_Grow u f32_one
    else if (h1 =? -2) || ((h1 <? 0) && wants_flex_h) then
      let u := if w1 >=? 0 then UI_Panel_Set_Size ui2 w1 (-1) else ui2 in
      UI_Panel_Set_Grow u f32_one
    else if (w1 >=? 0) || (h1 >=? 0) then UI_Panel_Set_Size ui2 w1 h1
    else ui2 in
  apply_padding_gap_color ui3 padding gap_ col.

(** ** Widgets (UI_Divider, UI_Label, UI_Button) *)

Definition UI_Divider_Ex (ui : UI_Context) (id : option string)
    (orientation col hitbox_padding : Z) : UI_Context :=
  let ui1 := UI_Begin_Panel ui id in
  let ui2 :=
    if orientation =? UI_DIVIDER_VERTICAL then UI_Panel_Set_Size ui1 1 (-1)
    else UI_Panel_Set_Size ui1 (-1) 1 in
  let ui3 := UI_Panel_Set_Color ui2 col in
  let ui4 := UI_Panel_Set_Resizable ui3 1 hitbox_padding in
  UI_End_Panel ui4.

Definition UI_Divider (ui : UI_Context) (id : option string) (orientation : Z) : UI_Context :=
  UI_Divider_Ex ui id orientation 872415231 4.

Definition UI_Label (ui : UI_Context) (text : option string) (col : Z) : UI_Context :=
  match text, measure_text ui with
  | Some t, Some measure =>
      let text_size := measure t 14 in
      let ui1 := UI_Begin_Panel ui text in
      let ui2 := UI_Panel_Set_Size ui1 (i32 (w text_size + 2)) (h text_size) in
      let ui3 :=
        if Z.of_nat (length (parent_stack ui2)) >? 0
        then on_current_panel
               (fun p => set_label (copy_text t) col (set_style (set_color 0) p)) ui2
        else ui2 in
      UI_End_Panel ui3
  | _, _ => ui
  end.

Definition UI_Is_Mouse_Released (ui : UI_Context) (button : Z) : Z :=
  if (button >=? 0) && (button <? UI_MOUSE_BUTTON_COUNT)
  then get_int (mouse_released (input ui)) button else 0.

Definition UI_Is_Mouse_Pressed (ui : UI_Context) (button : Z) : Z :=
  if (button >=? 0) && (button <? UI_MOUSE_BUTTON_COUNT)
  then get_int (mouse_pressed (input ui)) button else 0.

Definition UI_Is_Widget_Hot (ui : UI_Context) (id : Z) : bool :=
  hot_widget (interaction ui) =? id.

(** Returns the click flag and the context after the button's panels
    are built.  [text] is a non-null string (the source reads it
    without a null test). *)
Definition UI_Button (ui : UI_Context) (text : string) : Z * UI_Context :=
  let '(id, ui1) := UI_Generate_Id ui (Some text) in
  let is_hot := UI_Is_Widget_Hot ui1 id in
  let is_active := active_widget_prev (interaction ui1) =? id in
  let hit := is_active && c_true (UI_Is_Mouse_Released ui1 UI_MOUSE_LEFT) && is_hot in
  let clicked := if hit then 1 else 0 in
  let ui2 := if hit then set_last_button_clicked (copy_text text) ui1 else ui1 in
  let bg_color :=
    if is_active then 4279918516 else if is_hot then 4281697508 else 4280953390 in
  let text_color :=
    if is_active then 4294967295 else if is_hot then 4294967295 else 4289374890 in
  let ui3 := UI_Begin_Panel_With_Id ui2 id in
  let ui4 := UI_Panel_Set_Size ui3 (-1) 30 in
  let ui5 := UI_Panel_Set_Color ui4 bg_color in
  let ui6 := UI_Panel_Set_Padding ui5 8 4 8 4 in
  let ui7 := UI_Panel_Set_Direction ui6 UI_DIRECTION_ROW in
  let ui8 := UI_Label ui7 (Some text) text_color in
  (clicked, UI_End_Panel ui8).

(** ** Interaction (ui.cpp, from UI_Is_Point_In_Rect on) *)

Definition UI_Is_Point_In_Rect (px py : Z) (r : UI_RectI) : bool :=
  (px >=? x r) && (px <? i32 (x r + w r)) && (py >=? y r) && (py <? i32 (y r + h r)).

Definition UI_Is_Hovered (ui : UI_Context) (r : UI_RectI) : bool :=
  UI_Is_Point_In_Rect (mouse_x (input ui)) (mouse_y (input ui)) r.

(** Index of the first live panel with the given id, or [-1]. *)
Fixpoint find_panel_from (i : Z) (l : list UI_Panel) (id : Z) : Z :=
  match l with
  | [] => -1
  | p :: r => if p_id p =? id then i else find_panel_from (i + 1) r id
  end.

Definition UI_Find_Panel_By_Id (s : UI_State) (id : Z) : Z := find_panel_from 0 s id.

Definition UI_Get_Resize_Direction (s : UI_State) (panel_idx : Z) : Z :=
  let p := get_panel s panel_idx in
  if parent p <? 0 then -1
  else direction (style (get_panel s (parent p))).

Definition UI_Get_Expanded_Rect (r : UI_RectI) (padding : Z) : UI_RectI :=
  mkRect (i32 (x r - padding)) (i32 (y r - padding))
    (i32 (w r + i32 (padding * 2))) (i32 (h r + i32 (padding * 2))).

(** The scan of the parent's child list for the sibling before the divider. *)
Fixpoint find_prev_sibling (fuel : nat) (s : UI_State) (c prev_idx divider_idx : Z)
  : option Z :=
  if c =? -1 then Some (-1)
  else match fuel with
       | O => None
       | S f =>
           if c =? divider_idx then Some prev_idx
           else find_prev_sibling f s (next_sibling (get_panel s c)) c divider_idx
       end.

Definition UI_Find_Adjacent_Panel (s : UI_State) (divider_idx : Z) : option Z :=
  let divider := get_panel s divider_idx in
  if parent divider <? 0 then Some (-1)
  else find_prev_sibling (chain_fuel s) s
         (first_child (get_panel s (parent divider))) (-1) divider_idx.

Definition UI_Find_Next_Panel (s : UI_State) (divider_idx : Z) : Z :=
  next_sibling (get_panel s divider_idx).

(** *** Divider drag resolution (UI_Update_Divider_Resize) *)

(** The constraint step for the left panel: given the bounds of the
    resolved left panel, the sizes after the left clamp. *)
Definition clamp_left (start_left start_right mn mx : Z) (sizes : Z * Z) : Z * Z :=
  let '(new_left_size, new_right_size) := sizes in
  if new_left_size <? mn then
    let delta := i32 (mn - start_left) in
    (mn, i32 (start_right - delta))
  else if new_left_size >? mx then
    let delta := i32 (mx - start_left) in
    (mx, i32 (start_right - delta))
  else (new_left_size, new_right_size).

(** The constraint step for the right panel, applied after the left one. *)
Definition clamp_right (start_left start_right mn mx : Z) (sizes : Z * Z) : Z * Z :=
  let '(new_left_size, new_right_size) := sizes in
  if new_right_size <? mn then
    let delta := i32 (start_right - mn) in
    (i32 (start_left + delta), mn)
  else if new_right_size >? mx then
    let delta := i32 (start_right - mx) in
    (i32 (start_left + delta), mx)
  else (new_left_size, new_right_size).

(** [min] and [max] of a panel along the resize axis. *)
Definition axis_min (resize_dir : Z) (p : UI_Panel) : Z :=
  if resize_dir =? 0 then min_w (style p) else min_h (style p).
Definition axis_max (resize_dir : Z) (p : UI_Panel) : Z :=
  if resize_dir =? 0 then max_w (style p) else max_h (style p).

(** The final sizes [(new_left_size, new_right_size)] of a drag step. *)
Definition resize_sizes (ui : UI_Context) (resize_dir left_idx right_idx : Z) : Z * Z :=
  let it := interaction ui in
  let current_pos := if resize_dir =? 0 then mouse_x (input ui) else mouse_y (input ui) in
  let delta := i32 (current_pos - drag_start_pos it) in
  let sizes0 := (i32 (drag_start_size_left it + delta),
                 i32 (drag_start_size_right it - delta)) in
  let sizes1 :=
    if left_idx >=? 0 then
      let left := get_panel (state ui) left_idx in
      clamp_left (drag_start_size_left it) (drag_start_size_right it)
        (axis_min resize_dir left) (axis_max resize_dir left) sizes0
    else sizes0 in
  if right_idx >=? 0 then
    let right := get_panel (state ui) right_idx in
    clamp_right (drag_start_size_left it) (drag_start_size_right it)
      (axis_min resize_dir right) (axis_max resize_dir right) sizes1
  else sizes1.

(** One side of "apply final sizes": store the override, then write the
    preferred size and clear [flex_grow] on the panel. *)
Definition apply_resize (resize_dir idx id size : Z) (ui : UI_Context) : UI_Context :=
  if idx >=? 0 then
    if resize_dir =? 0 then
      let ui1 := UI_Set_Size_Override ui id size (-1) in
      set_state (upd_panel (state ui1) idx
                   (set_style (fun s => set_flex_grow f32_zero (set_pref_w size s)))) ui1
    else
      let ui1 := UI_Set_Size_Override ui id (-1) size in
      set_state (upd_panel (state ui1) idx
                   (set_style (fun s => set_flex_grow f32_zero (set_pref_h size s)))) ui1
  else ui.

(** The locals [left_idx], [right_idx], [divider_idx] and [resize_dir]
    of [UI_Update_Divider_Resize]: both targets and the divider are
    looked up by id in the current frame's tree. *)
Definition drag_left_idx (ui : UI_Context) : Z :=
  if negb (resize_target_left_id (interaction ui) =? 0)
  then UI_Find_Panel_By_Id (state ui) (resize_target_left_id (interaction ui)) else -1.

Definition drag_right_idx (ui : UI_Context) : Z :=
  if negb (resize_target_right_id (interaction ui) =? 0)
  then UI_Find_Panel_By_Id (state ui) (resize_target_right_id (interaction ui)) else -1.

Definition drag_divider_idx (ui : UI_Context) : Z :=
  UI_Find_Panel_By_Id (state ui) (dragging_divider (interaction ui)).

Definition drag_resize_dir (ui : UI_Context) : Z :=
  UI_Get_Resize_Direction (state ui) (drag_divider_idx ui).

Definition UI_Update_Divider_Resize (ui : UI_Context) : UI_Context :=
  let it := interaction ui in
  if dragging_divider it =? 0 then ui
  else
    let left_idx := drag_left_idx ui in
    let right_idx := drag_right_idx ui in
    if (left_idx <? 0) && (right_idx <? 0) then ui
    else if drag_divider_idx ui <? 0 then ui
    else
      let resize_dir := drag_resize_dir ui in
      if resize_dir <? 0 then ui
      else
        let '(new_left_size, new_right_size) :=
          resize_sizes ui resize_dir left_idx right_idx in
        let ui1 := apply_resize resize_dir left_idx (resize_target_left_id it)
                     new_left_size ui in
        apply_resize resize_dir right_idx (resize_target_right_id it)
          new_right_size ui1.

(** *** Hit-testing and the press/release edges (UI_Update_Interaction) *)

(** What one panel does to [hot_widget] in the first pass (skip labels
    and resizable dividers). *)
Definition hot_nonresizable (ui : UI_Context) (p : UI_Panel) (hot : Z) : Z :=
  if negb (c_true (is_label p)) && negb (c_true (resizable (style p))) then
    if UI_Is_Hovered ui (rect p) then p_id p else hot
  else hot.

(** The same in the second pass (resizable panels, expanded hitbox). *)
Definition hot_resizable (ui : UI_Context) (p : UI_Panel) (hot : Z) : Z :=
  if negb (c_true (is_label p)) && c_true (resizable (style p)) then
    if UI_Is_Hovered ui
         (UI_Get_Expanded_Rect (rect p) (resize_hitbox_padding (style p)))
    then p_id p else hot
  else hot.

(** The pre-order walk of [UI_Update_Panel_Interaction_NonResizable] and
    [UI_Update_Panel_Interaction_Resizable], by the per-panel step. *)
Fixpoint hit_tree (step : UI_Panel -> Z -> Z) (fuel : nat) (s : UI_State)
    (panel_idx : Z) (hot : Z) : option Z :=
  match fuel with
  | O => None
  | S f =>
      let p := get_panel s panel_idx in
      hit_children step f s (first_child p) (step p hot)
  end
with hit_children (step : UI_Panel -> Z -> Z) (fuel : nat) (s : UI_State)
    (c : Z) (hot : Z) : option Z :=
  match fuel with
  | O => if c =? -1 then Some hot else None
  | S f =>
      if c =? -1 then Some hot
      else match hit_tree step f s c hot with
           | None => None
           | Some hot' => hit_children step f s (next_sibling (get_panel s c)) hot'
           end
  end.

Definition UI_Update_Panel_Interaction_NonResizable (ui : UI_Context) (s : UI_State)
    (panel_idx : Z) (hot : Z) : option Z :=
  hit_tree (hot_nonresizable ui) (tree_fuel s) s panel_idx hot.

Definition UI_Update_Panel_Interaction_Resizable (ui : UI_Context) (s : UI_State)
    (panel_idx : Z) (hot : Z) : option Z :=
  hit_tree (hot_resizable ui) (tree_fuel s) s panel_idx hot.

(** The "handle drag start" block, for a non-zero hot widget. *)
Definition drag_start (ui : UI_Context) : option UI_Context :=
  let it := interaction ui in
  let hot_idx := UI_Find_Panel_By_Id (state ui) (hot_widget it) in
  if (hot_idx >=? 0) && c_true (resizable (style (get_panel (state ui) hot_idx))) then
    match UI_Find_Adjacent_Panel (state ui) hot_idx with
    | None => None
    | Some left_idx =>
        let right_idx := UI_Find_Next_Panel (state ui) hot_idx in
        let resize_dir := UI_Get_Resize_Direction (state ui) hot_idx in
        let pos := if resize_dir =? 0 then mouse_x (input ui) else mouse_y (input ui) in
        let left := get_panel (state ui) left_idx in
        let right := get_panel (state ui) right_idx in
        let lid := if left_idx >=? 0 then p_id left else 0 in
        let lsz := if left_idx >=? 0
                   then (if resize_dir =? 0 then w (rect left) else h (rect left))
                   else 0 in
        let rid := if right_idx >=? 0 then p_id right else 0 in
        let rsz := if right_idx >=? 0
                   then (if resize_dir =? 0 then w (rect right) else h (rect right))
                   else 0 in
        Some (set_interaction (set_drag (hot_widget it) pos lsz rsz lid rid it) ui)
    end
  else Some (set_interaction (set_active_widget (hot_widget it) it) ui).

(** The "handle drag end" block. *)
Definition drag_end (ui : UI_Context) : UI_Context :=
  let it := interaction ui in
  if negb (dragging_divider it =? 0)
  then set_interaction (set_drag 0 0 0 0 0 0 it) ui
  else set_interaction (set_active_widget 0 it) ui.

Definition UI_Update_Interaction (ui : UI_Context) : option UI_Context :=
  let ui1 := UI_Update_Divider_Resize ui in
  let hot0 := 0 in
  let hot2 :=
    if panel_count (state ui1) >? 0 then
      match UI_Update_Panel_Interaction_NonResizable ui1 (state ui1) 0 hot0 with
      | None => None
      | Some hot1 => UI_Update_Panel_Interaction_Resizable ui1 (state ui1) 0 hot1
      end
    else Some hot0 in
  match hot2 with
  | None => None
  | Some hot =>
      let ui2 := set_interaction (set_hot_widget hot (interaction ui1)) ui1 in
      let ui3 :=
        if c_true (UI_Is_Mouse_Pressed ui2 UI_MOUSE_LEFT)
           && negb (hot_widget (interaction ui2) =? 0)
        then drag_start ui2 else Some ui2 in
      match ui3 with
      | None => None
      | Some u =>
          Some (if c_true (UI_Is_Mouse_Released u UI_MOUSE_LEFT) then drag_end u else u)
      end
  end.

(** ** Specification-side definitions

    These follow the wording of the specification and are compared with
    the embedded code in the theorems. *)

(** The characters of a string as the [int] values the code reads. *)
Definition string_chars (s : string) : list Z :=
  map char_val (list_ascii_of_string s).

(** djb2 as the specification words it: seed 5381, [h = h*33 + c] for
    every character in order, kept to 32 bits. *)
Definition djb2_step (hash c : Z) : Z := i32 (hash * 33 + c).
Definition djb2 (cs : list Z) : Z := fold_left djb2_step cs 5381.

(** ** The host's frame (application.cpp) and sample inputs *)

Definition UI_Input_ProcessMouseMove (ui : UI_Context) (mx my : Z) : UI_Context :=
  let i := input ui in
  set_input
    (mkInput mx my (mouse_x_prev i) (mouse_y_prev i) (mouse_dx i) (mouse_dy i)
       (mouse_down i) (mouse_pressed i) (mouse_released i) (mouse_wheel_delta i)
       (key_down i) (key_pressed i) (key_released i) (char_buffer i) (last_char i)
       (ctrl i) (shift i) (alt i))
    ui.

Definition UI_Input_ProcessMouseButton (ui : UI_Context) (button down : Z) : UI_Context :=
  if (button >=? 0) && (button <? UI_MOUSE_BUTTON_COUNT) then
    let i := input ui in
    set_input
      (mkInput (mouse_x i) (mouse_y i) (mouse_x_prev i) (mouse_y_prev i)
         (mouse_dx i) (mouse_dy i)
         (<[Z.to_nat button := down]> (mouse_down i))
         (mouse_pressed i) (mouse_released i) (mouse_wheel_delta i)
         (key_down i) (key_pressed i) (key_released i) (char_buffer i) (last_char i)
         (ctrl i) (shift i) (alt i))
      ui
  else ui.

(** The first half of a displayed frame as the host drives it: begin
    the frame, build the tree, lay it out when it has a panel. *)
Definition frame_built (build : UI_Context -> UI_Context) (ui : UI_Context) (w_ h_ : Z)
  : option UI_Context :=
  let ui1 := fst (UI_BeginFrame_WithTime ui w_ h_ f32_zero) in
  let ui2 := build ui1 in
  match (if panel_count (state ui2) >? 0
         then UI_LayoutPanelTree (state ui2) 0 else Some (state ui2)) with
  | None => None
  | Some s => Some (set_state s ui2)
  end.

(** The whole frame: then update the interaction and end the input
    frame. *)
Definition run_frame (build : UI_Context -> UI_Context) (ui : UI_Context) (w_ h_ : Z)
  : option UI_Context :=
  match frame_built build ui w_ h_ with
  | None => None
  | Some ui2 =>
      match UI_Update_Interaction ui2 with
      | None => None
      | Some ui3 => Some (UI_Input_EndFrame ui3)
      end
  end.

Definition zero_input : UI_Input :=
  mkInput 0 0 0 0 0 0 [0; 0; 0] [0; 0; 0] [0; 0; 0] f32_zero
    (repeat 0 256) (repeat 0 256) (repeat 0 256) [] 0 0 0 0.

Definition zero_interaction : UI_Interaction :=
  mkInteraction 0 0 0 0 0 0 0 0 0 0 0.

(** A fixed-pitch text measure standing for the host's callback. *)
Definition sample_measure (t : string) (font_size : Z) : UI_RectI :=
  mkRect 0 0 (8 * Z.of_nat (String.length t)) 20.

(** The zero-initialised global context [g_ui_context = {}] with a
    measure callback installed. *)
Definition zero_context : UI_Context :=
  mkContext 0 0 [] [] (Some sample_measure) [] zero_input zero_input
    zero_interaction [] 0 f32_zero 0 "".

(** The three-column example of the documentation: two resizable
    panels separated by a vertical divider inside a row. *)
Definition three_columns (ui : UI_Context) : UI_Context :=
  let u1 := UI_BeginPanel ui (Some "root") UI_DIRECTION_ROW (-1) (-1) 0 0 0 in
  let u2 := UI_End_Panel
              (UI_Panel_Resizable u1 (Some "left") UI_DIRECTION_COLUMN 240 (-1) 12 8 4280427050) in
  let u3 := UI_Divider u2 (Some "div") UI_DIVIDER_VERTICAL in
  let u4 := UI_End_Panel
              (UI_Panel_Resizable u3 (Some "right") UI_DIRECTION_COLUMN 320 (-1) 12 8 4280427050) in
  UI_End_Panel u4.

(** A drag of the divider of [three_columns] in an 800x600 window: the
    pointer rests on the divider (x = 240), the left button goes down,
    then the pointer moves to x = 150 and the next frame is built. *)
Definition frame_or_zero (o : option UI_Context) : UI_Context := default zero_context o.

Definition drag_frame0 : UI_Context :=
  frame_or_zero (run_frame three_columns (UI_Input_ProcessMouseMove zero_context 240 100) 800 600).

Definition drag_frame1 : UI_Context :=
  frame_or_zero (run_frame three_columns (UI_Input_ProcessMouseButton drag_frame0 0 1) 800 600).

Definition drag_ctx : UI_Context :=
  frame_or_zero (frame_built three_columns (UI_Input_ProcessMouseMove drag_frame1 150 100) 800 600).

(** The same context with a height already stored for the left panel. *)
Definition drag_ctx_with_height : UI_Context :=
  set_size_overrides [mkOverride (UI_HashString (Some "left")) 240 333] drag_ctx.

(** Clamping of a value into [[mn, mx]] (the minimum is tested first). *)
Definition clamp (v mn mx : Z) : Z :=
  if v <? mn then mn else if v >? mx then mx else v.

(** The divider resolution as the specification words it: zero-sum
    proposal; clamp the left size and, if it was clamped, recompute
    the delta from the clamp and re-derive the right size; then clamp
    the right size and, if it was clamped, recompute the delta from
    that clamp and re-derive the left size.  [left] and [right] are the
    [(min, max)] of the panels that resolved. *)
Definition spec_resolve (start_left start_right delta : Z)
    (left right : option (Z * Z)) : Z * Z :=
  let l0 := i32 (start_left + delta) in
  let r0 := i32 (start_right - delta) in
  let '(l1, r1) :=
    match left with
    | Some (mn, mx) =>
        let l := clamp l0 mn mx in
        if l =? l0 then (l0, r0)
        else (l, i32 (start_right - i32 (l - start_left)))
    | None => (l0, r0)
    end in
  match right with
  | Some (mn, mx) =>
      let r := clamp r1 mn mx in
      if r =? r1 then (l1, r1)
      else (i32 (start_left + i32 (start_right - r)), r)
  | None => (l1, r1)
  end.




(** The preferred size of a panel along the resize axis. *)
Definition axis_pref (resize_dir : Z) (p : UI_Panel) : Z :=
  if resize_dir =? 0 then pref_w (style p) else pref_h (style p).

(** A column with one button, and a press on it in an 800x600 window:
    the pointer rests on the button, then the left button goes down. *)
Definition button_demo (ui : UI_Context) : Z * UI_Context :=
  let u1 := UI_BeginPanel ui (Some "root") UI_DIRECTION_COLUMN (-1) (-1) 8 4 0 in
  let '(clicked, u2) := UI_Button u1 "Save" in
  (clicked, UI_End_Panel u2).

Definition button_frame (ui : UI_Context) : UI_Context :=
  frame_or_zero (run_frame (fun u => snd (button_demo u)) ui 800 600).

(** The click flag the button returns while the next frame is built. *)
Definition button_click_next_frame (ui : UI_Context) : Z :=
  fst (button_demo (fst (UI_BeginFrame_WithTime ui 800 600 f32_zero))).

Definition button_pressed : UI_Context :=
  button_frame
    (UI_Input_ProcessMouseButton
       (button_frame (UI_Input_ProcessMouseMove zero_context 20 20)) 0 1).


(** A frame whose arena is full: 1024 panels named "a" begun and ended
    one after the other. *)
Definition full_arena_ctx : UI_Context :=
  Nat.iter 1024 (fun c => UI_End_Panel (UI_Begin_Panel c (Some "a")))
    (fst (UI_BeginFrame zero_context 800 600)).

(** The panels of the subtree at [panel_idx] in pre-order (a panel, then
    the subtrees of its children in sibling order). *)
Fixpoint preorder (fuel : nat) (s : UI_State) (panel_idx : Z) : option (list Z) :=
  match fuel with
  | O => None
  | S f =>
      match preorder_children f s (first_child (get_panel s panel_idx)) with
      | Some l => Some (panel_idx :: l)
      | None => None
      end
  end
with preorder_children (fuel : nat) (s : UI_State) (c : Z) : option (list Z) :=
  match fuel with
  | O => if c =? -1 then Some [] else None
  | S f =>
      if c =? -1 then Some []
      else match preorder f s c with
           | None => None
           | Some l1 =>
               match preorder_children f s (next_sibling (get_panel s c)) with
               | None => None
               | Some l2 => Some (l1 ++ l2)
               end
           end
  end.

(** Emission of a list of panels in order. *)
Definition emit_list (s : UI_State) (order : list Z) (g : option UI_Render_List)
  : option UI_Render_List :=
  fold_left (fun g' i => emit_panel (get_panel s i) g') order g.

(** The rectangle primitive of a panel, and the test that decides
    whether one is appended: every panel but a fully transparent label. *)
Definition panel_rectangle (p : UI_Panel) : UI_Rectangle :=
  mkRectangle (x (rect p)) (y (rect p))
    (i32 (x (rect p) + w (rect p))) (i32 (y (rect p) + h (rect p)))
    (color (style p)).

Definition emits_rectangle (p : UI_Panel) : bool :=
  negb (c_true (is_label p) && (color (style p) =? 0)).

(** Appending to an array of capacity 256. *)
Definition add_capped {A : Type} (l : list A) (a : A) : list A :=
  if Z.of_nat (length l) >=? 256 then l else l ++ [a].

(** A frame whose root panel is not a label and is fully transparent. *)
Definition transparent_root_ctx : UI_Context :=
  frame_or_zero
    (frame_built
       (fun u => UI_End_Panel (UI_Panel_Set_Color (UI_Begin_Panel u (Some "root")) 0))
       zero_context 800 600).





Definition fresh_frame : UI_Context := fst (UI_BeginFrame zero_context 800 600).

(** ** Layout: list view of the two passes and tree well-formedness *)

(** A panel without its computed rect: what the layout reads besides
    the rect of the container itself. *)
Definition skel (p : UI_Panel) : UI_Panel := set_rect zero_rect p.

(** Two arenas that differ at most in the rects of their panels. *)
Definition same_skel (s1 s2 : UI_State) : Prop := skel <$> s1 = skel <$> s2.

Definition rect_at (s : UI_State) (i : Z) : UI_RectI := rect (get_panel s i).

(** Every rect of the outputs is either the same in both or untouched
    in both. *)
Definition rects_follow (s1 s2 o1 o2 : UI_State) : Prop :=
  forall i, rect_at o1 i = rect_at o2 i
            \/ (rect_at o1 i = rect_at s1 i /\ rect_at o2 i = rect_at s2 i).

(** The links of a tree as the builder leaves it: a child and a next
    sibling are allocated after the panel that points to them. *)
Definition links_increasing (s : UI_State) : Prop :=
  forall i, 0 <= i < panel_count s ->
    (first_child (get_panel s i) = -1
     \/ i < first_child (get_panel s i) < panel_count s)
    /\ (next_sibling (get_panel s i) = -1
        \/ i < next_sibling (get_panel s i) < panel_count s).

(** Every container has one of the two values of [UI_Direction]. *)
Definition directions_valid (s : UI_State) : Prop :=
  forall i, first_child (get_panel s i) <> -1 ->
    direction (style (get_panel s i)) = 0 \/ direction (style (get_panel s i)) = 1.

Section LayoutLists.
Variable pref : UI_Style -> Z.
Variable mk_rect : Z -> Z -> UI_RectI.

(** The first pass over the list of the children. *)
Fixpoint measure_list (l : list Z) (s : UI_State)
    (child_count fixed_sum : Z) (grow_sum : f32) : Z * Z * f32 :=
  match l with
  | [] => (child_count, fixed_sum, grow_sum)
  | c :: l' =>
      let child := get_panel s c in
      measure_list l' s (i32 (child_count + 1))
        (i32 (fixed_sum + fixed_size pref child))
        (if f32_gt (flex_grow (style child)) f32_zero
         then f32_add grow_sum (flex_grow (style child))
         else grow_sum)
  end.

(** The second pass over the list of the children. *)
Fixpoint place_list (l : list Z) (s : UI_State)
    (cursor gap_ : Z) (grow_sum : f32) (remaining : Z) : UI_State :=
  match l with
  | [] => s
  | c :: l' =>
      let sz := child_main_size pref (get_panel s c) grow_sum remaining in
      place_list l' (upd_panel s c (set_rect (mk_rect cursor sz)))
        (i32 (cursor + i32 (sz + gap_))) gap_ grow_sum remaining
  end.

(** The cursor before each child, from the sizes of the children
    before it. *)
Fixpoint cursor_after (l : list Z) (s : UI_State)
    (cursor gap_ : Z) (grow_sum : f32) (remaining : Z) : Z :=
  match l with
  | [] => cursor
  | c :: l' =>
      cursor_after l' s
        (i32 (cursor + i32 (child_main_size pref (get_panel s c) grow_sum remaining + gap_)))
        gap_ grow_sum remaining
  end.
End LayoutLists.

(** The remaining space of a container from the results of the first
    pass. *)
Definition remaining_space (extent gap_ child_count fixed_sum : Z) : Z :=
  let gaps_total := if child_count >? 1 then i32 (gap_ * i32 (child_count - 1)) else 0 in
  let remaining := i32 (i32 (extent - fixed_sum) - gaps_total) in
  if remaining <? 0 then 0 else remaining.

(** Boolean checks of the two well-formedness conditions. *)
Definition links_ok (n i : Z) (p : UI_Panel) : bool :=
  ((first_child p =? -1) || ((i <? first_child p) && (first_child p <? n)))
  && ((next_sibling p =? -1) || ((i <? next_sibling p) && (next_sibling p <? n))).

Fixpoint links_from (n i : Z) (l : list UI_Panel) : bool :=
  match l with
  | [] => true
  | p :: r => links_ok n i p && links_from n (i + 1) r
  end.

Definition links_increasing_b (s : UI_State) : bool := links_from (panel_count s) 0 s.

Definition directions_valid_b (s : UI_State) : bool :=
  forallb (fun p => (first_child p =? -1) || (direction (style p) =? 0)
                    || (direction (style p) =? 1)) s.

(** The row of the specification's example, built through the builder in
    a 300x50 window: the root row and two children, the first 100 wide,
    the second growing. *)
Definition row_example (ui : UI_Context) : UI_Context :=
  let u1 := UI_Begin_Panel ui (Some "row") in
  let u2 := UI_End_Panel (UI_Panel_Set_Size (UI_Begin_Panel u1 (Some "A")) 100 (-1)) in
  let u3 := UI_End_Panel (UI_Panel_Set_Grow (UI_Begin_Panel u2 (Some "B")) f32_one) in
  UI_End_Panel u3.

Definition row_example_state : UI_State :=
  state (row_example (fst (UI_BeginFrame zero_context 300 50))).





(** The next frame of [three_columns] after the width 500 was stored
    for its left panel. *)
Definition override_ctx : UI_Context :=
  set_size_overrides [mkOverride (UI_HashString (Some "left")) 500 (-1)] zero_context.



(** ** Trees under construction *)

(** A panel update that leaves the three tree links alone. *)
Definition links_kept (f : UI_Panel -> UI_Panel) : Prop :=
  forall p, first_child (f p) = first_child p
            /\ last_child (f p) = last_child p
            /\ next_sibling (f p) = next_sibling p.

(** What holds of the context between two builder calls: the links
    point forward, the last child of a panel that has children is a
    live panel, and so is every entry of the parent stack. *)
Definition built (ctx : UI_Context) : Prop :=
  links_increasing (state ctx)
  /\ (forall i, 0 <= i < panel_count (state ctx) ->
        first_child (get_panel (state ctx) i) <> -1 ->
        0 <= last_child (get_panel (state ctx) i) < panel_count (state ctx))
  /\ Forall (fun i => 0 <= i < panel_count (state ctx)) (parent_stack ctx).

(** A frame's build phase as data: the builder calls in program order. *)
Inductive UI_Call :=
  | Call_Begin_Panel (id : option string)
  | Call_Begin_Panel_Ex (id : option string) (st : UI_Style)
  | Call_End_Panel
  | Call_Set_Color (c : Z)
  | Call_Set_Size (width height : Z)
  | Call_Set_Padding (l t r b : Z)
  | Call_Set_Padding_Uniform (padding : Z)
  | Call_Set_Direction (dir : Z)
  | Call_Set_Gap (g : Z)
  | Call_Set_Grow (grow : f32)
  | Call_Set_Resizable (r hitbox_padding : Z)
  | Call_BeginPanel (id : option string) (dir w_ h_ padding gap_ col : Z)
  | Call_Panel_Resizable (id : option string) (dir default_w default_h padding gap_ col : Z)
  | Call_Divider (id : option string) (orientation : Z)
  | Call_Divider_Ex (id : option string) (orientation col hitbox_padding : Z)
  | Call_Label (text : option string) (col : Z)
  | Call_Button (text : string).

Definition run_call (ui : UI_Context) (c : UI_Call) : UI_Context :=
  match c with
  | Call_Begin_Panel id => UI_Begin_Panel ui id
  | Call_Begin_Panel_Ex id st => UI_Begin_Panel_Ex ui id st
  | Call_End_Panel => UI_End_Panel ui
  | Call_Set_Color c => UI_Panel_Set_Color ui c
  | Call_Set_Size width height => UI_Panel_Set_Size ui width height
  | Call_Set_Padding l t r b => UI_Panel_Set_Padding ui l t r b
  | Call_Set_Padding_Uniform padding => UI_Panel_Set_Padding_Uniform ui padding
  | Call_Set_Direction dir => UI_Panel_Set_Direction ui dir
  | Call_Set_Gap g => UI_Panel_Set_Gap ui g
  | Call_Set_Grow grow => UI_Panel_Set_Grow ui grow
  | Call_Set_Resizable r hp => UI_Panel_Set_Resizable ui r hp
  | Call_BeginPanel id dir w_ h_ padding gap_ col =>
      UI_BeginPanel ui id dir w_ h_ padding gap_ col
  | Call_Panel_Resizable id dir dw dh padding gap_ col =>
      UI_Panel_Resizable ui id dir dw dh padding gap_ col
  | Call_Divider id orientation => UI_Divider ui id orientation
  | Call_Divider_Ex id orientation col hp => UI_Divider_Ex ui id orientation col hp
  | Call_Label text col => UI_Label ui text col
  | Call_Button text => snd (UI_Button ui text)
  end.

(** The context after [UI_BeginFrame_WithTime] and the calls of [prog]. *)
Definition build_frame (ui : UI_Context) (w_ h_ : Z) (dt : f32) (prog : list UI_Call)
  : UI_Context :=
  fold_left run_call prog (fst (UI_BeginFrame_WithTime ui w_ h_ dt)).

(** A row 108 wide whose two children grow in the proportion 7 : 5. *)
Definition split_example (ui : UI_Context) : UI_Context :=
  let u1 := UI_Begin_Panel ui (Some "row") in
  let u2 := UI_End_Panel (UI_Panel_Set_Grow (UI_Begin_Panel u1 (Some "A")) (f32_of_int 7)) in
  let u3 := UI_End_Panel (UI_Panel_Set_Grow (UI_Begin_Panel u2 (Some "B")) (f32_of_int 5)) in
  UI_End_Panel u3.

Definition split_example_state : UI_State :=
  state (split_example (fst (UI_BeginFrame zero_context 108 50))).

(** ** Input events and queries (ui.cpp, UI_Input_Init to UI_Get_Mouse_Wheel) *)

(** [*input = {}] and the five explicit zero stores. *)
Definition UI_Input_Init (_ : UI_Input) : UI_Input := zero_input.

Definition set_mouse_wheel_delta (v : f32) (i : UI_Input) : UI_Input :=
  mkInput (mouse_x i) (mouse_y i) (mouse_x_prev i) (mouse_y_prev i)
    (mouse_dx i) (mouse_dy i) (mouse_down i) (mouse_pressed i) (mouse_released i)
    v (key_down i) (key_pressed i) (key_released i) (char_buffer i) (last_char i)
    (ctrl i) (shift i) (alt i).

Definition set_key_down (v : list Z) (i : UI_Input) : UI_Input :=
  mkInput (mouse_x i) (mouse_y i) (mouse_x_prev i) (mouse_y_prev i)
    (mouse_dx i) (mouse_dy i) (mouse_down i) (mouse_pressed i) (mouse_released i)
    (mouse_wheel_delta i) v (key_pressed i) (key_released i) (char_buffer i)
    (last_char i) (ctrl i) (shift i) (alt i).

(** [char_buffer] holds the [char_count] characters stored so far. *)
Definition set_chars (buf : list Z) (lc : Z) (i : UI_Input) : UI_Input :=
  mkInput (mouse_x i) (mouse_y i) (mouse_x_prev i) (mouse_y_prev i)
    (mouse_dx i) (mouse_dy i) (mouse_down i) (mouse_pressed i) (mouse_released i)
    (mouse_wheel_delta i) (key_down i) (key_pressed i) (key_released i) buf lc
    (ctrl i) (shift i) (alt i).

Definition UI_MAX_CHAR_BUFFER : Z := 32.

Definition UI_Input_ProcessMouseWheel (ui : UI_Context) (delta : f32) : UI_Context :=
  set_input
    (set_mouse_wheel_delta (f32_add (mouse_wheel_delta (input ui)) delta) (input ui)) ui.

Definition UI_Input_ProcessKey (ui : UI_Context) (vk_code down : Z) : UI_Context :=
  if (vk_code >=? 0) && (vk_code <? UI_KEY_COUNT)
  then set_input
         (set_key_down (<[Z.to_nat vk_code := down]> (key_down (input ui))) (input ui)) ui
  else ui.

(** [c] is the value of the [char] argument. *)
Definition UI_Input_ProcessChar (ui : UI_Context) (c : Z) : UI_Context :=
  let i := input ui in
  let buf :=
    if Z.of_nat (length (char_buffer i)) <? 32
    then char_buffer i ++ [c] else char_buffer i in
  set_input (set_chars buf c i) ui.

Definition UI_Is_Mouse_Down (ui : UI_Context) (button : Z) : Z :=
  if (button >=? 0) && (button <? UI_MOUSE_BUTTON_COUNT)
  then get_int (mouse_down (input ui)) button else 0.

Definition UI_Is_Key_Down (ui : UI_Context) (vk_code : Z) : Z :=
  if (vk_code >=? 0) && (vk_code <? UI_KEY_COUNT)
  then get_int (key_down (input ui)) vk_code else 0.

Definition UI_Is_Key_Pressed (ui : UI_Context) (vk_code : Z) : Z :=
  if (vk_code >=? 0) && (vk_code <? UI_KEY_COUNT)
  then get_int (key_pressed (input ui)) vk_code else 0.

Definition UI_Is_Key_Released (ui : UI_Context) (vk_code : Z) : Z :=
  if (vk_code >=? 0) && (vk_code <? UI_KEY_COUNT)
  then get_int (key_released (input ui)) vk_code else 0.

Definition UI_Get_Mouse_Wheel (ui : UI_Context) : f32 := mouse_wheel_delta (input ui).

(** The widget-state accessors. *)
Definition UI_Is_Widget_Active (ui : UI_Context) (id : Z) : bool :=
  active_widget (interaction ui) =? id.

Definition UI_Set_Hot_Widget (ui : UI_Context) (id : Z) : UI_Context :=
  set_interaction (set_hot_widget id (interaction ui)) ui.

Definition UI_Set_Active_Widget (ui : UI_Context) (id : Z) : UI_Context :=
  set_interaction (set_active_widget id (interaction ui)) ui.

Definition UI_Clear_Active_Widget (ui : UI_Context) : UI_Context :=
  set_interaction (set_active_widget 0 (interaction ui)) ui.

(** The arrays of [UI_Input] have their declared sizes. *)
Definition input_sized (i : UI_Input) : Prop :=
  length (mouse_down i) = 3%nat /\ length (key_down i) = 256%nat.

(** ** Invariants of the two id-keyed tables *)

(** The size-override store holds at most 32 entries, one per panel id. *)
Definition overrides_ok (l : list UI_Size_Override) : Prop :=
  NoDup (panel_id <$> l) /\ Z.of_nat (length l) <= 32.

(** The used-id table holds at most 1024 entries, one per base id. *)
Definition used_ok (u : list (Z * Z)) : Prop :=
  NoDup (fst <$> u) /\ Z.of_nat (length u) <= 1024.

(** A store in which 32 ids have a width, and a frame whose used-id
    table is full: 1024 names with different hashes generated. *)
Definition full_overrides_ctx : UI_Context :=
  fold_left (fun u i => UI_Set_Size_Override u (Z.of_nat i) 100 (-1)) (seq 1 32)
    zero_context.

Definition full_used_ids_ctx : UI_Context :=
  set_used_ids (map (fun i => (Z.of_nat i, 0)) (seq 1 1024)) fresh_frame.

(** The element before the first occurrence of [d] in a child list
    ([prev] when [d] comes first, [-1] when [d] does not occur). *)
Fixpoint prev_in (l : list Z) (prev d : Z) : Z :=
  match l with
  | [] => -1
  | c :: r => if c =? d then prev else prev_in r c d
  end.

(** ** Hit-testing: list view *)

(** The tests of the two passes on one panel. *)
Definition hits_nonresizable (ui : UI_Context) (p : UI_Panel) : bool :=
  negb (c_true (is_label p)) && negb (c_true (resizable (style p)))
  && UI_Is_Hovered ui (rect p).

Definition hits_resizable (ui : UI_Context) (p : UI_Panel) : bool :=
  negb (c_true (is_label p)) && c_true (resizable (style p))
  && UI_Is_Hovered ui (UI_Get_Expanded_Rect (rect p) (resize_hitbox_padding (style p))).

(** A pass over a list of panels in order. *)
Definition hit_list (step : UI_Panel -> Z -> Z) (s : UI_State) (order : list Z) (hot : Z)
  : Z :=
  fold_left (fun h i => step (get_panel s i) h) order hot.

(** The id of the last panel of [l] that passes [test], else [hot]. *)
Definition last_hit (test : UI_Panel -> bool) (l : list UI_Panel) (hot : Z) : Z :=
  match last (filter test l) with
  | Some p => p_id p
  | None => hot
  end.

(** What a drag step may change in a panel: nothing but the preferred
    sizes and [flex_grow]. *)
Definition same_but_size (p q : UI_Panel) : Prop :=
  p_id q = p_id p /\ parent q = parent p /\ first_child q = first_child p
  /\ last_child q = last_child p /\ next_sibling q = next_sibling p
  /\ rect q = rect p /\ label_text q = label_text p /\ label_color q = label_color p
  /\ is_label q = is_label p
  /\ set_flex_grow f32_zero (set_pref_w 0 (set_pref_h 0 (style q)))
     = set_flex_grow f32_zero (set_pref_w 0 (set_pref_h 0 (style p))).

(** The rect, its far corner and its expansion by [padding] are all
    representable, so that no sum of the hit test wraps. *)
Definition int_range (z : Z) : Prop := INT32_MIN <= z <= INT32_MAX.

Definition rect_in_range (r : UI_RectI) (padding : Z) : Prop :=
  0 <= padding /\ int_range (padding * 2)
  /\ int_range (x r - padding) /\ int_range (y r - padding)
  /\ int_range (x r + w r) /\ int_range (y r + h r)
  /\ int_range (w r + padding * 2) /\ int_range (h r + padding * 2)
  /\ int_range (x r + w r + padding) /\ int_range (y r + h r + padding).

(** ** Consistency of the three kinds of links *)

(** The parent pointers, the child lists and the sibling links of the
    live panels agree: a parent is an earlier panel; a panel has either
    no child or a first and a last child that are later panels, both
    pointing back to it, the last one without a next sibling; a next
    sibling is a later panel with the same parent. *)
Definition tree_ok (s : UI_State) : Prop :=
  forall i, 0 <= i < panel_count s ->
    let p := get_panel s i in
    (parent p = -1 \/ 0 <= parent p < i)
    /\ ((first_child p = -1 /\ last_child p = -1)
        \/ (i < first_child p /\ first_child p <= last_child p < panel_count s
            /\ parent (get_panel s (first_child p)) = i
            /\ parent (get_panel s (last_child p)) = i
            /\ next_sibling (get_panel s (last_child p)) = -1))
    /\ (next_sibling p = -1
        \/ (i < next_sibling p < panel_count s
            /\ parent (get_panel s (next_sibling p)) = parent p
            /\ 0 <= parent p)).

(** A panel update that leaves the four tree links alone. *)
Definition tree_links_kept (f : UI_Panel -> UI_Panel) : Prop :=
  forall p, parent (f p) = parent p /\ first_child (f p) = first_child p
            /\ last_child (f p) = last_child p
            /\ next_sibling (f p) = next_sibling p.

(** The invariant of the builder, with consistent links. *)
Definition built_tree (ctx : UI_Context) : Prop :=
  tree_ok (state ctx)
  /\ Forall (fun i => 0 <= i < panel_count (state ctx)) (parent_stack ctx)
  /\ panel_count (state ctx) <= UI_MAX_PANELS
  /\ Z.of_nat (length (parent_stack ctx)) <= 32.

(** The text primitive of a label panel, and the test that decides
    whether one is appended. *)
Definition panel_text (p : UI_Panel) : UI_Text :=
  mkText (x (rect p)) (y (rect p)) (w (rect p)) (h (rect p)) (label_color p)
    (copy_text (label_text p)) 14 UI_ALIGN_START UI_ALIGN_CENTER.

Definition emits_text (p : UI_Panel) : bool :=
  c_true (is_label p) && label_nonempty p.

(** The stored size of a panel id along the resize axis. *)
Definition axis_override (ui : UI_Context) (resize_dir id : Z) : Z :=
  if resize_dir =? 0 then UI_Get_Size_Override_W ui id
  else UI_Get_Size_Override_H ui id.

(** A column in a 200x300 window with a gap of 10: a child 50 high and
    a child that grows. *)
Definition column_example (ui : UI_Context) : UI_Context :=
  let u1 := UI_BeginPanel ui (Some "col") UI_DIRECTION_COLUMN (-1) (-1) 0 10 0 in
  let u2 := UI_End_Panel (UI_Panel_Set_Size (UI_Begin_Panel u1 (Some "A")) (-1) 50) in
  let u3 := UI_End_Panel (UI_Panel_Set_Grow (UI_Begin_Panel u2 (Some "B")) f32_one) in
  UI_End_Panel u3.

Definition column_example_state : UI_State :=
  state (column_example (fst (UI_BeginFrame zero_context 200 300))).

(** The panels the layout walk that starts at [root] visits: [root]
    itself and, with a visited panel, the members of its child list. *)
Inductive in_subtree (s : UI_State) (root : Z) : Z -> Prop :=
| in_subtree_root : in_subtree s root root
| in_subtree_child (p c : Z) (l : list Z) :
    in_subtree s root p ->
    sibling_chain (chain_fuel s) s (first_child (get_panel s p)) = Some l ->
    In c l -> in_subtree s root c.

(** [tree_ok] as a check that can be run. *)
Definition tree_ok_at (s : UI_State) (i : Z) : bool :=
  let p := get_panel s i in
  ((parent p =? -1) || ((0 <=? parent p) && (parent p <? i)))
  && (((first_child p =? -1) && (last_child p =? -1))
      || ((i <? first_child p) && (first_child p <=? last_child p)
          && (last_child p <? panel_count s)
          && (parent (get_panel s (first_child p)) =? i)
          && (parent (get_panel s (last_child p)) =? i)
          && (next_sibling (get_panel s (last_child p)) =? -1)))
  && ((next_sibling p =? -1)
      || ((i <? next_sibling p) && (next_sibling p <? panel_count s)
          && (parent (get_panel s (next_sibling p)) =? parent p)
          && (0 <=? parent p))).

Definition tree_ok_b (s : UI_State) : bool :=
  forallb (fun k => tree_ok_at s (Z.of_nat k)) (List.seq 0 (length s)).

(** [x] comes before [y] in the list [o]. *)
Definition comes_before (x y : Z) (o : list Z) : Prop :=
  exists l1 l2 l3, o = l1 ++ x :: l2 ++ y :: l3.


(** * Properties *)

(** ** Machine integers *)

Lemma i32_range (z : Z) : INT32_MIN <= i32 z <= INT32_MAX.
Proof.
  unfold i32, INT32_MIN, INT32_MAX.
  pose proof (Z.mod_pos_bound (z + 2147483648) 4294967296 eq_refl). lia.
Qed.

Lemma i32_small (z : Z) : INT32_MIN <= z <= INT32_MAX -> i32 z = z.
Proof.
  unfold i32, INT32_MIN, INT32_MAX. intros Hz.
  rewrite Z.mod_small by lia. lia.
Qed.

(** [i32] is the reduction modulo 2^32 into the signed range. *)
Lemma i32_mod (z : Z) : i32 z mod 4294967296 = z mod 4294967296.
Proof.
  unfold i32.
  rewrite <- (Zminus_mod_idemp_l _ 2147483648), Z.mod_mod by lia.
  rewrite Zminus_mod_idemp_l. f_equal. lia.
Qed.

Lemma i32_eq_iff (a b : Z) : i32 a = i32 b <-> a mod 4294967296 = b mod 4294967296.
Proof.
  split; intros Hab.
  - rewrite <- (i32_mod a), <- (i32_mod b). now rewrite Hab.
  - unfold i32. f_equal.
    rewrite <- (Zplus_mod_idemp_l a), <- (Zplus_mod_idemp_l b). now rewrite Hab.
Qed.

Lemma i32_idem (z : Z) : i32 (i32 z) = i32 z.
Proof. apply i32_small, i32_range. Qed.

Lemma i32_add_l (a b : Z) : i32 (i32 a + b) = i32 (a + b).
Proof.
  apply i32_eq_iff.
  rewrite <- (Zplus_mod_idemp_l (i32 a)), i32_mod. apply Zplus_mod_idemp_l.
Qed.

Lemma i32_add_r (a b : Z) : i32 (a + i32 b) = i32 (a + b).
Proof. rewrite (Z.add_comm a), i32_add_l. f_equal. lia. Qed.

Lemma i32_sub_l (a b : Z) : i32 (i32 a - b) = i32 (a - b).
Proof. unfold Z.sub. apply i32_add_l. Qed.

Lemma i32_sub_r (a b : Z) : i32 (a - i32 b) = i32 (a - b).
Proof.
  apply i32_eq_iff.
  rewrite <- (Zminus_mod_idemp_r a (i32 b)), i32_mod. apply Zminus_mod_idemp_r.
Qed.

Lemma i32_mul_l (a b : Z) : i32 (i32 a * b) = i32 (a * b).
Proof.
  apply i32_eq_iff.
  rewrite <- (Zmult_mod_idemp_l (i32 a)), i32_mod. apply Zmult_mod_idemp_l.
Qed.




(** ** Arena access *)

Lemma get_upd_same (s : UI_State) (i : Z) (f : UI_Panel -> UI_Panel) :
  0 <= i < panel_count s -> get_panel (upd_panel s i f) i = f (get_panel s i).
Proof.
  unfold get_panel, upd_panel, panel_count. intros Hi.
  destruct (i <? 0) eqn:E; [lia|].
  rewrite list_lookup_alter_eq.
  destruct (s !! Z.to_nat i) eqn:El; [reflexivity|].
  apply lookup_ge_None_1 in El. lia.
Qed.

Lemma get_upd_other (s : UI_State) (i j : Z) (f : UI_Panel -> UI_Panel) :
  i <> j -> get_panel (upd_panel s i f) j = get_panel s j.
Proof.
  unfold get_panel, upd_panel. intros Hij.
  destruct (j <? 0) eqn:Ej; [reflexivity|].
  destruct (i <? 0) eqn:Ei; [reflexivity|].
  rewrite list_lookup_alter_ne by lia. reflexivity.
Qed.

Lemma length_upd (s : UI_State) (i : Z) (f : UI_Panel -> UI_Panel) :
  length (upd_panel s i f) = length s.
Proof. unfold upd_panel. destruct (i <? 0); [reflexivity|apply length_alter]. Qed.

(** Outside the live prefix an update writes nothing. *)
Lemma upd_out_of_range (s : UI_State) (i : Z) (f : UI_Panel -> UI_Panel) :
  ~ (0 <= i < panel_count s) -> upd_panel s i f = s.
Proof.
  unfold upd_panel, panel_count. intros Hi.
  destruct (i <? 0) eqn:E; [reflexivity|].
  apply list_eq. intros k.
  destruct (decide (Z.to_nat i = k)) as [Heq|Hne].
  - subst k. rewrite list_lookup_alter_eq.
    destruct (s !! Z.to_nat i) eqn:El; [|reflexivity].
    apply lookup_lt_Some in El. lia.
  - now rewrite list_lookup_alter_ne.
Qed.

Lemma get_out_of_range (s : UI_State) (i : Z) :
  ~ (0 <= i < panel_count s) -> get_panel s i = zero_panel.
Proof.
  unfold get_panel, panel_count. intros Hi.
  destruct (i <? 0) eqn:E; [reflexivity|].
  destruct (s !! Z.to_nat i) eqn:El; [|reflexivity].
  apply lookup_lt_Some in El. lia.
Qed.

(** Two arenas with the same panel at every index are equal. *)
Lemma state_ext (s1 s2 : UI_State) :
  length s1 = length s2 ->
  (forall i, get_panel s1 i = get_panel s2 i) -> s1 = s2.
Proof.
  intros Hl Hg. apply list_eq. intros k.
  specialize (Hg (Z.of_nat k)). unfold get_panel in Hg.
  destruct (Z.of_nat k <? 0) eqn:E; [apply Z.ltb_lt in E; lia|].
  rewrite Nat2Z.id in Hg.
  destruct (s1 !! k) eqn:E1, (s2 !! k) eqn:E2; simpl in Hg.
  - now subst.
  - apply lookup_lt_Some in E1. apply lookup_ge_None_1 in E2. lia.
  - apply lookup_lt_Some in E2. apply lookup_ge_None_1 in E1. lia.
  - reflexivity.
Qed.

(** ** Identifier hashing *)

Lemma hash_step_djb2 (hash c : Z) : hash_step hash c = djb2_step hash c.
Proof.
  unfold hash_step, djb2_step.
  rewrite Z.shiftl_mul_pow2 by lia.
  rewrite i32_add_l, <- Z.add_assoc, i32_add_l. f_equal. change (2 ^ 5) with 32. lia.
Qed.

Lemma hash_loop_fold (s : string) (hash : Z) :
  hash_loop hash s = fold_left djb2_step (string_chars (cstr s)) hash.
Proof.
  revert hash. induction s as [|a r IH]; intros hash; simpl; [reflexivity|].
  destruct (char_val a =? 0); simpl; [reflexivity|].
  rewrite IH, hash_step_djb2. reflexivity.
Qed.

Lemma hash_loop_range (s : string) (hash : Z) :
  INT32_MIN <= hash <= INT32_MAX -> INT32_MIN <= hash_loop hash s <= INT32_MAX.
Proof.
  revert hash. induction s as [|a r IH]; intros hash Hh; simpl; [exact Hh|].
  destruct (char_val a =? 0); [exact Hh|].
  apply IH. unfold hash_step. apply i32_range.
Qed.

Lemma UI_HashString_range (str : option string) :
  INT32_MIN <= UI_HashString str <= INT32_MAX.
Proof.
  destruct str as [s|]; simpl.
  - apply hash_loop_range. unfold INT32_MIN, INT32_MAX. lia.
  - unfold INT32_MIN, INT32_MAX. lia.
Qed.

(** C7, counterexample: the empty name does not hash to 0; the loop
    body never runs and the seed 5381 is returned. *)
Lemma C7_empty_name_not_zero : UI_HashString (Some "") <> 0.
Proof. discriminate. Qed.

(** C7, as amended: the hash of a present name is djb2 (seed 5381,
    [h = h*33 + c] over the characters in order up to the terminating
    NUL, each step kept to 32 bits) and lies in the 32-bit range; the
    absent name hashes to 0 and the empty name to the seed 5381. *)
Theorem C7_hash_is_djb2 (s : string) :
  UI_HashString (Some s) = djb2 (string_chars (cstr s))
  /\ INT32_MIN <= UI_HashString (Some s) <= INT32_MAX
  /\ UI_HashString None = 0
  /\ UI_HashString (Some "") = 5381.
Proof.
  split; [apply hash_loop_fold|].
  split; [apply UI_HashString_range|].
  split; reflexivity.
Qed.

(** ** Size-override store *)

Lemma override_find_id (id : Z) (l : list UI_Size_Override) (o : UI_Size_Override) :
  override_find id l = Some o -> panel_id o = id.
Proof.
  induction l as [|a r IH]; simpl; [discriminate|].
  destruct (panel_id a =? id) eqn:E; [|exact IH].
  intros [= <-]. now apply Z.eqb_eq.
Qed.

Lemma override_update_found (id pw ph : Z) (l : list UI_Size_Override)
    (o : UI_Size_Override) :
  override_find id l = Some o ->
  exists l',
    override_update id pw ph l = Some l'
    /\ override_find id l'
       = Some (mkOverride id (if pw >=? 0 then pw else so_pref_w o)
                 (if ph >=? 0 then ph else so_pref_h o))
    /\ length l' = length l
    /\ (forall id', id' <> id -> override_find id' l' = override_find id' l).
Proof.
  induction l as [|a r IH]; simpl; [discriminate|].
  destruct (panel_id a =? id) eqn:E.
  - intros [= <-]. apply Z.eqb_eq in E. subst id.
    eexists. split; [reflexivity|]. split; [|split].
    + simpl. now rewrite Z.eqb_refl.
    + reflexivity.
    + intros id' Hne. simpl. destruct (panel_id a =? id') eqn:E'; [|reflexivity].
      apply Z.eqb_eq in E'. congruence.
  - intros Hf. destruct (IH Hf) as (r' & Hu & Hfind & Hlen & Hoth).
    rewrite Hu. eexists. split; [reflexivity|]. split; [|split].
    + simpl. rewrite E. exact Hfind.
    + simpl. now rewrite Hlen.
    + intros id' Hne. simpl. destruct (panel_id a =? id'); [reflexivity|].
      now apply Hoth.
Qed.

Lemma override_update_missing (id pw ph : Z) (l : list UI_Size_Override) :
  override_find id l = None -> override_update id pw ph l = None.
Proof.
  induction l as [|a r IH]; simpl; [reflexivity|].
  destruct (panel_id a =? id); [discriminate|].
  intros Hf. now rewrite (IH Hf).
Qed.

Lemma override_find_app (id : Z) (l1 l2 : list UI_Size_Override) :
  override_find id (l1 ++ l2)
  = match override_find id l1 with
    | Some o => Some o
    | None => override_find id l2
    end.
Proof.
  induction l1 as [|a r IH]; simpl; [reflexivity|].
  destruct (panel_id a =? id); [reflexivity|exact IH].
Qed.

(** Storing a width with height [-1] never changes a stored height. *)
Lemma set_override_w_keeps_h (ui : UI_Context) (idx pw id : Z) (o : UI_Size_Override) :
  override_find id (size_overrides ui) = Some o ->
  exists o',
    override_find id (size_overrides (UI_Set_Size_Override ui idx pw (-1))) = Some o'
    /\ so_pref_h o' = so_pref_h o.
Proof.
  intros Hf. unfold UI_Set_Size_Override.
  destruct (override_find idx (size_overrides ui)) as [ox|] eqn:Ex.
  - destruct (override_update_found idx pw (-1) _ _ Ex) as (l' & Hu & Hfind & _ & Hoth).
    rewrite Hu. simpl.
    destruct (Z.eq_dec id idx) as [->|Hne].
    + rewrite Hfind. eexists. split; [reflexivity|]. simpl. congruence.
    + rewrite (Hoth id Hne). eauto.
  - rewrite (override_update_missing _ _ _ _ Ex).
    destruct (Z.of_nat (length (size_overrides ui)) <? 32); simpl.
    + rewrite override_find_app, Hf. eauto.
    + eauto.
Qed.

Lemma apply_resize_horizontal_keeps_h (ui : UI_Context) (idx pid size id : Z)
    (o : UI_Size_Override) :
  override_find id (size_overrides ui) = Some o ->
  exists o',
    override_find id (size_overrides (apply_resize 0 idx pid size ui)) = Some o'
    /\ so_pref_h o' = so_pref_h o.
Proof.
  intros Hf. unfold apply_resize.
  destruct (idx >=? 0); [|eauto].
  simpl. now apply set_override_w_keeps_h.
Qed.

Lemma divider_resize_horizontal_keeps_h (ui : UI_Context) (id : Z) (o : UI_Size_Override) :
  drag_resize_dir ui = 0 ->
  override_find id (size_overrides ui) = Some o ->
  exists o',
    override_find id (size_overrides (UI_Update_Divider_Resize ui)) = Some o'
    /\ so_pref_h o' = so_pref_h o.
Proof.
  unfold UI_Update_Divider_Resize. intros Hdir Hf.
  destruct (dragging_divider (interaction ui) =? 0); [eauto|].
  destruct ((drag_left_idx ui <? 0) && (drag_right_idx ui <? 0)); [eauto|].
  destruct (drag_divider_idx ui <? 0); [eauto|].
  rewrite Hdir. simpl.
  match goal with |- context [resize_sizes ?a ?b ?c ?d] =>
    destruct (resize_sizes a b c d) as [nl nr] end.
  match goal with |- context [apply_resize 0 ?i ?p nl ui] =>
    destruct (apply_resize_horizontal_keeps_h ui i p nl id o Hf) as (o1 & H1 & Hh1) end.
  match goal with |- context [apply_resize 0 ?i ?p nr ?u] =>
    destruct (apply_resize_horizontal_keeps_h u i p nr id o1 H1) as (o2 & H2 & Hh2) end.
  exists o2. split; [exact H2|congruence].
Qed.

(** C10: on an existing entry only the dimensions passed non-negative
    are updated (the other one, every other entry and the entry count
    are unchanged); a new entry stores both arguments as given, also
    [-1]; and a horizontal divider drag keeps every stored height. *)
Theorem C10_override_update_keeps_other_dimension :
  (forall (ui : UI_Context) (id pw ph : Z) (o : UI_Size_Override),
      override_find id (size_overrides ui) = Some o ->
      let ui' := UI_Set_Size_Override ui id pw ph in
      UI_Get_Size_Override_W ui' id = (if pw >=? 0 then pw else so_pref_w o)
      /\ UI_Get_Size_Override_H ui' id = (if ph >=? 0 then ph else so_pref_h o)
      /\ length (size_overrides ui') = length (size_overrides ui)
      /\ (forall id', id' <> id ->
            override_find id' (size_overrides ui')
            = override_find id' (size_overrides ui)))
  /\ (forall (ui : UI_Context) (id pw ph : Z),
        override_find id (size_overrides ui) = None ->
        Z.of_nat (length (size_overrides ui)) < 32 ->
        override_find id (size_overrides (UI_Set_Size_Override ui id pw ph))
        = Some (mkOverride id pw ph))
  /\ (forall (ui : UI_Context) (id : Z) (o : UI_Size_Override),
        drag_resize_dir ui = 0 ->
        override_find id (size_overrides ui) = Some o ->
        UI_Get_Size_Override_H (UI_Update_Divider_Resize ui) id = so_pref_h o).
Proof.
  split; [|split].
  - intros ui id pw ph o Hf ui'. subst ui'.
    unfold UI_Get_Size_Override_W, UI_Get_Size_Override_H, UI_Set_Size_Override.
    destruct (override_update_found id pw ph _ _ Hf) as (l' & Hu & Hfind & Hlen & Hoth).
    rewrite Hu. simpl. rewrite Hfind. simpl. auto.
  - intros ui id pw ph Hf Hlen. unfold UI_Set_Size_Override.
    rewrite (override_update_missing _ _ _ _ Hf).
    destruct (Z.of_nat (length (size_overrides ui)) <? 32) eqn:E; [|lia].
    simpl. rewrite override_find_app, Hf. simpl. now rewrite Z.eqb_refl.
  - intros ui id o Hdir Hf. unfold UI_Get_Size_Override_H.
    destruct (divider_resize_horizontal_keeps_h ui id o Hdir Hf) as (o' & -> & Hh).
    exact Hh.
Qed.

Lemma C10_override_update_witness :
  UI_Get_Size_Override_W
    (UI_Set_Size_Override drag_ctx_with_height (UI_HashString (Some "left")) 200 (-1))
    (UI_HashString (Some "left")) = 200
  /\ UI_Get_Size_Override_H
       (UI_Set_Size_Override drag_ctx_with_height (UI_HashString (Some "left")) 200 (-1))
       (UI_HashString (Some "left")) = 333
  /\ override_find 7 (size_overrides (UI_Set_Size_Override drag_ctx 7 200 (-1)))
     = Some (mkOverride 7 200 (-1))
  /\ UI_Get_Size_Override_H (UI_Update_Divider_Resize drag_ctx_with_height)
       (UI_HashString (Some "left")) = 333.
Proof.
  destruct C10_override_update_keeps_other_dimension as (Hold & Hnew & Hdrag).
  destruct (Hold drag_ctx_with_height (UI_HashString (Some "left")) 200 (-1)
              (mkOverride (UI_HashString (Some "left")) 240 333) eq_refl)
    as (Hw & Hh & _).
  split; [exact Hw|]. split; [exact Hh|]. split.
  - apply Hnew; [reflexivity|vm_compute; reflexivity].
  - apply (Hdrag drag_ctx_with_height (UI_HashString (Some "left"))
             (mkOverride (UI_HashString (Some "left")) 240 333));
      vm_compute; reflexivity.
Defined.

(** ** Divider drag resolution *)








Lemma find_panel_from_spec (l : list UI_Panel) (i id : Z) :
  find_panel_from i l id = -1 /\ (forall p, In p l -> p_id p <> id)
  \/ exists k p, find_panel_from i l id = i + Z.of_nat k
                 /\ l !! k = Some p /\ p_id p = id.
Proof.
  revert i. induction l as [|a r IH]; intros i; simpl.
  - left. split; [reflexivity|]. intros p [].
  - destruct (p_id a =? id) eqn:E.
    + right. exists 0%nat, a. apply Z.eqb_eq in E. simpl. repeat split; [lia|exact E].
    + destruct (IH (i + 1)) as [[H1 H2]|(k & p & H1 & H2 & H3)].
      * left. split; [exact H1|]. intros p [<-|Hin]; [|now apply H2].
        now apply Z.eqb_neq.
      * right. exists (S k), p. repeat split; [lia|exact H2|exact H3].
Qed.

(** A found index is a live one and carries the id looked up. *)
Lemma UI_Find_Panel_By_Id_found (s : UI_State) (id : Z) :
  0 <= UI_Find_Panel_By_Id s id ->
  UI_Find_Panel_By_Id s id < panel_count s
  /\ p_id (get_panel s (UI_Find_Panel_By_Id s id)) = id.
Proof.
  unfold UI_Find_Panel_By_Id, panel_count. intros Hge.
  destruct (find_panel_from_spec s 0 id) as [[H1 _]|(k & p & H1 & H2 & H3)]; [lia|].
  rewrite H1. pose proof (lookup_lt_Some _ _ _ H2) as Hk.
  split; [lia|]. unfold get_panel.
  destruct (0 + Z.of_nat k <? 0) eqn:E; [apply Z.ltb_lt in E; lia|].
  replace (Z.to_nat (0 + Z.of_nat k)) with k by lia. now rewrite H2.
Qed.

Lemma apply_resize_state (resize_dir idx id size : Z) (ui : UI_Context) :
  state (apply_resize resize_dir idx id size ui)
  = if idx >=? 0
    then upd_panel (state ui) idx
           (set_style (fun s => set_flex_grow f32_zero
                                  (if resize_dir =? 0 then set_pref_w size s
                                   else set_pref_h size s)))
    else state ui.
Proof.
  unfold apply_resize, UI_Set_Size_Override.
  destruct (idx >=? 0); [|reflexivity].
  destruct (resize_dir =? 0); simpl;
    repeat match goal with
      | |- context [match ?e with _ => _ end] => destruct e; simpl
      end; reflexivity.
Qed.

Lemma axis_pref_after (resize_dir size : Z) (p : UI_Panel) :
  axis_pref resize_dir
    (set_style (fun s => set_flex_grow f32_zero
                           (if resize_dir =? 0 then set_pref_w size s
                            else set_pref_h size s)) p) = size
  /\ flex_grow (style (set_style (fun s => set_flex_grow f32_zero
                           (if resize_dir =? 0 then set_pref_w size s
                            else set_pref_h size s)) p)) = f32_zero.
Proof. unfold axis_pref. destruct (resize_dir =? 0); split; reflexivity. Qed.

(** What a proceeding drag step writes into the two panels. *)
Lemma divider_resize_writes (ui : UI_Context) :
  dragging_divider (interaction ui) <> 0 ->
  ~ (drag_left_idx ui < 0 /\ drag_right_idx ui < 0) ->
  0 <= drag_divider_idx ui ->
  0 <= drag_resize_dir ui ->
  let sizes := resize_sizes ui (drag_resize_dir ui) (drag_left_idx ui) (drag_right_idx ui) in
  let s' := state (UI_Update_Divider_Resize ui) in
  (0 <= drag_right_idx ui ->
     axis_pref (drag_resize_dir ui) (get_panel s' (drag_right_idx ui)) = snd sizes
     /\ flex_grow (style (get_panel s' (drag_right_idx ui))) = f32_zero)
  /\ (0 <= drag_left_idx ui -> drag_left_idx ui <> drag_right_idx ui ->
      axis_pref (drag_resize_dir ui) (get_panel s' (drag_left_idx ui)) = fst sizes
      /\ flex_grow (style (get_panel s' (drag_left_idx ui))) = f32_zero).
Proof.
  intros Hdrag Hsome Hdiv Hdir sizes s'. subst sizes s'.
  unfold UI_Update_Divider_Resize.
  destruct (dragging_divider (interaction ui) =? 0) eqn:E0; [lia|].
  destruct ((drag_left_idx ui <? 0) && (drag_right_idx ui <? 0)) eqn:E1; [lia|].
  destruct (drag_divider_idx ui <? 0) eqn:E2; [lia|].
  destruct (drag_resize_dir ui <? 0) eqn:E3; [lia|].
  destruct (resize_sizes ui (drag_resize_dir ui) (drag_left_idx ui) (drag_right_idx ui))
    as [nl nr] eqn:Es.
  simpl fst. simpl snd. rewrite !apply_resize_state.
  assert (Hl : 0 <= drag_left_idx ui -> drag_left_idx ui < panel_count (state ui)).
  { unfold drag_left_idx.
    destruct (negb (resize_target_left_id (interaction ui) =? 0)); [|lia].
    intros H. now apply UI_Find_Panel_By_Id_found. }
  assert (Hr : 0 <= drag_right_idx ui -> drag_right_idx ui < panel_count (state ui)).
  { unfold drag_right_idx.
    destruct (negb (resize_target_right_id (interaction ui) =? 0)); [|lia].
    intros H. now apply UI_Find_Panel_By_Id_found. }
  split.
  - intros Hri. destruct (drag_right_idx ui >=? 0) eqn:Er; [|lia].
    rewrite get_upd_same; [apply axis_pref_after|].
    unfold panel_count. destruct (drag_left_idx ui >=? 0);
      rewrite ?length_upd; fold (panel_count (state ui)); lia.
  - intros Hli Hne. destruct (drag_left_idx ui >=? 0) eqn:El; [|lia].
    destruct (drag_right_idx ui >=? 0) eqn:Er.
    + rewrite get_upd_other by lia. rewrite get_upd_same by lia. apply axis_pref_after.
    + rewrite get_upd_same by lia. apply axis_pref_after.
Qed.

(** The right clamp can undo the left one: the left panel alone would
    stop at its minimum 200, but the right maximum 310 forces 240. *)
Lemma right_clamp_overrides_left :
  spec_resolve 250 300 (-100) (Some (200, INT32_MAX)) None = (200, 350)
  /\ spec_resolve 250 300 (-100) (Some (200, INT32_MAX)) (Some (200, 310)) = (240, 310).
Proof. split; reflexivity. Qed.



(** ** Click detection *)

(** Identifier generation touches the deduplication table only. *)
Lemma UI_Generate_Id_frame (ctx : UI_Context) (str : option string) :
  snd (UI_Generate_Id ctx str) = set_used_ids (used_ids (snd (UI_Generate_Id ctx str))) ctx.
Proof.
  unfold UI_Generate_Id.
  destruct (used_find_bump (UI_HashString str) (used_ids ctx)) as [[k u']|]; [reflexivity|].
  destruct (Z.of_nat (length (used_ids ctx)) <? 1024); [reflexivity|].
  destruct ctx; reflexivity.
Qed.





(** The two runs above as the host sees them: released over the button
    the click is reported in the next frame; released after a frame
    that hit-tested the pointer outside the button, it is not. *)
Lemma button_released_inside_clicks :
  button_click_next_frame (UI_Input_ProcessMouseButton button_pressed 0 0) = 1.
Proof. vm_compute. reflexivity. Qed.

Lemma button_released_outside_does_not_click :
  button_click_next_frame
    (UI_Input_ProcessMouseButton
       (button_frame (UI_Input_ProcessMouseMove button_pressed 500 500)) 0 0) = 0.
Proof. vm_compute. reflexivity. Qed.

(** ** Arena exhaustion *)

Lemma UI_Begin_Panel_full (ctx : UI_Context) (name : option string) :
  panel_count (state ctx) >= UI_MAX_PANELS ->
  UI_Begin_Panel ctx name = snd (UI_Generate_Id ctx name).
Proof.
  intros Hfull. unfold UI_Begin_Panel.
  pose proof (UI_Generate_Id_frame ctx name) as Hfr.
  destruct (UI_Generate_Id ctx name) as [id ctx1]. simpl in *.
  unfold begin_panel_with, UI_NewPanel.
  assert (Hst : state ctx1 = state ctx) by (rewrite Hfr; reflexivity).
  rewrite Hst.
  destruct (panel_count (state ctx) >=? UI_MAX_PANELS) eqn:E; [reflexivity|lia].
Qed.

(** C6, counterexample: with a full arena, beginning another panel
    named "a" still increments the occurrence counter of "a" in the
    used-ID table. *)
Lemma C6_full_arena_changes_used_ids :
  panel_count (state full_arena_ctx) = UI_MAX_PANELS
  /\ used_ids (UI_Begin_Panel full_arena_ctx (Some "a")) <> used_ids full_arena_ctx.
Proof. split; [vm_compute; reflexivity|vm_compute; discriminate]. Qed.

(** C6, as amended: with a full arena [UI_Begin_Panel] allocates
    nothing and leaves the panel count, the panels, the parent stack
    and every other field as they were, except the used-ID table, which
    identifier generation has already updated (a first-use entry
    appended while the table has room, or the counter of the name's hash
    incremented). *)
Theorem C6_begin_panel_full_arena (ctx : UI_Context) (name : option string) :
  panel_count (state ctx) >= UI_MAX_PANELS ->
  let ctx' := UI_Begin_Panel ctx name in
  ctx' = set_used_ids (used_ids ctx') ctx
  /\ state ctx' = state ctx
  /\ parent_stack ctx' = parent_stack ctx
  /\ used_ids ctx'
     = match used_find_bump (UI_HashString name) (used_ids ctx) with
       | Some (_, u') => u'
       | None =>
           if Z.of_nat (length (used_ids ctx)) <? 1024
           then used_ids ctx ++ [(UI_HashString name, 0)]
           else used_ids ctx
       end.
Proof.
  intros Hfull ctx'. subst ctx'. rewrite (UI_Begin_Panel_full _ _ Hfull).
  split; [apply UI_Generate_Id_frame|].
  rewrite UI_Generate_Id_frame. split; [reflexivity|]. split; [reflexivity|].
  simpl. unfold UI_Generate_Id.
  destruct (used_find_bump (UI_HashString name) (used_ids ctx)) as [[k u']|]; [reflexivity|].
  destruct (Z.of_nat (length (used_ids ctx)) <? 1024); reflexivity.
Qed.

Lemma C6_begin_panel_full_arena_witness :
  state (UI_Begin_Panel full_arena_ctx (Some "b")) = state full_arena_ctx
  /\ parent_stack (UI_Begin_Panel full_arena_ctx (Some "b")) = parent_stack full_arena_ctx.
Proof.
  assert (Hfull : panel_count (state full_arena_ctx) >= UI_MAX_PANELS).
  { vm_compute. discriminate. }
  destruct (C6_begin_panel_full_arena full_arena_ctx (Some "b") Hfull) as (_ & Hs & Hp & _).
  split; [exact Hs|exact Hp].
Defined.

(** ** Identifier deduplication *)

Lemma hash_loop_cstr (s : string) (hash : Z) :
  hash_loop hash (cstr s) = hash_loop hash s.
Proof.
  revert hash. induction s as [|a r IH]; intros hash; simpl; [reflexivity|].
  destruct (char_val a =? 0) eqn:E; simpl; [reflexivity|].
  rewrite E. apply IH.
Qed.


















(** ** Layout engine *)

Lemma get_panel_fmap_skel (s : UI_State) (i : Z) :
  get_panel (skel <$> s) i = skel (get_panel s i).
Proof.
  unfold get_panel. destruct (i <? 0); [reflexivity|].
  rewrite list_lookup_fmap. destruct (s !! Z.to_nat i); reflexivity.
Qed.

Lemma same_skel_get (s1 s2 : UI_State) (i : Z) :
  same_skel s1 s2 -> skel (get_panel s1 i) = skel (get_panel s2 i).
Proof. intros H. rewrite <- !get_panel_fmap_skel. now rewrite H. Qed.

Lemma same_skel_length (s1 s2 : UI_State) : same_skel s1 s2 -> length s1 = length s2.
Proof.
  intros H. apply (f_equal (@length UI_Panel)) in H.
  now rewrite !length_fmap in H.
Qed.

Lemma same_skel_refl (s : UI_State) : same_skel s s.
Proof. reflexivity. Qed.

Lemma same_skel_sym (s1 s2 : UI_State) : same_skel s1 s2 -> same_skel s2 s1.
Proof. unfold same_skel. congruence. Qed.

Lemma same_skel_trans (s1 s2 s3 : UI_State) :
  same_skel s1 s2 -> same_skel s2 s3 -> same_skel s1 s3.
Proof. unfold same_skel. congruence. Qed.

(** Everything but the rect can be read off the skeleton. *)
Lemma skel_fields (p q : UI_Panel) :
  skel p = skel q ->
  style p = style q /\ first_child p = first_child q
  /\ next_sibling p = next_sibling q /\ p_id p = p_id q
  /\ is_label p = is_label q.
Proof. destruct p, q. unfold skel, set_rect. simpl. intros [= -> -> -> -> -> -> -> -> ->]. auto. Qed.

Lemma skel_rect_eq (p q : UI_Panel) : skel p = skel q -> rect p = rect q -> p = q.
Proof. destruct p, q. unfold skel, set_rect. simpl. intros [= -> -> -> -> -> -> -> -> ->] ->. reflexivity. Qed.

Lemma same_skel_panel (s1 s2 : UI_State) (i : Z) :
  same_skel s1 s2 -> rect_at s1 i = rect_at s2 i -> get_panel s1 i = get_panel s2 i.
Proof. intros H Hr. apply skel_rect_eq; [now apply same_skel_get|exact Hr]. Qed.

Lemma same_skel_state_eq (s1 s2 : UI_State) :
  same_skel s1 s2 -> (forall i, rect_at s1 i = rect_at s2 i) -> s1 = s2.
Proof.
  intros H Hr. apply state_ext; [now apply same_skel_length|].
  intros i. now apply same_skel_panel.
Qed.

Lemma upd_rect_skel (s : UI_State) (c : Z) (r : UI_RectI) :
  same_skel (upd_panel s c (set_rect r)) s.
Proof.
  unfold same_skel, upd_panel. destruct (c <? 0); [reflexivity|].
  apply list_eq. intros k. rewrite !list_lookup_fmap.
  destruct (decide (Z.to_nat c = k)) as [Heq|Hne].
  - subst k. rewrite list_lookup_alter_eq. destruct (s !! Z.to_nat c); reflexivity.
  - now rewrite list_lookup_alter_ne.
Qed.

Lemma same_skel_next (s1 s2 : UI_State) (c : Z) :
  same_skel s1 s2 -> next_sibling (get_panel s1 c) = next_sibling (get_panel s2 c).
Proof. intros H. now apply (skel_fields _ _ (same_skel_get _ _ c H)). Qed.

Lemma same_skel_first (s1 s2 : UI_State) (c : Z) :
  same_skel s1 s2 -> first_child (get_panel s1 c) = first_child (get_panel s2 c).
Proof. intros H. now apply (skel_fields _ _ (same_skel_get _ _ c H)). Qed.

Lemma same_skel_style (s1 s2 : UI_State) (c : Z) :
  same_skel s1 s2 -> style (get_panel s1 c) = style (get_panel s2 c).
Proof. intros H. now apply (skel_fields _ _ (same_skel_get _ _ c H)). Qed.

Lemma sibling_chain_skel (fuel : nat) (s1 s2 : UI_State) (c : Z) :
  same_skel s1 s2 -> sibling_chain fuel s1 c = sibling_chain fuel s2 c.
Proof.
  intros H. revert c. induction fuel as [|f IH]; intros c; simpl; [reflexivity|].
  destruct (c =? -1); [reflexivity|].
  now rewrite (same_skel_next _ _ c H), IH.
Qed.

(** With more fuel a finite chain is the same chain. *)
Lemma sibling_chain_mono (fuel fuel' : nat) (s : UI_State) (c : Z) (l : list Z) :
  sibling_chain fuel s c = Some l -> (fuel <= fuel')%nat ->
  sibling_chain fuel' s c = Some l.
Proof.
  revert fuel' c l. induction fuel as [|f IH]; intros fuel' c l; simpl.
  - destruct (c =? -1) eqn:E; [|discriminate]. intros [= <-] _.
    destruct fuel'; simpl; now rewrite E.
  - destruct (c =? -1) eqn:E.
    + intros [= <-] _. destruct fuel'; simpl; now rewrite E.
    + destruct (sibling_chain f s (next_sibling (get_panel s c))) as [l'|] eqn:El;
        [|discriminate].
      intros [= <-] Hle. destruct fuel' as [|f']; [lia|]. simpl. rewrite E.
      rewrite (IH f' _ _ El) by lia. reflexivity.
Qed.

Lemma sibling_chain_unique (f1 f2 : nat) (s : UI_State) (c : Z) (l1 l2 : list Z) :
  sibling_chain f1 s c = Some l1 -> sibling_chain f2 s c = Some l2 -> l1 = l2.
Proof.
  intros H1 H2.
  pose proof (sibling_chain_mono _ (Nat.max f1 f2) _ _ _ H1 (Nat.le_max_l _ _)) as H1'.
  pose proof (sibling_chain_mono _ (Nat.max f1 f2) _ _ _ H2 (Nat.le_max_r _ _)) as H2'.
  congruence.
Qed.

Section LayoutPassFacts.
Variable pref : UI_Style -> Z.
Variable mk_rect : Z -> Z -> UI_RectI.

Lemma child_main_size_skel (p q : UI_Panel) (grow_sum : f32) (remaining : Z) :
  style p = style q ->
  child_main_size pref p grow_sum remaining = child_main_size pref q grow_sum remaining.
Proof. unfold child_main_size, fixed_size. now intros ->. Qed.

(** The first pass is the measurement of the chain. *)
Lemma layout_measure_chain (fuel : nat) (s : UI_State) (c cnt fs : Z) (gs : f32) :
  layout_measure pref fuel s c cnt fs gs
  = option_map (fun l => measure_list pref l s cnt fs gs) (sibling_chain fuel s c).
Proof.
  revert c cnt fs gs. induction fuel as [|f IH]; intros c cnt fs gs; simpl.
  - destruct (c =? -1); reflexivity.
  - destruct (c =? -1); [reflexivity|]. rewrite IH.
    destruct (sibling_chain f s (next_sibling (get_panel s c))); reflexivity.
Qed.

Lemma measure_list_skel (l : list Z) (s1 s2 : UI_State) (cnt fs : Z) (gs : f32) :
  same_skel s1 s2 ->
  measure_list pref l s1 cnt fs gs = measure_list pref l s2 cnt fs gs.
Proof.
  intros H. revert cnt fs gs. induction l as [|c l IH]; intros cnt fs gs; simpl;
    [reflexivity|].
  unfold fixed_size. rewrite (same_skel_style _ _ c H). apply IH.
Qed.

Lemma place_list_skel (l : list Z) (s : UI_State) (cur gp : Z) (gs : f32) (rem : Z) :
  same_skel (place_list pref mk_rect l s cur gp gs rem) s.
Proof.
  revert s cur. induction l as [|c l IH]; intros s cur; simpl; [reflexivity|].
  eapply same_skel_trans; [apply IH|apply upd_rect_skel].
Qed.

(** The second pass is the placement of the chain. *)
Lemma layout_place_chain (fuel : nat) (s : UI_State) (c cur gp : Z) (gs : f32) (rem : Z) :
  layout_place pref mk_rect fuel s c cur gp gs rem
  = option_map (fun l => place_list pref mk_rect l s cur gp gs rem)
      (sibling_chain fuel s c).
Proof.
  revert s c cur. induction fuel as [|f IH]; intros s c cur; simpl.
  - destruct (c =? -1); reflexivity.
  - destruct (c =? -1); [reflexivity|]. rewrite IH.
    set (s' := upd_panel s c _).
    assert (Hs : same_skel s' s) by apply upd_rect_skel.
    rewrite (same_skel_next _ _ c Hs), (sibling_chain_skel f _ _ _ Hs).
    destruct (sibling_chain f s (next_sibling (get_panel s c))); reflexivity.
Qed.

Lemma layout_pass_chain (s : UI_State) (p : UI_Panel) (origin extent : Z) :
  layout_pass pref mk_rect s p origin extent
  = match sibling_chain (chain_fuel s) s (first_child p) with
    | None => None
    | Some l =>
        let '(cnt, fs, gs) := measure_list pref l s 0 0 f32_zero in
        Some (place_list pref mk_rect l s origin (gap (style p)) gs
                (remaining_space extent (gap (style p)) cnt fs))
    end.
Proof.
  unfold layout_pass. rewrite layout_measure_chain.
  destruct (sibling_chain (chain_fuel s) s (first_child p)) as [l|] eqn:E; simpl;
    [|reflexivity].
  destruct (measure_list pref l s 0 0 f32_zero) as [[cnt fs] gs].
  rewrite layout_place_chain, E. reflexivity.
Qed.

(** Only the members of the chain are written. *)
Lemma place_list_frame (l : list Z) (s : UI_State) (cur gp : Z) (gs : f32) (rem i : Z) :
  ~ In i l -> rect_at (place_list pref mk_rect l s cur gp gs rem) i = rect_at s i.
Proof.
  revert s cur. induction l as [|c l IH]; intros s cur Hin; simpl; [reflexivity|].
  rewrite IH by (intros H; apply Hin; now right).
  unfold rect_at. rewrite get_upd_other; [reflexivity|].
  intros ->. apply Hin. now left.
Qed.

(** Run on two arenas with the same skeleton, the second pass writes the
    same rects. *)
Lemma place_list_agree (l : list Z) (s1 s2 : UI_State) (cur gp : Z) (gs : f32) (rem : Z) :
  same_skel s1 s2 ->
  rects_follow s1 s2 (place_list pref mk_rect l s1 cur gp gs rem)
    (place_list pref mk_rect l s2 cur gp gs rem)
  /\ (forall j, In j l ->
        rect_at (place_list pref mk_rect l s1 cur gp gs rem) j
        = rect_at (place_list pref mk_rect l s2 cur gp gs rem) j).
Proof.
  revert s1 s2 cur. induction l as [|c l IH]; intros s1 s2 cur Hs; simpl.
  - split; [intros i; now right|intros j []].
  - rewrite (child_main_size_skel (get_panel s1 c) (get_panel s2 c))
      by now apply same_skel_style.
    set (R := mk_rect cur (child_main_size pref (get_panel s2 c) gs rem)).
    set (cur' := i32 (cur + _)).
    assert (Hs' : same_skel (upd_panel s1 c (set_rect R)) (upd_panel s2 c (set_rect R))).
    { eapply same_skel_trans; [apply upd_rect_skel|].
      eapply same_skel_trans; [exact Hs|]. apply same_skel_sym, upd_rect_skel. }
    destruct (IH _ _ cur' Hs') as [Hf Ha].
    set (o1 := place_list pref mk_rect l (upd_panel s1 c (set_rect R)) cur' gp gs rem) in *.
    set (o2 := place_list pref mk_rect l (upd_panel s2 c (set_rect R)) cur' gp gs rem) in *.
    assert (Hlen : length s1 = length s2) by now apply same_skel_length.
    assert (Hc : rect_at (upd_panel s1 c (set_rect R)) c
                 = rect_at (upd_panel s2 c (set_rect R)) c).
    { unfold rect_at.
      destruct (Z_lt_dec c 0) as [Hneg|Hnn];
        [rewrite !get_out_of_range by (unfold panel_count; rewrite ?length_upd; lia);
         reflexivity|].
      destruct (Z_lt_dec c (panel_count s1)) as [Hlt|Hge].
      - rewrite !get_upd_same by (unfold panel_count in *; lia). reflexivity.
      - rewrite !get_out_of_range by (unfold panel_count in *; rewrite ?length_upd; lia).
        reflexivity. }
    assert (Hfollow : rects_follow s1 s2 o1 o2).
    { intros i. destruct (Hf i) as [He|[H1 H2]]; [now left|].
      destruct (Z.eq_dec i c) as [->|Hne].
      - left. rewrite H1, H2. exact Hc.
      - right. rewrite H1, H2. unfold rect_at.
        rewrite !get_upd_other by congruence. auto. }
    split; [exact Hfollow|].
    intros j [<-|Hj]; [|now apply Ha].
    destruct (Hf c) as [He|[H1 H2]]; [exact He|]. rewrite H1, H2. exact Hc.
Qed.
End LayoutPassFacts.

Lemma rects_follow_trans (s1 s2 m1 m2 o1 o2 : UI_State) :
  rects_follow s1 s2 m1 m2 -> rects_follow m1 m2 o1 o2 -> rects_follow s1 s2 o1 o2.
Proof.
  intros H1 H2 i. destruct (H2 i) as [He|[Ha Hb]]; [now left|].
  destruct (H1 i) as [He|[Hc Hd]]; [left; congruence|right; split; congruence].
Qed.

Lemma rects_follow_same (s1 s2 : UI_State) : rects_follow s1 s2 s1 s2.
Proof. intros i. now right. Qed.

Lemma directions_valid_skel (s1 s2 : UI_State) :
  same_skel s1 s2 -> directions_valid s1 -> directions_valid s2.
Proof.
  intros H Hd i. rewrite <- (same_skel_first _ _ i H), <- (same_skel_style _ _ i H).
  apply Hd.
Qed.

Lemma links_increasing_skel (s1 s2 : UI_State) :
  same_skel s1 s2 -> links_increasing s1 -> links_increasing s2.
Proof.
  intros H Hl i. unfold panel_count. rewrite <- (same_skel_length _ _ H).
  rewrite <- (same_skel_first _ _ i H), <- (same_skel_next _ _ i H). apply Hl.
Qed.

(** The layout of one container as the placement of its chain of
    children, for a direction that is ROW or COLUMN. *)
Lemma layout_container_chain (s : UI_State) (idx : Z) :
  direction (style (get_panel s idx)) = 0 \/ direction (style (get_panel s idx)) = 1 ->
  let p := get_panel s idx in
  layout_container s idx
  = match sibling_chain (chain_fuel s) s (first_child p) with
    | None => None
    | Some l =>
        if direction (style p) =? 0 then
          let '(cnt, fs, gs) := measure_list pref_w l s 0 0 f32_zero in
          Some (place_list pref_w
                  (fun cursor_x sz => mkRect cursor_x (content_y0 p) sz (content_h p))
                  l s (content_x0 p) (gap (style p)) gs
                  (remaining_space (content_w p) (gap (style p)) cnt fs))
        else
          let '(cnt, fs, gs) := measure_list pref_h l s 0 0 f32_zero in
          Some (place_list pref_h
                  (fun cursor_y sz => mkRect (content_x0 p) cursor_y (content_w p) sz)
                  l s (content_y0 p) (gap (style p)) gs
                  (remaining_space (content_h p) (gap (style p)) cnt fs))
    end.
Proof.
  intros Hd p. unfold layout_container, UI_LayoutRow, UI_LayoutColumn. fold p.
  rewrite !layout_pass_chain.
  destruct Hd as [Hd|Hd]; fold p in Hd; rewrite Hd; simpl;
    destruct (sibling_chain (chain_fuel s) s (first_child p)); reflexivity.
Qed.

Lemma layout_container_skel (s o : UI_State) (idx : Z) :
  layout_container s idx = Some o -> same_skel o s.
Proof.
  unfold layout_container, UI_LayoutRow, UI_LayoutColumn.
  rewrite !layout_pass_chain.
  destruct (direction (style (get_panel s idx)) =? 0).
  - destruct (sibling_chain _ _ _); [|discriminate].
    destruct (measure_list _ _ _ _ _ _) as [[cnt fs] gs].
    intros [= <-]. apply place_list_skel.
  - destruct (direction (style (get_panel s idx)) =? 1).
    + destruct (sibling_chain _ _ _); [|discriminate].
      destruct (measure_list _ _ _ _ _ _) as [[cnt fs] gs].
      intros [= <-]. apply place_list_skel.
    + intros [= <-]. reflexivity.
Qed.

(** A container writes the rects of its chain of children only. *)
Lemma layout_container_frame (s o : UI_State) (idx i : Z) :
  layout_container s idx = Some o ->
  (forall l, sibling_chain (chain_fuel s) s (first_child (get_panel s idx)) = Some l ->
             ~ In i l) ->
  rect_at o i = rect_at s i.
Proof.
  unfold layout_container, UI_LayoutRow, UI_LayoutColumn.
  rewrite !layout_pass_chain. intros Ho Hnot.
  destruct (direction (style (get_panel s idx)) =? 0).
  - destruct (sibling_chain _ _ _) as [l|]; [|discriminate].
    destruct (measure_list _ _ _ _ _ _) as [[cnt fs] gs].
    injection Ho as <-. apply place_list_frame. now apply Hnot.
  - destruct (direction (style (get_panel s idx)) =? 1).
    + destruct (sibling_chain _ _ _) as [l|]; [|discriminate].
      destruct (measure_list _ _ _ _ _ _) as [[cnt fs] gs].
      injection Ho as <-. apply place_list_frame. now apply Hnot.
    + now injection Ho as <-.
Qed.

(** Two arenas with the same skeleton and the same rect for the
    container get the same rects for its children. *)
Lemma layout_container_agree (s1 s2 o1 : UI_State) (idx : Z) :
  same_skel s1 s2 ->
  rect_at s1 idx = rect_at s2 idx ->
  direction (style (get_panel s1 idx)) = 0 \/ direction (style (get_panel s1 idx)) = 1 ->
  layout_container s1 idx = Some o1 ->
  exists o2 l,
    layout_container s2 idx = Some o2
    /\ rects_follow s1 s2 o1 o2
    /\ sibling_chain (chain_fuel s1) s1 (first_child (get_panel s1 idx)) = Some l
    /\ (forall j, In j l -> rect_at o1 j = rect_at o2 j).
Proof.
  intros Hs Hr Hd Ho.
  assert (Hp : get_panel s1 idx = get_panel s2 idx) by now apply same_skel_panel.
  assert (Hd2 : direction (style (get_panel s2 idx)) = 0
                \/ direction (style (get_panel s2 idx)) = 1) by now rewrite <- Hp.
  rewrite (layout_container_chain s1 idx Hd) in Ho.
  rewrite (layout_container_chain s2 idx Hd2). cbv zeta in *.
  rewrite <- Hp.
  assert (Hf : chain_fuel s2 = chain_fuel s1)
    by (unfold chain_fuel; symmetry; now apply same_skel_length).
  rewrite Hf, <- (sibling_chain_skel _ _ _ _ Hs).
  destruct (sibling_chain (chain_fuel s1) s1 (first_child (get_panel s1 idx)))
    as [l|]; [|discriminate].
  destruct (direction (style (get_panel s1 idx)) =? 0).
  - rewrite <- (measure_list_skel pref_w l _ _ 0 0 f32_zero Hs).
    destruct (measure_list pref_w l s1 0 0 f32_zero) as [[cnt fs] gs].
    injection Ho as <-. eexists. exists l. split; [reflexivity|].
    destruct (place_list_agree pref_w
                (fun cursor_x sz => mkRect cursor_x (content_y0 (get_panel s1 idx)) sz
                                      (content_h (get_panel s1 idx)))
                l s1 s2 (content_x0 (get_panel s1 idx)) (gap (style (get_panel s1 idx)))
                gs (remaining_space (content_w (get_panel s1 idx))
                      (gap (style (get_panel s1 idx))) cnt fs) Hs) as [H1 H2].
    auto.
  - rewrite <- (measure_list_skel pref_h l _ _ 0 0 f32_zero Hs).
    destruct (measure_list pref_h l s1 0 0 f32_zero) as [[cnt fs] gs].
    injection Ho as <-. eexists. exists l. split; [reflexivity|].
    destruct (place_list_agree pref_h
                (fun cursor_y sz => mkRect (content_x0 (get_panel s1 idx)) cursor_y
                                      (content_w (get_panel s1 idx)) sz)
                l s1 s2 (content_y0 (get_panel s1 idx)) (gap (style (get_panel s1 idx)))
                gs (remaining_space (content_h (get_panel s1 idx))
                      (gap (style (get_panel s1 idx))) cnt fs) Hs) as [H1 H2].
    auto.
Qed.

(** The tree walk changes rects only. *)
Lemma layout_tree_skel (fuel : nat) :
  (forall s idx o, layout_tree fuel s idx = Some o -> same_skel o s)
  /\ (forall s c o, layout_children fuel s c = Some o -> same_skel o s).
Proof.
  induction fuel as [|f [IHt IHc]]; split; intros *; simpl.
  - discriminate.
  - destruct (c =? -1); [|discriminate]. now intros [= <-].
  - destruct (first_child (get_panel s idx) =? -1); [now intros [= <-]|].
    destruct (layout_container s idx) as [s1|] eqn:E; [|discriminate].
    intros Ho. apply IHc in Ho.
    eapply same_skel_trans; [exact Ho|]. now apply layout_container_skel in E.
  - destruct (c =? -1); [now intros [= <-]|].
    destruct (layout_tree f s c) as [s1|] eqn:E; [|discriminate].
    intros Ho. apply IHc in Ho. apply IHt in E.
    eapply same_skel_trans; eassumption.
Qed.

(** The heart of idempotence: two runs of the tree walk from arenas
    that have the same skeleton and agree on the rect of the panel they
    start at end with every rect either equal in both or untouched in
    both. *)
Lemma layout_tree_agree (fuel : nat) :
  (forall s1 s2 idx o1,
      same_skel s1 s2 -> directions_valid s1 ->
      rect_at s1 idx = rect_at s2 idx ->
      layout_tree fuel s1 idx = Some o1 ->
      exists o2, layout_tree fuel s2 idx = Some o2 /\ rects_follow s1 s2 o1 o2)
  /\ (forall s1 s2 c o1 l k,
        same_skel s1 s2 -> directions_valid s1 ->
        sibling_chain k s1 c = Some l ->
        (forall j, In j l -> rect_at s1 j = rect_at s2 j) ->
        layout_children fuel s1 c = Some o1 ->
        exists o2, layout_children fuel s2 c = Some o2 /\ rects_follow s1 s2 o1 o2).
Proof.
  induction fuel as [|f [IHt IHc]]; split; intros *; simpl.
  - discriminate.
  - intros _ _ _ _. destruct (c =? -1); [|discriminate].
    intros [= <-]. exists s2. split; [reflexivity|apply rects_follow_same].
  - intros Hs Hd Hr.
    rewrite <- (same_skel_first _ _ idx Hs).
    destruct (first_child (get_panel s1 idx) =? -1) eqn:Efc.
    + intros [= <-]. exists s2. split; [reflexivity|apply rects_follow_same].
    + destruct (layout_container s1 idx) as [m1|] eqn:Em; [|discriminate].
      intros Ho.
      assert (Hdir : direction (style (get_panel s1 idx)) = 0
                     \/ direction (style (get_panel s1 idx)) = 1).
      { apply Hd. intros H. rewrite H in Efc. discriminate. }
      destruct (layout_container_agree _ _ _ _ Hs Hr Hdir Em)
        as (m2 & l & Em2 & Hf & Hl & Ha).
      rewrite Em2.
      pose proof (layout_container_skel _ _ _ Em) as Hk1.
      pose proof (layout_container_skel _ _ _ Em2) as Hk2.
      assert (Hm : same_skel m1 m2).
      { eapply same_skel_trans; [exact Hk1|].
        eapply same_skel_trans; [exact Hs|]. now apply same_skel_sym. }
      rewrite (same_skel_first _ _ idx Hk1) in Ho.
      rewrite (same_skel_first _ _ idx Hk2), <- (same_skel_first _ _ idx Hs).
      rewrite <- (sibling_chain_skel _ _ _ _ Hk1) in Hl.
      destruct (IHc m1 m2 _ o1 l _ Hm
                  (directions_valid_skel _ _ (same_skel_sym _ _ Hk1) Hd) Hl Ha Ho)
        as (o2 & Ho2 & Hf2).
      exists o2. split; [exact Ho2|]. eapply rects_follow_trans; eassumption.
  - intros Hs Hd Hl Ha.
    destruct (c =? -1) eqn:Ec.
    + intros [= <-]. exists s2. split; [reflexivity|apply rects_follow_same].
    + destruct (layout_tree f s1 c) as [t1|] eqn:Et; [|discriminate].
      intros Ho.
      destruct k as [|k]; simpl in Hl; rewrite Ec in Hl; [discriminate|].
      destruct (sibling_chain k s1 (next_sibling (get_panel s1 c))) as [l'|] eqn:El';
        [|discriminate].
      injection Hl as <-.
      destruct (IHt s1 s2 c t1 Hs Hd (Ha c (or_introl eq_refl)) Et) as (t2 & Et2 & Hf).
      rewrite Et2.
      pose proof (proj1 (layout_tree_skel f) _ _ _ Et) as Hk1.
      pose proof (proj1 (layout_tree_skel f) _ _ _ Et2) as Hk2.
      assert (Ht : same_skel t1 t2).
      { eapply same_skel_trans; [exact Hk1|].
        eapply same_skel_trans; [exact Hs|]. now apply same_skel_sym. }
      rewrite (same_skel_next _ _ c Hk1) in Ho.
      rewrite (same_skel_next _ _ c Hk2), <- (same_skel_next _ _ c Hs).
      rewrite <- (sibling_chain_skel _ _ _ _ Hk1) in El'.
      assert (Ha' : forall j, In j l' -> rect_at t1 j = rect_at t2 j).
      { intros j Hj. destruct (Hf j) as [He|[H1 H2]]; [exact He|].
        rewrite H1, H2. apply Ha. now right. }
      destruct (IHc t1 t2 _ o1 l' k Ht
                  (directions_valid_skel _ _ (same_skel_sym _ _ Hk1) Hd) El' Ha' Ho)
        as (o2 & Ho2 & Hf2).
      exists o2. split; [exact Ho2|]. eapply rects_follow_trans; eassumption.
Qed.

(** In a tree with increasing links a chain that starts at a live index
    is finite and stays above its start. *)
Lemma sibling_chain_increasing (s : UI_State) (k : nat) (c : Z) (l : list Z) :
  links_increasing s -> 0 <= c < panel_count s ->
  sibling_chain k s c = Some l ->
  forall j, In j l -> c <= j < panel_count s.
Proof.
  intros Hw. revert c l. induction k as [|k IH]; intros c l Hc; simpl.
  - destruct (c =? -1) eqn:E; [lia|discriminate].
  - destruct (c =? -1) eqn:E; [lia|].
    destruct (sibling_chain k s (next_sibling (get_panel s c))) as [l'|] eqn:El;
      [|discriminate].
    intros [= <-] j [<-|Hj]; [lia|].
    destruct (proj2 (Hw c Hc)) as [Hn|Hn].
    + rewrite Hn in El. destruct k; simpl in El; injection El as <-; destruct Hj.
    + assert (Hn' : 0 <= next_sibling (get_panel s c) < panel_count s) by lia.
      specialize (IH _ _ Hn' El j Hj). lia.
Qed.

Lemma sibling_chain_total (s : UI_State) (k : nat) (c : Z) :
  links_increasing s ->
  c = -1 \/ (0 <= c < panel_count s /\ panel_count s - c <= Z.of_nat k) ->
  exists l, sibling_chain k s c = Some l.
Proof.
  intros Hw. revert c. induction k as [|k IH]; intros c Hc; simpl.
  - destruct Hc as [->|Hc]; [eauto|lia].
  - destruct (c =? -1) eqn:E; [eauto|].
    destruct Hc as [->|[Hc Hk]]; [discriminate|].
    destruct (IH (next_sibling (get_panel s c))) as [l Hl].
    { destruct (proj2 (Hw c Hc)) as [Hn|Hn]; [now left|right; lia]. }
    rewrite Hl. eauto.
Qed.

Lemma layout_container_total (s : UI_State) (idx : Z) :
  links_increasing s -> 0 <= idx < panel_count s ->
  exists o, layout_container s idx = Some o.
Proof.
  intros Hw Hi. unfold layout_container, UI_LayoutRow, UI_LayoutColumn.
  rewrite !layout_pass_chain.
  destruct (sibling_chain_total s (chain_fuel s) (first_child (get_panel s idx)) Hw)
    as [l Hl].
  { destruct (proj1 (Hw idx Hi)) as [Hn|Hn]; [now left|].
    right. unfold chain_fuel, panel_count in *. lia. }
  rewrite Hl.
  destruct (direction (style (get_panel s idx)) =? 0).
  - destruct (measure_list _ _ _ _ _ _) as [[cnt fs] gs]. eauto.
  - destruct (direction (style (get_panel s idx)) =? 1); [|eauto].
    destruct (measure_list _ _ _ _ _ _) as [[cnt fs] gs]. eauto.
Qed.

(** The tree walk of a tree with increasing links returns. *)
Lemma layout_tree_total (fuel : nat) :
  (forall s idx,
      links_increasing s -> 0 <= idx < panel_count s ->
      2 * (panel_count s - idx) - 1 <= Z.of_nat fuel ->
      exists o, layout_tree fuel s idx = Some o)
  /\ (forall s c,
        links_increasing s ->
        c = -1 \/ (0 <= c < panel_count s /\ 2 * (panel_count s - c) <= Z.of_nat fuel) ->
        exists o, layout_children fuel s c = Some o).
Proof.
  induction fuel as [|f [IHt IHc]]; split; intros *; simpl.
  - intros _ Hi Hf. lia.
  - intros _ [->|Hc]; [eauto|lia].
  - intros Hw Hi Hf.
    destruct (first_child (get_panel s idx) =? -1) eqn:Efc; [eauto|].
    destruct (layout_container_total s idx Hw Hi) as [m Hm]. rewrite Hm.
    pose proof (layout_container_skel _ _ _ Hm) as Hk.
    apply IHc; [exact (links_increasing_skel _ _ (same_skel_sym _ _ Hk) Hw)|].
    rewrite (same_skel_first _ _ idx Hk).
    unfold panel_count. rewrite (same_skel_length _ _ Hk). fold (panel_count s).
    destruct (proj1 (Hw idx Hi)) as [Hn|Hn]; [now left|right; lia].
  - intros Hw Hc. destruct (c =? -1) eqn:Ec; [eauto|].
    destruct Hc as [->|[Hc Hf]]; [discriminate|].
    destruct (IHt s c Hw Hc) as [t Ht]; [lia|]. rewrite Ht.
    pose proof (proj1 (layout_tree_skel f) _ _ _ Ht) as Hk.
    apply IHc; [exact (links_increasing_skel _ _ (same_skel_sym _ _ Hk) Hw)|].
    rewrite (same_skel_next _ _ c Hk).
    unfold panel_count. rewrite (same_skel_length _ _ Hk). fold (panel_count s).
    destruct (proj2 (Hw c Hc)) as [Hn|Hn]; [now left|right; lia].
Qed.

(** The tree walk from a panel writes rects of later panels only. *)
Lemma layout_tree_frame (fuel : nat) :
  (forall s idx o,
      links_increasing s -> 0 <= idx < panel_count s ->
      layout_tree fuel s idx = Some o ->
      forall i, i <= idx -> rect_at o i = rect_at s i)
  /\ (forall s c o,
        links_increasing s -> c = -1 \/ 0 <= c < panel_count s ->
        layout_children fuel s c = Some o ->
        forall i, c = -1 \/ i < c -> rect_at o i = rect_at s i).
Proof.
  induction fuel as [|f [IHt IHc]]; split; intros *; simpl.
  - discriminate.
  - intros _ _. destruct (c =? -1); [|discriminate]. now intros [= <-].
  - intros Hw Hi.
    destruct (first_child (get_panel s idx) =? -1) eqn:Efc; [now intros [= <-]|].
    destruct (layout_container s idx) as [m|] eqn:Em; [|discriminate].
    intros Ho i Hle.
    pose proof (layout_container_skel _ _ _ Em) as Hk.
    assert (Hfc : idx < first_child (get_panel s idx) < panel_count s).
    { destruct (proj1 (Hw idx Hi)) as [Hn|Hn]; [|exact Hn].
      rewrite Hn in Efc. discriminate. }
    rewrite (same_skel_first _ _ idx Hk) in Ho.
    transitivity (rect_at m i).
    + apply (IHc m (first_child (get_panel s idx)) o);
        [ exact (links_increasing_skel _ _ (same_skel_sym _ _ Hk) Hw)
        | right; unfold panel_count; rewrite (same_skel_length _ _ Hk);
          fold (panel_count s); lia
        | exact Ho | right; lia ].
    + apply (layout_container_frame _ _ _ _ Em).
      intros l Hl Hin.
      assert (Hfc' : 0 <= first_child (get_panel s idx) < panel_count s) by lia.
      pose proof (sibling_chain_increasing _ _ _ _ Hw Hfc' Hl i Hin). lia.
  - intros Hw Hc. destruct (c =? -1) eqn:Ec; [now intros [= <-]|].
    destruct Hc as [->|Hc]; [discriminate|].
    destruct (layout_tree f s c) as [t|] eqn:Et; [|discriminate].
    intros Ho i [->|Hlt]; [discriminate|].
    pose proof (proj1 (layout_tree_skel f) _ _ _ Et) as Hk.
    rewrite (same_skel_next _ _ c Hk) in Ho.
    transitivity (rect_at t i).
    + apply (IHc t (next_sibling (get_panel s c)) o);
        [ exact (links_increasing_skel _ _ (same_skel_sym _ _ Hk) Hw)
        | unfold panel_count; rewrite (same_skel_length _ _ Hk); fold (panel_count s);
          destruct (proj2 (Hw c Hc)) as [Hn|Hn]; [now left|right; lia]
        | exact Ho
        | destruct (proj2 (Hw c Hc)) as [Hn|Hn]; [now left|right; lia] ].
    + apply (IHt s c t Hw Hc Et). lia.
Qed.

Lemma links_from_sound (n : Z) (l : list UI_Panel) (i : Z) :
  links_from n i l = true ->
  forall (k : nat) (p : UI_Panel), l !! k = Some p -> links_ok n (i + Z.of_nat k) p = true.
Proof.
  revert i. induction l as [|a r IH]; intros i H k p Hk; [discriminate|].
  simpl in H. apply andb_true_iff in H as [Ha Hr].
  destruct k as [|k]; simpl in Hk.
  - injection Hk as <-. now rewrite Z.add_0_r.
  - replace (i + Z.of_nat (S k)) with (i + 1 + Z.of_nat k) by lia. now apply IH.
Qed.

Lemma get_panel_lookup (s : UI_State) (i : Z) :
  0 <= i < panel_count s -> s !! Z.to_nat i = Some (get_panel s i).
Proof.
  unfold get_panel, panel_count. intros Hi.
  destruct (i <? 0) eqn:E; [lia|].
  destruct (s !! Z.to_nat i) eqn:El; [reflexivity|].
  apply lookup_ge_None_1 in El. lia.
Qed.

Lemma links_increasing_b_sound (s : UI_State) :
  links_increasing_b s = true -> links_increasing s.
Proof.
  intros H i Hi.
  pose proof (links_from_sound _ _ _ H _ _ (get_panel_lookup s i Hi)) as Hok.
  rewrite Z2Nat.id in Hok by lia. unfold links_ok in Hok. lia.
Qed.

Lemma directions_valid_b_sound (s : UI_State) :
  directions_valid_b s = true -> directions_valid s.
Proof.
  intros H i Hfc.
  destruct (Z_lt_dec i 0) as [Hneg|Hnn];
    [rewrite get_out_of_range by lia; now left|].
  destruct (Z_lt_dec i (panel_count s)) as [Hlt|Hge];
    [|rewrite get_out_of_range by lia; now left].
  unfold directions_valid_b in H. rewrite forallb_forall in H.
  assert (Hin : In (get_panel s i) s).
  { apply list_elem_of_In, list_elem_of_lookup. exists (Z.to_nat i).
    apply get_panel_lookup. lia. }
  specialize (H _ Hin). lia.
Qed.

(** ** Emitter *)

Lemma emit_walk_preorder (fuel : nat) :
  (forall s idx g,
      emit_tree fuel s idx g
      = option_map (fun l => emit_list s l g) (preorder fuel s idx))
  /\ (forall s c g,
        emit_children fuel s c g
        = option_map (fun l => emit_list s l g) (preorder_children fuel s c)).
Proof.
  induction fuel as [|f [IHt IHc]]; split; intros; simpl.
  - reflexivity.
  - destruct (c =? -1); reflexivity.
  - rewrite IHc.
    destruct (preorder_children f s (first_child (get_panel s idx))); reflexivity.
  - destruct (c =? -1); [reflexivity|].
    rewrite IHt. destruct (preorder f s c) as [l1|]; simpl; [|reflexivity].
    rewrite IHc.
    destruct (preorder_children f s (next_sibling (get_panel s c))) as [l2|];
      simpl; [|reflexivity].
    unfold emit_list. now rewrite fold_left_app.
Qed.

(** Text primitives never touch the rectangle array. *)
Lemma UI_AddText_rectangles tx ty tw th t col fs ah av (rl : UI_Render_List) :
  exists rl', UI_AddText tx ty tw th t col fs ah av (Some rl) = Some rl'
              /\ rectangles rl' = rectangles rl.
Proof.
  unfold UI_AddText.
  destruct (Z.of_nat (length (texts rl)) >=? MAX_UI_TEXTS); [eauto|].
  destruct t; eauto.
Qed.

Lemma add_capped_fold {A : Type} (xs l : list A) :
  (length l <= 256)%nat ->
  fold_left add_capped xs l = firstn 256 (l ++ xs).
Proof.
  revert l. induction xs as [|a xs IH]; intros l Hl; simpl.
  - rewrite app_nil_r. symmetry. now apply firstn_all2.
  - unfold add_capped at 2.
    destruct (Z.of_nat (length l) >=? 256) eqn:E.
    + assert (Hl' : length l = 256%nat) by lia.
      rewrite (IH l Hl). rewrite !firstn_app, Hl'. simpl.
      now rewrite !app_nil_r.
    + rewrite IH by (rewrite length_app; simpl; lia).
      now rewrite <- app_assoc.
Qed.

Lemma emit_panel_rectangles (p : UI_Panel) (rl : UI_Render_List) :
  exists rl', emit_panel p (Some rl) = Some rl'
              /\ rectangles rl'
                 = if emits_rectangle p
                   then add_capped (rectangles rl) (panel_rectangle p)
                   else rectangles rl.
Proof.
  unfold emit_panel. fold (emits_rectangle p).
  destruct (emits_rectangle p).
  - unfold UI_AddRectangle, add_capped, MAX_UI_RECTANGLES.
    destruct (Z.of_nat (length (rectangles rl)) >=? 256) eqn:E.
    + destruct (c_true (is_label p) && label_nonempty p); [|eauto].
      apply UI_AddText_rectangles.
    + destruct (c_true (is_label p) && label_nonempty p); [|eauto].
      match goal with |- context [UI_AddText _ _ _ _ _ _ _ _ _ (Some ?r)] =>
        destruct (UI_AddText_rectangles (x (rect p)) (y (rect p)) (w (rect p))
                    (h (rect p)) (Some (label_text p)) (label_color p) 14
                    UI_ALIGN_START UI_ALIGN_CENTER r) as (rl' & H1 & H2) end.
      exists rl'. split; [exact H1|]. rewrite H2. reflexivity.
  - destruct (c_true (is_label p) && label_nonempty p); [|eauto].
    apply UI_AddText_rectangles.
Qed.

Lemma emit_list_rectangles (s : UI_State) (order : list Z) (rl : UI_Render_List) :
  exists rl', emit_list s order (Some rl) = Some rl'
              /\ rectangles rl'
                 = fold_left add_capped
                     (map panel_rectangle (filter emits_rectangle (map (get_panel s) order)))
                     (rectangles rl).
Proof.
  revert rl. induction order as [|i order IH]; intros rl; simpl.
  - eauto.
  - destruct (emit_panel_rectangles (get_panel s i) rl) as (rl1 & H1 & H2).
    unfold emit_list in *. simpl. rewrite H1.
    destruct (IH rl1) as (rl' & H3 & H4). exists rl'. split; [exact H3|].
    rewrite H4, H2. rewrite filter_cons.
    destruct (decide (emits_rectangle (get_panel s i))) as [Hd|Hd].
    + apply Is_true_true in Hd. rewrite Hd. reflexivity.
    + apply Is_true_false in Hd. rewrite Hd. reflexivity.
Qed.

(** On a well-linked tree the pre-order walk returns. *)
Lemma preorder_total (fuel : nat) :
  (forall s idx,
      links_increasing s -> 0 <= idx < panel_count s ->
      2 * (panel_count s - idx) - 1 <= Z.of_nat fuel ->
      exists l, preorder fuel s idx = Some l)
  /\ (forall s c,
        links_increasing s ->
        c = -1 \/ (0 <= c < panel_count s /\ 2 * (panel_count s - c) <= Z.of_nat fuel) ->
        exists l, preorder_children fuel s c = Some l).
Proof.
  induction fuel as [|f [IHt IHc]]; split; intros *; simpl.
  - intros _ Hi Hf. lia.
  - intros _ [->|Hc]; [eauto|lia].
  - intros Hw Hi Hf.
    destruct (IHc s (first_child (get_panel s idx)) Hw) as [l Hl].
    { destruct (proj1 (Hw idx Hi)) as [Hn|Hn]; [now left|right; lia]. }
    rewrite Hl. eauto.
  - intros Hw Hc. destruct (c =? -1) eqn:Ec; [eauto|].
    destruct Hc as [->|[Hc Hf]]; [discriminate|].
    destruct (IHt s c Hw Hc) as [l1 H1]; [lia|]. rewrite H1.
    destruct (IHc s (next_sibling (get_panel s c)) Hw) as [l2 H2].
    { destruct (proj2 (Hw c Hc)) as [Hn|Hn]; [now left|right; lia]. }
    rewrite H2. eauto.
Qed.

(** C8, counterexample: a panel that is not a label and whose color is
    0x00000000 still gets its rectangle. *)
Lemma C8_transparent_panel_is_emitted :
  is_label (get_panel (state transparent_root_ctx) 0) = 0
  /\ color (style (get_panel (state transparent_root_ctx) 0)) = 0
  /\ UI_EmitPanels (state transparent_root_ctx) 0 (Some empty_render_list)
     = Some (Some (mkRenderList [mkRectangle 0 0 800 600 0] [])).
Proof. repeat split; vm_compute; reflexivity. Qed.

(** C8, as amended: on a well-linked tree the emitter returns, having
    visited the panels in pre-order and appended, while the rectangle
    array has room (256 entries), one rectangle at the panel's rect
    with its color for every panel except a label whose color is fully
    transparent; a transparent panel that is not a label is emitted
    like any other. *)
Theorem C8_emitter_rectangles (s : UI_State) (panel_idx : Z) (rl : UI_Render_List) :
  links_increasing s -> 0 <= panel_idx < panel_count s ->
  (length (rectangles rl) <= 256)%nat ->
  (forall p, emits_rectangle p = false <-> (is_label p <> 0 /\ color (style p) = 0))
  /\ exists order rl',
       preorder (tree_fuel s) s panel_idx = Some order
       /\ UI_EmitPanels s panel_idx (Some rl) = Some (Some rl')
       /\ rectangles rl'
          = firstn 256
              (rectangles rl
               ++ map panel_rectangle
                    (filter emits_rectangle (map (get_panel s) order))).
Proof.
  intros Hw Hi Hlen. split.
  - intros p. unfold emits_rectangle, c_true.
    destruct (is_label p =? 0) eqn:E1; destruct (color (style p) =? 0) eqn:E2;
      simpl; split; try discriminate; try lia; intros; reflexivity.
  - destruct (proj1 (preorder_total (tree_fuel s)) s panel_idx Hw Hi) as [order Hord].
    { unfold tree_fuel, panel_count in *. lia. }
    unfold UI_EmitPanels. rewrite (proj1 (emit_walk_preorder _)), Hord. simpl.
    destruct (emit_list_rectangles s order rl) as (rl' & H1 & H2).
    exists order, rl'. split; [reflexivity|]. split; [now rewrite H1|].
    rewrite H2. now apply add_capped_fold.
Qed.

Lemma C8_emitter_rectangles_witness :
  exists order rl',
    preorder (tree_fuel (state drag_ctx)) (state drag_ctx) 0 = Some order
    /\ UI_EmitPanels (state drag_ctx) 0 (Some empty_render_list) = Some (Some rl')
    /\ rectangles rl'
       = firstn 256
           (rectangles empty_render_list
            ++ map panel_rectangle
                 (filter emits_rectangle (map (get_panel (state drag_ctx)) order))).
Proof.
  apply (C8_emitter_rectangles (state drag_ctx) 0 empty_render_list).
  - apply links_increasing_b_sound. vm_compute. reflexivity.
  - vm_compute. split; [discriminate|reflexivity].
  - simpl. lia.
Defined.

(** ** Exact values of one layout pass *)

Section LayoutPassValues.
Variable pref : UI_Style -> Z.
Variable mk_rect : Z -> Z -> UI_RectI.

Lemma cursor_after_skel (l : list Z) (s1 s2 : UI_State) (cur gp : Z) (gs : f32) (rem : Z) :
  same_skel s1 s2 ->
  cursor_after pref l s1 cur gp gs rem = cursor_after pref l s2 cur gp gs rem.
Proof.
  intros H. revert cur. induction l as [|c l IH]; intros cur; simpl; [reflexivity|].
  rewrite (child_main_size_skel pref (get_panel s1 c) (get_panel s2 c))
    by now apply same_skel_style.
  apply IH.
Qed.

(** Every member of a chain without repetition ends with the rect made
    from the cursor reached after the members before it and from its
    own main-axis size. *)
Lemma place_list_exact (pre post : list Z) (c : Z) (s : UI_State)
    (cur gp : Z) (gs : f32) (rem : Z) :
  NoDup (pre ++ c :: post) ->
  0 <= c < panel_count s ->
  rect_at (place_list pref mk_rect (pre ++ c :: post) s cur gp gs rem) c
  = mk_rect (cursor_after pref pre s cur gp gs rem)
      (child_main_size pref (get_panel s c) gs rem).
Proof.
  revert s cur. induction pre as [|a pre IH]; intros s cur Hnd Hc; simpl.
  - apply NoDup_cons in Hnd as [Hnot _].
    rewrite place_list_frame by (intros Hin; apply Hnot; now apply list_elem_of_In).
    unfold rect_at. now rewrite get_upd_same.
  - simpl in Hnd. apply NoDup_cons in Hnd as [Hnot Hnd].
    set (s' := upd_panel s a _).
    assert (Hs : same_skel s' s) by apply upd_rect_skel.
    rewrite IH; [|exact Hnd|unfold panel_count, s'; now rewrite length_upd].
    rewrite (cursor_after_skel _ _ _ _ _ _ _ Hs).
    rewrite (child_main_size_skel pref (get_panel s' c) (get_panel s c))
      by now apply same_skel_style.
    reflexivity.
Qed.
End LayoutPassValues.



(** The quotient and the product are rounded to single precision before
    the integer part is taken: in a row 108 wide split 7 : 5 the first
    child is 62 wide and the second 45, where the exact quotient
    7 * 108 / 12 is 63. *)
Lemma row_split_single_precision :
  option_map (map (fun p => w (rect p))) (UI_LayoutPanelTree split_example_state 0)
  = Some [108; 62; 45]
  /\ f32_floor (f32_mul (f32_div (f32_of_int 7) (f32_of_int 12)) (f32_of_int 108))
     = Some 62
  /\ 7 * 108 / 12 = 63.
Proof. repeat split; vm_compute; reflexivity. Qed.





(** ** Builder: the panel on top of the stack *)

Lemma get_upd_style (s : UI_State) (i j : Z) (f : UI_Panel -> UI_Panel) :
  (forall p, style (f p) = style p) ->
  style (get_panel (upd_panel s i f) j) = style (get_panel s j).
Proof.
  intros Hf. destruct (Z.eq_dec i j) as [->|Hne]; [|now rewrite get_upd_other].
  destruct (Z_lt_dec j 0) as [Hneg|Hnn]; [now rewrite upd_out_of_range by lia|].
  destruct (Z_lt_dec j (panel_count s)) as [Hlt|Hge];
    [|now rewrite upd_out_of_range by lia].
  rewrite get_upd_same by lia. apply Hf.
Qed.

Lemma get_panel_app_new (s : UI_State) (p : UI_Panel) :
  get_panel (s ++ [p]) (panel_count s) = p.
Proof.
  unfold get_panel, panel_count.
  destruct (Z.of_nat (length s) <? 0) eqn:E; [apply Z.ltb_lt in E; lia|].
  rewrite Nat2Z.id, lookup_app_r by lia. now rewrite Nat.sub_diag.
Qed.

Lemma UI_AddChild_style (s : UI_State) (parent_idx child_idx j : Z) :
  style (get_panel (UI_AddChild s parent_idx child_idx) j) = style (get_panel s j)
  /\ length (UI_AddChild s parent_idx child_idx) = length s.
Proof.
  unfold UI_AddChild.
  destruct (first_child _ =? -1); rewrite ?get_upd_style, ?length_upd by reflexivity;
    split; reflexivity.
Qed.





(** ** Trees the builder produces *)

Lemma get_panel_app_old (s : UI_State) (p : UI_Panel) (i : Z) :
  0 <= i < panel_count s -> get_panel (s ++ [p]) i = get_panel s i.
Proof.
  intros Hi. unfold get_panel, panel_count in *.
  destruct (i <? 0) eqn:E; [reflexivity|].
  rewrite lookup_app_l by lia. reflexivity.
Qed.

Lemma upd_links_kept (s : UI_State) (i j : Z) (f : UI_Panel -> UI_Panel) :
  links_kept f ->
  first_child (get_panel (upd_panel s i f) j) = first_child (get_panel s j)
  /\ last_child (get_panel (upd_panel s i f) j) = last_child (get_panel s j)
  /\ next_sibling (get_panel (upd_panel s i f) j) = next_sibling (get_panel s j).
Proof.
  intros Hf. destruct (Z.eq_dec i j) as [<-|Hne].
  - destruct (Z_lt_dec i 0) as [Hneg|Hnn];
      [rewrite upd_out_of_range by lia; auto|].
    destruct (Z_lt_dec i (panel_count s)) as [Hlt|Hge];
      [|rewrite upd_out_of_range by lia; auto].
    rewrite get_upd_same by lia. apply Hf.
  - rewrite get_upd_other by exact Hne. auto.
Qed.

Lemma panel_count_upd (s : UI_State) (i : Z) (f : UI_Panel -> UI_Panel) :
  panel_count (upd_panel s i f) = panel_count s.
Proof. unfold panel_count. now rewrite length_upd. Qed.

(** Linking the panel just allocated (index [n]) under a live parent. *)
Lemma UI_AddChild_links (s0 : UI_State) (par n : Z) :
  panel_count s0 = n + 1 -> 0 <= par < n ->
  links_increasing s0 ->
  (forall i, 0 <= i < n + 1 -> first_child (get_panel s0 i) <> -1 ->
     0 <= last_child (get_panel s0 i) < n) ->
  let s' := UI_AddChild s0 par n in
  panel_count s' = n + 1
  /\ links_increasing s'
  /\ (forall i, 0 <= i < n + 1 -> first_child (get_panel s' i) <> -1 ->
        0 <= last_child (get_panel s' i) < n + 1).
Proof.
  intros Hn Hpar Hw Hl s'.
  assert (Hcnt : panel_count s' = n + 1).
  { unfold s', panel_count. rewrite (proj2 (UI_AddChild_style s0 par n 0)).
    exact Hn. }
  split; [exact Hcnt|].
  set (g := fun c => set_next_sibling (-1) (set_parent par c)).
  set (s1 := upd_panel s0 n g).
  assert (H1n : get_panel s1 n = g (get_panel s0 n))
    by (unfold s1; apply get_upd_same; lia).
  assert (H1o : forall i, i <> n -> get_panel s1 i = get_panel s0 i)
    by (intros i Hi; unfold s1; apply get_upd_other; lia).
  assert (Hc1 : panel_count s1 = n + 1)
    by (unfold s1; now rewrite panel_count_upd).
  assert (Hview : forall i, 0 <= i < n + 1 ->
            ((first_child (get_panel s' i) = first_child (get_panel s0 i)
              \/ (i = par /\ first_child (get_panel s' i) = n))
             /\ (next_sibling (get_panel s' i) = next_sibling (get_panel s0 i)
                 \/ next_sibling (get_panel s' i) = -1
                 \/ (i < n /\ next_sibling (get_panel s' i) = n))
             /\ (last_child (get_panel s' i) = last_child (get_panel s0 i)
                  /\ first_child (get_panel s' i) = first_child (get_panel s0 i)
                 \/ last_child (get_panel s' i) = n))).
  { intros i Hi. unfold s', UI_AddChild. fold g. fold s1.
    rewrite (H1o par) by lia.
    destruct (first_child (get_panel s0 par) =? -1) eqn:Efc.
    - destruct (Z.eq_dec par i) as [<-|Hne].
      + rewrite get_upd_same by lia. rewrite (H1o par) by lia. simpl.
        split; [right; split; [reflexivity|reflexivity]|].
        split; [now left|now right].
      + rewrite get_upd_other by exact Hne.
        destruct (Z.eq_dec i n) as [->|Hin].
        * rewrite H1n. simpl. split; [now left|]. split; [right; now left|].
          left. split; reflexivity.
        * rewrite (H1o i Hin). split; [now left|]. split; [now left|].
          left. split; reflexivity.
    - assert (Hlc : 0 <= last_child (get_panel s0 par) < n).
      { apply Hl; [lia|]. intros He. rewrite He in Efc. discriminate. }
      set (lc := last_child (get_panel s0 par)) in *.
      set (s2 := upd_panel s1 lc (set_next_sibling n)).
      assert (Hc2 : panel_count s2 = n + 1)
        by (unfold s2; now rewrite panel_count_upd).
      assert (H2 : forall j, 0 <= j < n + 1 ->
                (j = lc /\ get_panel s2 j = set_next_sibling n (get_panel s0 j))
                \/ (j = n /\ get_panel s2 j = g (get_panel s0 j))
                \/ get_panel s2 j = get_panel s0 j).
      { intros j Hj. unfold s2. destruct (Z.eq_dec lc j) as [<-|Hne].
        - left. split; [reflexivity|]. rewrite get_upd_same by lia.
          now rewrite (H1o lc) by lia.
        - rewrite get_upd_other by exact Hne.
          destruct (Z.eq_dec j n) as [->|Hjn].
          + right. left. split; [reflexivity|exact H1n].
          + right. right. now apply H1o. }
      destruct (Z.eq_dec par i) as [<-|Hne].
      + rewrite get_upd_same by lia.
        destruct (H2 par) as [[_ ->]|[[Hp _]| ->]]; [lia| | lia |]; simpl.
        * split; [now left|]. split; [right; right; split; [lia|reflexivity]|].
          now right.
        * split; [now left|]. split; [now left|]. now right.
      + rewrite get_upd_other by exact Hne.
        destruct (H2 i Hi) as [[Hi' ->]|[[Hi' ->]| ->]]; simpl.
        * split; [now left|]. split; [right; right; split; [lia|reflexivity]|].
          left. split; reflexivity.
        * split; [now left|]. split; [right; now left|].
          left. split; reflexivity.
        * split; [now left|]. split; [now left|]. left. split; reflexivity. }
  split.
  - intros i Hi. rewrite Hcnt in Hi. rewrite Hcnt.
    destruct (Hview i Hi) as (Hf & Hx & _).
    assert (Hi0 : 0 <= i < panel_count s0) by lia.
    destruct (Hw i Hi0) as [Hwf Hwn]. rewrite Hn in Hwf, Hwn.
    split.
    + destruct Hf as [->|[-> ->]]; [exact Hwf|right; lia].
    + destruct Hx as [->|[->|[Hlt ->]]]; [exact Hwn|now left|right; lia].
  - intros i Hi Hfc.
    destruct (Hview i Hi) as (_ & _ & [[-> Hf]| ->]); [|lia].
    rewrite Hf in Hfc. specialize (Hl i Hi Hfc). lia.
Qed.

Lemma stack_top_live (st : list Z) (n : Z) :
  Forall (fun i => 0 <= i < n) st -> (0 < length st)%nat -> 0 <= stack_top st < n.
Proof.
  destruct st as [|a st] using rev_ind; simpl; [lia|].
  intros H _. apply Forall_app in H as [_ H]. apply Forall_inv in H.
  unfold stack_top. now rewrite last_snoc.
Qed.

Lemma built_begin_panel_with (ctx : UI_Context) (id : Z) :
  built ctx -> built (begin_panel_with ctx id).
Proof.
  intros (Hw & Hl & Hst). unfold begin_panel_with, UI_NewPanel.
  destruct (panel_count (state ctx) >=? UI_MAX_PANELS) eqn:Efull.
  { simpl. exact (conj Hw (conj Hl Hst)). }
  set (s := state ctx) in *. set (n := panel_count s) in *.
  assert (Hn0 : 0 <= n) by (unfold n, panel_count; lia).
  destruct (n <? 0) eqn:En; [lia|].
  set (s0 := s ++ [new_panel id]).
  assert (Hc0 : panel_count s0 = n + 1).
  { unfold s0, n, panel_count. rewrite length_app. simpl. lia. }
  assert (Hw0 : links_increasing s0).
  { intros i Hi. rewrite Hc0 in *. destruct (Z.eq_dec i n) as [->|Hne].
    - unfold s0, n. rewrite get_panel_app_new. simpl. split; now left.
    - unfold s0. rewrite get_panel_app_old by (fold n; lia).
      destruct (Hw i) as [H1 H2]; [fold n; lia|]. fold n in H1, H2. split; lia. }
  assert (Hl0 : forall i, 0 <= i < n + 1 -> first_child (get_panel s0 i) <> -1 ->
                  0 <= last_child (get_panel s0 i) < n).
  { intros i Hi. destruct (Z.eq_dec i n) as [->|Hne].
    - unfold s0, n. rewrite get_panel_app_new. simpl. congruence.
    - unfold s0. rewrite get_panel_app_old by (fold n; lia).
      apply Hl. fold n. lia. }
  assert (Hstack : forall s2, panel_count s2 = n + 1 ->
            Forall (fun i => 0 <= i < panel_count s2)
              (if Z.of_nat (length (parent_stack ctx)) <? 32
               then parent_stack ctx ++ [n] else parent_stack ctx)).
  { intros s2 ->.
    assert (Hold : Forall (fun i => 0 <= i < n + 1) (parent_stack ctx)).
    { eapply Forall_impl; [exact Hst|]. simpl. intros; lia. }
    destruct (Z.of_nat (length (parent_stack ctx)) <? 32); [|exact Hold].
    apply Forall_app. split; [exact Hold|]. constructor; [lia|constructor]. }
  destruct (Z.of_nat (length (parent_stack ctx)) >? 0) eqn:Est.
  - assert (Htop : 0 <= stack_top (parent_stack ctx) < n).
    { apply stack_top_live; [exact Hst|lia]. }
    destruct (stack_top (parent_stack ctx) >=? 0) eqn:Et; [|lia].
    destruct (UI_AddChild_links s0 (stack_top (parent_stack ctx)) n Hc0 Htop Hw0 Hl0)
      as (Hc & Hw' & Hl').
    unfold built. simpl. fold s0. rewrite Hc.
    split; [exact Hw'|]. split; [exact Hl'|]. rewrite <- Hc. now apply Hstack.
  - simpl.
    assert (Hk : links_kept (set_rect (mkRect 0 0 (screen_w ctx) (screen_h ctx))))
      by (intros p; repeat split).
    unfold built. simpl. fold s0.
    set (s2 := upd_panel s0 n _).
    assert (Hc2 : panel_count s2 = n + 1) by (unfold s2; now rewrite panel_count_upd).
    split; [|split].
    + intros i Hi. rewrite Hc2 in *.
      destruct (upd_links_kept s0 n i _ Hk) as (Hf & _ & Hx). fold s2 in Hf, Hx.
      rewrite Hf, Hx. specialize (Hw0 i). rewrite Hc0 in Hw0. now apply Hw0.
    + intros i. rewrite Hc2.
      destruct (upd_links_kept s0 n i _ Hk) as (Hf & Hx & _). fold s2 in Hf, Hx.
      rewrite Hf, Hx. intros Hi Hfc. specialize (Hl0 i Hi Hfc). lia.
    + now apply Hstack.
Qed.

Lemma built_used_ids (ctx : UI_Context) (u : list (Z * Z)) :
  built ctx -> built (set_used_ids u ctx).
Proof. intros H. exact H. Qed.

Lemma built_UI_Generate_Id (ctx : UI_Context) (str : option string) :
  built ctx -> built (snd (UI_Generate_Id ctx str)).
Proof. intros H. rewrite UI_Generate_Id_frame. exact H. Qed.

Lemma built_UI_Begin_Panel (ctx : UI_Context) (id_str : option string) :
  built ctx -> built (UI_Begin_Panel ctx id_str).
Proof.
  intros H. unfold UI_Begin_Panel.
  pose proof (built_UI_Generate_Id ctx id_str H) as Hg.
  destruct (UI_Generate_Id ctx id_str) as [id ctx1]. now apply built_begin_panel_with.
Qed.

Lemma built_UI_Begin_Panel_With_Id (ctx : UI_Context) (id : Z) :
  built ctx -> built (UI_Begin_Panel_With_Id ctx id).
Proof. apply built_begin_panel_with. Qed.

Lemma built_UI_End_Panel (ctx : UI_Context) :
  built ctx -> built (UI_End_Panel ctx).
Proof.
  intros (Hw & Hl & Hst). unfold UI_End_Panel.
  destruct (Z.of_nat (length (parent_stack ctx)) >? 0);
    [|exact (conj Hw (conj Hl Hst))].
  unfold built. simpl. split; [exact Hw|]. split; [exact Hl|].
  destruct (parent_stack ctx) as [|a st] using rev_ind; [exact Hst|].
  rewrite removelast_last. now apply Forall_app in Hst as [Hst _].
Qed.

Lemma built_on_current_panel (f : UI_Panel -> UI_Panel) (ui : UI_Context) :
  links_kept f -> built ui -> built (on_current_panel f ui).
Proof.
  intros Hf (Hw & Hl & Hst). unfold on_current_panel.
  destruct (Z.of_nat (length (parent_stack ui)) =? 0);
    [exact (conj Hw (conj Hl Hst))|].
  unfold built. simpl. rewrite panel_count_upd.
  split; [|split; [|exact Hst]].
  - intros i Hi. rewrite panel_count_upd in *.
    destruct (upd_links_kept (state ui) (stack_top (parent_stack ui)) i f Hf)
      as (-> & _ & ->).
    now apply Hw.
  - intros i.
    destruct (upd_links_kept (state ui) (stack_top (parent_stack ui)) i f Hf)
      as (-> & -> & _).
    apply Hl.
Qed.

Lemma links_kept_set_style (f : UI_Style -> UI_Style) : links_kept (set_style f).
Proof. intros p. repeat split. Qed.

Lemma links_kept_label (txt : string) (col : Z) (f : UI_Style -> UI_Style) :
  links_kept (fun p => set_label txt col (set_style f p)).
Proof. intros p. repeat split. Qed.

(** Every style setter keeps the invariant. *)
Lemma built_set_style (f : UI_Style -> UI_Style) (ui : UI_Context) :
  built ui -> built (on_current_panel (set_style f) ui).
Proof. intros H. apply built_on_current_panel; [apply links_kept_set_style|exact H]. Qed.

Lemma built_UI_Panel_Set_Color (ui : UI_Context) (c : Z) :
  built ui -> built (UI_Panel_Set_Color ui c).
Proof. apply built_set_style. Qed.

Lemma built_UI_Panel_Set_Size (ui : UI_Context) (a b : Z) :
  built ui -> built (UI_Panel_Set_Size ui a b).
Proof. apply built_set_style. Qed.

Lemma built_UI_Panel_Set_Padding (ui : UI_Context) (l t r b : Z) :
  built ui -> built (UI_Panel_Set_Padding ui l t r b).
Proof. apply built_set_style. Qed.

Lemma built_UI_Panel_Set_Padding_Uniform (ui : UI_Context) (a : Z) :
  built ui -> built (UI_Panel_Set_Padding_Uniform ui a).
Proof. apply built_set_style. Qed.

Lemma built_UI_Panel_Set_Direction (ui : UI_Context) (d : Z) :
  built ui -> built (UI_Panel_Set_Direction ui d).
Proof. apply built_set_style. Qed.

Lemma built_UI_Panel_Set_Gap (ui : UI_Context) (g : Z) :
  built ui -> built (UI_Panel_Set_Gap ui g).
Proof. apply built_set_style. Qed.

Lemma built_UI_Panel_Set_Grow (ui : UI_Context) (g : f32) :
  built ui -> built (UI_Panel_Set_Grow ui g).
Proof. apply built_set_style. Qed.

Lemma built_UI_Panel_Set_Resizable (ui : UI_Context) (r hp : Z) :
  built ui -> built (UI_Panel_Set_Resizable ui r hp).
Proof. apply built_set_style. Qed.

Ltac built_step :=
  lazymatch goal with
  | |- built (if ?c then _ else _) => destruct c
  | |- built (UI_Panel_Set_Color _ _) => apply built_UI_Panel_Set_Color
  | |- built (UI_Panel_Set_Size _ _ _) => apply built_UI_Panel_Set_Size
  | |- built (UI_Panel_Set_Padding _ _ _ _ _) => apply built_UI_Panel_Set_Padding
  | |- built (UI_Panel_Set_Padding_Uniform _ _) => apply built_UI_Panel_Set_Padding_Uniform
  | |- built (UI_Panel_Set_Direction _ _) => apply built_UI_Panel_Set_Direction
  | |- built (UI_Panel_Set_Gap _ _) => apply built_UI_Panel_Set_Gap
  | |- built (UI_Panel_Set_Grow _ _) => apply built_UI_Panel_Set_Grow
  | |- built (UI_Panel_Set_Resizable _ _ _) => apply built_UI_Panel_Set_Resizable
  | |- built (UI_End_Panel _) => apply built_UI_End_Panel
  | |- built (UI_Begin_Panel _ _) => apply built_UI_Begin_Panel
  | |- built (UI_Begin_Panel_With_Id _ _) => apply built_UI_Begin_Panel_With_Id
  | |- built (on_current_panel _ _) => apply built_on_current_panel
  | |- links_kept _ => first [apply links_kept_set_style | apply links_kept_label]
  | |- built ?u => is_var u; assumption
  end.

Lemma built_UI_Begin_Panel_Ex (ui : UI_Context) (id : option string) (st : UI_Style) :
  built ui -> built (UI_Begin_Panel_Ex ui id st).
Proof. intros H. unfold UI_Begin_Panel_Ex. repeat built_step. Qed.

Lemma built_apply_padding_gap_color (ui : UI_Context) (padding gap_ col : Z) :
  built ui -> built (apply_padding_gap_color ui padding gap_ col).
Proof. intros H. unfold apply_padding_gap_color. repeat built_step. Qed.

Lemma built_UI_BeginPanel (ui : UI_Context) (id : option string)
    (dir w_ h_ padding gap_ col : Z) :
  built ui -> built (UI_BeginPanel ui id dir w_ h_ padding gap_ col).
Proof.
  intros H. unfold UI_BeginPanel. apply built_apply_padding_gap_color.
  repeat built_step.
Qed.

Lemma built_UI_Panel_Resizable (ui : UI_Context) (id : option string)
    (dir default_w default_h padding gap_ col : Z) :
  built ui -> built (UI_Panel_Resizable ui id dir default_w default_h padding gap_ col).
Proof.
  intros H. unfold UI_Panel_Resizable. apply built_apply_padding_gap_color.
  repeat built_step.
Qed.

Lemma built_UI_Divider_Ex (ui : UI_Context) (id : option string)
    (orientation col hitbox_padding : Z) :
  built ui -> built (UI_Divider_Ex ui id orientation col hitbox_padding).
Proof. intros H. unfold UI_Divider_Ex. repeat built_step. Qed.

Lemma built_UI_Label (ui : UI_Context) (text : option string) (col : Z) :
  built ui -> built (UI_Label ui text col).
Proof.
  intros H. unfold UI_Label.
  destruct text as [t|]; [|exact H].
  destruct (measure_text ui) as [measure|]; [|exact H].
  repeat built_step.
Qed.

Lemma built_set_last_button_clicked (t : string) (ui : UI_Context) :
  built ui -> built (set_last_button_clicked t ui).
Proof. intros H. exact H. Qed.

Lemma built_UI_Button (ui : UI_Context) (text : string) :
  built ui -> built (snd (UI_Button ui text)).
Proof.
  intros H. unfold UI_Button.
  destruct (UI_Generate_Id ui (Some text)) as [id ui1] eqn:Eg.
  assert (Hg : built ui1).
  { change ui1 with (snd (id, ui1)). rewrite <- Eg. now apply built_UI_Generate_Id. }
  cbv beta iota zeta.
  match goal with |- built (snd (_, ?u)) => change (built u) end.
  apply built_UI_End_Panel. apply built_UI_Label.
  repeat built_step.
  all: try (apply built_set_last_button_clicked); try assumption.
Qed.

(** A new frame starts with an empty arena and an empty stack. *)
Lemma built_UI_BeginFrame_WithTime (ui : UI_Context) (w_ h_ : Z) (dt : f32) :
  built (fst (UI_BeginFrame_WithTime ui w_ h_ dt)).
Proof.
  unfold built. simpl. split; [|split].
  - intros i Hi. unfold panel_count in Hi. simpl in Hi. lia.
  - intros i Hi. unfold panel_count in Hi. simpl in Hi. lia.
  - constructor.
Qed.

Lemma built_run_call (ui : UI_Context) (c : UI_Call) :
  built ui -> built (run_call ui c).
Proof.
  intros H. destruct c; cbn [run_call];
    [ apply built_UI_Begin_Panel | apply built_UI_Begin_Panel_Ex
    | apply built_UI_End_Panel | apply built_UI_Panel_Set_Color
    | apply built_UI_Panel_Set_Size | apply built_UI_Panel_Set_Padding
    | apply built_UI_Panel_Set_Padding_Uniform | apply built_UI_Panel_Set_Direction
    | apply built_UI_Panel_Set_Gap | apply built_UI_Panel_Set_Grow
    | apply built_UI_Panel_Set_Resizable | apply built_UI_BeginPanel
    | apply built_UI_Panel_Resizable | apply built_UI_Divider_Ex
    | apply built_UI_Divider_Ex | apply built_UI_Label | apply built_UI_Button ];
    exact H.
Qed.

(** Whatever the build phase calls, in whatever order, the tree it
    leaves has forward links: the layout engine and the emitter return
    on it. *)
Lemma build_frame_links (ui : UI_Context) (w_ h_ : Z) (dt : f32) (prog : list UI_Call) :
  built (build_frame ui w_ h_ dt prog)
  /\ links_increasing (state (build_frame ui w_ h_ dt prog)).
Proof.
  assert (H : built (build_frame ui w_ h_ dt prog)).
  { unfold build_frame.
    generalize (built_UI_BeginFrame_WithTime ui w_ h_ dt).
    generalize (fst (UI_BeginFrame_WithTime ui w_ h_ dt)).
    induction prog as [|c prog IH]; intros u Hu; simpl; [exact Hu|].
    apply IH. now apply built_run_call. }
  split; [exact H|apply H].
Qed.

(** ** Layout idempotence *)

(** C9: on a fully built tree (children and next siblings allocated
    after the panels that link to them, every container a row or a
    column) the layout engine returns, and a second run on its result
    returns that same result: no rect changes.  The tree any sequence
    of builder calls leaves after the start of a frame is such a
    tree. *)
Theorem C9_layout_idempotent :
  (forall (s : UI_State) (root : Z),
      links_increasing s -> directions_valid s -> 0 <= root < panel_count s ->
      exists s1 s2,
        UI_LayoutPanelTree s root = Some s1
        /\ UI_LayoutPanelTree s1 root = Some s2
        /\ (forall i, rect (get_panel s2 i) = rect (get_panel s1 i))
        /\ s2 = s1)
  /\ (forall (ui : UI_Context) (w_ h_ : Z) (dt : f32) (prog : list UI_Call),
        let s := state (build_frame ui w_ h_ dt prog) in
        directions_valid s -> 0 < panel_count s ->
        exists s1 s2,
          UI_LayoutPanelTree s 0 = Some s1
          /\ UI_LayoutPanelTree s1 0 = Some s2
          /\ (forall i, rect (get_panel s2 i) = rect (get_panel s1 i))
          /\ s2 = s1).
Proof.
  assert (Hgen : forall (s : UI_State) (root : Z),
             links_increasing s -> directions_valid s -> 0 <= root < panel_count s ->
             exists s1 s2,
               UI_LayoutPanelTree s root = Some s1
               /\ UI_LayoutPanelTree s1 root = Some s2
               /\ (forall i, rect (get_panel s2 i) = rect (get_panel s1 i))
               /\ s2 = s1).
  { intros s root Hw Hd Hr. unfold UI_LayoutPanelTree.
    destruct (proj1 (layout_tree_total (tree_fuel s)) s root Hw Hr) as [s1 H1].
    { unfold tree_fuel, panel_count in *. lia. }
    pose proof (proj1 (layout_tree_skel _) _ _ _ H1) as Hk.
    pose proof (proj1 (layout_tree_frame _) _ _ _ Hw Hr H1 root (Z.le_refl _)) as Hroot.
    destruct (proj1 (layout_tree_agree (tree_fuel s)) s s1 root s1
                (same_skel_sym _ _ Hk) Hd (eq_sym Hroot) H1) as (s2 & H2 & Hf).
    assert (Hfuel : tree_fuel s1 = tree_fuel s)
      by (unfold tree_fuel; now rewrite (same_skel_length _ _ Hk)).
    assert (Hrects : forall i, rect_at s2 i = rect_at s1 i).
    { intros i. destruct (Hf i) as [He|[_ He]]; [now symmetry|exact He]. }
    exists s1, s2. rewrite Hfuel.
    split; [exact H1|]. split; [exact H2|]. split; [exact Hrects|].
    apply same_skel_state_eq; [|exact Hrects].
    apply (proj1 (layout_tree_skel _) _ _ _ H2). }
  split; [exact Hgen|].
  intros ui w_ h_ dt prog s Hd Hn.
  apply Hgen; [apply build_frame_links|exact Hd|lia].
Qed.

Lemma C9_layout_idempotent_witness :
  exists s1 s2,
    UI_LayoutPanelTree (state drag_ctx) 0 = Some s1
    /\ UI_LayoutPanelTree s1 0 = Some s2
    /\ (forall i, rect (get_panel s2 i) = rect (get_panel s1 i))
    /\ s2 = s1.
Proof.
  apply (proj1 C9_layout_idempotent).
  - apply links_increasing_b_sound. vm_compute. reflexivity.
  - apply directions_valid_b_sound. vm_compute. reflexivity.
  - vm_compute. split; [discriminate|reflexivity].
Defined.

(** ** Size-override persistence *)






(** The whole next frame of [three_columns] after the width 500 was
    stored for "left", whose helper call asks for 240: the laid-out
    width is 500. *)
Lemma override_persists_through_rebuild :
  option_map (fun u => (p_id (get_panel (state u) 1), w (rect (get_panel (state u) 1))))
    (frame_built three_columns override_ctx 800 600)
  = Some (UI_HashString (Some "left"), 500).
Proof. vm_compute. reflexivity. Qed.

(** The examples of the specification through the whole engine. *)
Lemma row_example_laid_out :
  option_map (map rect) (UI_LayoutPanelTree row_example_state 0)
  = Some [mkRect 0 0 300 50; mkRect 0 0 100 50; mkRect 100 0 200 50].
Proof. vm_compute. reflexivity. Qed.

(** * Further properties of the engine *)

(** ** Input: edges, events and the character buffer *)

Lemma get_int_fill_array (n : nat) (f : Z -> Z) (b : Z) :
  0 <= b < Z.of_nat n -> get_int (fill_array n f) b = f b.
Proof.
  intros Hb. unfold get_int, fill_array.
  destruct (b <? 0) eqn:E; [lia|].
  rewrite list_lookup_fmap, lookup_seq_lt by lia. simpl.
  now rewrite Z2Nat.id by lia.
Qed.

Lemma get_int_insert (l : list Z) (b b' v : Z) :
  0 <= b < Z.of_nat (length l) -> 0 <= b' ->
  get_int (<[Z.to_nat b := v]> l) b' = if b' =? b then v else get_int l b'.
Proof.
  intros Hb Hb'. unfold get_int.
  destruct (b' <? 0) eqn:E; [lia|].
  destruct (b' =? b) eqn:Eb.
  - apply Z.eqb_eq in Eb. subst b'. now rewrite list_lookup_insert_eq by lia.
  - apply Z.eqb_neq in Eb. now rewrite list_lookup_insert_ne by lia.
Qed.

Lemma c_and_not_self (d : Z) : c_and d (c_not d) = 0 /\ c_and (c_not d) d = 0.
Proof. unfold c_and, c_not, c_true. destruct (d =? 0); split; reflexivity. Qed.

(** The edge flags [UI_Input_NewFrame] computes for one button. *)
Lemma UI_Input_NewFrame_mouse (ui : UI_Context) (b : Z) :
  0 <= b < 3 ->
  get_int (mouse_pressed (input (UI_Input_NewFrame ui))) b
  = c_and (get_int (mouse_down (input ui)) b)
      (c_not (get_int (mouse_down (input_prev ui)) b))
  /\ get_int (mouse_released (input (UI_Input_NewFrame ui))) b
     = c_and (c_not (get_int (mouse_down (input ui)) b))
         (get_int (mouse_down (input_prev ui)) b)
  /\ mouse_down (input (UI_Input_NewFrame ui)) = mouse_down (input ui).
Proof.
  intros Hb. simpl. rewrite !get_int_fill_array by (simpl; lia). auto.
Qed.

(** X1: at frame start a button (or key) is "pressed" exactly when it is
    down now and was up in the previous frame's snapshot, "released"
    exactly when it is up now and was down; the two flags are 0 or 1
    and never both set, and the down state itself is not touched. *)
Theorem X1_input_edges (ui : UI_Context) :
  (forall b, 0 <= b < UI_MOUSE_BUTTON_COUNT ->
     let ui' := UI_Input_NewFrame ui in
     let d := get_int (mouse_down (input ui)) b in
     let p := get_int (mouse_down (input_prev ui)) b in
     UI_Is_Mouse_Pressed ui' b = (if c_true d && negb (c_true p) then 1 else 0)
     /\ UI_Is_Mouse_Released ui' b = (if negb (c_true d) && c_true p then 1 else 0)
     /\ ~ (UI_Is_Mouse_Pressed ui' b <> 0 /\ UI_Is_Mouse_Released ui' b <> 0)
     /\ UI_Is_Mouse_Down ui' b = UI_Is_Mouse_Down ui b)
  /\ (forall k, 0 <= k < UI_KEY_COUNT ->
        let ui' := UI_Input_NewFrame ui in
        let d := get_int (key_down (input ui)) k in
        let p := get_int (key_down (input_prev ui)) k in
        UI_Is_Key_Pressed ui' k = (if c_true d && negb (c_true p) then 1 else 0)
        /\ UI_Is_Key_Released ui' k = (if negb (c_true d) && c_true p then 1 else 0)
        /\ ~ (UI_Is_Key_Pressed ui' k <> 0 /\ UI_Is_Key_Released ui' k <> 0)
        /\ UI_Is_Key_Down ui' k = UI_Is_Key_Down ui k).
Proof.
  split.
  - intros b Hb ui' d p. unfold UI_MOUSE_BUTTON_COUNT in Hb.
    unfold UI_Is_Mouse_Pressed, UI_Is_Mouse_Released, UI_Is_Mouse_Down,
      UI_MOUSE_BUTTON_COUNT.
    destruct ((b >=? 0) && (b <? 3)) eqn:E; [|lia].
    subst ui'. simpl. rewrite !get_int_fill_array by (simpl; lia).
    fold d p. unfold c_and, c_not, c_true.
    destruct (d =? 0); destruct (p =? 0); simpl; repeat split; try lia.
  - intros k Hk ui' d p. unfold UI_KEY_COUNT in Hk.
    unfold UI_Is_Key_Pressed, UI_Is_Key_Released, UI_Is_Key_Down, UI_KEY_COUNT.
    destruct ((k >=? 0) && (k <? 256)) eqn:E; [|lia].
    subst ui'. cbn [UI_Input_NewFrame input set_input key_pressed key_released key_down].
    rewrite !get_int_fill_array by (simpl; lia).
    fold d p. unfold c_and, c_not, c_true.
    destruct (d =? 0); destruct (p =? 0); simpl; repeat split; try lia.
Qed.

Lemma X1_input_edges_witness :
  UI_Is_Mouse_Pressed
    (UI_Input_NewFrame (UI_Input_ProcessMouseButton zero_context 0 1)) 0 = 1
  /\ UI_Is_Key_Released
       (UI_Input_NewFrame (UI_Input_EndFrame (UI_Input_ProcessKey zero_context 65 1))) 65
     = 0.
Proof.
  split.
  - apply (proj1 (X1_input_edges (UI_Input_ProcessMouseButton zero_context 0 1)) 0).
    vm_compute. split; [discriminate|reflexivity].
  - apply (proj2 (X1_input_edges
                    (UI_Input_EndFrame (UI_Input_ProcessKey zero_context 65 1))) 65).
    vm_compute. split; [discriminate|reflexivity].
Defined.

(** X2: an edge lasts one frame.  When a frame is ended and the next one
    begun with no event in between, no button or key is pressed or
    released in the new frame, the mouse delta is zero, and what is held
    down stays down. *)
Theorem X2_edges_last_one_frame (ui : UI_Context) (w_ h_ : Z) (dt : f32) (b k : Z) :
  let ui' := fst (UI_BeginFrame_WithTime (UI_Input_EndFrame ui) w_ h_ dt) in
  UI_Is_Mouse_Pressed ui' b = 0
  /\ UI_Is_Mouse_Released ui' b = 0
  /\ UI_Is_Key_Pressed ui' k = 0
  /\ UI_Is_Key_Released ui' k = 0
  /\ mouse_dx (input ui') = 0 /\ mouse_dy (input ui') = 0
  /\ UI_Is_Mouse_Down ui' b = UI_Is_Mouse_Down ui b
  /\ UI_Is_Key_Down ui' k = UI_Is_Key_Down ui k.
Proof.
  intros ui'.
  assert (Hm : forall f, (forall j, f j = 0) -> get_int (fill_array 3 f) b = 0
                         \/ ~ (0 <= b < 3)).
  { intros f Hf. destruct (Z_lt_dec b 0); [right; lia|].
    destruct (Z_lt_dec b 3); [|right; lia].
    left. rewrite get_int_fill_array by (simpl; lia). apply Hf. }
  assert (Hk : forall f, (forall j, f j = 0) -> get_int (fill_array 256 f) k = 0
                         \/ ~ (0 <= k < 256)).
  { intros f Hf. destruct (Z_lt_dec k 0); [right; lia|].
    destruct (Z_lt_dec k 256); [|right; lia].
    left. rewrite get_int_fill_array by (simpl; lia). apply Hf. }
  unfold UI_Is_Mouse_Pressed, UI_Is_Mouse_Released, UI_Is_Key_Pressed,
    UI_Is_Key_Released, UI_Is_Mouse_Down, UI_Is_Key_Down,
    UI_MOUSE_BUTTON_COUNT, UI_KEY_COUNT.
  subst ui'.
  cbn [UI_BeginFrame_WithTime fst UI_Input_NewFrame UI_Input_EndFrame input input_prev
         set_input set_input_prev mouse_pressed mouse_released key_pressed key_released
         mouse_dx mouse_dy mouse_down key_down mouse_x mouse_y].
  rewrite !Z.sub_diag.
  repeat split; try reflexivity.
  - destruct ((b >=? 0) && (b <? 3)) eqn:E; [|reflexivity].
    destruct (Hm (fun j => c_and (get_int (mouse_down (input ui)) j)
                             (c_not (get_int (mouse_down (input ui)) j))))
      as [H|H]; [intros; apply c_and_not_self|exact H|lia].
  - destruct ((b >=? 0) && (b <? 3)) eqn:E; [|reflexivity].
    destruct (Hm (fun j => c_and (c_not (get_int (mouse_down (input ui)) j))
                             (get_int (mouse_down (input ui)) j)))
      as [H|H]; [intros; apply c_and_not_self|exact H|lia].
  - destruct ((k >=? 0) && (k <? 256)) eqn:E; [|reflexivity].
    destruct (Hk (fun j => c_and (get_int (key_down (input ui)) j)
                             (c_not (get_int (key_down (input ui)) j))))
      as [H|H]; [intros; apply c_and_not_self|exact H|lia].
  - destruct ((k >=? 0) && (k <? 256)) eqn:E; [|reflexivity].
    destruct (Hk (fun j => c_and (c_not (get_int (key_down (input ui)) j))
                             (get_int (key_down (input ui)) j)))
      as [H|H]; [intros; apply c_and_not_self|exact H|lia].
Qed.

(** X3: a button event sets the down state of that button only, and an
    event for a button outside 0..2 is ignored; a button that goes down
    after a frame in which it was up is "pressed" in the next frame, and
    one that goes up after a frame in which it was down is "released". *)
Theorem X3_mouse_button_event (ui : UI_Context) (b d : Z) :
  (~ (0 <= b < UI_MOUSE_BUTTON_COUNT) -> UI_Input_ProcessMouseButton ui b d = ui)
  /\ (input_sized (input ui) -> 0 <= b < UI_MOUSE_BUTTON_COUNT ->
      input_sized (input (UI_Input_ProcessMouseButton ui b d))
      /\ UI_Is_Mouse_Down (UI_Input_ProcessMouseButton ui b d) b = d
      /\ (forall b', b' <> b ->
            UI_Is_Mouse_Down (UI_Input_ProcessMouseButton ui b d) b'
            = UI_Is_Mouse_Down ui b')
      /\ (d <> 0 -> UI_Is_Mouse_Down (UI_Input_EndFrame ui) b = 0 ->
          UI_Is_Mouse_Pressed
            (UI_Input_NewFrame (UI_Input_ProcessMouseButton (UI_Input_EndFrame ui) b d)) b
          = 1)
      /\ (d = 0 -> UI_Is_Mouse_Down (UI_Input_EndFrame ui) b <> 0 ->
          UI_Is_Mouse_Released
            (UI_Input_NewFrame (UI_Input_ProcessMouseButton (UI_Input_EndFrame ui) b d)) b
          = 1)).
Proof.
  unfold UI_MOUSE_BUTTON_COUNT. split.
  - intros Hb. unfold UI_Input_ProcessMouseButton, UI_MOUSE_BUTTON_COUNT.
    destruct ((b >=? 0) && (b <? 3)) eqn:E; [lia|reflexivity].
  - intros [Hm Hk] Hb.
    assert (Hin : (b >=? 0) && (b <? 3) = true) by lia.
    assert (Hdown : forall u, length (mouse_down (input u)) = 3%nat -> forall b',
               UI_Is_Mouse_Down (UI_Input_ProcessMouseButton u b d) b'
               = if b' =? b then d else UI_Is_Mouse_Down u b').
    { intros u Hu b'. unfold UI_Is_Mouse_Down, UI_Input_ProcessMouseButton,
        UI_MOUSE_BUTTON_COUNT.
      rewrite Hin. simpl.
      destruct ((b' >=? 0) && (b' <? 3)) eqn:E'.
      - rewrite get_int_insert by lia. reflexivity.
      - destruct (b' =? b) eqn:Eb; [lia|reflexivity]. }
    set (u := UI_Input_ProcessMouseButton (UI_Input_EndFrame ui) b d).
    assert (H1 : get_int (mouse_down (input u)) b = d).
    { pose proof (Hdown (UI_Input_EndFrame ui) Hm b) as H. fold u in H.
      unfold UI_Is_Mouse_Down, UI_MOUSE_BUTTON_COUNT in H. rewrite Hin in H.
      now rewrite Z.eqb_refl in H. }
    assert (H2 : get_int (mouse_down (input_prev u)) b
                 = get_int (mouse_down (input ui)) b).
    { unfold u, UI_Input_ProcessMouseButton, UI_MOUSE_BUTTON_COUNT. rewrite Hin.
      reflexivity. }
    destruct (UI_Input_NewFrame_mouse u b Hb) as (Hp & Hr & _).
    split; [|split; [|split; [|split]]].
    + unfold UI_Input_ProcessMouseButton, UI_MOUSE_BUTTON_COUNT.
      rewrite Hin. split; simpl; [now rewrite length_insert|exact Hk].
    + rewrite Hdown by exact Hm. now rewrite Z.eqb_refl.
    + intros b' Hne. rewrite Hdown by exact Hm.
      destruct (b' =? b) eqn:Eb; [lia|reflexivity].
    + intros Hd Hup.
      unfold UI_Is_Mouse_Down, UI_MOUSE_BUTTON_COUNT in Hup. rewrite Hin in Hup.
      simpl in Hup.
      unfold UI_Is_Mouse_Pressed, UI_MOUSE_BUTTON_COUNT. rewrite Hin, Hp, H1, H2, Hup.
      unfold c_and, c_not, c_true. destruct (d =? 0) eqn:Ed; [lia|reflexivity].
    + intros Hd Hdn.
      unfold UI_Is_Mouse_Down, UI_MOUSE_BUTTON_COUNT in Hdn. rewrite Hin in Hdn.
      simpl in Hdn.
      unfold UI_Is_Mouse_Released, UI_MOUSE_BUTTON_COUNT. rewrite Hin, Hr, H1, H2.
      unfold c_and, c_not, c_true. rewrite Hd. simpl.
      destruct (get_int (mouse_down (input ui)) b =? 0) eqn:Eq; [lia|reflexivity].
Qed.

Lemma X3_mouse_button_event_witness :
  UI_Is_Mouse_Down (UI_Input_ProcessMouseButton zero_context 2 1) 2 = 1
  /\ UI_Is_Mouse_Pressed
       (UI_Input_NewFrame
          (UI_Input_ProcessMouseButton (UI_Input_EndFrame zero_context) 2 1)) 2 = 1
  /\ UI_Input_ProcessMouseButton zero_context 3 1 = zero_context.
Proof.
  destruct (X3_mouse_button_event zero_context 2 1) as [_ H].
  destruct H as (_ & Hd & _ & Hp & _);
    [split; reflexivity | vm_compute; split; [discriminate|reflexivity] |].
  split; [exact Hd|]. split.
  - apply Hp; [discriminate|reflexivity].
  - apply (proj1 (X3_mouse_button_event zero_context 3 1)).
    vm_compute. intros [_ H]. discriminate H.
Defined.

(** X4: a key event sets the down state of that virtual key only, and an
    event for a code outside 0..255 is ignored; the modifier flags of
    the next frame are the down states of the keys 0x11 (ctrl), 0x10
    (shift) and 0x12 (alt). *)
Theorem X4_key_event (ui : UI_Context) (k d : Z) :
  (~ (0 <= k < UI_KEY_COUNT) -> UI_Input_ProcessKey ui k d = ui)
  /\ (input_sized (input ui) -> 0 <= k < UI_KEY_COUNT ->
      input_sized (input (UI_Input_ProcessKey ui k d))
      /\ UI_Is_Key_Down (UI_Input_ProcessKey ui k d) k = d
      /\ (forall k', k' <> k ->
            UI_Is_Key_Down (UI_Input_ProcessKey ui k d) k' = UI_Is_Key_Down ui k'))
  /\ ctrl (input (UI_Input_NewFrame ui)) = UI_Is_Key_Down ui 17
  /\ shift (input (UI_Input_NewFrame ui)) = UI_Is_Key_Down ui 16
  /\ alt (input (UI_Input_NewFrame ui)) = UI_Is_Key_Down ui 18.
Proof.
  unfold UI_KEY_COUNT. split; [|split].
  - intros Hk. unfold UI_Input_ProcessKey, UI_KEY_COUNT.
    destruct ((k >=? 0) && (k <? 256)) eqn:E; [lia|reflexivity].
  - intros [Hm Hkd] Hk.
    assert (Hin : (k >=? 0) && (k <? 256) = true) by lia.
    assert (Hdown : forall k',
               UI_Is_Key_Down (UI_Input_ProcessKey ui k d) k'
               = if k' =? k then d else UI_Is_Key_Down ui k').
    { intros k'. unfold UI_Is_Key_Down, UI_Input_ProcessKey, UI_KEY_COUNT.
      rewrite Hin. cbn [input set_input set_key_down key_down].
      destruct ((k' >=? 0) && (k' <? 256)) eqn:E'.
      - rewrite get_int_insert by lia. reflexivity.
      - destruct (k' =? k) eqn:Eb; [lia|reflexivity]. }
    split; [|split].
    + unfold UI_Input_ProcessKey, UI_KEY_COUNT. rewrite Hin.
      split; cbn [input set_input set_key_down key_down mouse_down];
        [exact Hm|now rewrite length_insert].
    + rewrite Hdown. now rewrite Z.eqb_refl.
    + intros k' Hne. rewrite Hdown. destruct (k' =? k) eqn:Eb; [lia|reflexivity].
  - repeat split.
Qed.

Lemma X4_key_event_witness :
  UI_Is_Key_Down (UI_Input_ProcessKey zero_context 17 1) 17 = 1
  /\ UI_Input_ProcessKey zero_context 256 1 = zero_context.
Proof.
  split.
  - apply (proj1 (proj2 (X4_key_event zero_context 17 1))).
    + split; reflexivity.
    + vm_compute. split; [discriminate|reflexivity].
  - apply (proj1 (X4_key_event zero_context 256 1)).
    vm_compute. intros [_ H]. discriminate H.
Defined.

(** X5: a character event always becomes [last_char]; it is appended to
    the frame's buffer while fewer than 32 characters are stored and is
    dropped from the buffer (not from [last_char]) once 32 are; the
    buffer never grows past 32, and the next frame start empties it and
    keeps [last_char]. *)
Theorem X5_char_buffer (ui : UI_Context) (c : Z) :
  let buf := char_buffer (input ui) in
  let ui' := UI_Input_ProcessChar ui c in
  last_char (input ui') = c
  /\ (Z.of_nat (length buf) < UI_MAX_CHAR_BUFFER -> char_buffer (input ui') = buf ++ [c])
  /\ (UI_MAX_CHAR_BUFFER <= Z.of_nat (length buf) -> char_buffer (input ui') = buf)
  /\ (Z.of_nat (length buf) <= UI_MAX_CHAR_BUFFER ->
      Z.of_nat (length (char_buffer (input ui'))) <= UI_MAX_CHAR_BUFFER)
  /\ char_buffer (input (UI_Input_NewFrame ui')) = []
  /\ last_char (input (UI_Input_NewFrame ui')) = c.
Proof.
  intros buf ui'. subst ui'. unfold UI_MAX_CHAR_BUFFER, UI_Input_ProcessChar.
  cbn [UI_Input_NewFrame input set_input set_chars char_buffer last_char].
  fold buf.
  destruct (Z.of_nat (length buf) <? 32) eqn:E.
  - repeat split; try reflexivity; try lia.
    intros _. rewrite length_app. simpl. lia.
  - repeat split; try reflexivity; try lia.
Qed.

Lemma X5_char_buffer_witness :
  char_buffer (input (UI_Input_ProcessChar zero_context 97)) = [97]
  /\ char_buffer
       (input (UI_Input_ProcessChar (Nat.iter 32 (fun u => UI_Input_ProcessChar u 98)
                                       zero_context) 97))
     = repeat 98 32.
Proof.
  split.
  - apply (proj1 (proj2 (X5_char_buffer zero_context 97))). vm_compute. reflexivity.
  - assert (H := proj1 (proj2 (proj2 (X5_char_buffer
                   (Nat.iter 32 (fun u => UI_Input_ProcessChar u 98) zero_context) 97)))).
    cbv zeta in H. rewrite H; [vm_compute; reflexivity|].
    vm_compute. discriminate.
Defined.

(** ** The size-override store and the used-id table as bounded maps *)

Lemma override_update_ids (id pw ph : Z) (l l' : list UI_Size_Override) :
  override_update id pw ph l = Some l' -> panel_id <$> l' = panel_id <$> l.
Proof.
  revert l'. induction l as [|a r IH]; intros l'; simpl; [discriminate|].
  destruct (panel_id a =? id).
  - intros [= <-]. reflexivity.
  - destruct (override_update id pw ph r) as [r'|]; [|discriminate].
    intros [= <-]. rewrite !fmap_cons. now rewrite (IH r' eq_refl).
Qed.

Lemma override_find_None (id : Z) (l : list UI_Size_Override) :
  override_find id l = None <-> id ∉ (panel_id <$> l).
Proof.
  induction l as [|a r IH]; simpl.
  - split; [intros _; apply not_elem_of_nil|reflexivity].
  - rewrite not_elem_of_cons. destruct (panel_id a =? id) eqn:E.
    + apply Z.eqb_eq in E. split; [discriminate|]. intros [H _]. congruence.
    + apply Z.eqb_neq in E. rewrite IH. split; [intros H; split; [congruence|exact H]|].
      intros [_ H]. exact H.
Qed.

(** X6: the size-override store is a map of at most 32 entries with one
    entry per panel id, whatever is stored into it; storing for a new id
    appends an entry while there is room, and once 32 ids are stored a
    new id is dropped silently: the context is unchanged and both
    lookups keep answering -1 for it. *)
Theorem X6_override_store_bounded (ui : UI_Context) (id pw ph : Z) :
  (overrides_ok (size_overrides ui) ->
   overrides_ok (size_overrides (UI_Set_Size_Override ui id pw ph)))
  /\ (override_find id (size_overrides ui) = None ->
      Z.of_nat (length (size_overrides ui)) < 32 ->
      size_overrides (UI_Set_Size_Override ui id pw ph)
      = size_overrides ui ++ [mkOverride id pw ph])
  /\ (override_find id (size_overrides ui) = None ->
      32 <= Z.of_nat (length (size_overrides ui)) ->
      UI_Set_Size_Override ui id pw ph = ui
      /\ UI_Get_Size_Override_W (UI_Set_Size_Override ui id pw ph) id = -1
      /\ UI_Get_Size_Override_H (UI_Set_Size_Override ui id pw ph) id = -1).
Proof.
  split; [|split].
  - intros [Hnd Hlen]. unfold UI_Set_Size_Override.
    destruct (override_update id pw ph (size_overrides ui)) as [l'|] eqn:Eu.
    + simpl. split.
      * now rewrite (override_update_ids _ _ _ _ _ Eu).
      * assert (Hl : length (panel_id <$> l') = length (panel_id <$> size_overrides ui))
          by now rewrite (override_update_ids _ _ _ _ _ Eu).
        rewrite !length_fmap in Hl. lia.
    + destruct (Z.of_nat (length (size_overrides ui)) <? 32) eqn:E;
        [|split; assumption].
      simpl. split.
      * rewrite fmap_app. apply NoDup_app. split; [exact Hnd|]. split.
        -- intros x Hx Hx'. simpl in Hx'. apply list_elem_of_singleton in Hx'. subst x.
           assert (Hf : override_find id (size_overrides ui) = None).
           { destruct (override_find id (size_overrides ui)) as [o|] eqn:Ef;
               [|reflexivity].
             destruct (override_update_found id pw ph _ _ Ef) as (l' & Hu & _).
             congruence. }
           now apply override_find_None in Hf.
        -- simpl. apply NoDup_singleton.
      * rewrite length_app. simpl. lia.
  - intros Hf Hroom. unfold UI_Set_Size_Override.
    rewrite (override_update_missing _ _ _ _ Hf).
    destruct (Z.of_nat (length (size_overrides ui)) <? 32) eqn:E; [reflexivity|lia].
  - intros Hf Hfull.
    assert (He : UI_Set_Size_Override ui id pw ph = ui).
    { unfold UI_Set_Size_Override. rewrite (override_update_missing _ _ _ _ Hf).
      destruct (Z.of_nat (length (size_overrides ui)) <? 32) eqn:E; [lia|reflexivity]. }
    rewrite He. unfold UI_Get_Size_Override_W, UI_Get_Size_Override_H.
    rewrite Hf. auto.
Qed.

Lemma X6_override_store_bounded_witness :
  overrides_ok (size_overrides (UI_Set_Size_Override zero_context 7 100 (-1)))
  /\ UI_Set_Size_Override full_overrides_ctx 99 500 (-1) = full_overrides_ctx
  /\ UI_Get_Size_Override_W (UI_Set_Size_Override full_overrides_ctx 99 500 (-1)) 99 = -1.
Proof.
  split.
  - apply (proj1 (X6_override_store_bounded zero_context 7 100 (-1))).
    split; [apply NoDup_nil_2|simpl; lia].
  - destruct (proj2 (proj2 (X6_override_store_bounded full_overrides_ctx 99 500 (-1))))
      as (H1 & H2 & _); [vm_compute; reflexivity|vm_compute; discriminate|].
    split; [exact H1|exact H2].
Defined.

Lemma used_find_bump_ids (base : Z) (u : list (Z * Z)) :
  match used_find_bump base u with
  | Some (k, u') => fst <$> u' = fst <$> u /\ base ∈ (fst <$> u)
  | None => base ∉ (fst <$> u)
  end.
Proof.
  induction u as [|[id c] r IH]; [apply not_elem_of_nil|].
  cbn [used_find_bump]. rewrite fmap_cons. cbn [fst].
  destruct (id =? base) eqn:E.
  - apply Z.eqb_eq in E. subst id. split; [reflexivity|]. apply list_elem_of_here.
  - apply Z.eqb_neq in E.
    destruct (used_find_bump base r) as [[k r']|].
    + destruct IH as [IH1 IH2]. rewrite fmap_cons. cbn [fst]. rewrite IH1.
      split; [reflexivity|]. now apply list_elem_of_further.
    + apply not_elem_of_cons. split; [congruence|exact IH].
Qed.

(** X7: the used-id table is a map of at most 1024 entries with one
    entry per base id, and no entry is ever removed within a frame; once
    it holds 1024 ids, a name whose hash is not in it is not recorded:
    the call changes nothing and returns the plain hash, so generating
    that name again and again returns the same id every time. *)
Theorem X7_used_id_table (ctx : UI_Context) (str : option string) :
  (used_ok (used_ids ctx) -> used_ok (used_ids (snd (UI_Generate_Id ctx str))))
  /\ (forall id, id ∈ (fst <$> used_ids ctx) ->
        id ∈ (fst <$> used_ids (snd (UI_Generate_Id ctx str))))
  /\ (UI_HashString str ∉ (fst <$> used_ids ctx) ->
      1024 <= Z.of_nat (length (used_ids ctx)) ->
      forall n : nat,
        UI_Generate_Id (Nat.iter n (fun c => snd (UI_Generate_Id c str)) ctx) str
        = (UI_HashString str, ctx)).
Proof.
  pose proof (used_find_bump_ids (UI_HashString str) (used_ids ctx)) as Hb.
  split; [|split].
  - intros [Hnd Hlen]. unfold UI_Generate_Id.
    destruct (used_find_bump (UI_HashString str) (used_ids ctx)) as [[k u']|].
    + destruct Hb as [He _]. simpl. split; [now rewrite He|].
      assert (Hl : length (fst <$> u') = length (fst <$> used_ids ctx))
        by now rewrite He.
      rewrite !length_fmap in Hl. lia.
    + destruct (Z.of_nat (length (used_ids ctx)) <? 1024) eqn:E;
        [|split; assumption].
      simpl. split.
      * rewrite fmap_app. apply NoDup_app. split; [exact Hnd|]. split.
        -- intros x Hx Hx'. simpl in Hx'. apply list_elem_of_singleton in Hx'.
           subst x. contradiction.
        -- simpl. apply NoDup_singleton.
      * rewrite length_app. simpl. lia.
  - intros id Hid. unfold UI_Generate_Id.
    destruct (used_find_bump (UI_HashString str) (used_ids ctx)) as [[k u']|].
    + destruct Hb as [He _]. simpl. now rewrite He.
    + destruct (Z.of_nat (length (used_ids ctx)) <? 1024); [|exact Hid].
      simpl. rewrite fmap_app. apply elem_of_app. now left.
  - intros Hfresh Hfull.
    assert (H1 : UI_Generate_Id ctx str = (UI_HashString str, ctx)).
    { unfold UI_Generate_Id.
      destruct (used_find_bump (UI_HashString str) (used_ids ctx)) as [[k u']|];
        [destruct Hb as [_ Hin]; contradiction|].
      destruct (Z.of_nat (length (used_ids ctx)) <? 1024) eqn:E; [lia|reflexivity]. }
    intros n. induction n as [|n IH]; simpl; [exact H1|].
    now rewrite IH.
Qed.

Lemma X7_used_id_table_witness :
  used_ok (used_ids (snd (UI_Generate_Id fresh_frame (Some "left"))))
  /\ UI_Generate_Id
       (Nat.iter 2 (fun c => snd (UI_Generate_Id c (Some "left"))) full_used_ids_ctx)
       (Some "left")
     = (UI_HashString (Some "left"), full_used_ids_ctx).
Proof.
  split.
  - apply (proj1 (X7_used_id_table fresh_frame (Some "left"))).
    split; [apply NoDup_nil_2|simpl; lia].
  - apply (proj2 (proj2 (X7_used_id_table full_used_ids_ctx (Some "left")))).
    + change (UI_HashString (Some "left")) with 2090468272.
      intros Hin. apply list_elem_of_fmap in Hin as ([a c] & Ha & Hin).
      apply list_elem_of_In, in_map_iff in Hin as (i & Hi & Hseq).
      apply in_seq in Hseq. simpl in Ha. inversion Hi. lia.
    + vm_compute. discriminate.
Defined.

(** ** Lookups in the tree: by id, and the neighbours of a divider *)

Lemma find_panel_from_first (l : list UI_Panel) (i id : Z) :
  (find_panel_from i l id = -1 /\ forall k p, l !! k = Some p -> p_id p <> id)
  \/ exists k p, find_panel_from i l id = i + Z.of_nat k
                 /\ l !! k = Some p /\ p_id p = id
                 /\ forall j q, (j < k)%nat -> l !! j = Some q -> p_id q <> id.
Proof.
  revert i. induction l as [|a r IH]; intros i; simpl.
  - left. split; [reflexivity|]. intros k p H. discriminate H.
  - destruct (p_id a =? id) eqn:E.
    + right. exists 0%nat, a. apply Z.eqb_eq in E.
      repeat split; [lia|exact E|]. intros j q Hj. lia.
    + apply Z.eqb_neq in E.
      destruct (IH (i + 1)) as [[H1 H2]|(k & p & H1 & H2 & H3 & H4)].
      * left. split; [exact H1|]. intros [|k] p Hk; simpl in Hk.
        -- injection Hk as <-. exact E.
        -- now apply (H2 k).
      * right. exists (S k), p. repeat split; [lia|exact H2|exact H3|].
        intros [|j] q Hj Hq; simpl in Hq.
        -- injection Hq as <-. exact E.
        -- apply (H4 j q); [lia|exact Hq].
Qed.

(** X8: the lookup by id returns the index of the first live panel with
    that id (when two panels share an id, the earlier one), and -1
    exactly when no live panel has it. *)
Theorem X8_find_panel_by_id_first (s : UI_State) (id : Z) :
  let r := UI_Find_Panel_By_Id s id in
  (r = -1 /\ forall i, 0 <= i < panel_count s -> p_id (get_panel s i) <> id)
  \/ (0 <= r < panel_count s
      /\ p_id (get_panel s r) = id
      /\ forall i, 0 <= i < r -> p_id (get_panel s i) <> id).
Proof.
  intros r. subst r. unfold UI_Find_Panel_By_Id.
  destruct (find_panel_from_first s 0 id) as [[H1 H2]|(k & p & H1 & H2 & H3 & H4)].
  - left. split; [exact H1|]. intros i Hi.
    apply (H2 (Z.to_nat i)). now apply get_panel_lookup.
  - right. rewrite H1. pose proof (lookup_lt_Some _ _ _ H2) as Hk.
    unfold panel_count. split; [lia|]. split.
    + rewrite <- H3. f_equal.
      assert (Hg := get_panel_lookup s (0 + Z.of_nat k)).
      unfold panel_count in Hg. specialize (Hg ltac:(lia)).
      replace (Z.to_nat (0 + Z.of_nat k)) with k in Hg by lia. congruence.
    + intros i Hi. apply (H4 (Z.to_nat i)); [lia|].
      apply get_panel_lookup. unfold panel_count. lia.
Qed.

Lemma find_prev_sibling_chain (fuel : nat) (s : UI_State) (c prev d : Z) (l : list Z) :
  sibling_chain fuel s c = Some l ->
  find_prev_sibling fuel s c prev d = Some (prev_in l prev d).
Proof.
  revert c prev l. induction fuel as [|f IH]; intros c prev l; simpl.
  - destruct (c =? -1); [|discriminate]. now intros [= <-].
  - destruct (c =? -1) eqn:E; [now intros [= <-]|].
    destruct (sibling_chain f s (next_sibling (get_panel s c))) as [l'|] eqn:El;
      [|discriminate].
    intros [= <-]. simpl. destruct (c =? d); [reflexivity|]. now apply IH.
Qed.

Lemma prev_in_split (pre post : list Z) (prev d : Z) :
  ~ In d pre -> prev_in (pre ++ d :: post) prev d = default prev (last pre).
Proof.
  revert prev. induction pre as [|a pre IH]; intros prev Hn; simpl.
  - now rewrite Z.eqb_refl.
  - destruct (a =? d) eqn:E; [apply Z.eqb_eq in E; subst a; simpl in Hn; tauto|].
    rewrite IH by (simpl in Hn; tauto).
    rewrite last_cons. destruct (last pre); reflexivity.
Qed.

Lemma prev_in_absent (l : list Z) (prev d : Z) : ~ In d l -> prev_in l prev d = -1.
Proof.
  revert prev. induction l as [|a l IH]; intros prev Hn; simpl; [reflexivity|].
  destruct (a =? d) eqn:E; [apply Z.eqb_eq in E; subst a; simpl in Hn; tauto|].
  apply IH. simpl in Hn. tauto.
Qed.

Lemma sibling_chain_suffix (fuel : nat) (s : UI_State) (c d : Z) (pre post : list Z) :
  sibling_chain fuel s c = Some (pre ++ d :: post) ->
  d <> -1 /\ next_sibling (get_panel s d) = default (-1) (head post).
Proof.
  revert c pre. induction fuel as [|f IH]; intros c pre; simpl.
  - destruct (c =? -1); [|discriminate]. intros [= H]. now destruct pre.
  - destruct (c =? -1) eqn:E; [intros [= H]; now destruct pre|].
    destruct (sibling_chain f s (next_sibling (get_panel s c))) as [l'|] eqn:El;
      [|discriminate].
    intros [= H]. destruct pre as [|a pre]; simpl in H.
    + injection H as -> ->. split; [lia|].
      destruct f as [|f']; simpl in El.
      * destruct (next_sibling (get_panel s d) =? -1) eqn:En; [|discriminate].
        injection El as <-. simpl. lia.
      * destruct (next_sibling (get_panel s d) =? -1) eqn:En.
        -- injection El as <-. simpl. lia.
        -- destruct (sibling_chain f' s _); [|discriminate].
           injection El as <-. reflexivity.
    + injection H as -> ->. exact (IH _ pre El).
Qed.

(** X9: for a divider that has a parent whose child list is
    [pre ++ d :: post] (with [d] not in [pre]), the "adjacent" panel is
    the sibling just before it and the "next" panel the sibling just
    after it, each -1 when there is none; a panel missing from its
    parent's child list has no adjacent panel, and neither has a panel
    without a parent. *)
Theorem X9_divider_neighbours (s : UI_State) (d : Z) (l : list Z) :
  (parent (get_panel s d) < 0 -> UI_Find_Adjacent_Panel s d = Some (-1))
  /\ (0 <= parent (get_panel s d) ->
      sibling_chain (chain_fuel s) s
        (first_child (get_panel s (parent (get_panel s d)))) = Some l ->
      (forall pre post, l = pre ++ d :: post -> ~ In d pre ->
         UI_Find_Adjacent_Panel s d = Some (default (-1) (last pre))
         /\ UI_Find_Next_Panel s d = default (-1) (head post))
      /\ (~ In d l -> UI_Find_Adjacent_Panel s d = Some (-1))).
Proof.
  unfold UI_Find_Adjacent_Panel, UI_Find_Next_Panel. split.
  - intros Hp. destruct (parent (get_panel s d) <? 0) eqn:E; [reflexivity|lia].
  - intros Hp Hl.
    destruct (parent (get_panel s d) <? 0) eqn:E; [lia|].
    rewrite (find_prev_sibling_chain _ _ _ _ _ _ Hl). split.
    + intros pre post -> Hn. split.
      * now rewrite prev_in_split.
      * apply (sibling_chain_suffix _ _ _ _ _ _ Hl).
    + intros Hn. now rewrite prev_in_absent.
Qed.

Lemma X9_divider_neighbours_witness :
  UI_Find_Adjacent_Panel (state drag_ctx) 2 = Some 1
  /\ UI_Find_Next_Panel (state drag_ctx) 2 = 3
  /\ UI_Find_Adjacent_Panel (state drag_ctx) 1 = Some (-1)
  /\ UI_Find_Adjacent_Panel (state drag_ctx) 0 = Some (-1).
Proof.
  destruct (X9_divider_neighbours (state drag_ctx) 2 [1; 2; 3]) as [_ H2].
  destruct H2 as [Hs _]; [vm_compute; discriminate|vm_compute; reflexivity|].
  destruct (Hs [1] [3] eq_refl) as [Ha Hn]; [simpl; lia|].
  destruct (X9_divider_neighbours (state drag_ctx) 1 [1; 2; 3]) as [_ H1].
  destruct H1 as [Hs1 _]; [vm_compute; discriminate|vm_compute; reflexivity|].
  destruct (Hs1 [] [2; 3] eq_refl) as [Ha1 _]; [simpl; tauto|].
  split; [exact Ha|]. split; [exact Hn|]. split; [exact Ha1|].
  apply (proj1 (X9_divider_neighbours (state drag_ctx) 0 [])).
  vm_compute. reflexivity.
Defined.

(** ** Hit-testing *)

(** X10: the hit area of a resizable panel is its rect grown by the
    hitbox padding on every side, left and top edges included, right and
    bottom edges excluded; so every point of the rect itself is in it,
    and a divider one pixel wide with padding 4 is grabbed over nine
    pixels. *)
Theorem X10_expanded_hitbox (r : UI_RectI) (padding px py : Z) :
  rect_in_range r padding ->
  (UI_Is_Point_In_Rect px py (UI_Get_Expanded_Rect r padding) = true
   <-> x r - padding <= px < x r + w r + padding
       /\ y r - padding <= py < y r + h r + padding)
  /\ (UI_Is_Point_In_Rect px py r = true ->
      UI_Is_Point_In_Rect px py (UI_Get_Expanded_Rect r padding) = true).
Proof.
  unfold rect_in_range, int_range.
  intros (Hp & H2p & Hx1 & Hy1 & Hxw & Hyh & Hw & Hh & Hx2 & Hy2).
  assert (Hexp : UI_Is_Point_In_Rect px py (UI_Get_Expanded_Rect r padding) = true
                 <-> x r - padding <= px < x r + w r + padding
                     /\ y r - padding <= py < y r + h r + padding).
  { unfold UI_Is_Point_In_Rect, UI_Get_Expanded_Rect. simpl.
    rewrite (i32_small (padding * 2)) by exact H2p.
    rewrite (i32_small (x r - padding)) by exact Hx1.
    rewrite (i32_small (y r - padding)) by exact Hy1.
    rewrite (i32_small (w r + padding * 2)) by exact Hw.
    rewrite (i32_small (h r + padding * 2)) by exact Hh.
    replace (x r - padding + (w r + padding * 2)) with (x r + w r + padding) by lia.
    replace (y r - padding + (h r + padding * 2)) with (y r + h r + padding) by lia.
    rewrite (i32_small _ Hx2), (i32_small _ Hy2). lia. }
  split; [exact Hexp|].
  intros Hin. apply Hexp. unfold UI_Is_Point_In_Rect in Hin.
  rewrite (i32_small _ Hxw), (i32_small _ Hyh) in Hin. lia.
Qed.

Lemma X10_expanded_hitbox_witness :
  UI_Is_Point_In_Rect 236 0 (UI_Get_Expanded_Rect (mkRect 240 0 1 600) 4) = true
  /\ UI_Is_Point_In_Rect 244 599 (UI_Get_Expanded_Rect (mkRect 240 0 1 600) 4) = true.
Proof.
  assert (Hr : rect_in_range (mkRect 240 0 1 600) 4).
  { unfold rect_in_range, int_range, INT32_MIN, INT32_MAX. simpl. lia. }
  split.
  - apply (proj1 (X10_expanded_hitbox (mkRect 240 0 1 600) 4 236 0 Hr)). simpl. lia.
  - apply (proj1 (X10_expanded_hitbox (mkRect 240 0 1 600) 4 244 599 Hr)). simpl. lia.
Defined.

Lemma same_but_size_refl (p : UI_Panel) : same_but_size p p.
Proof. unfold same_but_size. repeat split. Qed.

Lemma same_but_size_trans (p q r : UI_Panel) :
  same_but_size p q -> same_but_size q r -> same_but_size p r.
Proof.
  unfold same_but_size.
  intros (A1 & A2 & A3 & A4 & A5 & A6 & A7 & A8 & A9 & A10)
         (B1 & B2 & B3 & B4 & B5 & B6 & B7 & B8 & B9 & B10).
  repeat split; congruence.
Qed.

Lemma same_but_size_upd (s : UI_State) (idx size i : Z) (b : bool) :
  same_but_size (get_panel s i)
    (get_panel (upd_panel s idx
                  (set_style (fun st => set_flex_grow f32_zero
                                          (if b then set_pref_w size st
                                           else set_pref_h size st)))) i).
Proof.
  destruct (Z.eq_dec idx i) as [<-|Hne].
  - destruct (Z_lt_dec idx 0) as [Hneg|Hnn];
      [rewrite upd_out_of_range by lia; apply same_but_size_refl|].
    destruct (Z_lt_dec idx (panel_count s)) as [Hlt|Hge];
      [|rewrite upd_out_of_range by lia; apply same_but_size_refl].
    rewrite get_upd_same by lia.
    unfold same_but_size. destruct b; repeat split.
  - rewrite get_upd_other by exact Hne. apply same_but_size_refl.
Qed.

(** One side of a drag step: the tree keeps its shape, ids, rects and
    labels; the input and the interaction state are not touched. *)
Lemma apply_resize_frame (resize_dir idx id size : Z) (ui : UI_Context) :
  let ui' := apply_resize resize_dir idx id size ui in
  length (state ui') = length (state ui)
  /\ (forall i, same_but_size (get_panel (state ui) i) (get_panel (state ui') i))
  /\ (forall i, i <> idx -> get_panel (state ui') i = get_panel (state ui) i)
  /\ input ui' = input ui /\ interaction ui' = interaction ui.
Proof.
  intros ui'. subst ui'. rewrite apply_resize_state.
  assert (Hrest : input (apply_resize resize_dir idx id size ui) = input ui
                  /\ interaction (apply_resize resize_dir idx id size ui)
                     = interaction ui).
  { unfold apply_resize, UI_Set_Size_Override.
    destruct (idx >=? 0); [|split; reflexivity].
    destruct (resize_dir =? 0); simpl;
      repeat match goal with
        | |- context [match ?e with _ => _ end] => destruct e; simpl
        end; split; reflexivity. }
  destruct (idx >=? 0).
  - split; [apply length_upd|]. split; [intros i; apply same_but_size_upd|].
    split; [|exact Hrest]. intros i Hne. now apply get_upd_other.
  - split; [reflexivity|]. split; [intros i; apply same_but_size_refl|].
    split; [reflexivity|exact Hrest].
Qed.

Lemma divider_resize_frame (ui : UI_Context) :
  let ui' := UI_Update_Divider_Resize ui in
  length (state ui') = length (state ui)
  /\ (forall i, same_but_size (get_panel (state ui) i) (get_panel (state ui') i))
  /\ (forall i, i <> drag_left_idx ui -> i <> drag_right_idx ui ->
        get_panel (state ui') i = get_panel (state ui) i)
  /\ input ui' = input ui /\ interaction ui' = interaction ui.
Proof.
  intros ui'. subst ui'. unfold UI_Update_Divider_Resize.
  assert (Hid : length (state ui) = length (state ui)
                /\ (forall i, same_but_size (get_panel (state ui) i) (get_panel (state ui) i))
                /\ (forall i, i <> drag_left_idx ui -> i <> drag_right_idx ui ->
                      get_panel (state ui) i = get_panel (state ui) i)
                /\ input ui = input ui /\ interaction ui = interaction ui).
  { split; [reflexivity|]. split; [intros; apply same_but_size_refl|].
    repeat split. }
  destruct (dragging_divider (interaction ui) =? 0); [exact Hid|].
  destruct ((drag_left_idx ui <? 0) && (drag_right_idx ui <? 0)); [exact Hid|].
  destruct (drag_divider_idx ui <? 0); [exact Hid|].
  destruct (drag_resize_dir ui <? 0); [exact Hid|].
  destruct (resize_sizes ui (drag_resize_dir ui) (drag_left_idx ui) (drag_right_idx ui))
    as [nl nr].
  set (ui1 := apply_resize (drag_resize_dir ui) (drag_left_idx ui)
                (resize_target_left_id (interaction ui)) nl ui).
  destruct (apply_resize_frame (drag_resize_dir ui) (drag_left_idx ui)
              (resize_target_left_id (interaction ui)) nl ui)
    as (L1 & S1 & O1 & I1 & T1). fold ui1 in L1, S1, O1, I1, T1.
  destruct (apply_resize_frame (drag_resize_dir ui) (drag_right_idx ui)
              (resize_target_right_id (interaction ui)) nr ui1)
    as (L2 & S2 & O2 & I2 & T2).
  split; [congruence|]. split.
  - intros i. eapply same_but_size_trans; [apply S1|apply S2].
  - split; [|split; congruence].
    intros i Hl Hr. rewrite O2 by exact Hr. now apply O1.
Qed.



Lemma hit_walk_preorder (step : UI_Panel -> Z -> Z) (fuel : nat) :
  (forall s idx hot,
      hit_tree step fuel s idx hot
      = option_map (fun l => hit_list step s l hot) (preorder fuel s idx))
  /\ (forall s c hot,
        hit_children step fuel s c hot
        = option_map (fun l => hit_list step s l hot) (preorder_children fuel s c)).
Proof.
  induction fuel as [|f [IHt IHc]]; split; intros; simpl.
  - reflexivity.
  - destruct (c =? -1); reflexivity.
  - rewrite IHc.
    destruct (preorder_children f s (first_child (get_panel s idx))); reflexivity.
  - destruct (c =? -1); [reflexivity|].
    rewrite IHt. destruct (preorder f s c) as [l1|]; simpl; [|reflexivity].
    rewrite IHc.
    destruct (preorder_children f s (next_sibling (get_panel s c))) as [l2|];
      simpl; [|reflexivity].
    unfold hit_list. now rewrite fold_left_app.
Qed.

Lemma last_hit_cons (test : UI_Panel -> bool) (a : UI_Panel) (l : list UI_Panel)
    (hot : Z) :
  last_hit test (a :: l) hot = last_hit test l (if test a then p_id a else hot).
Proof.
  unfold last_hit. rewrite filter_cons.
  destruct (decide (test a)) as [Hd|Hd].
  - apply Is_true_true in Hd. rewrite Hd, last_cons.
    destruct (last (filter test l)); reflexivity.
  - apply Is_true_false in Hd. rewrite Hd. reflexivity.
Qed.

Lemma hit_list_last_hit (test : UI_Panel -> bool) (step : UI_Panel -> Z -> Z)
    (s : UI_State) (order : list Z) (hot : Z) :
  (forall p h, step p h = if test p then p_id p else h) ->
  hit_list step s order hot = last_hit test (map (get_panel s) order) hot.
Proof.
  intros Hstep. revert hot. induction order as [|i order IH]; intros hot.
  - reflexivity.
  - simpl map. rewrite last_hit_cons, <- IH. unfold hit_list. simpl.
    now rewrite Hstep.
Qed.

Lemma hot_nonresizable_test (ui : UI_Context) (p : UI_Panel) (h : Z) :
  hot_nonresizable ui p h = if hits_nonresizable ui p then p_id p else h.
Proof.
  unfold hot_nonresizable, hits_nonresizable.
  destruct (negb (c_true (is_label p)) && negb (c_true (resizable (style p))));
    reflexivity.
Qed.

Lemma hot_resizable_test (ui : UI_Context) (p : UI_Panel) (h : Z) :
  hot_resizable ui p h = if hits_resizable ui p then p_id p else h.
Proof.
  unfold hot_resizable, hits_resizable.
  destruct (negb (c_true (is_label p)) && c_true (resizable (style p)));
    reflexivity.
Qed.

(** The pre-order of a tree depends on its links only. *)
Lemma preorder_links (fuel : nat) (s1 s2 : UI_State) :
  (forall i, first_child (get_panel s2 i) = first_child (get_panel s1 i)
             /\ next_sibling (get_panel s2 i) = next_sibling (get_panel s1 i)) ->
  (forall idx, preorder fuel s2 idx = preorder fuel s1 idx)
  /\ (forall c, preorder_children fuel s2 c = preorder_children fuel s1 c).
Proof.
  intros H. induction fuel as [|f [IHt IHc]]; split; intros; simpl.
  - reflexivity.
  - reflexivity.
  - now rewrite (proj1 (H idx)), IHc.
  - destruct (c =? -1); [reflexivity|].
    now rewrite IHt, (proj2 (H c)), IHc.
Qed.

Lemma same_but_size_hits (ui ui' : UI_Context) (p q : UI_Panel) :
  same_but_size p q -> input ui' = input ui ->
  hits_nonresizable ui' q = hits_nonresizable ui p
  /\ hits_resizable ui' q = hits_resizable ui p
  /\ p_id q = p_id p /\ resizable (style q) = resizable (style p).
Proof.
  intros (A1 & A2 & A3 & A4 & A5 & A6 & A7 & A8 & A9 & A10) Hin.
  assert (Hr : resizable (style q) = resizable (style p))
    by exact (f_equal resizable A10).
  assert (Hp : resize_hitbox_padding (style q) = resize_hitbox_padding (style p))
    by exact (f_equal resize_hitbox_padding A10).
  unfold hits_nonresizable, hits_resizable, UI_Is_Hovered.
  rewrite A9, A6, Hr, Hp, Hin. auto.
Qed.

Lemma last_hit_related (test test' : UI_Panel -> bool) (g g' : Z -> UI_Panel)
    (order : list Z) (hot : Z) :
  (forall i, test' (g' i) = test (g i) /\ p_id (g' i) = p_id (g i)) ->
  last_hit test' (map g' order) hot = last_hit test (map g order) hot.
Proof.
  intros H. revert hot. induction order as [|i order IH]; intros hot; [reflexivity|].
  simpl map. rewrite !last_hit_cons, IH.
  destruct (H i) as [-> ->]. reflexivity.
Qed.

Lemma UI_Find_Adjacent_Panel_total (s : UI_State) (d : Z) :
  links_increasing s -> 0 < panel_count s ->
  exists r, UI_Find_Adjacent_Panel s d = Some r.
Proof.
  intros Hw Hn. unfold UI_Find_Adjacent_Panel.
  destruct (parent (get_panel s d) <? 0); [eauto|].
  set (par := parent (get_panel s d)).
  assert (Hc : first_child (get_panel s par) = -1
               \/ 0 <= first_child (get_panel s par) < panel_count s).
  { destruct (Z_lt_dec par 0) as [Hneg|Hnn];
      [rewrite get_out_of_range by lia; right; simpl; lia|].
    destruct (Z_lt_dec par (panel_count s)) as [Hlt|Hge];
      [|rewrite get_out_of_range by lia; right; simpl; lia].
    destruct (proj1 (Hw par ltac:(lia))) as [H|H]; [now left|right; lia]. }
  destruct (sibling_chain_total s (chain_fuel s) (first_child (get_panel s par)) Hw)
    as [l Hl].
  { destruct Hc as [Hc|Hc]; [now left|right]. split; [exact Hc|].
    unfold chain_fuel, panel_count in *. lia. }
  rewrite (find_prev_sibling_chain _ _ _ _ _ _ Hl). eauto.
Qed.

(** The two hit passes of [UI_Update_Interaction] after the drag step,
    in terms of the tree before it. *)
Lemma hit_passes (ui : UI_Context) :
  links_increasing (state ui) -> 0 < panel_count (state ui) ->
  let ui1 := UI_Update_Divider_Resize ui in
  exists order hot1,
    preorder (tree_fuel (state ui)) (state ui) 0 = Some order
    /\ UI_Update_Panel_Interaction_NonResizable ui1 (state ui1) 0 0 = Some hot1
    /\ hot1 = last_hit (hits_nonresizable ui) (map (get_panel (state ui)) order) 0
    /\ UI_Update_Panel_Interaction_Resizable ui1 (state ui1) 0 hot1
       = Some (last_hit (hits_resizable ui) (map (get_panel (state ui)) order) hot1).
Proof.
  intros Hw Hn ui1.
  destruct (divider_resize_frame ui) as (L & S & _ & I & _). fold ui1 in L, S, I.
  destruct (proj1 (preorder_total (tree_fuel (state ui))) (state ui) 0 Hw) as [order Ho].
  { lia. } { unfold tree_fuel, panel_count in *. lia. }
  assert (Hfuel : tree_fuel (state ui1) = tree_fuel (state ui))
    by (unfold tree_fuel; now rewrite L).
  assert (Ho1 : preorder (tree_fuel (state ui1)) (state ui1) 0 = Some order).
  { rewrite Hfuel, <- Ho. apply preorder_links. intros i.
    destruct (S i) as (_ & _ & A3 & _ & A5 & _). auto. }
  exists order, (last_hit (hits_nonresizable ui) (map (get_panel (state ui)) order) 0).
  split; [exact Ho|].
  unfold UI_Update_Panel_Interaction_NonResizable, UI_Update_Panel_Interaction_Resizable.
  rewrite !(proj1 (hit_walk_preorder _ _)), Ho1. simpl.
  rewrite (hit_list_last_hit (hits_nonresizable ui1)) by apply hot_nonresizable_test.
  rewrite (hit_list_last_hit (hits_resizable ui1)) by apply hot_resizable_test.
  rewrite (last_hit_related (hits_nonresizable ui) (hits_nonresizable ui1)
             (get_panel (state ui)) (get_panel (state ui1))).
  2:{ intros i. destruct (same_but_size_hits ui ui1 _ _ (S i) I) as (H1 & _ & H3 & _).
      auto. }
  rewrite (last_hit_related (hits_resizable ui) (hits_resizable ui1)
             (get_panel (state ui)) (get_panel (state ui1))).
  2:{ intros i. destruct (same_but_size_hits ui ui1 _ _ (S i) I) as (_ & H2 & H3 & _).
      auto. }
  auto.
Qed.

Lemma drag_start_total (u : UI_Context) :
  links_increasing (state u) -> 0 < panel_count (state u) ->
  exists u', drag_start u = Some u'
             /\ hot_widget (interaction u') = hot_widget (interaction u)
             /\ state u' = state u /\ input u' = input u
             /\ size_overrides u' = size_overrides u.
Proof.
  intros Hw Hn. unfold drag_start.
  destruct ((UI_Find_Panel_By_Id (state u) (hot_widget (interaction u)) >=? 0)
            && c_true (resizable (style (get_panel (state u)
                 (UI_Find_Panel_By_Id (state u) (hot_widget (interaction u))))))).
  - destruct (UI_Find_Adjacent_Panel_total (state u)
                (UI_Find_Panel_By_Id (state u) (hot_widget (interaction u))) Hw Hn)
      as [r ->].
    eexists. split; [reflexivity|]. repeat split.
  - eexists. split; [reflexivity|]. repeat split.
Qed.

(** The interaction update on a well-linked tree, step by step. *)
Lemma update_interaction_run (ui : UI_Context) :
  links_increasing (state ui) ->
  let ui1 := UI_Update_Divider_Resize ui in
  exists hot ui3,
    (0 < panel_count (state ui) ->
     exists order,
       preorder (tree_fuel (state ui)) (state ui) 0 = Some order
       /\ hot = last_hit (hits_resizable ui) (map (get_panel (state ui)) order)
                  (last_hit (hits_nonresizable ui) (map (get_panel (state ui)) order) 0))
    /\ (panel_count (state ui) = 0 -> hot = 0)
    /\ (if c_true (UI_Is_Mouse_Pressed ui UI_MOUSE_LEFT) && negb (hot =? 0)
        then drag_start (set_interaction (set_hot_widget hot (interaction ui)) ui1)
        else Some (set_interaction (set_hot_widget hot (interaction ui)) ui1)) = Some ui3
    /\ hot_widget (interaction ui3) = hot
    /\ state ui3 = state ui1 /\ input ui3 = input ui
    /\ size_overrides ui3 = size_overrides ui1
    /\ UI_Update_Interaction ui
       = Some (if c_true (UI_Is_Mouse_Released ui UI_MOUSE_LEFT)
               then drag_end ui3 else ui3).
Proof.
  intros Hw ui1.
  destruct (divider_resize_frame ui) as (L & S & _ & I & T). fold ui1 in L, S, I, T.
  assert (Hc : panel_count (state ui1) = panel_count (state ui))
    by (unfold panel_count; now rewrite L).
  assert (Hw1 : links_increasing (state ui1)).
  { intros i Hi. rewrite Hc in *.
    destruct (S i) as (_ & _ & A3 & _ & A5 & _). rewrite A3, A5. now apply Hw. }
  assert (Hhot : exists hot,
             (if panel_count (state ui1) >? 0 then
                match UI_Update_Panel_Interaction_NonResizable ui1 (state ui1) 0 0 with
                | None => None
                | Some hot1 => UI_Update_Panel_Interaction_Resizable ui1 (state ui1) 0 hot1
                end
              else Some 0) = Some hot
             /\ (0 < panel_count (state ui) ->
                 exists order,
                   preorder (tree_fuel (state ui)) (state ui) 0 = Some order
                   /\ hot = last_hit (hits_resizable ui) (map (get_panel (state ui)) order)
                              (last_hit (hits_nonresizable ui)
                                 (map (get_panel (state ui)) order) 0))
             /\ (panel_count (state ui) = 0 -> hot = 0)).
  { rewrite Hc. destruct (panel_count (state ui) >? 0) eqn:En.
    - destruct (hit_passes ui Hw ltac:(lia)) as (order & hot1 & Ho & H1 & E1 & H2).
      fold ui1 in H1, H2. rewrite H1, H2. eexists. split; [reflexivity|].
      split; [|lia]. intros _. exists order. split; [exact Ho|]. now rewrite E1.
    - exists 0. split; [reflexivity|]. split; [lia|reflexivity]. }
  destruct Hhot as (hot & Hrun & Hpos & Hzero).
  set (ui2 := set_interaction (set_hot_widget hot (interaction ui)) ui1).
  assert (Hp : UI_Is_Mouse_Pressed ui2 UI_MOUSE_LEFT = UI_Is_Mouse_Pressed ui UI_MOUSE_LEFT)
    by (unfold UI_Is_Mouse_Pressed, ui2; simpl; now rewrite I).
  assert (H3 : exists ui3,
             (if c_true (UI_Is_Mouse_Pressed ui UI_MOUSE_LEFT) && negb (hot =? 0)
              then drag_start ui2 else Some ui2) = Some ui3
             /\ hot_widget (interaction ui3) = hot
             /\ state ui3 = state ui1 /\ input ui3 = input ui
             /\ size_overrides ui3 = size_overrides ui1).
  { destruct (c_true (UI_Is_Mouse_Pressed ui UI_MOUSE_LEFT) && negb (hot =? 0)) eqn:Ep.
    - assert (Hn : 0 < panel_count (state ui)).
      { destruct (Z_lt_dec 0 (panel_count (state ui))) as [H|H]; [exact H|].
        assert (Hz : panel_count (state ui) = 0) by (unfold panel_count in *; lia).
        specialize (Hzero Hz). subst hot. rewrite andb_false_r in Ep. discriminate. }
      destruct (drag_start_total ui2) as (u' & Hd & Hh & Hs & Hi & Ho).
      { exact Hw1. } { simpl. lia. }
      exists u'. split; [exact Hd|]. split; [exact Hh|]. split; [exact Hs|].
      split; [now rewrite Hi|exact Ho].
    - exists ui2. repeat split. exact I. }
  destruct H3 as (ui3 & Hstep & Hh & Hs & Hi & Ho).
  exists hot, ui3. split; [exact Hpos|]. split; [exact Hzero|].
  split; [exact Hstep|].
  split; [exact Hh|]. split; [exact Hs|]. split; [exact Hi|]. split; [exact Ho|].
  unfold UI_Update_Interaction. fold ui1. rewrite Hrun.
  rewrite T. fold ui2. rewrite Hp.
  change (hot_widget (interaction ui2)) with hot. rewrite Hstep.
  assert (Hr : UI_Is_Mouse_Released ui3 UI_MOUSE_LEFT
               = UI_Is_Mouse_Released ui UI_MOUSE_LEFT)
    by (unfold UI_Is_Mouse_Released; now rewrite Hi).
  now rewrite Hr.
Qed.

(** X12: on a well-linked tree the interaction update returns, and the
    hot widget it leaves is the id of the last panel in pre-order among
    the resizable panels (labels excluded) whose rect grown by the
    hitbox padding contains the pointer; when there is none, of the last
    in pre-order among the other panels (labels excluded) whose rect
    contains the pointer; and 0 when no panel is hit or the tree is
    empty.  A press or a release in the same frame does not change
    it. *)
Theorem X12_hot_widget_priority (ui : UI_Context) :
  links_increasing (state ui) ->
  exists ui',
    UI_Update_Interaction ui = Some ui'
    /\ (0 < panel_count (state ui) ->
        exists order,
          preorder (tree_fuel (state ui)) (state ui) 0 = Some order
          /\ hot_widget (interaction ui')
             = last_hit (hits_resizable ui) (map (get_panel (state ui)) order)
                 (last_hit (hits_nonresizable ui) (map (get_panel (state ui)) order) 0))
    /\ (panel_count (state ui) = 0 -> hot_widget (interaction ui') = 0).
Proof.
  intros Hw.
  destruct (update_interaction_run ui Hw)
    as (hot & ui3 & Hpos & Hzero & _ & Hh & _ & _ & _ & Hrun).
  eexists. split; [exact Hrun|].
  assert (Hhot : hot_widget (interaction
                   (if c_true (UI_Is_Mouse_Released ui UI_MOUSE_LEFT)
                    then drag_end ui3 else ui3)) = hot).
  { destruct (c_true (UI_Is_Mouse_Released ui UI_MOUSE_LEFT)); [|exact Hh].
    unfold drag_end. destruct (negb (dragging_divider (interaction ui3) =? 0));
      exact Hh. }
  rewrite Hhot. split; [exact Hpos|exact Hzero].
Qed.

Lemma X12_hot_widget_priority_witness :
  exists ui',
    UI_Update_Interaction drag_ctx = Some ui'
    /\ (0 < panel_count (state drag_ctx) ->
        exists order,
          preorder (tree_fuel (state drag_ctx)) (state drag_ctx) 0 = Some order
          /\ hot_widget (interaction ui')
             = last_hit (hits_resizable drag_ctx) (map (get_panel (state drag_ctx)) order)
                 (last_hit (hits_nonresizable drag_ctx)
                    (map (get_panel (state drag_ctx)) order) 0))
    /\ (panel_count (state drag_ctx) = 0 -> hot_widget (interaction ui') = 0).
Proof.
  apply X12_hot_widget_priority.
  apply links_increasing_b_sound. vm_compute. reflexivity.
Defined.

(** X13: the press and release edges of the left button.  Without an
    edge only the hot widget changes.  On a release a drag in progress
    is ended (all six drag fields are cleared, the active widget is
    kept), and otherwise the active widget is cleared.  On a press with
    no drag in progress: nothing is hot, nothing happens; the hot panel
    is not resizable, it becomes the active widget; the hot panel is
    resizable, a drag starts, which records the hot id, the pointer
    coordinate along the direction of the divider's parent, and the ids
    and laid-out sizes of the siblings before and after the divider (0
    for a missing one), and leaves the active widget alone. *)
Theorem X13_press_release (ui : UI_Context) :
  links_increasing (state ui) ->
  exists ui',
    UI_Update_Interaction ui = Some ui'
    /\ input ui' = input ui
    /\ state ui' = state (UI_Update_Divider_Resize ui)
    /\ let it := interaction ui in
       let it' := interaction ui' in
       let hot := hot_widget it' in
       let pressed := UI_Is_Mouse_Pressed ui UI_MOUSE_LEFT in
       let released := UI_Is_Mouse_Released ui UI_MOUSE_LEFT in
       let hot_idx := UI_Find_Panel_By_Id (state ui) hot in
       let dir := UI_Get_Resize_Direction (state ui) hot_idx in
       (pressed = 0 -> released = 0 -> it' = set_hot_widget hot it)
       /\ (pressed = 0 -> released <> 0 -> dragging_divider it = 0 ->
           it' = set_active_widget 0 (set_hot_widget hot it))
       /\ (pressed = 0 -> released <> 0 -> dragging_divider it <> 0 ->
           it' = set_drag 0 0 0 0 0 0 (set_hot_widget hot it))
       /\ (pressed <> 0 -> released = 0 -> dragging_divider it = 0 ->
           (hot = 0 -> it' = set_hot_widget hot it)
           /\ (hot <> 0 ->
               hot_idx < 0 \/ resizable (style (get_panel (state ui) hot_idx)) = 0 ->
               it' = set_active_widget hot (set_hot_widget hot it))
           /\ (hot <> 0 -> 0 <= hot_idx ->
               resizable (style (get_panel (state ui) hot_idx)) <> 0 ->
               exists li,
                 UI_Find_Adjacent_Panel (state ui) hot_idx = Some li
                 /\ let ri := UI_Find_Next_Panel (state ui) hot_idx in
                    let size := fun p => if dir =? 0 then w (rect p) else h (rect p) in
                    it' = set_drag hot
                            (if dir =? 0 then mouse_x (input ui) else mouse_y (input ui))
                            (if li >=? 0 then size (get_panel (state ui) li) else 0)
                            (if ri >=? 0 then size (get_panel (state ui) ri) else 0)
                            (if li >=? 0 then p_id (get_panel (state ui) li) else 0)
                            (if ri >=? 0 then p_id (get_panel (state ui) ri) else 0)
                            (set_hot_widget hot it))).
Proof.
  intros Hw.
  destruct (update_interaction_run ui Hw)
    as (hot & ui3 & _ & _ & Hstep & Hh & Hs & Hi & _ & Hrun).
  eexists. split; [exact Hrun|].
  assert (Hhot : hot_widget (interaction
                   (if c_true (UI_Is_Mouse_Released ui UI_MOUSE_LEFT)
                    then drag_end ui3 else ui3)) = hot).
  { destruct (c_true (UI_Is_Mouse_Released ui UI_MOUSE_LEFT)); [|exact Hh].
    unfold drag_end. destruct (negb (dragging_divider (interaction ui3) =? 0));
      exact Hh. }
  split.
  { destruct (c_true (UI_Is_Mouse_Released ui UI_MOUSE_LEFT)); [|exact Hi].
    unfold drag_end. destruct (negb (dragging_divider (interaction ui3) =? 0));
      exact Hi. }
  split.
  { destruct (c_true (UI_Is_Mouse_Released ui UI_MOUSE_LEFT)); [|exact Hs].
    unfold drag_end. destruct (negb (dragging_divider (interaction ui3) =? 0));
      exact Hs. }
  cbv zeta. rewrite Hhot. unfold c_true in *.
  split; [|split; [|split]].
  - intros Hp Hr. rewrite Hp in Hstep. rewrite Hr. simpl in *.
    injection Hstep as <-. reflexivity.
  - intros Hp Hr Hd. rewrite Hp in Hstep. simpl in Hstep. injection Hstep as <-.
    destruct (UI_Is_Mouse_Released ui UI_MOUSE_LEFT =? 0) eqn:Er; [lia|]. simpl.
    unfold drag_end. simpl. rewrite Hd. reflexivity.
  - intros Hp Hr Hd. rewrite Hp in Hstep. simpl in Hstep. injection Hstep as <-.
    destruct (UI_Is_Mouse_Released ui UI_MOUSE_LEFT =? 0) eqn:Er; [lia|]. simpl.
    unfold drag_end. simpl.
    destruct (dragging_divider (interaction ui) =? 0) eqn:Ed; [lia|]. reflexivity.
  - intros Hp Hr Hd. rewrite Hr. simpl.
    assert (H1 : UI_Update_Divider_Resize ui = ui)
      by (unfold UI_Update_Divider_Resize; now rewrite Hd).
    rewrite H1 in Hstep.
    destruct (UI_Is_Mouse_Pressed ui UI_MOUSE_LEFT =? 0) eqn:Ep; [lia|].
    simpl in Hstep. split; [|split].
    + intros H0. rewrite H0 in Hstep. simpl in Hstep. injection Hstep as <-.
      now rewrite H0.
    + intros H0 Hnr. destruct (hot =? 0) eqn:E0; [lia|]. simpl in Hstep.
      unfold drag_start, c_true in Hstep. simpl in Hstep.
      destruct ((UI_Find_Panel_By_Id (state ui) hot >=? 0)
                && negb (resizable (style (get_panel (state ui)
                           (UI_Find_Panel_By_Id (state ui) hot))) =? 0)) eqn:Eb;
        [lia|].
      injection Hstep as <-. reflexivity.
    + intros H0 Hidx Hres. destruct (hot =? 0) eqn:E0; [lia|]. simpl in Hstep.
      unfold drag_start, c_true in Hstep. simpl in Hstep.
      destruct ((UI_Find_Panel_By_Id (state ui) hot >=? 0)
                && negb (resizable (style (get_panel (state ui)
                           (UI_Find_Panel_By_Id (state ui) hot))) =? 0)) eqn:Eb;
        [|lia].
      destruct (UI_Find_Adjacent_Panel (state ui) (UI_Find_Panel_By_Id (state ui) hot))
        as [li|]; [|discriminate].
      injection Hstep as <-. exists li. split; reflexivity.
Qed.

Lemma X13_press_release_witness :
  exists ui', UI_Update_Interaction drag_ctx = Some ui' /\ input ui' = input drag_ctx.
Proof.
  destruct (X13_press_release drag_ctx) as (ui' & H1 & H2 & _).
  - apply links_increasing_b_sound. vm_compute. reflexivity.
  - exists ui'. split; assumption.
Defined.

(** ** The builder: consistent trees, balanced stack *)

(** The panels after linking the new panel [n] under [par], when the
    last child of [par] (if any) is a live panel other than [par]. *)
Lemma UI_AddChild_get (s0 : UI_State) (par n i : Z) :
  panel_count s0 = n + 1 -> 0 <= par < n ->
  (first_child (get_panel s0 par) <> -1 ->
   0 <= last_child (get_panel s0 par) < n /\ last_child (get_panel s0 par) <> par) ->
  get_panel (UI_AddChild s0 par n) i
  = if i =? n then set_next_sibling (-1) (set_parent par (get_panel s0 n))
    else if i =? par then
      if first_child (get_panel s0 par) =? -1
      then set_last_child n (set_first_child n (get_panel s0 par))
      else set_last_child n (get_panel s0 par)
    else if negb (first_child (get_panel s0 par) =? -1)
            && (i =? last_child (get_panel s0 par))
    then set_next_sibling n (get_panel s0 i)
    else get_panel s0 i.
Proof.
  intros Hn Hpar Hlc. unfold UI_AddChild.
  set (g := fun c => set_next_sibling (-1) (set_parent par c)).
  set (s1 := upd_panel s0 n g).
  assert (H1n : get_panel s1 n = g (get_panel s0 n))
    by (unfold s1; apply get_upd_same; lia).
  assert (H1o : forall j, j <> n -> get_panel s1 j = get_panel s0 j)
    by (intros j Hj; unfold s1; apply get_upd_other; lia).
  assert (Hc1 : panel_count s1 = n + 1)
    by (unfold s1; now rewrite panel_count_upd).
  rewrite (H1o par) by lia.
  destruct (first_child (get_panel s0 par) =? -1) eqn:Efc.
  - simpl. destruct (i =? n) eqn:Ein.
    + apply Z.eqb_eq in Ein. subst i. rewrite get_upd_other by lia. exact H1n.
    + apply Z.eqb_neq in Ein. destruct (i =? par) eqn:Eip.
      * apply Z.eqb_eq in Eip. subst i. rewrite get_upd_same by lia.
        now rewrite H1o by lia.
      * apply Z.eqb_neq in Eip. rewrite get_upd_other by lia. now apply H1o.
  - simpl. destruct Hlc as [Hlc Hne]; [intros He; rewrite He in Efc; discriminate|].
    set (lc := last_child (get_panel s0 par)) in *.
    set (s2 := upd_panel s1 lc (set_next_sibling n)).
    assert (Hc2 : panel_count s2 = n + 1)
      by (unfold s2; now rewrite panel_count_upd).
    destruct (i =? n) eqn:Ein.
    + apply Z.eqb_eq in Ein. subst i. rewrite get_upd_other by lia.
      unfold s2. rewrite get_upd_other by lia. exact H1n.
    + apply Z.eqb_neq in Ein. destruct (i =? par) eqn:Eip.
      * apply Z.eqb_eq in Eip. subst i. rewrite get_upd_same by lia.
        unfold s2. rewrite get_upd_other by lia. now rewrite H1o by lia.
      * apply Z.eqb_neq in Eip. rewrite get_upd_other by lia.
        destruct (i =? lc) eqn:Eil.
        -- apply Z.eqb_eq in Eil. subst i. unfold s2. rewrite get_upd_same by lia.
           now rewrite H1o by lia.
        -- apply Z.eqb_neq in Eil. unfold s2. rewrite get_upd_other by lia.
           now apply H1o.
Qed.

(** The four links of every panel after the new panel [n] is appended
    to a consistent arena and linked under the live panel [par]. *)
Lemma add_child_fields (s : UI_State) (id par j : Z) :
  tree_ok s -> 0 <= par < panel_count s -> 0 <= j <= panel_count s ->
  let n := panel_count s in
  let s' := UI_AddChild (s ++ [new_panel id]) par n in
  let had := negb (first_child (get_panel s par) =? -1) in
  let lc := last_child (get_panel s par) in
  parent (get_panel s' j) = (if j =? n then par else parent (get_panel s j))
  /\ first_child (get_panel s' j)
     = (if j =? n then -1
        else if (j =? par) && negb had then n else first_child (get_panel s j))
  /\ last_child (get_panel s' j)
     = (if j =? n then -1 else if j =? par then n else last_child (get_panel s j))
  /\ next_sibling (get_panel s' j)
     = (if j =? n then -1
        else if had && (j =? lc) then n else next_sibling (get_panel s j))
  /\ (had = true -> par < lc < n /\ parent (get_panel s lc) = par)
  /\ panel_count s' = n + 1.
Proof.
  intros Hok Hpar Hj n s' had lc.
  assert (Hc0 : panel_count (s ++ [new_panel id]) = n + 1).
  { unfold n, panel_count. rewrite length_app. simpl. lia. }
  assert (Hold : forall k, 0 <= k < n -> get_panel (s ++ [new_panel id]) k = get_panel s k)
    by (intros k Hk; now apply get_panel_app_old).
  assert (Hnew : get_panel (s ++ [new_panel id]) n = new_panel id)
    by apply get_panel_app_new.
  assert (Hhad : had = true -> par < lc < n /\ parent (get_panel s lc) = par).
  { unfold had. intros Hh. destruct (Hok par Hpar) as (_ & [[Hf _]|Hr] & _).
    - rewrite Hf in Hh. discriminate.
    - fold n lc in Hr. lia. }
  assert (Hget := UI_AddChild_get (s ++ [new_panel id]) par n j Hc0 Hpar).
  rewrite (Hold par Hpar) in Hget. fold lc in Hget.
  rewrite Hnew in Hget.
  assert (Hpre : first_child (get_panel s par) <> -1 -> 0 <= lc < n /\ lc <> par).
  { intros Hne.
    assert (Hh : had = true).
    { unfold had. destruct (first_child (get_panel s par) =? -1) eqn:E;
        [lia|reflexivity]. }
    destruct (Hhad Hh) as [H1 _]. lia. }
  specialize (Hget Hpre). fold s' in Hget.
  assert (Hcnt : panel_count s' = n + 1).
  { unfold s', panel_count. rewrite (proj2 (UI_AddChild_style _ par n 0)).
    exact Hc0. }
  split; [|split; [|split; [|split; [|split; [exact Hhad|exact Hcnt]]]]];
    rewrite Hget; fold had;
    destruct (j =? n) eqn:Ejn; try reflexivity;
    rewrite (Hold j) by lia;
    destruct (j =? par) eqn:Ejp;
    destruct (first_child (get_panel s par) =? -1) eqn:Efc;
    unfold had; rewrite ?Efc; simpl; try reflexivity;
    destruct (j =? lc) eqn:Ejl; simpl; try reflexivity.
  all: apply Z.eqb_eq in Ejp; subst j; try reflexivity.
  all: apply Z.eqb_eq in Ejl; apply Z.eqb_neq in Efc;
    destruct (Hpre Efc) as [_ Hne]; congruence.
Qed.

Lemma tree_ok_add_child (s : UI_State) (id par : Z) :
  tree_ok s -> 0 <= par < panel_count s ->
  tree_ok (UI_AddChild (s ++ [new_panel id]) par (panel_count s)).
Proof.
  intros Hok Hpar.
  set (n := panel_count s). set (s' := UI_AddChild (s ++ [new_panel id]) par n).
  assert (Hn0 : 0 <= n) by (unfold n, panel_count; lia).
  assert (F : forall j, 0 <= j <= n ->
            parent (get_panel s' j) = (if j =? n then par else parent (get_panel s j))
            /\ first_child (get_panel s' j)
               = (if j =? n then -1
                  else if (j =? par) && negb (negb (first_child (get_panel s par) =? -1))
                       then n else first_child (get_panel s j))
            /\ last_child (get_panel s' j)
               = (if j =? n then -1 else if j =? par then n else last_child (get_panel s j))
            /\ next_sibling (get_panel s' j)
               = (if j =? n then -1
                  else if negb (first_child (get_panel s par) =? -1)
                          && (j =? last_child (get_panel s par))
                       then n else next_sibling (get_panel s j))).
  { intros j Hj.
    destruct (add_child_fields s id par j Hok Hpar Hj) as (A & B & C & D & _).
    auto. }
  destruct (add_child_fields s id par 0 Hok Hpar ltac:(lia)) as (_ & _ & _ & _ & Hhad & Hcnt).
  fold n in Hhad, Hcnt. fold s' in Hcnt.
  intros i Hi. rewrite Hcnt in Hi |- *. cbv zeta.
  destruct (F i ltac:(lia)) as (Pi & Fi & Li & Ni).
  destruct (Z.eq_dec i n) as [->|Hin].
  - rewrite Pi, Fi, Li, Ni, Z.eqb_refl. split; [right; lia|]. split; [now left|now left].
  - assert (Hi' : 0 <= i < panel_count s) by (fold n; lia).
    destruct (Hok i Hi') as (Hp & Hc & Hx). fold n in Hc, Hx.
    destruct (i =? n) eqn:Ein; [lia|].
    rewrite Pi. split; [exact Hp|]. split.
    + rewrite Fi, Li.
      destruct (i =? par) eqn:Eip.
      * apply Z.eqb_eq in Eip. subst i.
        destruct (first_child (get_panel s par) =? -1) eqn:Efc; simpl.
        -- right. destruct (F n ltac:(lia)) as (Pn & _ & _ & Nn).
           rewrite Pn, Nn, Z.eqb_refl. lia.
        -- right. destruct Hc as [[Hf _]|(H1 & H2 & H3 & H4 & H5)]; [lia|].
           destruct (F n ltac:(lia)) as (Pn & _ & _ & Nn).
           destruct (F (first_child (get_panel s par)) ltac:(lia)) as (Pf & _).
           rewrite Pn, Nn, Pf, Z.eqb_refl.
           destruct (first_child (get_panel s par) =? n) eqn:E; [lia|]. lia.
      * simpl. destruct Hc as [Hl|(H1 & H2 & H3 & H4 & H5)]; [now left|right].
        destruct (F (first_child (get_panel s i)) ltac:(lia)) as (Pf & _).
        destruct (F (last_child (get_panel s i)) ltac:(lia)) as (Pl & _ & _ & Nl).
        rewrite Pf, Pl, Nl.
        destruct (first_child (get_panel s i) =? n) eqn:E1; [lia|].
        destruct (last_child (get_panel s i) =? n) eqn:E2; [lia|].
        destruct (negb (first_child (get_panel s par) =? -1)
                  && (last_child (get_panel s i) =? last_child (get_panel s par)))
          eqn:E3.
        -- apply andb_true_iff in E3 as [E3 E4]. apply Z.eqb_eq in E4.
           destruct (Hhad E3) as [_ Hpl]. rewrite <- E4 in Hpl. lia.
        -- lia.
    + rewrite Ni.
      destruct (negb (first_child (get_panel s par) =? -1)
                && (i =? last_child (get_panel s par))) eqn:E3.
      * apply andb_true_iff in E3 as [E3 E4]. apply Z.eqb_eq in E4.
        destruct (Hhad E3) as [Hr Hpl]. right.
        destruct (F n ltac:(lia)) as (Pn & _). rewrite Pn, Z.eqb_refl.
        rewrite E4, Hpl. lia.
      * destruct Hx as [Hx|(H1 & H2 & H3)]; [now left|right].
        destruct (F (next_sibling (get_panel s i)) ltac:(lia)) as (Px & _).
        rewrite Px. destruct (next_sibling (get_panel s i) =? n) eqn:E; [lia|]. lia.
Qed.

Lemma tree_ok_links (s s' : UI_State) :
  panel_count s' = panel_count s ->
  (forall i, parent (get_panel s' i) = parent (get_panel s i)
             /\ first_child (get_panel s' i) = first_child (get_panel s i)
             /\ last_child (get_panel s' i) = last_child (get_panel s i)
             /\ next_sibling (get_panel s' i) = next_sibling (get_panel s i)) ->
  tree_ok s -> tree_ok s'.
Proof.
  intros Hc H Hok i Hi. rewrite Hc in Hi |- *. cbv zeta.
  destruct (H i) as (-> & -> & -> & ->).
  destruct (H (first_child (get_panel s i))) as (-> & _).
  destruct (H (last_child (get_panel s i))) as (-> & _ & _ & ->).
  destruct (H (next_sibling (get_panel s i))) as (-> & _).
  exact (Hok i Hi).
Qed.

Lemma upd_tree_links_kept (s : UI_State) (i j : Z) (f : UI_Panel -> UI_Panel) :
  tree_links_kept f ->
  parent (get_panel (upd_panel s i f) j) = parent (get_panel s j)
  /\ first_child (get_panel (upd_panel s i f) j) = first_child (get_panel s j)
  /\ last_child (get_panel (upd_panel s i f) j) = last_child (get_panel s j)
  /\ next_sibling (get_panel (upd_panel s i f) j) = next_sibling (get_panel s j).
Proof.
  intros Hf. destruct (Z.eq_dec i j) as [<-|Hne].
  - destruct (Z_lt_dec i 0) as [Hneg|Hnn];
      [rewrite upd_out_of_range by lia; auto|].
    destruct (Z_lt_dec i (panel_count s)) as [Hlt|Hge];
      [|rewrite upd_out_of_range by lia; auto].
    rewrite get_upd_same by lia. apply Hf.
  - rewrite get_upd_other by exact Hne. auto.
Qed.

(** Appending a panel without links keeps the arena consistent. *)
Lemma tree_ok_append (s : UI_State) (id : Z) :
  tree_ok s -> tree_ok (s ++ [new_panel id]).
Proof.
  intros Hok i Hi.
  assert (Hc : panel_count (s ++ [new_panel id]) = panel_count s + 1).
  { unfold panel_count. rewrite length_app. simpl. lia. }
  rewrite Hc in Hi |- *. cbv zeta.
  destruct (Z.eq_dec i (panel_count s)) as [->|Hne].
  - rewrite get_panel_app_new. simpl. split; [now left|]. split; now left.
  - assert (Hi' : 0 <= i < panel_count s) by lia.
    rewrite (get_panel_app_old s _ i Hi').
    destruct (Hok i Hi') as (Hp & Hc' & Hx). split; [exact Hp|]. split.
    + destruct Hc' as [Hl|(H1 & H2 & H3 & H4 & H5)]; [now left|right].
      rewrite !get_panel_app_old by lia. lia.
    + destruct Hx as [Hl|(H1 & H2 & H3)]; [now left|right].
      rewrite !get_panel_app_old by lia. lia.
Qed.

Lemma built_tree_begin_panel_with (ctx : UI_Context) (id : Z) :
  built_tree ctx -> built_tree (begin_panel_with ctx id).
Proof.
  intros (Hok & Hst & Hcap & Hdepth). unfold begin_panel_with, UI_NewPanel.
  destruct (panel_count (state ctx) >=? UI_MAX_PANELS) eqn:Efull.
  { simpl. exact (conj Hok (conj Hst (conj Hcap Hdepth))). }
  set (s := state ctx) in *. set (n := panel_count s) in *.
  assert (Hn0 : 0 <= n) by (unfold n, panel_count; lia).
  destruct (n <? 0) eqn:En; [lia|].
  assert (Hc0 : panel_count (s ++ [new_panel id]) = n + 1).
  { unfold n, panel_count. rewrite length_app. simpl. lia. }
  assert (Hstack : forall s2, panel_count s2 = n + 1 ->
            Forall (fun i => 0 <= i < panel_count s2)
              (if Z.of_nat (length (parent_stack ctx)) <? 32
               then parent_stack ctx ++ [n] else parent_stack ctx)
            /\ panel_count s2 <= UI_MAX_PANELS
            /\ Z.of_nat (length (if Z.of_nat (length (parent_stack ctx)) <? 32
                                 then parent_stack ctx ++ [n] else parent_stack ctx))
               <= 32).
  { intros s2 ->.
    assert (Hold : Forall (fun i => 0 <= i < n + 1) (parent_stack ctx)).
    { eapply Forall_impl; [exact Hst|]. simpl. intros; lia. }
    split; [|split; [lia|]].
    - destruct (Z.of_nat (length (parent_stack ctx)) <? 32); [|exact Hold].
      apply Forall_app. split; [exact Hold|]. constructor; [lia|constructor].
    - destruct (Z.of_nat (length (parent_stack ctx)) <? 32) eqn:E; [|exact Hdepth].
      rewrite length_app. simpl. lia. }
  destruct (Z.of_nat (length (parent_stack ctx)) >? 0) eqn:Est.
  - assert (Htop : 0 <= stack_top (parent_stack ctx) < n).
    { apply stack_top_live; [exact Hst|lia]. }
    destruct (stack_top (parent_stack ctx) >=? 0) eqn:Et; [|lia].
    unfold built_tree. simpl.
    assert (Hc : panel_count (UI_AddChild (s ++ [new_panel id])
                                (stack_top (parent_stack ctx)) n) = n + 1).
    { unfold panel_count. rewrite (proj2 (UI_AddChild_style _ _ n 0)). exact Hc0. }
    split; [apply tree_ok_add_child; [exact Hok|exact Htop]|].
    now apply Hstack.
  - unfold built_tree. simpl.
    assert (Hk : tree_links_kept (set_rect (mkRect 0 0 (screen_w ctx) (screen_h ctx))))
      by (intros p; repeat split).
    split.
    + apply (tree_ok_links (s ++ [new_panel id])).
      * apply panel_count_upd.
      * intros i. now apply upd_tree_links_kept.
      * now apply tree_ok_append.
    + apply Hstack. rewrite panel_count_upd. exact Hc0.
Qed.

Lemma built_tree_on_current_panel (f : UI_Panel -> UI_Panel) (ui : UI_Context) :
  tree_links_kept f -> built_tree ui -> built_tree (on_current_panel f ui).
Proof.
  intros Hf (Hok & Hst & Hcap & Hdepth). unfold on_current_panel.
  destruct (Z.of_nat (length (parent_stack ui)) =? 0);
    [exact (conj Hok (conj Hst (conj Hcap Hdepth)))|].
  unfold built_tree. simpl. rewrite panel_count_upd.
  split; [|exact (conj Hst (conj Hcap Hdepth))].
  apply (tree_ok_links (state ui)); [apply panel_count_upd| |exact Hok].
  intros i. now apply upd_tree_links_kept.
Qed.

Lemma built_tree_UI_End_Panel (ctx : UI_Context) :
  built_tree ctx -> built_tree (UI_End_Panel ctx).
Proof.
  intros (Hok & Hst & Hcap & Hdepth). unfold UI_End_Panel.
  destruct (Z.of_nat (length (parent_stack ctx)) >? 0);
    [|exact (conj Hok (conj Hst (conj Hcap Hdepth)))].
  unfold built_tree. simpl. split; [exact Hok|].
  destruct (parent_stack ctx) as [|a st] using rev_ind;
    [exact (conj Hst (conj Hcap Hdepth))|].
  rewrite removelast_last. apply Forall_app in Hst as [Hst _].
  split; [exact Hst|]. split; [exact Hcap|].
  rewrite length_app in Hdepth. simpl in Hdepth. lia.
Qed.

Lemma built_tree_UI_Generate_Id (ctx : UI_Context) (str : option string) :
  built_tree ctx -> built_tree (snd (UI_Generate_Id ctx str)).
Proof. intros H. rewrite UI_Generate_Id_frame. exact H. Qed.

Lemma built_tree_UI_Begin_Panel (ctx : UI_Context) (id_str : option string) :
  built_tree ctx -> built_tree (UI_Begin_Panel ctx id_str).
Proof.
  intros H. unfold UI_Begin_Panel.
  pose proof (built_tree_UI_Generate_Id ctx id_str H) as Hg.
  destruct (UI_Generate_Id ctx id_str) as [id ctx1].
  now apply built_tree_begin_panel_with.
Qed.

Lemma built_tree_set_style (f : UI_Style -> UI_Style) (ui : UI_Context) :
  built_tree ui -> built_tree (on_current_panel (set_style f) ui).
Proof.
  intros H. apply built_tree_on_current_panel; [|exact H]. intros p. repeat split.
Qed.

Lemma built_tree_apply_padding_gap_color (ui : UI_Context) (padding gap_ col : Z) :
  built_tree ui -> built_tree (apply_padding_gap_color ui padding gap_ col).
Proof.
  intros H. unfold apply_padding_gap_color, UI_Panel_Set_Padding_Uniform,
    UI_Panel_Set_Padding, UI_Panel_Set_Gap, UI_Panel_Set_Color.
  repeat first [ apply built_tree_set_style
               | match goal with |- built_tree (if ?c then _ else _) => destruct c end
               | exact H ].
Qed.

Lemma built_tree_UI_Label (ui : UI_Context) (text : option string) (col : Z) :
  built_tree ui -> built_tree (UI_Label ui text col).
Proof.
  intros H. unfold UI_Label.
  destruct text as [t|]; [|exact H].
  destruct (measure_text ui) as [measure|]; [|exact H].
  apply built_tree_UI_End_Panel.
  assert (H2 : built_tree (UI_Panel_Set_Size (UI_Begin_Panel ui (Some t))
                             (i32 (w (measure t 14) + 2)) (h (measure t 14)))).
  { apply built_tree_set_style. now apply built_tree_UI_Begin_Panel. }
  match goal with |- built_tree (if ?c then _ else _) => destruct c end; [|exact H2].
  apply built_tree_on_current_panel; [|exact H2]. intros p. repeat split.
Qed.

Lemma built_tree_run_call (ui : UI_Context) (c : UI_Call) :
  built_tree ui -> built_tree (run_call ui c).
Proof.
  intros H. destruct c; cbn [run_call].
  - now apply built_tree_UI_Begin_Panel.
  - unfold UI_Begin_Panel_Ex.
    pose proof (built_tree_UI_Begin_Panel ui id H) as H1.
    match goal with |- built_tree (if ?c then _ else _) => destruct c end;
      [now apply built_tree_set_style|exact H1].
  - now apply built_tree_UI_End_Panel.
  - now apply built_tree_set_style.
  - now apply built_tree_set_style.
  - now apply built_tree_set_style.
  - now apply built_tree_set_style.
  - now apply built_tree_set_style.
  - now apply built_tree_set_style.
  - now apply built_tree_set_style.
  - now apply built_tree_set_style.
  - unfold UI_BeginPanel. apply built_tree_apply_padding_gap_color.
    pose proof (built_tree_set_style (set_direction dir) _
                  (built_tree_UI_Begin_Panel ui id H)) as H2.
    match goal with |- built_tree (if ?c then _ else _) => destruct c end;
      [now apply built_tree_set_style|exact H2].
  - unfold UI_Panel_Resizable. apply built_tree_apply_padding_gap_color.
    pose proof (built_tree_set_style (set_direction dir) _
                  (built_tree_UI_Begin_Panel ui id H)) as H2.
    unfold UI_Panel_Set_Grow, UI_Panel_Set_Size, UI_Panel_Set_Direction in *.
    repeat first [ exact H2
                 | apply built_tree_set_style
                 | match goal with |- built_tree (if ?c then _ else _) => destruct c end ].
  - unfold UI_Divider, UI_Divider_Ex. apply built_tree_UI_End_Panel.
    unfold UI_Panel_Set_Resizable, UI_Panel_Set_Color, UI_Panel_Set_Size.
    repeat first [ apply built_tree_set_style
                 | match goal with |- built_tree (if ?c then _ else _) => destruct c end
                 | now apply built_tree_UI_Begin_Panel ].
  - unfold UI_Divider_Ex. apply built_tree_UI_End_Panel.
    unfold UI_Panel_Set_Resizable, UI_Panel_Set_Color, UI_Panel_Set_Size.
    repeat first [ apply built_tree_set_style
                 | match goal with |- built_tree (if ?c then _ else _) => destruct c end
                 | now apply built_tree_UI_Begin_Panel ].
  - now apply built_tree_UI_Label.
  - unfold UI_Button.
    destruct (UI_Generate_Id ui (Some text)) as [id ui1] eqn:Eg.
    assert (Hg : built_tree ui1).
    { change ui1 with (snd (id, ui1)). rewrite <- Eg.
      now apply built_tree_UI_Generate_Id. }
    cbv beta iota zeta.
    match goal with |- built_tree (snd (_, ?u)) => change (built_tree u) end.
    apply built_tree_UI_End_Panel, built_tree_UI_Label.
    unfold UI_Panel_Set_Direction, UI_Panel_Set_Padding, UI_Panel_Set_Color,
      UI_Panel_Set_Size.
    do 4 apply built_tree_set_style.
    unfold UI_Begin_Panel_With_Id. apply built_tree_begin_panel_with.
    match goal with |- built_tree (if ?c then _ else _) => destruct c end;
      exact Hg.
Qed.

Lemma built_tree_begin_frame (ui : UI_Context) (w_ h_ : Z) (dt : f32) :
  built_tree (fst (UI_BeginFrame_WithTime ui w_ h_ dt)).
Proof.
  unfold built_tree. simpl. split; [|split; [constructor|]].
  - intros i Hi. unfold panel_count in Hi. simpl in Hi. lia.
  - unfold panel_count, UI_MAX_PANELS. simpl. lia.
Qed.

(** X14: whatever the build phase calls, in whatever order, the tree it
    leaves is consistent: every parent is an earlier panel, the first
    and the last child of a panel point back to it, the last child has
    no next sibling, a next sibling has the same parent; every entry of
    the parent stack is a live panel, and neither the arena (1024) nor
    the stack (32) exceeds its capacity. *)
Theorem X14_builder_tree_consistent (ui : UI_Context) (w_ h_ : Z) (dt : f32)
    (prog : list UI_Call) :
  let ctx := build_frame ui w_ h_ dt prog in
  tree_ok (state ctx)
  /\ Forall (fun i => 0 <= i < panel_count (state ctx)) (parent_stack ctx)
  /\ panel_count (state ctx) <= UI_MAX_PANELS
  /\ Z.of_nat (length (parent_stack ctx)) <= 32.
Proof.
  intros ctx. subst ctx. unfold build_frame.
  pose proof (built_tree_begin_frame ui w_ h_ dt) as H0.
  revert H0. generalize (fst (UI_BeginFrame_WithTime ui w_ h_ dt)).
  induction prog as [|c prog IH]; intros u Hu; simpl; [exact Hu|].
  apply IH. now apply built_tree_run_call.
Qed.

(** The panel a successful [UI_Begin_Panel] creates, and what it leaves
    of the older panels. *)
Lemma begin_panel_with_panels (ctx : UI_Context) (id : Z) :
  built_tree ctx -> panel_count (state ctx) < UI_MAX_PANELS ->
  let n := panel_count (state ctx) in
  let ctx' := begin_panel_with ctx id in
  panel_count (state ctx') = n + 1
  /\ parent_stack ctx'
     = (if Z.of_nat (length (parent_stack ctx)) <? 32
        then parent_stack ctx ++ [n] else parent_stack ctx)
  /\ get_panel (state ctx') n
     = (if Z.of_nat (length (parent_stack ctx)) >? 0
        then set_next_sibling (-1)
               (set_parent (stack_top (parent_stack ctx)) (new_panel id))
        else set_rect (mkRect 0 0 (screen_w ctx) (screen_h ctx)) (new_panel id))
  /\ (forall i, 0 <= i < n ->
        p_id (get_panel (state ctx') i) = p_id (get_panel (state ctx) i)
        /\ style (get_panel (state ctx') i) = style (get_panel (state ctx) i)
        /\ rect (get_panel (state ctx') i) = rect (get_panel (state ctx) i)
        /\ parent (get_panel (state ctx') i) = parent (get_panel (state ctx) i)
        /\ is_label (get_panel (state ctx') i) = is_label (get_panel (state ctx) i)
        /\ label_text (get_panel (state ctx') i) = label_text (get_panel (state ctx) i))
  /\ (Z.of_nat (length (parent_stack ctx)) > 0 ->
      last_child (get_panel (state ctx') (stack_top (parent_stack ctx))) = n).
Proof.
  intros (Hok & Hst & Hcap & Hdepth) Hroom n ctx'. subst ctx'.
  unfold begin_panel_with, UI_NewPanel. fold n.
  destruct (n >=? UI_MAX_PANELS) eqn:Efull; [lia|].
  assert (Hn0 : 0 <= n) by (unfold n, panel_count; lia).
  destruct (n <? 0) eqn:En; [lia|].
  set (s := state ctx) in *.
  assert (Hc0 : panel_count (s ++ [new_panel id]) = n + 1).
  { unfold n, panel_count. rewrite length_app. simpl. lia. }
  destruct (Z.of_nat (length (parent_stack ctx)) >? 0) eqn:Est.
  - assert (Htop : 0 <= stack_top (parent_stack ctx) < n).
    { apply stack_top_live; [exact Hst|lia]. }
    set (top := stack_top (parent_stack ctx)) in *.
    destruct (top >=? 0) eqn:Et; [|lia]. simpl.
    assert (Hpre : first_child (get_panel (s ++ [new_panel id]) top) <> -1 ->
              0 <= last_child (get_panel (s ++ [new_panel id]) top) < n
              /\ last_child (get_panel (s ++ [new_panel id]) top) <> top).
    { rewrite get_panel_app_old by exact Htop. intros Hne.
      destruct (Hok top Htop) as (_ & [[Hf _]|Hr] & _); [contradiction|].
      fold n in Hr. lia. }
    assert (G : forall i, get_panel (UI_AddChild (s ++ [new_panel id]) top n) i = _)
      by (intros i; exact (UI_AddChild_get _ top n i Hc0 Htop Hpre)).
    split; [unfold panel_count; rewrite (proj2 (UI_AddChild_style _ top n 0));
            exact Hc0|].
    split; [reflexivity|]. split; [|split].
    + rewrite G, Z.eqb_refl. unfold n. now rewrite get_panel_app_new.
    + intros i Hi. rewrite G. destruct (i =? n) eqn:Ein; [lia|].
      destruct (i =? top) eqn:Eit.
      * apply Z.eqb_eq in Eit. subst i.
        destruct (first_child (get_panel (s ++ [new_panel id]) top) =? -1);
          rewrite (get_panel_app_old s _ top Htop); repeat split.
      * destruct (negb (first_child (get_panel (s ++ [new_panel id]) top) =? -1)
                  && (i =? last_child (get_panel (s ++ [new_panel id]) top)));
          rewrite (get_panel_app_old s _ i Hi); repeat split.
    + intros _. rewrite G. destruct (top =? n) eqn:E; [lia|].
      rewrite Z.eqb_refl.
      destruct (first_child (get_panel (s ++ [new_panel id]) top) =? -1); reflexivity.
  - simpl. rewrite panel_count_upd. split; [exact Hc0|]. split; [reflexivity|].
    split; [|split].
    + rewrite get_upd_same by lia. unfold n. now rewrite get_panel_app_new.
    + intros i Hi. rewrite get_upd_other by lia.
      rewrite (get_panel_app_old s _ i Hi). repeat split.
    + lia.
Qed.

(** X15: a [UI_Begin_Panel] / [UI_End_Panel] pair.  With room in the
    arena and on the stack the pair leaves the stack as it found it and
    adds one panel with the generated id and the default style: the
    root, with the viewport as its rect, when the stack was empty, else
    the new last child of the panel on top of the stack; the ids,
    styles, rects, parents and labels of the older panels are not
    touched.  With 32 panels on the stack the panel is still created
    and linked but not pushed, and with a full arena nothing is
    created: in both cases [UI_End_Panel] pops the enclosing panel. *)
Theorem X15_begin_end_pair (ctx : UI_Context) (name : option string) :
  built_tree ctx ->
  let n := panel_count (state ctx) in
  let st := parent_stack ctx in
  let ctx1 := UI_Begin_Panel ctx name in
  let ctx2 := UI_End_Panel ctx1 in
  (n < UI_MAX_PANELS -> Z.of_nat (length st) < 32 ->
   parent_stack ctx1 = st ++ [n] /\ parent_stack ctx2 = st
   /\ panel_count (state ctx2) = n + 1
   /\ p_id (get_panel (state ctx2) n) = fst (UI_Generate_Id ctx name)
   /\ style (get_panel (state ctx2) n) = new_panel_style
   /\ (st = [] -> parent (get_panel (state ctx2) n) = -1
                  /\ rect (get_panel (state ctx2) n)
                     = mkRect 0 0 (screen_w ctx) (screen_h ctx))
   /\ (st <> [] -> parent (get_panel (state ctx2) n) = stack_top st
                   /\ last_child (get_panel (state ctx2) (stack_top st)) = n)
   /\ (forall i, 0 <= i < n ->
         p_id (get_panel (state ctx2) i) = p_id (get_panel (state ctx) i)
         /\ style (get_panel (state ctx2) i) = style (get_panel (state ctx) i)
         /\ rect (get_panel (state ctx2) i) = rect (get_panel (state ctx) i)
         /\ parent (get_panel (state ctx2) i) = parent (get_panel (state ctx) i)
         /\ is_label (get_panel (state ctx2) i) = is_label (get_panel (state ctx) i)
         /\ label_text (get_panel (state ctx2) i)
            = label_text (get_panel (state ctx) i)))
  /\ (n < UI_MAX_PANELS -> 32 <= Z.of_nat (length st) ->
      panel_count (state ctx2) = n + 1
      /\ parent (get_panel (state ctx2) n) = stack_top st
      /\ parent_stack ctx1 = st /\ parent_stack ctx2 = removelast st)
  /\ (UI_MAX_PANELS <= n ->
      state ctx2 = state ctx /\ parent_stack ctx1 = st
      /\ parent_stack ctx2 = removelast st).
Proof.
  intros Hb n st ctx1 ctx2.
  pose proof (built_tree_UI_Generate_Id ctx name Hb) as Hg.
  pose proof (UI_Generate_Id_frame ctx name) as Hfr.
  assert (Hid : UI_Begin_Panel ctx name
                = begin_panel_with (snd (UI_Generate_Id ctx name))
                    (fst (UI_Generate_Id ctx name))).
  { unfold UI_Begin_Panel. destruct (UI_Generate_Id ctx name); reflexivity. }
  assert (Hs1 : state (snd (UI_Generate_Id ctx name)) = state ctx)
    by (rewrite Hfr; reflexivity).
  assert (Hp1 : parent_stack (snd (UI_Generate_Id ctx name)) = st)
    by (rewrite Hfr; reflexivity).
  assert (Hw1 : screen_w (snd (UI_Generate_Id ctx name)) = screen_w ctx
                /\ screen_h (snd (UI_Generate_Id ctx name)) = screen_h ctx)
    by (rewrite Hfr; split; reflexivity).
  assert (Hend : state ctx2 = state ctx1
                 /\ parent_stack ctx2 = removelast (parent_stack ctx1)).
  { unfold ctx2, UI_End_Panel.
    destruct (Z.of_nat (length (parent_stack ctx1)) >? 0) eqn:E;
      [split; reflexivity|].
    split; [reflexivity|].
    assert (Hl : length (parent_stack ctx1) = 0%nat) by lia.
    destruct (parent_stack ctx1); [reflexivity|discriminate]. }
  destruct Hend as [He1 He2]. rewrite He1, He2.
  split; [|split].
  - intros Hroom Hdepth.
    pose proof (begin_panel_with_panels _ (fst (UI_Generate_Id ctx name)) Hg) as Hbp.
    cbv zeta in Hbp. rewrite <- Hid in Hbp. fold ctx1 in Hbp.
    rewrite Hs1, Hp1 in Hbp. fold n in Hbp.
    destruct (Hbp Hroom) as (Hc & Hst & Hnew & Hold & Hlast).
    destruct (Z.of_nat (length st) <? 32) eqn:E32; [|lia].
    rewrite Hst. split; [reflexivity|]. split; [apply removelast_last|].
    split; [exact Hc|]. rewrite Hnew.
    destruct (Z.of_nat (length st) >? 0) eqn:Epos.
    + split; [reflexivity|]. split; [reflexivity|]. split.
      * intros Hnil. rewrite Hnil in Epos. discriminate Epos.
      * split; [|exact Hold]. intros _. split; [reflexivity|]. apply Hlast. lia.
    + split; [reflexivity|]. split; [reflexivity|]. split.
      * intros _. destruct Hw1 as [-> ->]. split; reflexivity.
      * split; [|exact Hold]. intros Hne.
        assert (Hl : length st = 0%nat) by lia.
        destruct st; [congruence|discriminate].
  - intros Hroom Hdepth.
    pose proof (begin_panel_with_panels _ (fst (UI_Generate_Id ctx name)) Hg) as Hbp.
    cbv zeta in Hbp. rewrite <- Hid in Hbp. fold ctx1 in Hbp.
    rewrite Hs1, Hp1 in Hbp. fold n in Hbp.
    destruct (Hbp Hroom) as (Hc & Hst & Hnew & _ & _).
    destruct (Z.of_nat (length st) <? 32) eqn:E32; [lia|].
    destruct (Z.of_nat (length st) >? 0) eqn:Epos; [|lia].
    rewrite Hst, Hnew. repeat split. exact Hc.
  - intros Hfull. unfold ctx1 in *. rewrite Hid.
    unfold begin_panel_with, UI_NewPanel. rewrite Hs1. fold n.
    destruct (n >=? UI_MAX_PANELS) eqn:E; [|lia]. simpl.
    rewrite Hs1, Hp1. repeat split.
Qed.

Lemma X15_begin_end_pair_witness :
  parent_stack (UI_End_Panel (UI_Begin_Panel fresh_frame (Some "root")))
  = parent_stack fresh_frame
  /\ state (UI_End_Panel (UI_Begin_Panel full_arena_ctx (Some "x")))
     = state full_arena_ctx.
Proof.
  assert (H0 : built_tree fresh_frame) by apply built_tree_begin_frame.
  split.
  - destruct (X15_begin_end_pair fresh_frame (Some "root") H0) as (H1 & _).
    destruct H1 as (_ & H2 & _); [vm_compute; reflexivity|vm_compute; reflexivity|].
    exact H2.
  - assert (Hf : built_tree full_arena_ctx).
    { unfold full_arena_ctx.
      assert (G : forall k u, built_tree u ->
                    built_tree (Nat.iter k (fun c => UI_End_Panel
                                              (UI_Begin_Panel c (Some "a"))) u)).
      { induction k as [|k IH]; intros u Hu; simpl; [exact Hu|].
        apply built_tree_UI_End_Panel, built_tree_UI_Begin_Panel, IH, Hu. }
      apply G. exact H0. }
    destruct (X15_begin_end_pair full_arena_ctx (Some "x") Hf) as (_ & _ & H3).
    destruct H3 as (H4 & _); [|exact H4].
    vm_compute. discriminate.
Defined.

(** ** Layout: geometry of one pass, and what the engine leaves alone *)

Lemma sibling_chain_NoDup (s : UI_State) (k : nat) (c : Z) (l : list Z) :
  links_increasing s -> 0 <= c < panel_count s ->
  sibling_chain k s c = Some l -> NoDup l.
Proof.
  intros Hw. revert c l. induction k as [|k IH]; intros c l Hc; simpl.
  - destruct (c =? -1) eqn:E; [lia|discriminate].
  - destruct (c =? -1) eqn:E; [lia|].
    destruct (sibling_chain k s (next_sibling (get_panel s c))) as [l'|] eqn:El;
      [|discriminate].
    intros [= <-]. destruct (proj2 (Hw c Hc)) as [Hn|Hn].
    + rewrite Hn in El. destruct k; simpl in El; injection El as <-;
        apply NoDup_singleton.
    + apply NoDup_cons. split.
      * intros Hin. apply list_elem_of_In in Hin.
        assert (Hn' : 0 <= next_sibling (get_panel s c) < panel_count s) by lia.
        pose proof (sibling_chain_increasing s k _ l' Hw Hn' El c Hin). lia.
      * apply (IH (next_sibling (get_panel s c))); [lia|exact El].
Qed.

Section LayoutPassGeometry.
Variable pref : UI_Style -> Z.
Variable mk_rect : Z -> Z -> UI_RectI.

Lemma cursor_after_app (l1 l2 : list Z) (s : UI_State) (cur gp : Z) (gs : f32) (rem : Z) :
  cursor_after pref (l1 ++ l2) s cur gp gs rem
  = cursor_after pref l2 s (cursor_after pref l1 s cur gp gs rem) gp gs rem.
Proof.
  revert cur. induction l1 as [|a l1 IH]; intros cur; simpl; [reflexivity|]. apply IH.
Qed.

(** One pass over the children [l] of [p]: every child gets the rect
    made from its position and its main-axis size; the first child is at
    the origin and each next one follows the previous one after the
    gap; no other panel is touched. *)
Lemma layout_pass_geometry (s : UI_State) (p : UI_Panel) (origin extent : Z)
    (l : list Z) :
  sibling_chain (chain_fuel s) s (first_child p) = Some l ->
  NoDup l -> (forall c, In c l -> 0 <= c < panel_count s) ->
  exists s' (pos size : Z -> Z),
    layout_pass pref mk_rect s p origin extent = Some s'
    /\ same_skel s' s
    /\ (forall c, In c l -> rect_at s' c = mk_rect (pos c) (size c))
    /\ (forall c l', l = c :: l' -> pos c = origin)
    /\ (forall pre a b post, l = pre ++ a :: b :: post ->
          pos b = i32 (pos a + i32 (size a + gap (style p))))
    /\ (forall i, ~ In i l -> get_panel s' i = get_panel s i).
Proof.
  intros Hl Hnd Hin. rewrite layout_pass_chain, Hl.
  destruct (measure_list pref l s 0 0 f32_zero) as [[cnt fs] gs].
  set (rem := remaining_space extent (gap (style p)) cnt fs).
  set (s' := place_list pref mk_rect l s origin (gap (style p)) gs rem).
  assert (Hk : same_skel s' s) by apply place_list_skel.
  (* position of a child: the cursor after the children before it *)
  set (before := fix before (l0 : list Z) (c : Z) : list Z :=
         match l0 with
         | [] => []
         | a :: r => if a =? c then [] else a :: before r c
         end).
  assert (Hbefore : forall pre c post, ~ In c pre -> before (pre ++ c :: post) c = pre).
  { induction pre as [|a pre IH]; intros c post Hn; simpl.
    - now rewrite Z.eqb_refl.
    - destruct (a =? c) eqn:E; [apply Z.eqb_eq in E; subst; simpl in Hn; tauto|].
      rewrite IH by (simpl in Hn; tauto). reflexivity. }
  exists s', (fun c => cursor_after pref (before l c) s origin (gap (style p)) gs rem),
    (fun c => child_main_size pref (get_panel s c) gs rem).
  split; [reflexivity|]. split; [exact Hk|]. split; [|split; [|split]].
  - intros c Hc. apply in_split in Hc as (pre & post & ->).
    assert (Hn : ~ In c pre).
    { apply NoDup_app in Hnd as (_ & Hd & _). intros Hc.
      apply (Hd c); [now apply list_elem_of_In|apply list_elem_of_here]. }
    rewrite (Hbefore pre c post Hn).
    apply place_list_exact; [exact Hnd|]. apply Hin. apply in_or_app. right. now left.
  - intros c l' ->. simpl. now rewrite Z.eqb_refl.
  - intros pre a b post ->.
    assert (Hna : ~ In a pre).
    { apply NoDup_app in Hnd as (_ & Hd & _). intros Hc.
      apply (Hd a); [now apply list_elem_of_In|apply list_elem_of_here]. }
    assert (Hnb : ~ In b (pre ++ [a])).
    { replace (pre ++ a :: b :: post) with ((pre ++ [a]) ++ b :: post) in Hnd
        by now rewrite <- app_assoc.
      apply NoDup_app in Hnd as (_ & Hd & _). intros Hc.
      apply (Hd b); [now apply list_elem_of_In|apply list_elem_of_here]. }
    rewrite (Hbefore pre a (b :: post) Hna).
    replace (pre ++ a :: b :: post) with ((pre ++ [a]) ++ b :: post)
      by now rewrite <- app_assoc.
    rewrite (Hbefore (pre ++ [a]) b post Hnb), cursor_after_app. reflexivity.
  - intros i Hi. apply same_skel_panel; [exact Hk|]. now apply place_list_frame.
Qed.
End LayoutPassGeometry.

(** X16: one layout pass over the children of a panel of a well-linked
    tree returns and touches no panel other than those children.  In a
    row every child gets the top and the height of the content box (a
    height that is never negative), the first child starts at the left
    of the content box and each next child starts where the previous
    one ends plus the gap; in a column the same holds with the axes
    exchanged. *)
Theorem X16_layout_pass_geometry (s : UI_State) (idx : Z) :
  links_increasing s -> 0 <= idx < panel_count s ->
  let p := get_panel s idx in
  exists l,
    sibling_chain (chain_fuel s) s (first_child p) = Some l
    /\ 0 <= content_w p /\ 0 <= content_h p
    /\ (exists s',
          UI_LayoutRow s idx = Some s'
          /\ (forall c, In c l ->
                y (rect (get_panel s' c)) = content_y0 p
                /\ h (rect (get_panel s' c)) = content_h p)
          /\ (forall c l', l = c :: l' -> x (rect (get_panel s' c)) = content_x0 p)
          /\ (forall pre a b post, l = pre ++ a :: b :: post ->
                x (rect (get_panel s' b))
                = i32 (x (rect (get_panel s' a))
                       + i32 (w (rect (get_panel s' a)) + gap (style p))))
          /\ (forall i, ~ In i l -> get_panel s' i = get_panel s i))
    /\ (exists s',
          UI_LayoutColumn s idx = Some s'
          /\ (forall c, In c l ->
                x (rect (get_panel s' c)) = content_x0 p
                /\ w (rect (get_panel s' c)) = content_w p)
          /\ (forall c l', l = c :: l' -> y (rect (get_panel s' c)) = content_y0 p)
          /\ (forall pre a b post, l = pre ++ a :: b :: post ->
                y (rect (get_panel s' b))
                = i32 (y (rect (get_panel s' a))
                       + i32 (h (rect (get_panel s' a)) + gap (style p))))
          /\ (forall i, ~ In i l -> get_panel s' i = get_panel s i)).
Proof.
  intros Hw Hi p.
  assert (Hfc : first_child p = -1 \/ 0 <= first_child p < panel_count s).
  { destruct (proj1 (Hw idx Hi)) as [H|H]; [now left|right; fold p in H; lia]. }
  destruct (sibling_chain_total s (chain_fuel s) (first_child p) Hw) as [l Hl].
  { destruct Hfc as [H|H]; [now left|right]. split; [exact H|].
    unfold chain_fuel, panel_count in *. lia. }
  assert (Hnd : NoDup l).
  { destruct Hfc as [H|H].
    - rewrite H in Hl. unfold chain_fuel in Hl. destruct (length s); simpl in Hl;
        injection Hl as <-; apply NoDup_nil_2.
    - exact (sibling_chain_NoDup s _ _ l Hw H Hl). }
  assert (Hin : forall c, In c l -> 0 <= c < panel_count s).
  { intros c Hc. destruct Hfc as [H|H].
    - rewrite H in Hl. unfold chain_fuel in Hl. destruct (length s); simpl in Hl;
        injection Hl as <-; destruct Hc.
    - pose proof (sibling_chain_increasing s _ _ l Hw H Hl c Hc). lia. }
  exists l. split; [exact Hl|].
  split; [unfold content_w; destruct (_ <? 0) eqn:E; lia|].
  split; [unfold content_h; destruct (_ <? 0) eqn:E; lia|].
  split.
  - destruct (layout_pass_geometry pref_w
                (fun cursor_x sz => mkRect cursor_x (content_y0 p) sz (content_h p))
                s p (content_x0 p) (content_w p) l Hl Hnd Hin)
      as (s' & pos & size & Hrun & _ & Hrect & Hfirst & Hnext & Hother).
    exists s'. split; [exact Hrun|]. unfold rect_at in Hrect.
    split; [|split; [|split; [|exact Hother]]].
    + intros c Hc. rewrite (Hrect c Hc). split; reflexivity.
    + intros c l' ->. rewrite (Hrect c (or_introl eq_refl)). simpl.
      now apply (Hfirst c l').
    + intros pre a b post ->.
      rewrite (Hrect a), (Hrect b) by (apply in_or_app; right; simpl; auto).
      simpl. now apply (Hnext pre a b post).
  - destruct (layout_pass_geometry pref_h
                (fun cursor_y sz => mkRect (content_x0 p) cursor_y (content_w p) sz)
                s p (content_y0 p) (content_h p) l Hl Hnd Hin)
      as (s' & pos & size & Hrun & _ & Hrect & Hfirst & Hnext & Hother).
    exists s'. split; [exact Hrun|]. unfold rect_at in Hrect.
    split; [|split; [|split; [|exact Hother]]].
    + intros c Hc. rewrite (Hrect c Hc). split; reflexivity.
    + intros c l' ->. rewrite (Hrect c (or_introl eq_refl)). simpl.
      now apply (Hfirst c l').
    + intros pre a b post ->.
      rewrite (Hrect a), (Hrect b) by (apply in_or_app; right; simpl; auto).
      simpl. now apply (Hnext pre a b post).
Qed.

Lemma X16_layout_pass_geometry_witness :
  exists l,
    sibling_chain (chain_fuel (state drag_ctx)) (state drag_ctx)
      (first_child (get_panel (state drag_ctx) 0)) = Some l
    /\ 0 <= content_w (get_panel (state drag_ctx) 0).
Proof.
  destruct (X16_layout_pass_geometry (state drag_ctx) 0) as (l & Hl & Hw & _).
  - apply links_increasing_b_sound. vm_compute. reflexivity.
  - vm_compute. split; [discriminate|reflexivity].
  - exists l. split; assumption.
Defined.

(** X17: the layout engine writes rects and nothing else: the number of
    panels and every other field of every panel are as before.  On a
    well-linked tree it returns, and the rect of the panel it starts at
    and every panel allocated before that one are left exactly as they
    were; a start panel without children means no change at all. *)
Theorem X17_layout_writes_rects_only (s : UI_State) (root : Z) :
  (forall s', UI_LayoutPanelTree s root = Some s' ->
     panel_count s' = panel_count s
     /\ forall i, set_rect (rect (get_panel s i)) (get_panel s' i) = get_panel s i)
  /\ (first_child (get_panel s root) = -1 -> UI_LayoutPanelTree s root = Some s)
  /\ (links_increasing s -> 0 <= root < panel_count s ->
      exists s', UI_LayoutPanelTree s root = Some s'
                 /\ forall i, i <= root -> get_panel s' i = get_panel s i).
Proof.
  unfold UI_LayoutPanelTree. split; [|split].
  - intros s' Hs'. pose proof (proj1 (layout_tree_skel _) _ _ _ Hs') as Hk.
    split; [unfold panel_count; now rewrite (same_skel_length _ _ Hk)|].
    intros i. pose proof (same_skel_get _ _ i Hk) as Hg. unfold skel in Hg.
    destruct (get_panel s' i), (get_panel s i). unfold set_rect in *. simpl in *.
    congruence.
  - intros Hleaf. unfold tree_fuel.
    replace (2 * length s + 2)%nat with (S (2 * length s + 1)) by lia.
    cbn [layout_tree]. now rewrite Hleaf.
  - intros Hw Hr.
    destruct (proj1 (layout_tree_total (tree_fuel s)) s root Hw Hr) as [s' Hs'].
    { unfold tree_fuel, panel_count in *. lia. }
    exists s'. split; [exact Hs'|]. intros i Hi.
    apply same_skel_panel; [exact (proj1 (layout_tree_skel _) _ _ _ Hs')|].
    exact (proj1 (layout_tree_frame _) _ _ _ Hw Hr Hs' i Hi).
Qed.

Lemma X17_layout_writes_rects_only_witness :
  exists s', UI_LayoutPanelTree row_example_state 0 = Some s'
             /\ forall i, i <= 0 -> get_panel s' i = get_panel row_example_state i.
Proof.
  apply (proj2 (proj2 (X17_layout_writes_rects_only row_example_state 0))).
  - apply links_increasing_b_sound. vm_compute. reflexivity.
  - vm_compute. split; [discriminate|reflexivity].
Defined.

(** ** Emitter: the text primitives *)

Lemma UI_AddRectangle_texts l t r b col (rl : UI_Render_List) :
  exists rl', UI_AddRectangle l t r b col (Some rl) = Some rl'
              /\ texts rl' = texts rl.
Proof.
  unfold UI_AddRectangle.
  destruct (Z.of_nat (length (rectangles rl)) >=? MAX_UI_RECTANGLES); eauto.
Qed.

Lemma emit_panel_texts (p : UI_Panel) (rl : UI_Render_List) :
  exists rl', emit_panel p (Some rl) = Some rl'
              /\ texts rl'
                 = if emits_text p then add_capped (texts rl) (panel_text p)
                   else texts rl.
Proof.
  unfold emit_panel. fold (emits_text p).
  assert (H1 : exists r1,
             (if negb (c_true (is_label p) && (color (style p) =? 0))
              then UI_AddRectangle (x (rect p)) (y (rect p))
                     (i32 (x (rect p) + w (rect p))) (i32 (y (rect p) + h (rect p)))
                     (color (style p)) (Some rl)
              else Some rl) = Some r1 /\ texts r1 = texts rl).
  { destruct (negb (c_true (is_label p) && (color (style p) =? 0))); [|eauto].
    apply UI_AddRectangle_texts. }
  destruct H1 as (r1 & -> & Ht).
  destruct (emits_text p); [|eauto].
  unfold UI_AddText, add_capped, MAX_UI_TEXTS. rewrite Ht.
  destruct (Z.of_nat (length (texts rl)) >=? 256); eauto.
Qed.

Lemma emit_list_texts (s : UI_State) (order : list Z) (rl : UI_Render_List) :
  exists rl', emit_list s order (Some rl) = Some rl'
              /\ texts rl'
                 = fold_left add_capped
                     (map panel_text (filter emits_text (map (get_panel s) order)))
                     (texts rl).
Proof.
  revert rl. induction order as [|i order IH]; intros rl; simpl.
  - eauto.
  - destruct (emit_panel_texts (get_panel s i) rl) as (rl1 & H1 & H2).
    unfold emit_list in *. simpl. rewrite H1.
    destruct (IH rl1) as (rl' & H3 & H4). exists rl'. split; [exact H3|].
    rewrite H4, H2. rewrite filter_cons.
    destruct (decide (emits_text (get_panel s i))) as [Hd|Hd].
    + apply Is_true_true in Hd. rewrite Hd. reflexivity.
    + apply Is_true_false in Hd. rewrite Hd. reflexivity.
Qed.

Lemma emit_list_null (s : UI_State) (order : list Z) : emit_list s order None = None.
Proof.
  unfold emit_list. induction order as [|i order IH]; simpl; [reflexivity|].
  assert (H : emit_panel (get_panel s i) None = None).
  { unfold emit_panel, UI_AddRectangle, UI_AddText.
    destruct (negb _); destruct (_ && label_nonempty _); reflexivity. }
  now rewrite H.
Qed.

(** X18: on a well-linked tree the emitter returns, having appended in
    pre-order, while the text array has room (256 entries), one text
    primitive for every label panel whose text is not empty: the
    panel's rect, the label color, the text cut to 255 characters, font
    size 14, left-aligned and vertically centered.  Both arrays only
    grow: what was in the list before stays in front.  With no render
    list installed the walk emits nothing. *)
Theorem X18_emitter_texts (s : UI_State) (panel_idx : Z) :
  links_increasing s -> 0 <= panel_idx < panel_count s ->
  exists order,
    preorder (tree_fuel s) s panel_idx = Some order
    /\ UI_EmitPanels s panel_idx None = Some None
    /\ forall rl, (length (texts rl) <= 256)%nat ->
                  (length (rectangles rl) <= 256)%nat ->
         exists rl',
           UI_EmitPanels s panel_idx (Some rl) = Some (Some rl')
           /\ texts rl'
              = firstn 256
                  (texts rl
                   ++ map panel_text (filter emits_text (map (get_panel s) order)))
           /\ (exists more, texts rl' = texts rl ++ more)
           /\ (exists more, rectangles rl' = rectangles rl ++ more).
Proof.
  intros Hw Hi.
  destruct (proj1 (preorder_total (tree_fuel s)) s panel_idx Hw Hi) as [order Hord].
  { unfold tree_fuel, panel_count in *. lia. }
  exists order. split; [exact Hord|].
  unfold UI_EmitPanels.
  split; [rewrite (proj1 (emit_walk_preorder _)), Hord; simpl;
          now rewrite emit_list_null|].
  intros rl Ht Hr. rewrite (proj1 (emit_walk_preorder _)), Hord. simpl.
  destruct (emit_list_texts s order rl) as (rl' & H1 & H2).
  destruct (emit_list_rectangles s order rl) as (rl2 & H3 & H4).
  rewrite H1 in H3. injection H3 as <-.
  exists rl'. split; [now rewrite H1|].
  rewrite add_capped_fold in H2 by assumption.
  rewrite add_capped_fold in H4 by assumption.
  split; [exact H2|].
  assert (Hpre : forall (A : Type) (l more : list A), (length l <= 256)%nat ->
             exists m, firstn 256 (l ++ more) = l ++ m).
  { intros A l more Hl. rewrite firstn_app.
    rewrite (firstn_all2 l) by exact Hl. eauto. }
  split.
  - rewrite H2. now apply Hpre.
  - rewrite H4. now apply Hpre.
Qed.

Lemma X18_emitter_texts_witness :
  exists order,
    preorder (tree_fuel (state drag_ctx)) (state drag_ctx) 0 = Some order
    /\ UI_EmitPanels (state drag_ctx) 0 None = Some None.
Proof.
  destruct (X18_emitter_texts (state drag_ctx) 0) as (order & H1 & H2 & _).
  - apply links_increasing_b_sound. vm_compute. reflexivity.
  - vm_compute. split; [discriminate|reflexivity].
  - exists order. split; assumption.
Defined.

(** ** The drag step and the size-override store *)

Lemma override_find_set (ui : UI_Context) (id pw ph id' : Z) :
  let ui' := UI_Set_Size_Override ui id pw ph in
  (id' <> id ->
   override_find id' (size_overrides ui') = override_find id' (size_overrides ui))
  /\ (Z.of_nat (length (size_overrides ui')) <= Z.of_nat (length (size_overrides ui)) + 1)
  /\ (Z.of_nat (length (size_overrides ui)) < 32
      \/ override_find id (size_overrides ui) <> None ->
      exists o, override_find id (size_overrides ui') = Some o
                /\ (0 <= pw -> so_pref_w o = pw) /\ (0 <= ph -> so_pref_h o = ph)).
Proof.
  intros ui'. subst ui'. unfold UI_Set_Size_Override.
  destruct (override_find id (size_overrides ui)) as [o|] eqn:Ef.
  - destruct (override_update_found id pw ph _ _ Ef) as (l' & Hu & Hfind & Hlen & Hoth).
    rewrite Hu. simpl. split; [exact (Hoth id')|]. split; [lia|].
    intros _. eexists. split; [exact Hfind|]. simpl. split; intros H.
    + destruct (pw >=? 0) eqn:E; [reflexivity|lia].
    + destruct (ph >=? 0) eqn:E; [reflexivity|lia].
  - rewrite (override_update_missing _ _ _ _ Ef).
    destruct (Z.of_nat (length (size_overrides ui)) <? 32) eqn:E; simpl.
    + split; [|split].
      * intros Hne. rewrite override_find_app. simpl.
        destruct (override_find id' (size_overrides ui)); [reflexivity|].
        destruct (id =? id') eqn:E'; [lia|reflexivity].
      * rewrite length_app. simpl. lia.
      * intros _. rewrite override_find_app, Ef. simpl. rewrite Z.eqb_refl.
        eexists. split; [reflexivity|]. auto.
    + split; [reflexivity|]. split; [lia|]. intros [H|H]; [lia|congruence].
Qed.

Lemma apply_resize_overrides (resize_dir idx id size : Z) (ui : UI_Context) :
  size_overrides (apply_resize resize_dir idx id size ui)
  = if idx >=? 0
    then size_overrides (if resize_dir =? 0
                         then UI_Set_Size_Override ui id size (-1)
                         else UI_Set_Size_Override ui id (-1) size)
    else size_overrides ui.
Proof.
  unfold apply_resize. destruct (idx >=? 0); [|reflexivity].
  destruct (resize_dir =? 0); reflexivity.
Qed.

Lemma axis_override_apply (resize_dir idx id size id' : Z) (ui : UI_Context) :
  0 <= idx ->
  let ui' := apply_resize resize_dir idx id size ui in
  (id' <> id -> axis_override ui' resize_dir id' = axis_override ui resize_dir id')
  /\ (Z.of_nat (length (size_overrides ui')) <= Z.of_nat (length (size_overrides ui)) + 1)
  /\ (0 <= size -> Z.of_nat (length (size_overrides ui)) < 32 ->
      axis_override ui' resize_dir id = size).
Proof.
  intros Hidx ui'. subst ui'.
  unfold axis_override, UI_Get_Size_Override_W, UI_Get_Size_Override_H.
  rewrite apply_resize_overrides.
  destruct (idx >=? 0) eqn:E; [|lia].
  destruct (resize_dir =? 0).
  - destruct (override_find_set ui id size (-1) id') as (H1 & H2 & H3).
    split; [intros Hne; now rewrite (H1 Hne)|]. split; [exact H2|].
    intros Hs Hroom. destruct H3 as (o & -> & Hw & _); [now left|]. now apply Hw.
  - destruct (override_find_set ui id (-1) size id') as (H1 & H2 & H3).
    split; [intros Hne; now rewrite (H1 Hne)|]. split; [exact H2|].
    intros Hs Hroom. destruct H3 as (o & -> & _ & Hh); [now left|]. now apply Hh.
Qed.

(** X19: a drag step that proceeds stores what it writes.  When the two
    final sizes are not negative, the two targets have different ids
    and the store has room for two more entries, then after the step
    the size stored for each resolved target along the resize axis is
    its final size, which is also the preferred size just written into
    the panel's style: the store and the tree agree, and the next
    frame's rebuild reads the same size back. *)
Theorem X19_drag_step_persists (ui : UI_Context) :
  dragging_divider (interaction ui) <> 0 ->
  ~ (drag_left_idx ui < 0 /\ drag_right_idx ui < 0) ->
  0 <= drag_divider_idx ui -> 0 <= drag_resize_dir ui ->
  let dir := drag_resize_dir ui in
  let lid := resize_target_left_id (interaction ui) in
  let rid := resize_target_right_id (interaction ui) in
  let sizes := resize_sizes ui dir (drag_left_idx ui) (drag_right_idx ui) in
  let ui' := UI_Update_Divider_Resize ui in
  0 <= fst sizes -> 0 <= snd sizes -> lid <> rid ->
  Z.of_nat (length (size_overrides ui)) + 2 <= 32 ->
  (0 <= drag_left_idx ui ->
   axis_override ui' dir lid = fst sizes
   /\ (drag_left_idx ui <> drag_right_idx ui ->
       axis_pref dir (get_panel (state ui') (drag_left_idx ui)) = fst sizes))
  /\ (0 <= drag_right_idx ui ->
      axis_override ui' dir rid = snd sizes
      /\ axis_pref dir (get_panel (state ui') (drag_right_idx ui)) = snd sizes).
Proof.
  intros Hdrag Hsome Hdiv Hdir dir lid rid sizes ui' Hl Hr Hne Hroom.
  destruct (divider_resize_writes ui Hdrag Hsome Hdiv Hdir) as [Hwr Hwl].
  fold dir sizes ui' in Hwr, Hwl.
  assert (Hrun : ui' = apply_resize dir (drag_right_idx ui) rid (snd sizes)
                         (apply_resize dir (drag_left_idx ui) lid (fst sizes) ui)).
  { unfold ui', UI_Update_Divider_Resize.
    destruct (dragging_divider (interaction ui) =? 0) eqn:E0; [lia|].
    destruct ((drag_left_idx ui <? 0) && (drag_right_idx ui <? 0)) eqn:E1; [lia|].
    destruct (drag_divider_idx ui <? 0) eqn:E2; [lia|].
    destruct (drag_resize_dir ui <? 0) eqn:E3; [lia|].
    fold dir. unfold sizes.
    destruct (resize_sizes ui dir (drag_left_idx ui) (drag_right_idx ui)); reflexivity. }
  set (ui1 := apply_resize dir (drag_left_idx ui) lid (fst sizes) ui) in *.
  assert (Hov1 : Z.of_nat (length (size_overrides ui1))
                 <= Z.of_nat (length (size_overrides ui)) + 1).
  { destruct (Z_lt_dec (drag_left_idx ui) 0) as [Hn|Hn].
    - unfold ui1. rewrite apply_resize_overrides.
      destruct (drag_left_idx ui >=? 0) eqn:E; [lia|lia].
    - apply (axis_override_apply dir (drag_left_idx ui) lid (fst sizes) lid ui). lia. }
  split.
  - intros Hli. split; [|intros Hd; now apply Hwl].
    rewrite Hrun.
    destruct (axis_override_apply dir (drag_left_idx ui) lid (fst sizes) lid ui Hli)
      as (_ & _ & Hset). fold ui1 in Hset.
    destruct (Z_lt_dec (drag_right_idx ui) 0) as [Hn|Hn].
    + unfold axis_override, UI_Get_Size_Override_W, UI_Get_Size_Override_H.
      rewrite apply_resize_overrides.
      destruct (drag_right_idx ui >=? 0) eqn:E; [lia|].
      apply Hset; lia.
    + destruct (axis_override_apply dir (drag_right_idx ui) rid (snd sizes) lid ui1
                  ltac:(lia)) as (Hoth & _ & _).
      rewrite Hoth by exact Hne. apply Hset; lia.
  - intros Hri. split; [|now apply Hwr].
    rewrite Hrun.
    destruct (axis_override_apply dir (drag_right_idx ui) rid (snd sizes) rid ui1 Hri)
      as (_ & _ & Hset).
    apply Hset; lia.
Qed.

Lemma X19_drag_step_persists_witness :
  axis_override (UI_Update_Divider_Resize drag_ctx) (drag_resize_dir drag_ctx)
    (resize_target_left_id (interaction drag_ctx))
  = fst (resize_sizes drag_ctx (drag_resize_dir drag_ctx) (drag_left_idx drag_ctx)
           (drag_right_idx drag_ctx)).
Proof.
  destruct (X19_drag_step_persists drag_ctx) as [Hl _];
    try (vm_compute; discriminate).
  - vm_compute. intros [H _]. discriminate H.
  - destruct Hl as [H1 _]; [vm_compute; discriminate|exact H1].
Defined.

(** ** A whole frame *)

(** X20: whatever sequence of builder calls the build phase makes, the
    frame completes: the layout walk, the drag step, both hit-test
    walks, the sibling scans of a drag start and the emitter walk all
    return (none of their loops can run forever on a tree the builder
    made), the number of panels is the one the build phase left, and
    the input snapshot taken at the end of the frame is the frame's
    input. *)
Theorem X20_frame_completes (ui : UI_Context) (w_ h_ : Z) (prog : list UI_Call) :
  exists ui',
    run_frame (fun u => fold_left run_call prog u) ui w_ h_ = Some ui'
    /\ input_prev ui' = input ui'
    /\ panel_count (state ui') = panel_count (state (build_frame ui w_ h_ f32_zero prog))
    /\ links_increasing (state ui')
    /\ (0 < panel_count (state ui') ->
        exists rl,
          UI_EmitPanels (state ui') 0 (Some empty_render_list) = Some (Some rl)).
Proof.
  destruct (build_frame_links ui w_ h_ f32_zero prog) as [_ Hw].
  unfold run_frame, frame_built. fold (build_frame ui w_ h_ f32_zero prog).
  set (ui2 := build_frame ui w_ h_ f32_zero prog) in *.
  assert (Hlay : exists s', (if panel_count (state ui2) >? 0
                             then UI_LayoutPanelTree (state ui2) 0
                             else Some (state ui2)) = Some s'
                            /\ same_skel s' (state ui2)).
  { destruct (panel_count (state ui2) >? 0) eqn:E.
    - destruct (proj1 (layout_tree_total (tree_fuel (state ui2))) (state ui2) 0 Hw)
        as [s' Hs']; [lia|unfold tree_fuel, panel_count in *; lia|].
      exists s'. split; [exact Hs'|]. exact (proj1 (layout_tree_skel _) _ _ _ Hs').
    - exists (state ui2). split; [reflexivity|apply same_skel_refl]. }
  destruct Hlay as (s' & -> & Hk).
  assert (Hw' : links_increasing s')
    by exact (links_increasing_skel _ _ (same_skel_sym _ _ Hk) Hw).
  destruct (update_interaction_run (set_state s' ui2) Hw')
    as (hot & ui3 & _ & _ & _ & _ & Hs3 & _ & _ & Hrun).
  rewrite Hrun. eexists. split; [reflexivity|].
  set (ui4 := if c_true (UI_Is_Mouse_Released (set_state s' ui2) UI_MOUSE_LEFT)
              then drag_end ui3 else ui3).
  assert (Hs4 : state ui4 = state (UI_Update_Divider_Resize (set_state s' ui2))).
  { unfold ui4. destruct (c_true _); [|exact Hs3].
    unfold drag_end. destruct (negb _); exact Hs3. }
  destruct (divider_resize_frame (set_state s' ui2)) as (L & S & _).
  assert (Hc : panel_count (state ui4) = panel_count (state ui2)).
  { rewrite Hs4. unfold panel_count. rewrite L. simpl.
    now rewrite (same_skel_length _ _ Hk). }
  assert (Hw4 : links_increasing (state ui4)).
  { rewrite Hs4. intros i Hi.
    assert (Hi' : 0 <= i < panel_count s').
    { unfold panel_count in *. rewrite L in Hi. exact Hi. }
    destruct (S i) as (_ & _ & A3 & _ & A5 & _). rewrite A3, A5.
    unfold panel_count. rewrite L. exact (Hw' i Hi'). }
  split; [reflexivity|]. split; [exact Hc|]. split; [exact Hw4|].
  intros Hpos. change (state (UI_Input_EndFrame ui4)) with (state ui4) in *.
  destruct (proj1 (preorder_total (tree_fuel (state ui4))) (state ui4) 0 Hw4)
    as [order Hord]; [lia|unfold tree_fuel, panel_count in *; lia|].
  unfold UI_EmitPanels. rewrite (proj1 (emit_walk_preorder _)), Hord. simpl.
  destruct (emit_list_rectangles (state ui4) order empty_render_list) as (rl & -> & _).
  eauto.
Qed.

(** ** Labels *)

Lemma UI_Begin_Panel_panels (ctx : UI_Context) (name : option string) :
  built_tree ctx -> panel_count (state ctx) < UI_MAX_PANELS ->
  Z.of_nat (length (parent_stack ctx)) < 32 ->
  let n := panel_count (state ctx) in
  let ctx' := UI_Begin_Panel ctx name in
  panel_count (state ctx') = n + 1
  /\ parent_stack ctx' = parent_stack ctx ++ [n]
  /\ p_id (get_panel (state ctx') n) = fst (UI_Generate_Id ctx name)
  /\ style (get_panel (state ctx') n) = new_panel_style
  /\ measure_text ctx' = measure_text ctx
  /\ (forall i, 0 <= i < n ->
        p_id (get_panel (state ctx') i) = p_id (get_panel (state ctx) i)
        /\ style (get_panel (state ctx') i) = style (get_panel (state ctx) i)
        /\ rect (get_panel (state ctx') i) = rect (get_panel (state ctx) i)
        /\ parent (get_panel (state ctx') i) = parent (get_panel (state ctx) i)
        /\ is_label (get_panel (state ctx') i) = is_label (get_panel (state ctx) i)
        /\ label_text (get_panel (state ctx') i) = label_text (get_panel (state ctx) i)).
Proof.
  intros Hb Hroom Hdepth n ctx'.
  pose proof (built_tree_UI_Generate_Id ctx name Hb) as Hg.
  pose proof (UI_Generate_Id_frame ctx name) as Hfr.
  assert (Hid : ctx' = begin_panel_with (snd (UI_Generate_Id ctx name))
                         (fst (UI_Generate_Id ctx name))).
  { unfold ctx', UI_Begin_Panel. destruct (UI_Generate_Id ctx name); reflexivity. }
  assert (Hs1 : state (snd (UI_Generate_Id ctx name)) = state ctx)
    by (rewrite Hfr; reflexivity).
  assert (Hp1 : parent_stack (snd (UI_Generate_Id ctx name)) = parent_stack ctx)
    by (rewrite Hfr; reflexivity).
  assert (Hm1 : measure_text (snd (UI_Generate_Id ctx name)) = measure_text ctx)
    by (rewrite Hfr; reflexivity).
  pose proof (begin_panel_with_panels _ (fst (UI_Generate_Id ctx name)) Hg) as Hbp.
  cbv zeta in Hbp. rewrite <- Hid in Hbp. rewrite Hs1, Hp1 in Hbp. fold n in Hbp.
  destruct (Hbp Hroom) as (Hc & Hst & Hnew & Hold & _).
  destruct (Z.of_nat (length (parent_stack ctx)) <? 32) eqn:E32; [|lia].
  split; [exact Hc|]. split; [exact Hst|]. rewrite Hnew.
  split; [destruct (_ >? 0); reflexivity|].
  split; [destruct (_ >? 0); reflexivity|].
  split; [|exact Hold].
  rewrite Hid. unfold begin_panel_with, UI_NewPanel.
  destruct (_ >=? UI_MAX_PANELS); [exact Hm1|].
  destruct (_ <? 0); exact Hm1.
Qed.

Lemma on_current_panel_top (f : UI_Panel -> UI_Panel) (ui : UI_Context)
    (st : list Z) (n : Z) :
  parent_stack ui = st ++ [n] ->
  on_current_panel f ui = set_state (upd_panel (state ui) n f) ui.
Proof.
  intros Hst. unfold on_current_panel. rewrite Hst.
  destruct (Z.of_nat (length (st ++ [n])) =? 0) eqn:E.
  - apply Z.eqb_eq in E. rewrite length_app in E. cbn [length] in E. lia.
  - unfold stack_top. now rewrite last_snoc.
Qed.

(** X21: a label.  A null text or a missing measure callback makes the
    call a no-op.  Otherwise, with room in the arena and on the stack,
    the call adds one panel and leaves the stack as it found it; the
    panel is marked as a label, holds the text cut to 255 characters
    and the given text color, is fully transparent, and asks for the
    measured width plus 2 and the measured height; the older panels
    keep their ids, styles and labels.  With a full arena and a panel
    on the stack, no panel is added and it is that enclosing panel
    that is turned into the label and popped. *)
Theorem X21_label (ui : UI_Context) (text : option string) (col : Z) :
  (text = None \/ measure_text ui = None -> UI_Label ui text col = ui)
  /\ (forall t m, text = Some t -> measure_text ui = Some m ->
        built_tree ui -> panel_count (state ui) < UI_MAX_PANELS ->
        Z.of_nat (length (parent_stack ui)) < 32 ->
        let n := panel_count (state ui) in
        let ui' := UI_Label ui text col in
        let p := get_panel (state ui') n in
        parent_stack ui' = parent_stack ui
        /\ panel_count (state ui') = n + 1
        /\ p_id p = fst (UI_Generate_Id ui text)
        /\ is_label p = 1 /\ label_text p = copy_text t /\ label_color p = col
        /\ style p = set_color 0 (set_pref_h (h (m t 14))
                                    (set_pref_w (i32 (w (m t 14) + 2)) new_panel_style))
        /\ (forall i, 0 <= i < n ->
              p_id (get_panel (state ui') i) = p_id (get_panel (state ui) i)
              /\ style (get_panel (state ui') i) = style (get_panel (state ui) i)
              /\ is_label (get_panel (state ui') i) = is_label (get_panel (state ui) i)
              /\ label_text (get_panel (state ui') i)
                 = label_text (get_panel (state ui) i)))
  /\ (forall t m st top, text = Some t -> measure_text ui = Some m ->
        UI_MAX_PANELS <= panel_count (state ui) ->
        parent_stack ui = st ++ [top] -> 0 <= top < panel_count (state ui) ->
        let ui' := UI_Label ui text col in
        let p := get_panel (state ui') top in
        panel_count (state ui') = panel_count (state ui)
        /\ parent_stack ui' = st
        /\ p_id p = p_id (get_panel (state ui) top)
        /\ is_label p = 1 /\ label_text p = copy_text t /\ label_color p = col
        /\ color (style p) = 0
        /\ pref_w (style p) = i32 (w (m t 14) + 2) /\ pref_h (style p) = h (m t 14)).
Proof.
  split; [|split].
  - unfold UI_Label. intros [-> | Hm]; [reflexivity|].
    destruct text; [|reflexivity]. now rewrite Hm.
  - intros t m -> Hm Hb Hroom Hdepth n ui' p. subst p ui'. unfold UI_Label. rewrite Hm.
    destruct (UI_Begin_Panel_panels ui (Some t) Hb Hroom Hdepth)
      as (Hc & Hst & Hid & Hsty & _ & Hold). fold n in Hc, Hst, Hid, Hsty, Hold.
    set (ui1 := UI_Begin_Panel ui (Some t)) in *.
    assert (Hn : 0 <= n < panel_count (state ui1)) by (unfold n, panel_count in *; lia).
    unfold UI_Panel_Set_Size.
    rewrite (on_current_panel_top _ ui1 _ n Hst).
    set (ui2 := set_state _ ui1).
    assert (Hst2 : parent_stack ui2 = parent_stack ui ++ [n]) by exact Hst.
    assert (Hlen : (Z.of_nat (length (parent_stack ui2)) >? 0) = true).
    { rewrite Hst2, length_app. cbn [length]. apply Z.gtb_lt. lia. }
    rewrite Hlen. rewrite (on_current_panel_top _ ui2 _ n Hst2).
    unfold UI_End_Panel. cbn [parent_stack set_state state]. rewrite Hlen.
    cbn [parent_stack set_parent_stack state set_state]. rewrite Hst2, removelast_last.
    unfold ui2. cbn [state set_state].
    split; [reflexivity|].
    split; [now rewrite !panel_count_upd|].
    rewrite !get_upd_same by (rewrite ?panel_count_upd; lia).
    cbn [p_id is_label label_text label_color style set_label set_style].
    rewrite Hsty. split; [exact Hid|]. do 4 (split; [reflexivity|]).
    intros i Hi. rewrite !get_upd_other by lia.
    destruct (Hold i Hi) as (A & B & _ & _ & C & D). auto.
  - intros t m st top -> Hm Hfull Hst Htop ui' p. subst p ui'. unfold UI_Label.
    rewrite Hm.
    assert (H1 : state (UI_Begin_Panel ui (Some t)) = state ui
                 /\ parent_stack (UI_Begin_Panel ui (Some t)) = parent_stack ui).
    { unfold UI_Begin_Panel.
      pose proof (UI_Generate_Id_frame ui (Some t)) as Hfr.
      destruct (UI_Generate_Id ui (Some t)) as [id u1]. simpl in Hfr.
      unfold begin_panel_with, UI_NewPanel. rewrite Hfr. simpl.
      destruct (panel_count (state ui) >=? UI_MAX_PANELS) eqn:E; [|lia].
      simpl. split; reflexivity. }
    destruct H1 as [Hs1 Hp1].
    set (ui1 := UI_Begin_Panel ui (Some t)) in *.
    assert (Hst1 : parent_stack ui1 = st ++ [top]) by congruence.
    unfold UI_Panel_Set_Size.
    rewrite (on_current_panel_top _ ui1 _ top Hst1).
    set (ui2 := set_state _ ui1).
    assert (Hst2 : parent_stack ui2 = st ++ [top]) by exact Hst1.
    assert (Hlen : (Z.of_nat (length (parent_stack ui2)) >? 0) = true).
    { rewrite Hst2, length_app. cbn [length]. apply Z.gtb_lt. lia. }
    rewrite Hlen. rewrite (on_current_panel_top _ ui2 _ top Hst2).
    unfold UI_End_Panel. cbn [parent_stack set_state state]. rewrite Hlen.
    cbn [parent_stack set_parent_stack state set_state]. rewrite Hst2, removelast_last.
    unfold ui2. cbn [state set_state].
    rewrite Hs1.
    split; [now rewrite !panel_count_upd|]. split; [reflexivity|].
    rewrite !get_upd_same by (rewrite ?panel_count_upd; lia).
    repeat split.
Qed.

Lemma X21_label_witness :
  UI_Label fresh_frame None 7 = fresh_frame
  /\ is_label (get_panel (state (UI_Label (UI_Begin_Panel fresh_frame (Some "root"))
                                   (Some "Hi") 7)) 1) = 1.
Proof.
  split.
  - apply (proj1 (X21_label fresh_frame None 7)). now left.
  - assert (Hb : built_tree (UI_Begin_Panel fresh_frame (Some "root")))
      by apply built_tree_UI_Begin_Panel, built_tree_begin_frame.
    destruct (proj1 (proj2 (X21_label (UI_Begin_Panel fresh_frame (Some "root"))
                              (Some "Hi") 7)) "Hi" sample_measure eq_refl eq_refl Hb)
      as (_ & _ & _ & H & _).
    + vm_compute. reflexivity.
    + vm_compute. reflexivity.
    + exact H.
Defined.

(** ** Column layout: the heights *)

(** X22: in a column pass every child's height is its fixed
    contribution ([pref_h] when non-negative, else 0) plus, when its
    [flex_grow] and the sum of the positive grow factors are positive,
    the integer part of the single-precision product
    (flex_grow / grow_sum) * remaining, where remaining is the content
    height minus the fixed contributions and the gaps, or 0 when that
    is negative; a child that does not grow gets exactly its fixed
    contribution, whatever room is left. *)
Theorem X22_column_heights (s s' : UI_State) (idx : Z) (l : list Z) (cnt fs : Z)
    (gs : f32) (c : Z) :
  let p := get_panel s idx in
  let rem := remaining_space (content_h p) (gap (style p)) cnt fs in
  UI_LayoutColumn s idx = Some s' ->
  sibling_chain (chain_fuel s) s (first_child p) = Some l ->
  measure_list pref_h l s 0 0 f32_zero = (cnt, fs, gs) ->
  NoDup l -> In c l -> 0 <= c < panel_count s ->
  0 <= rem
  /\ h (rect (get_panel s' c)) = child_main_size pref_h (get_panel s c) gs rem
  /\ (f32_gt (flex_grow (style (get_panel s c))) f32_zero = false ->
      h (rect (get_panel s' c)) = fixed_size pref_h (get_panel s c)
      /\ 0 <= h (rect (get_panel s' c)))
  /\ (f32_gt (flex_grow (style (get_panel s c))) f32_zero = true ->
      f32_gt gs f32_zero = true ->
      h (rect (get_panel s' c))
      = i32 (fixed_size pref_h (get_panel s c)
             + f32_to_int (f32_mul (f32_div (flex_grow (style (get_panel s c))) gs)
                             (f32_of_int rem)))).
Proof.
  intros p rem Hs' Hl Hm Hnd Hin Hc.
  assert (Hrem : 0 <= rem).
  { unfold rem, remaining_space. cbv zeta. destruct (_ <? 0) eqn:E; lia. }
  split; [exact Hrem|].
  apply in_split in Hin as (pre & post & ->).
  unfold UI_LayoutColumn in Hs'. fold p in Hs'. rewrite layout_pass_chain, Hl, Hm in Hs'.
  injection Hs' as <-. fold rem.
  pose proof (place_list_exact pref_h
                (fun cursor_y sz => mkRect (content_x0 p) cursor_y (content_w p) sz)
                pre post c s (content_y0 p) (gap (style p)) gs rem Hnd Hc) as Hr.
  unfold rect_at in Hr. rewrite Hr. cbn [h].
  split; [reflexivity|]. unfold child_main_size. split.
  - intros ->. simpl. split; [reflexivity|]. unfold fixed_size.
    destruct (pref_h (style (get_panel s c)) >=? 0) eqn:E; lia.
  - intros -> ->. reflexivity.
Qed.

Lemma X22_column_heights_witness :
  h (rect (get_panel (default [] (UI_LayoutColumn column_example_state 0)) 2)) = 240
  /\ h (rect (get_panel (default [] (UI_LayoutColumn column_example_state 0)) 1)) = 50.
Proof.
  assert (Hnd : NoDup [1; 2]).
  { apply NoDup_cons. split; [|apply NoDup_singleton].
    intros Hin. apply list_elem_of_In in Hin. simpl in Hin. lia. }
  assert (Hr : forall c, c = 1 \/ c = 2 -> 0 <= c < panel_count column_example_state).
  { intros c [-> | ->]; vm_compute; split; first [discriminate | reflexivity]. }
  pose proof (X22_column_heights column_example_state
                (default [] (UI_LayoutColumn column_example_state 0)) 0 [1; 2]
                2 50 f32_one 2 ltac:(vm_compute; reflexivity)
                ltac:(vm_compute; reflexivity) ltac:(vm_compute; reflexivity)
                Hnd ltac:(simpl; auto) (Hr 2 (or_intror eq_refl))) as (_ & H2 & _).
  pose proof (X22_column_heights column_example_state
                (default [] (UI_LayoutColumn column_example_state 0)) 0 [1; 2]
                2 50 f32_one 1 ltac:(vm_compute; reflexivity)
                ltac:(vm_compute; reflexivity) ltac:(vm_compute; reflexivity)
                Hnd ltac:(simpl; auto) (Hr 1 (or_introl eq_refl))) as (_ & _ & H1 & _).
  split.
  - rewrite H2. vm_compute. reflexivity.
  - destruct H1 as [H1 _]; [vm_compute; reflexivity|]. rewrite H1. vm_compute. reflexivity.
Defined.

(** ** The laid-out tree: every container agrees with its children *)

Lemma tree_ok_increasing (s : UI_State) : tree_ok s -> links_increasing s.
Proof.
  intros Hok i Hi. destruct (Hok i Hi) as (_ & Hf & Hn). split.
  - destruct Hf as [[Hf _]|Hf]; [now left|right; lia].
  - destruct Hn as [Hn|Hn]; [now left|right; lia].
Qed.

Lemma skel_links (p q : UI_Panel) :
  skel p = skel q -> parent p = parent q /\ last_child p = last_child q.
Proof.
  destruct p, q. unfold skel, set_rect. simpl.
  intros [= -> -> -> -> -> -> -> -> ->]. auto.
Qed.

Lemma tree_ok_skel (s1 s2 : UI_State) : same_skel s1 s2 -> tree_ok s1 -> tree_ok s2.
Proof.
  intros Hk. apply tree_ok_links.
  - unfold panel_count. now rewrite (same_skel_length _ _ Hk).
  - intros i. pose proof (same_skel_get _ _ i Hk) as Hg.
    destruct (skel_fields _ _ Hg) as (_ & Hf & Hn & _).
    destruct (skel_links _ _ Hg) as (Hp & Hl). auto.
Qed.

(** Every member of the child list of [p] has [p] as its parent. *)
Lemma chain_parent (s : UI_State) (p : Z) (k : nat) (c0 : Z) (l : list Z) :
  tree_ok s -> 0 <= p ->
  c0 = -1 \/ (p < c0 < panel_count s /\ parent (get_panel s c0) = p) ->
  sibling_chain k s c0 = Some l ->
  forall c, In c l -> p < c < panel_count s /\ parent (get_panel s c) = p.
Proof.
  intros Hok Hp. revert c0 l. induction k as [|k IH]; intros c0 l Hc0; simpl.
  - destruct (c0 =? -1); [|discriminate]. intros [= <-] c [].
  - destruct (c0 =? -1) eqn:E; [intros [= <-] c []|].
    destruct Hc0 as [->|[Hr Hpar]]; [discriminate|].
    destruct (sibling_chain k s (next_sibling (get_panel s c0))) as [l'|] eqn:El;
      [|discriminate].
    intros [= <-] c [<-|Hin]; [auto|].
    apply (IH (next_sibling (get_panel s c0)) l'); [|exact El|exact Hin].
    destruct (Hok c0 ltac:(lia)) as (_ & _ & [Hn|Hn]); [now left|right].
    split; [lia|]. destruct Hn as (_ & Hn & _). congruence.
Qed.

Lemma child_list_parent (s : UI_State) (p : Z) (l : list Z) :
  tree_ok s -> 0 <= p < panel_count s ->
  sibling_chain (chain_fuel s) s (first_child (get_panel s p)) = Some l ->
  forall c, In c l -> p < c < panel_count s /\ parent (get_panel s c) = p.
Proof.
  intros Hok Hp Hl.
  apply (chain_parent s p (chain_fuel s) (first_child (get_panel s p)) l Hok
           ltac:(lia)); [|exact Hl].
  destruct (Hok p Hp) as (_ & [[Hf _]|Hf] & _); [now left|right].
  split; [lia|]. tauto.
Qed.

Lemma in_subtree_skel (s1 s2 : UI_State) (r i : Z) :
  same_skel s1 s2 -> in_subtree s1 r i -> in_subtree s2 r i.
Proof.
  intros Hk H. induction H as [|p c l _ IH Hl Hin]; [constructor|].
  apply (in_subtree_child s2 r p c l IH); [|exact Hin].
  rewrite <- (same_skel_first _ _ p Hk), <- (sibling_chain_skel _ _ _ _ Hk).
  unfold chain_fuel in *. now rewrite <- (same_skel_length _ _ Hk).
Qed.

Lemma in_subtree_range (s : UI_State) (r i : Z) :
  tree_ok s -> 0 <= r < panel_count s -> in_subtree s r i -> r <= i < panel_count s.
Proof.
  intros Hok Hr H. induction H as [|p c l _ IH Hl Hin]; [lia|].
  pose proof (child_list_parent s p l Hok ltac:(lia) Hl c Hin). lia.
Qed.

Lemma in_subtree_up (s : UI_State) (r i : Z) :
  tree_ok s -> 0 <= r < panel_count s -> in_subtree s r i ->
  i = r \/ (r < i /\ in_subtree s r (parent (get_panel s i))).
Proof.
  intros Hok Hr H. destruct H as [|p c l Hp Hl Hin]; [now left|right].
  pose proof (in_subtree_range s r p Hok Hr Hp) as Hrp.
  destruct (child_list_parent s p l Hok ltac:(lia) Hl c Hin) as [Hc ->].
  split; [lia|exact Hp].
Qed.

Lemma in_subtree_trans (s : UI_State) (a b c : Z) :
  in_subtree s a b -> in_subtree s b c -> in_subtree s a c.
Proof.
  intros Hab Hbc. induction Hbc as [|p c l _ IH Hl Hin]; [exact Hab|].
  exact (in_subtree_child s a p c l IH Hl Hin).
Qed.

Lemma in_subtree_down (s : UI_State) (r p : Z) :
  in_subtree s r p ->
  p = r \/ exists l d,
             sibling_chain (chain_fuel s) s (first_child (get_panel s r)) = Some l
             /\ In d l /\ in_subtree s d p.
Proof.
  intros H. induction H as [|p c l _ IH Hl Hin]; [now left|right].
  destruct IH as [->|(l0 & d & Hl0 & Hd & Hdp)].
  - exists l, c. split; [exact Hl|]. split; [exact Hin|constructor].
  - exists l0, d. split; [exact Hl0|]. split; [exact Hd|].
    exact (in_subtree_child s d p c l Hdp Hl Hin).
Qed.

(** The ancestors of a panel are linearly ordered. *)
Lemma in_subtree_linear (s : UI_State) (a b i : Z) :
  tree_ok s -> 0 <= a < panel_count s -> 0 <= b < panel_count s ->
  in_subtree s a i -> in_subtree s b i -> in_subtree s a b \/ in_subtree s b a.
Proof.
  intros Hok Ha Hb H. induction H as [|p c l Hp IH Hl Hin]; [now right|].
  intros Hbc. destruct (in_subtree_up s b c Hok Hb Hbc) as [->|[_ Hup]].
  - left. exact (in_subtree_child s a p b l Hp Hl Hin).
  - pose proof (in_subtree_range s a p Hok Ha Hp) as Hrp.
    destruct (child_list_parent s p l Hok ltac:(lia) Hl c Hin) as [_ Hpar].
    rewrite Hpar in Hup. exact (IH Hup).
Qed.

(** The subtrees of two different children of one panel are disjoint. *)
Lemma siblings_apart (s : UI_State) (par d1 d2 i : Z) :
  tree_ok s ->
  par < d1 < panel_count s -> par < d2 < panel_count s -> 0 <= par ->
  parent (get_panel s d1) = par -> parent (get_panel s d2) = par -> d1 <> d2 ->
  in_subtree s d1 i -> in_subtree s d2 i -> False.
Proof.
  intros Hok H1 H2 Hpar Hp1 Hp2 Hne Hi1 Hi2.
  destruct (in_subtree_linear s d1 d2 i Hok ltac:(lia) ltac:(lia) Hi1 Hi2) as [H|H].
  - destruct (in_subtree_up s d1 d2 Hok ltac:(lia) H) as [E|[_ Hup]]; [congruence|].
    rewrite Hp2 in Hup.
    pose proof (in_subtree_range s d1 par Hok ltac:(lia) Hup). lia.
  - destruct (in_subtree_up s d2 d1 Hok ltac:(lia) H) as [E|[_ Hup]]; [congruence|].
    rewrite Hp1 in Hup.
    pose proof (in_subtree_range s d2 par Hok ltac:(lia) Hup). lia.
Qed.

Lemma in_subtree_leaf (s : UI_State) (r p : Z) :
  first_child (get_panel s r) = -1 -> in_subtree s r p -> p = r.
Proof.
  intros Hleaf H. destruct (in_subtree_down s r p H) as [E|(l & d & Hl & Hd & _)];
    [exact E|].
  rewrite Hleaf in Hl. unfold chain_fuel in Hl.
  destruct (length s); simpl in Hl; injection Hl as <-; destruct Hd.
Qed.

(** Whether a pass of a container changes nothing depends on the rect
    of the container and the rects of its children only. *)
Lemma container_fix_transfer (o1 o2 : UI_State) (p : Z) :
  same_skel o1 o2 ->
  rect_at o1 p = rect_at o2 p ->
  (forall l j, sibling_chain (chain_fuel o1) o1 (first_child (get_panel o1 p)) = Some l ->
               In j l -> rect_at o1 j = rect_at o2 j) ->
  layout_container o1 p = Some o1 -> layout_container o2 p = Some o2.
Proof.
  intros Hk Hr Hch H1.
  destruct (Z.eq_dec (direction (style (get_panel o1 p))) 0) as [Hd|Hd0];
    [|destruct (Z.eq_dec (direction (style (get_panel o1 p))) 1) as [Hd|Hd1]].
  3:{ unfold layout_container. rewrite <- (same_skel_style _ _ p Hk).
      destruct (Z.eqb_spec (direction (style (get_panel o1 p))) 0); [contradiction|].
      destruct (Z.eqb_spec (direction (style (get_panel o1 p))) 1); [contradiction|].
      reflexivity. }
  all: destruct (layout_container_agree o1 o2 o1 p Hk Hr ltac:(auto) H1)
      as (o2' & l & Ho2 & _ & Hl & Hin);
    rewrite Ho2; f_equal;
    apply same_skel_state_eq; [exact (layout_container_skel _ _ _ Ho2)|];
    intros i; destruct (In_dec Z.eq_dec i l) as [Hi|Hi];
    [rewrite <- (Hin i Hi); exact (Hch l i Hl Hi)|];
    apply (layout_container_frame _ _ _ _ Ho2); intros l' Hl';
    rewrite <- (same_skel_first _ _ p Hk), <- (sibling_chain_skel _ _ _ _ Hk) in Hl';
    unfold chain_fuel in *; rewrite <- (same_skel_length _ _ Hk) in Hl'; congruence.
Qed.

(** A pass of a container is idempotent. *)
Lemma container_pass_idem (s s1 : UI_State) (idx : Z) :
  links_increasing s -> 0 <= idx < panel_count s ->
  layout_container s idx = Some s1 -> layout_container s1 idx = Some s1.
Proof.
  intros Hw Hi H1.
  pose proof (layout_container_skel _ _ _ H1) as Hk.
  assert (Hchain : forall l j,
             sibling_chain (chain_fuel s) s (first_child (get_panel s idx)) = Some l ->
             In j l -> idx < j).
  { intros l j Hl Hj. destruct (proj1 (Hw idx Hi)) as [Hf|Hf].
    - rewrite Hf in Hl. unfold chain_fuel in Hl.
      destruct (length s); simpl in Hl; injection Hl as <-; destruct Hj.
    - assert (Hb : 0 <= first_child (get_panel s idx) < panel_count s) by lia.
      pose proof (sibling_chain_increasing s _ _ l Hw Hb Hl j Hj). lia. }
  assert (Hr : rect_at s idx = rect_at s1 idx).
  { symmetry. apply (layout_container_frame _ _ _ _ H1). intros l Hl Hin.
    pose proof (Hchain l idx Hl Hin). lia. }
  destruct (Z.eq_dec (direction (style (get_panel s idx))) 0) as [Hd|Hd0];
    [|destruct (Z.eq_dec (direction (style (get_panel s idx))) 1) as [Hd|Hd1]].
  3:{ revert H1. unfold layout_container.
      destruct (Z.eqb_spec (direction (style (get_panel s idx))) 0); [contradiction|].
      destruct (Z.eqb_spec (direction (style (get_panel s idx))) 1); [contradiction|].
      intros [= <-].
      destruct (Z.eqb_spec (direction (style (get_panel s idx))) 0); [contradiction|].
      destruct (Z.eqb_spec (direction (style (get_panel s idx))) 1); [contradiction|].
      reflexivity. }
  all: destruct (layout_container_agree s s1 s1 idx (same_skel_sym _ _ Hk) Hr
                   ltac:(auto) H1) as (o2 & l & Ho2 & _ & Hl & Hin);
    rewrite Ho2; f_equal;
    apply same_skel_state_eq; [exact (layout_container_skel _ _ _ Ho2)|];
    intros i; destruct (In_dec Z.eq_dec i l) as [Hil|Hil];
    [symmetry; exact (Hin i Hil)|];
    apply (layout_container_frame _ _ _ _ Ho2); intros l' Hl';
    rewrite (same_skel_first _ _ idx Hk), (sibling_chain_skel _ _ _ _ Hk) in Hl';
    unfold chain_fuel in *; rewrite (same_skel_length _ _ Hk) in Hl'; congruence.
Qed.

Lemma child_list_skel (s1 s2 : UI_State) (p : Z) :
  same_skel s1 s2 ->
  sibling_chain (chain_fuel s1) s1 (first_child (get_panel s1 p))
  = sibling_chain (chain_fuel s2) s2 (first_child (get_panel s2 p)).
Proof.
  intros Hk. rewrite (same_skel_first _ _ p Hk), (sibling_chain_skel _ _ _ _ Hk).
  unfold chain_fuel. now rewrite (same_skel_length _ _ Hk).
Qed.

Lemma same_skel_parent (s1 s2 : UI_State) (c : Z) :
  same_skel s1 s2 -> parent (get_panel s1 c) = parent (get_panel s2 c).
Proof. intros H. now apply (skel_links _ _ (same_skel_get _ _ c H)). Qed.

Lemma same_skel_count (s1 s2 : UI_State) :
  same_skel s1 s2 -> panel_count s1 = panel_count s2.
Proof. intros H. unfold panel_count. now rewrite (same_skel_length _ _ H). Qed.

Lemma layout_container_leaf (s : UI_State) (idx : Z) :
  first_child (get_panel s idx) = -1 -> layout_container s idx = Some s.
Proof.
  intros Hleaf. unfold layout_container, UI_LayoutRow, UI_LayoutColumn, layout_pass.
  rewrite Hleaf.
  destruct (chain_fuel s); simpl;
    (destruct (direction (style (get_panel s idx)) =? 0); [reflexivity|]);
    destruct (direction (style (get_panel s idx)) =? 1); reflexivity.
Qed.

Lemma sibling_chain_nil (k : nat) (s : UI_State) (c : Z) (l : list Z) :
  (c =? -1) = true -> sibling_chain k s c = Some l -> l = [].
Proof. intros E. destruct k; simpl; rewrite E; now intros [= <-]. Qed.

(** The tree walk writes inside the subtree of the panel it starts at
    only, and when it returns every container of that subtree agrees
    with its children. *)
Lemma layout_tree_consistent (fuel : nat) :
  (forall s idx o,
      tree_ok s -> 0 <= idx < panel_count s ->
      layout_tree fuel s idx = Some o ->
      (forall i, ~ (in_subtree s idx i /\ i <> idx) -> rect_at o i = rect_at s i)
      /\ (forall p, in_subtree s idx p -> layout_container o p = Some o))
  /\ (forall s c o l k par,
        tree_ok s -> 0 <= par ->
        sibling_chain k s c = Some l ->
        NoDup l ->
        (forall d, In d l -> par < d < panel_count s /\ parent (get_panel s d) = par) ->
        layout_children fuel s c = Some o ->
        (forall i, (forall d, In d l -> ~ (in_subtree s d i /\ i <> d)) ->
                   rect_at o i = rect_at s i)
        /\ (forall d p, In d l -> in_subtree s d p -> layout_container o p = Some o)).
Proof.
  induction fuel as [|f [IHt IHc]]; split; intros *.
  - discriminate.
  - intros _ _ Hl _ _. simpl. destruct (c =? -1) eqn:E; [|discriminate].
    intros [= <-]. rewrite (sibling_chain_nil _ _ _ _ E Hl).
    split; [reflexivity|]. intros d p [].
  - intros Hok Hi. cbn [layout_tree].
    pose proof (tree_ok_increasing s Hok) as Hw.
    destruct (first_child (get_panel s idx) =? -1) eqn:Efc.
    { intros [= <-]. split; [reflexivity|]. intros p Hp.
      apply Z.eqb_eq in Efc. rewrite (in_subtree_leaf s idx p Efc Hp).
      now apply layout_container_leaf. }
    destruct (layout_container s idx) as [s1|] eqn:E1; [|discriminate].
    intros Ho.
    pose proof (layout_container_skel _ _ _ E1) as Hk1.
    pose proof (tree_ok_skel _ _ (same_skel_sym _ _ Hk1) Hok) as Hok1.
    pose proof (same_skel_count _ _ Hk1) as Hc1.
    assert (Hb : 0 <= first_child (get_panel s idx) < panel_count s).
    { destruct (proj1 (Hw idx Hi)) as [Hn|Hn]; [rewrite Hn in Efc; discriminate|lia]. }
    destruct (sibling_chain_total s (chain_fuel s) (first_child (get_panel s idx)) Hw)
      as [l Hl].
    { right. split; [exact Hb|]. unfold chain_fuel, panel_count in *. lia. }
    pose proof (sibling_chain_NoDup s _ _ l Hw Hb Hl) as Hnd.
    pose proof Hl as Hl1. rewrite <- (child_list_skel _ _ idx Hk1) in Hl1.
    assert (Hi1 : 0 <= idx < panel_count s1) by lia.
    pose proof (child_list_parent s1 idx l Hok1 Hi1 Hl1) as Hlp1.
    destruct (IHc s1 (first_child (get_panel s1 idx)) o l (chain_fuel s1) idx
                Hok1 ltac:(lia) Hl1 Hnd Hlp1 Ho) as [Fc Gc].
    pose proof (proj2 (layout_tree_skel f) _ _ _ Ho) as Hko.
    split.
    + intros i Hni. transitivity (rect_at s1 i).
      * apply Fc. intros d Hd [Hdi Hne]. apply Hni. split.
        -- apply (in_subtree_trans s idx d i).
           ++ exact (in_subtree_child s idx idx d l (in_subtree_root s idx) Hl Hd).
           ++ exact (in_subtree_skel _ _ _ _ Hk1 Hdi).
        -- pose proof (Hlp1 d Hd) as Hd1.
           pose proof (in_subtree_range s1 d i Hok1 ltac:(lia) Hdi). lia.
      * apply (layout_container_frame _ _ _ _ E1). intros l' Hl' Hin.
        assert (l' = l) by congruence. subst l'. apply Hni. split.
        -- exact (in_subtree_child s idx idx i l (in_subtree_root s idx) Hl Hin).
        -- pose proof (Hlp1 i Hin). lia.
    + intros p Hp.
      destruct (in_subtree_down s idx p Hp) as [->|(l0 & d & Hl0 & Hd & Hdp)].
      * apply (container_fix_transfer s1 o idx (same_skel_sym _ _ Hko)).
        -- symmetry. apply Fc. intros d Hd [Hdi _].
           pose proof (Hlp1 d Hd) as Hd1.
           pose proof (in_subtree_range s1 d idx Hok1 ltac:(lia) Hdi). lia.
        -- intros l' j Hl' Hj. assert (l' = l) by congruence. subst l'.
           symmetry. apply Fc. intros d Hd [Hdj Hne].
           pose proof (Hlp1 d Hd) as Hd1. pose proof (Hlp1 j Hj) as Hj1.
           destruct (in_subtree_up s1 d j Hok1 ltac:(lia) Hdj) as [E|[_ Hup]];
             [congruence|].
           rewrite (proj2 Hj1) in Hup.
           pose proof (in_subtree_range s1 d idx Hok1 ltac:(lia) Hup). lia.
        -- exact (container_pass_idem s s1 idx Hw Hi E1).
      * assert (l0 = l) by congruence. subst l0.
        apply (Gc d p Hd). exact (in_subtree_skel _ _ _ _ (same_skel_sym _ _ Hk1) Hdp).
  - intros Hok Hpar Hl Hnd Hlp. cbn [layout_children].
    destruct (c =? -1) eqn:E.
    { intros [= <-]. rewrite (sibling_chain_nil _ _ _ _ E Hl).
      split; [reflexivity|]. intros d p []. }
    destruct (layout_tree f s c) as [s'|] eqn:Et; [|discriminate].
    intros Ho.
    destruct k as [|k]; simpl in Hl; rewrite E in Hl; [discriminate|].
    destruct (sibling_chain k s (next_sibling (get_panel s c))) as [l'|] eqn:El';
      [|discriminate].
    injection Hl as <-.
    destruct (Hlp c (or_introl eq_refl)) as [Hc Hcp].
    destruct (IHt s c s' Hok ltac:(lia) Et) as [Ft Gt].
    pose proof (proj1 (layout_tree_skel f) _ _ _ Et) as Hk'.
    pose proof (tree_ok_skel _ _ (same_skel_sym _ _ Hk') Hok) as Hok'.
    pose proof (same_skel_count _ _ Hk') as Hc'.
    apply NoDup_cons in Hnd. destruct Hnd as [Hnc Hnd'].
    assert (El'' : sibling_chain k s' (next_sibling (get_panel s' c)) = Some l').
    { now rewrite (same_skel_next _ _ c Hk'), (sibling_chain_skel _ _ _ _ Hk'). }
    assert (Hlp' : forall d, In d l' ->
               par < d < panel_count s' /\ parent (get_panel s' d) = par).
    { intros d Hd. destruct (Hlp d (or_intror Hd)) as [H1 H2].
      rewrite (same_skel_parent _ _ d Hk'). split; [lia|exact H2]. }
    destruct (IHc s' (next_sibling (get_panel s' c)) o l' k par
                Hok' Hpar El'' Hnd' Hlp' Ho) as [Fc Gc].
    pose proof (proj2 (layout_tree_skel f) _ _ _ Ho) as Hko.
    assert (Hapart : forall d' i, In d' l' -> in_subtree s c i ->
                                  in_subtree s' d' i -> False).
    { intros d' i Hd' Hci Hdi.
      destruct (Hlp d' (or_intror Hd')) as [H1 H2].
      apply (siblings_apart s par c d' i Hok Hc H1 Hpar Hcp H2); [|exact Hci|].
      - intros ->. apply Hnc. now apply list_elem_of_In.
      - exact (in_subtree_skel _ _ _ _ Hk' Hdi). }
    split.
    + intros i Hni. transitivity (rect_at s' i).
      * apply Fc. intros d Hd [Hdi Hne]. apply (Hni d (or_intror Hd)).
        split; [exact (in_subtree_skel _ _ _ _ Hk' Hdi)|exact Hne].
      * apply Ft. exact (Hni c (or_introl eq_refl)).
    + intros d p [<-|Hd] Hdp.
      * apply (container_fix_transfer s' o p (same_skel_sym _ _ Hko)).
        -- symmetry. apply Fc. intros d' Hd' [Hd'p _].
           exact (Hapart d' p Hd' Hdp Hd'p).
        -- intros l0 j Hl0 Hj. symmetry. apply Fc. intros d' Hd' [Hd'j _].
           apply (Hapart d' j Hd'); [|exact Hd'j].
           rewrite (child_list_skel _ _ p Hk') in Hl0.
           exact (in_subtree_child s c p j l0 Hdp Hl0 Hj).
        -- exact (Gt p Hdp).
      * apply (Gc d p Hd).
        exact (in_subtree_skel _ _ _ _ (same_skel_sym _ _ Hk') Hdp).
Qed.

Lemma tree_ok_b_sound (s : UI_State) : tree_ok_b s = true -> tree_ok s.
Proof.
  unfold tree_ok_b. rewrite forallb_forall. intros H i Hi.
  specialize (H (Z.to_nat i)). rewrite Z2Nat.id in H by lia.
  assert (Hin : In (Z.to_nat i) (List.seq 0 (length s))).
  { apply in_seq. unfold panel_count in Hi. lia. }
  specialize (H Hin). unfold tree_ok_at in H. cbv zeta in *.
  repeat rewrite ?andb_true_iff, ?orb_true_iff, ?Z.eqb_eq, ?Z.leb_le, ?Z.ltb_lt in H.
  lia.
Qed.

(** X23: the laid-out tree.  On a tree with consistent links the layout
    walk from [root] returns; it leaves [root] and every panel outside
    the subtree of [root] exactly as they were; and in the result every
    panel of the subtree agrees with its children: running the row pass
    on a row, or the column pass on a column, changes nothing any more.
    So, in the final arena, each child of a row has the top and the
    height of the final content box of its parent, the first child
    starts at the left of that box and each next child starts where the
    previous one ends plus the gap (in a column the same with the axes
    exchanged), however deep the panel lies and whatever was laid out
    after it. *)
Theorem X23_laid_out_tree (s : UI_State) (root : Z) :
  tree_ok s -> 0 <= root < panel_count s ->
  exists s',
    UI_LayoutPanelTree s root = Some s'
    /\ (forall i, i = root \/ ~ in_subtree s root i -> get_panel s' i = get_panel s i)
    /\ forall p, in_subtree s root p ->
         let q := get_panel s' p in
         exists l,
           sibling_chain (chain_fuel s') s' (first_child q) = Some l
           /\ (direction (style q) = 0 ->
               UI_LayoutRow s' p = Some s'
               /\ (forall c, In c l ->
                     y (rect (get_panel s' c)) = content_y0 q
                     /\ h (rect (get_panel s' c)) = content_h q)
               /\ (forall c l', l = c :: l' -> x (rect (get_panel s' c)) = content_x0 q)
               /\ (forall pre a b post, l = pre ++ a :: b :: post ->
                     x (rect (get_panel s' b))
                     = i32 (x (rect (get_panel s' a))
                            + i32 (w (rect (get_panel s' a)) + gap (style q)))))
           /\ (direction (style q) = 1 ->
               UI_LayoutColumn s' p = Some s'
               /\ (forall c, In c l ->
                     x (rect (get_panel s' c)) = content_x0 q
                     /\ w (rect (get_panel s' c)) = content_w q)
               /\ (forall c l', l = c :: l' -> y (rect (get_panel s' c)) = content_y0 q)
               /\ (forall pre a b post, l = pre ++ a :: b :: post ->
                     y (rect (get_panel s' b))
                     = i32 (y (rect (get_panel s' a))
                            + i32 (h (rect (get_panel s' a)) + gap (style q))))).
Proof.
  intros Hok Hr.
  pose proof (tree_ok_increasing s Hok) as Hw.
  destruct (proj1 (layout_tree_total (tree_fuel s)) s root Hw Hr) as [s' Hs'].
  { unfold tree_fuel, panel_count in *. lia. }
  exists s'. split; [exact Hs'|].
  destruct (proj1 (layout_tree_consistent (tree_fuel s)) s root s' Hok Hr Hs')
    as [F G].
  pose proof (proj1 (layout_tree_skel _) _ _ _ Hs') as Hk.
  pose proof (tree_ok_skel _ _ (same_skel_sym _ _ Hk) Hok) as Hok'.
  pose proof (tree_ok_increasing s' Hok') as Hw'.
  pose proof (same_skel_count _ _ Hk) as Hcnt.
  split.
  - intros i Hi. apply same_skel_panel; [exact Hk|]. apply F.
    intros [Hin Hne]. destruct Hi as [Hi|Hi]; [exact (Hne Hi)|exact (Hi Hin)].
  - intros p Hp q.
    pose proof (in_subtree_range s root p Hok Hr Hp) as Hpr.
    assert (Hp' : 0 <= p < panel_count s') by lia.
    assert (Hfc : first_child q = -1 \/ 0 <= first_child q < panel_count s').
    { destruct (proj1 (Hw' p Hp')) as [H|H]; [now left|right; fold q in H; lia]. }
    destruct (sibling_chain_total s' (chain_fuel s') (first_child q) Hw') as [l Hl].
    { destruct Hfc as [H|H]; [now left|right]. split; [exact H|].
      unfold chain_fuel, panel_count in *. lia. }
    assert (Hnd : NoDup l).
    { destruct Hfc as [H|H].
      - rewrite H in Hl. unfold chain_fuel in Hl. destruct (length s'); simpl in Hl;
          injection Hl as <-; apply NoDup_nil_2.
      - exact (sibling_chain_NoDup s' _ _ l Hw' H Hl). }
    assert (Hin : forall c, In c l -> 0 <= c < panel_count s').
    { intros c Hc. pose proof (child_list_parent s' p l Hok' Hp' Hl c Hc). lia. }
    exists l. split; [exact Hl|].
    pose proof (G p Hp) as Hfix. unfold layout_container in Hfix. fold q in Hfix.
    split.
    + intros Hd. rewrite Hd in Hfix. cbn [Z.eqb] in Hfix.
      split; [exact Hfix|].
      destruct (layout_pass_geometry pref_w
                  (fun cursor_x sz => mkRect cursor_x (content_y0 q) sz (content_h q))
                  s' q (content_x0 q) (content_w q) l Hl Hnd Hin)
        as (s2 & pos & size & Hrun & _ & Hrect & Hfirst & Hnext & _).
      assert (s2 = s').
      { pose proof Hfix as Hf2. unfold UI_LayoutRow in Hf2. unfold q in Hrun.
        rewrite Hrun in Hf2. now injection Hf2. }
      subst s2. unfold rect_at in Hrect.
      split; [|split].
      * intros c Hc. rewrite (Hrect c Hc). split; reflexivity.
      * intros c l' ->. rewrite (Hrect c (or_introl eq_refl)). simpl.
        now apply (Hfirst c l').
      * intros pre a b post ->.
        rewrite (Hrect a), (Hrect b) by (apply in_or_app; right; simpl; auto).
        simpl. now apply (Hnext pre a b post).
    + intros Hd. rewrite Hd in Hfix. cbn [Z.eqb] in Hfix.
      split; [exact Hfix|].
      destruct (layout_pass_geometry pref_h
                  (fun cursor_y sz => mkRect (content_x0 q) cursor_y (content_w q) sz)
                  s' q (content_y0 q) (content_h q) l Hl Hnd Hin)
        as (s2 & pos & size & Hrun & _ & Hrect & Hfirst & Hnext & _).
      assert (s2 = s').
      { pose proof Hfix as Hf2. unfold UI_LayoutColumn in Hf2. unfold q in Hrun.
        rewrite Hrun in Hf2. now injection Hf2. }
      subst s2. unfold rect_at in Hrect.
      split; [|split].
      * intros c Hc. rewrite (Hrect c Hc). split; reflexivity.
      * intros c l' ->. rewrite (Hrect c (or_introl eq_refl)). simpl.
        now apply (Hfirst c l').
      * intros pre a b post ->.
        rewrite (Hrect a), (Hrect b) by (apply in_or_app; right; simpl; auto).
        simpl. now apply (Hnext pre a b post).
Qed.

Lemma layout_panel_tree_skel (s s' : UI_State) (root : Z) :
  UI_LayoutPanelTree s root = Some s' -> same_skel s' s.
Proof. exact (proj1 (layout_tree_skel _) s root s'). Qed.

Lemma X23_laid_out_tree_witness :
  exists s',
    UI_LayoutPanelTree column_example_state 0 = Some s'
    /\ UI_LayoutColumn s' 0 = Some s'.
Proof.
  destruct (X23_laid_out_tree column_example_state 0) as (s' & Hs' & _ & H).
  - apply tree_ok_b_sound. vm_compute. reflexivity.
  - vm_compute. split; [discriminate|reflexivity].
  - exists s'. split; [exact Hs'|].
    destruct (H 0 (in_subtree_root _ _)) as (l & _ & _ & Hcol).
    apply Hcol.
    rewrite (same_skel_style _ _ 0 (layout_panel_tree_skel _ _ _ Hs')).
    vm_compute. reflexivity.
Defined.

(** ** Widgets: the divider *)

(** The links of the panel a successful [UI_Begin_Panel] creates. *)
Lemma UI_Begin_Panel_links (ctx : UI_Context) (name : option string) :
  built_tree ctx -> panel_count (state ctx) < UI_MAX_PANELS ->
  let n := panel_count (state ctx) in
  let ctx' := UI_Begin_Panel ctx name in
  first_child (get_panel (state ctx') n) = -1
  /\ next_sibling (get_panel (state ctx') n) = -1
  /\ (forall st top, parent_stack ctx = st ++ [top] ->
        parent (get_panel (state ctx') n) = top
        /\ last_child (get_panel (state ctx') top) = n)
  /\ (parent_stack ctx = [] -> parent (get_panel (state ctx') n) = -1).
Proof.
  intros Hb Hroom n ctx'.
  pose proof (built_tree_UI_Generate_Id ctx name Hb) as Hg.
  pose proof (UI_Generate_Id_frame ctx name) as Hfr.
  assert (Hid : ctx' = begin_panel_with (snd (UI_Generate_Id ctx name))
                         (fst (UI_Generate_Id ctx name))).
  { unfold ctx', UI_Begin_Panel. destruct (UI_Generate_Id ctx name); reflexivity. }
  assert (Hs1 : state (snd (UI_Generate_Id ctx name)) = state ctx)
    by (rewrite Hfr; reflexivity).
  assert (Hp1 : parent_stack (snd (UI_Generate_Id ctx name)) = parent_stack ctx)
    by (rewrite Hfr; reflexivity).
  pose proof (begin_panel_with_panels _ (fst (UI_Generate_Id ctx name)) Hg) as Hbp.
  cbv zeta in Hbp. rewrite <- Hid in Hbp. rewrite Hs1, Hp1 in Hbp. fold n in Hbp.
  destruct (Hbp Hroom) as (_ & _ & Hnew & _ & Hlast).
  rewrite Hnew.
  split; [destruct (_ >? 0); reflexivity|].
  split; [destruct (_ >? 0); reflexivity|].
  split.
  - intros st top Hst. rewrite Hst in Hlast |- *.
    assert (Hlen : Z.of_nat (length (st ++ [top])) > 0)
      by (rewrite length_app; cbn [length]; lia).
    assert (Htop : stack_top (st ++ [top]) = top)
      by (unfold stack_top; now rewrite last_snoc).
    rewrite Htop in *. split; [|exact (Hlast Hlen)].
    destruct (Z.of_nat (length (st ++ [top])) >? 0) eqn:E; [reflexivity|lia].
  - intros ->. reflexivity.
Qed.

(** A failed [UI_Begin_Panel] leaves the arena and the stack alone. *)
Lemma UI_Begin_Panel_full_frame (ui : UI_Context) (name : option string) :
  UI_MAX_PANELS <= panel_count (state ui) ->
  state (UI_Begin_Panel ui name) = state ui
  /\ parent_stack (UI_Begin_Panel ui name) = parent_stack ui.
Proof.
  intros Hfull. unfold UI_Begin_Panel.
  pose proof (UI_Generate_Id_frame ui name) as Hfr.
  destruct (UI_Generate_Id ui name) as [id u1]. simpl in Hfr.
  unfold begin_panel_with, UI_NewPanel. rewrite Hfr. simpl.
  destruct (panel_count (state ui) >=? UI_MAX_PANELS) eqn:E; [|lia].
  simpl. split; reflexivity.
Qed.

(** X24: a divider.  With room in the arena and on the stack the call
    adds one panel and leaves the parent stack as it found it: the new
    panel is a leaf, the last child of the panel that was on top of the
    stack, marked resizable with the given hit-box padding and color,
    one pixel wide for the vertical orientation and one pixel high for
    any other; the older panels keep their ids and styles.  With a full
    arena and a panel on the stack no panel is added: the enclosing
    panel itself gets the divider's size, color and resizable mark, and
    is popped. *)
Theorem X24_divider (ui : UI_Context) (id : option string) (orientation col pad : Z) :
  let ui' := UI_Divider_Ex ui id orientation col pad in
  let dw := if orientation =? UI_DIVIDER_VERTICAL then 1 else -1 in
  let dh := if orientation =? UI_DIVIDER_VERTICAL then -1 else 1 in
  UI_Divider ui id orientation = UI_Divider_Ex ui id orientation 872415231 4
  /\ (built_tree ui -> panel_count (state ui) < UI_MAX_PANELS ->
      Z.of_nat (length (parent_stack ui)) < 32 ->
      let n := panel_count (state ui) in
      let p := get_panel (state ui') n in
      parent_stack ui' = parent_stack ui
      /\ panel_count (state ui') = n + 1
      /\ p_id p = fst (UI_Generate_Id ui id)
      /\ style p = set_resizable 1 pad
                     (set_color col (set_pref_h dh (set_pref_w dw new_panel_style)))
      /\ first_child p = -1 /\ next_sibling p = -1
      /\ (forall st top, parent_stack ui = st ++ [top] ->
            parent p = top /\ last_child (get_panel (state ui') top) = n)
      /\ (forall i, 0 <= i < n ->
            p_id (get_panel (state ui') i) = p_id (get_panel (state ui) i)
            /\ style (get_panel (state ui') i) = style (get_panel (state ui) i)))
  /\ (forall st top,
        UI_MAX_PANELS <= panel_count (state ui) ->
        parent_stack ui = st ++ [top] -> 0 <= top < panel_count (state ui) ->
        panel_count (state ui') = panel_count (state ui)
        /\ parent_stack ui' = st
        /\ style (get_panel (state ui') top)
           = set_resizable 1 pad
               (set_color col
                  (set_pref_h dh (set_pref_w dw (style (get_panel (state ui) top)))))).
Proof.
  intros ui' dw dh.
  assert (Hsize : forall u,
             (if orientation =? UI_DIVIDER_VERTICAL then UI_Panel_Set_Size u 1 (-1)
              else UI_Panel_Set_Size u (-1) 1)
             = UI_Panel_Set_Size u dw dh).
  { intros u. unfold dw, dh. destruct (orientation =? UI_DIVIDER_VERTICAL); reflexivity. }
  split; [reflexivity|]. split.
  - intros Hb Hroom Hdepth n p. subst p ui'. unfold UI_Divider_Ex. rewrite Hsize.
    destruct (UI_Begin_Panel_panels ui id Hb Hroom Hdepth)
      as (Hc & Hst & Hid & Hsty & _ & Hold). fold n in Hc, Hst, Hid, Hsty, Hold.
    destruct (UI_Begin_Panel_links ui id Hb Hroom) as (Hfc & Hns & Hpar & _).
    fold n in Hfc, Hns, Hpar.
    set (ui1 := UI_Begin_Panel ui id) in *.
    assert (Hn : 0 <= n < panel_count (state ui1)) by (unfold n, panel_count in *; lia).
    unfold UI_Panel_Set_Size.
    rewrite (on_current_panel_top _ ui1 _ n Hst).
    set (ui2 := set_state _ ui1).
    assert (Hst2 : parent_stack ui2 = parent_stack ui ++ [n]) by exact Hst.
    unfold UI_Panel_Set_Color. rewrite (on_current_panel_top _ ui2 _ n Hst2).
    set (ui3 := set_state _ ui2).
    assert (Hst3 : parent_stack ui3 = parent_stack ui ++ [n]) by exact Hst.
    unfold UI_Panel_Set_Resizable. rewrite (on_current_panel_top _ ui3 _ n Hst3).
    assert (Hlen : (Z.of_nat (length (parent_stack ui3)) >? 0) = true).
    { rewrite Hst3, length_app. cbn [length]. apply Z.gtb_lt. lia. }
    unfold UI_End_Panel. cbn [parent_stack set_state state]. rewrite Hlen.
    cbn [parent_stack set_parent_stack state set_state]. rewrite Hst3, removelast_last.
    unfold ui3, ui2. cbn [state set_state].
    split; [reflexivity|].
    split; [now rewrite !panel_count_upd|].
    rewrite !get_upd_same by (rewrite ?panel_count_upd; lia).
    cbn [p_id style first_child next_sibling parent set_style].
    rewrite Hsty. split; [exact Hid|]. split; [reflexivity|].
    split; [exact Hfc|]. split; [exact Hns|]. split.
    + intros st top Hstk. destruct (Hpar st top Hstk) as [Hp Hl].
      split; [exact Hp|].
      destruct (Z.eq_dec top n) as [->|Hne].
      * rewrite !get_upd_same by (rewrite ?panel_count_upd; lia).
        cbn [last_child set_style]. exact Hl.
      * rewrite !get_upd_other by lia. exact Hl.
    + intros i Hi. rewrite !get_upd_other by lia.
      destruct (Hold i Hi) as (A & B & _). auto.
  - intros st top Hfull Hst Htop. subst ui'. unfold UI_Divider_Ex. rewrite Hsize.
    destruct (UI_Begin_Panel_full_frame ui id Hfull) as [Hs1 Hp1].
    set (ui1 := UI_Begin_Panel ui id) in *.
    assert (Hst1 : parent_stack ui1 = st ++ [top]) by congruence.
    unfold UI_Panel_Set_Size.
    rewrite (on_current_panel_top _ ui1 _ top Hst1).
    set (ui2 := set_state _ ui1).
    assert (Hst2 : parent_stack ui2 = st ++ [top]) by exact Hst1.
    unfold UI_Panel_Set_Color. rewrite (on_current_panel_top _ ui2 _ top Hst2).
    set (ui3 := set_state _ ui2).
    assert (Hst3 : parent_stack ui3 = st ++ [top]) by exact Hst1.
    unfold UI_Panel_Set_Resizable. rewrite (on_current_panel_top _ ui3 _ top Hst3).
    assert (Hlen : (Z.of_nat (length (parent_stack ui3)) >? 0) = true).
    { rewrite Hst3, length_app. cbn [length]. apply Z.gtb_lt. lia. }
    unfold UI_End_Panel. cbn [parent_stack set_state state]. rewrite Hlen.
    cbn [parent_stack set_parent_stack state set_state]. rewrite Hst3, removelast_last.
    unfold ui3, ui2. cbn [state set_state]. rewrite Hs1.
    split; [now rewrite !panel_count_upd|]. split; [reflexivity|].
    rewrite !get_upd_same by (rewrite ?panel_count_upd; lia).
    reflexivity.
Qed.

Lemma X24_divider_witness :
  parent_stack (UI_Divider_Ex (UI_Begin_Panel fresh_frame (Some "root"))
                  (Some "div") 0 7 4)
  = parent_stack (UI_Begin_Panel fresh_frame (Some "root"))
  /\ panel_count (state (UI_Divider_Ex (UI_Begin_Panel fresh_frame (Some "root"))
                           (Some "div") 0 7 4)) = 2.
Proof.
  assert (Hb : built_tree (UI_Begin_Panel fresh_frame (Some "root")))
    by apply built_tree_UI_Begin_Panel, built_tree_begin_frame.
  destruct (proj1 (proj2 (X24_divider (UI_Begin_Panel fresh_frame (Some "root"))
                            (Some "div") 0 7 4)) Hb)
    as (H1 & H2 & _).
  - vm_compute. reflexivity.
  - vm_compute. reflexivity.
  - split; [exact H1|]. rewrite H2. vm_compute. reflexivity.
Defined.

(** ** Widgets: the button *)

Lemma begin_panel_with_first (ctx : UI_Context) (id : Z) (st : list Z) (top : Z) :
  built_tree ctx -> panel_count (state ctx) < UI_MAX_PANELS ->
  parent_stack ctx = st ++ [top] ->
  first_child (get_panel (state ctx) top) = -1 ->
  first_child (get_panel (state (begin_panel_with ctx id)) top) = panel_count (state ctx).
Proof.
  intros (Hok & Hst & Hcap & Hdepth) Hroom Hstk Hleaf.
  assert (Htop : 0 <= top < panel_count (state ctx)).
  { rewrite Hstk in Hst. apply Forall_app in Hst as [_ H]. now apply Forall_inv in H. }
  unfold begin_panel_with, UI_NewPanel.
  destruct (panel_count (state ctx) >=? UI_MAX_PANELS) eqn:E; [lia|].
  destruct (panel_count (state ctx) <? 0) eqn:En; [lia|].
  rewrite Hstk.
  assert (Hlen : (Z.of_nat (length (st ++ [top])) >? 0) = true).
  { rewrite length_app. cbn [length]. apply Z.gtb_lt. lia. }
  rewrite Hlen.
  assert (Hstop : stack_top (st ++ [top]) = top)
    by (unfold stack_top; now rewrite last_snoc).
  rewrite Hstop. destruct (top >=? 0) eqn:Et; [|lia].
  cbn [state set_state set_parent_stack].
  destruct (add_child_fields (state ctx) id top top Hok Htop ltac:(lia)) as (_ & Hf & _).
  cbv zeta in Hf. rewrite Hf, Hleaf.
  destruct (top =? panel_count (state ctx)) eqn:E1; [lia|].
  rewrite Z.eqb_refl. reflexivity.
Qed.

Lemma UI_Generate_Id_fst_used (a b : UI_Context) (str : option string) :
  used_ids a = used_ids b -> fst (UI_Generate_Id a str) = fst (UI_Generate_Id b str).
Proof.
  intros H. unfold UI_Generate_Id. rewrite H.
  destruct (used_find_bump _ _) as [[k u']|]; [reflexivity|].
  destruct (_ <? 1024); reflexivity.
Qed.

(** What a label adds when there is room for it. *)
Lemma UI_Label_adds (ui : UI_Context) (t : string) (col : Z)
    (m : string -> Z -> UI_RectI) :
  measure_text ui = Some m ->
  built_tree ui -> panel_count (state ui) < UI_MAX_PANELS ->
  Z.of_nat (length (parent_stack ui)) < 32 ->
  let n := panel_count (state ui) in
  let ui' := UI_Label ui (Some t) col in
  let p := get_panel (state ui') n in
  parent_stack ui' = parent_stack ui
  /\ panel_count (state ui') = n + 1
  /\ p_id p = fst (UI_Generate_Id ui (Some t))
  /\ is_label p = 1 /\ label_text p = copy_text t /\ label_color p = col
  /\ style p = set_color 0 (set_pref_h (h (m t 14))
                              (set_pref_w (i32 (w (m t 14) + 2)) new_panel_style))
  /\ first_child p = -1
  /\ (forall st top, parent_stack ui = st ++ [top] ->
        parent p = top
        /\ last_child (get_panel (state ui') top) = n
        /\ (first_child (get_panel (state ui) top) = -1 ->
            first_child (get_panel (state ui') top) = n))
  /\ (forall i, 0 <= i < n ->
        p_id (get_panel (state ui') i) = p_id (get_panel (state ui) i)
        /\ style (get_panel (state ui') i) = style (get_panel (state ui) i)
        /\ parent (get_panel (state ui') i) = parent (get_panel (state ui) i)
        /\ is_label (get_panel (state ui') i) = is_label (get_panel (state ui) i)
        /\ label_text (get_panel (state ui') i)
           = label_text (get_panel (state ui) i)).
Proof.
  intros Hm Hb Hroom Hdepth n ui' p. subst p ui'. unfold UI_Label. rewrite Hm.
  destruct (UI_Begin_Panel_panels ui (Some t) Hb Hroom Hdepth)
    as (Hc & Hst & Hid & Hsty & _ & Hold). fold n in Hc, Hst, Hid, Hsty, Hold.
  destruct (UI_Begin_Panel_links ui (Some t) Hb Hroom) as (Hfc & _ & Hpar & _).
  fold n in Hfc, Hpar.
  assert (Hfirst : forall st top, parent_stack ui = st ++ [top] ->
             first_child (get_panel (state ui) top) = -1 ->
             first_child (get_panel (state (UI_Begin_Panel ui (Some t))) top) = n).
  { intros st top Hstk Hleaf. unfold UI_Begin_Panel.
    pose proof (built_tree_UI_Generate_Id ui (Some t) Hb) as Hg.
    pose proof (UI_Generate_Id_frame ui (Some t)) as Hfr.
    destruct (UI_Generate_Id ui (Some t)) as [id u1]. cbn [snd] in Hg, Hfr.
    assert (Hs1 : state u1 = state ui) by (rewrite Hfr; reflexivity).
    assert (Hp1 : parent_stack u1 = parent_stack ui) by (rewrite Hfr; reflexivity).
    unfold n. rewrite <- Hs1.
    apply (begin_panel_with_first u1 id st top Hg); rewrite ?Hs1, ?Hp1; assumption. }
  set (ui1 := UI_Begin_Panel ui (Some t)) in *.
  assert (Hn : 0 <= n < panel_count (state ui1)) by (unfold n, panel_count in *; lia).
  unfold UI_Panel_Set_Size.
  rewrite (on_current_panel_top _ ui1 _ n Hst).
  set (ui2 := set_state _ ui1).
  assert (Hst2 : parent_stack ui2 = parent_stack ui ++ [n]) by exact Hst.
  assert (Hlen : (Z.of_nat (length (parent_stack ui2)) >? 0) = true).
  { rewrite Hst2, length_app. cbn [length]. apply Z.gtb_lt. lia. }
  rewrite Hlen. rewrite (on_current_panel_top _ ui2 _ n Hst2).
  unfold UI_End_Panel. cbn [parent_stack set_state state]. rewrite Hlen.
  cbn [parent_stack set_parent_stack state set_state]. rewrite Hst2, removelast_last.
  unfold ui2. cbn [state set_state].
  split; [reflexivity|].
  split; [now rewrite !panel_count_upd|].
  rewrite !get_upd_same by (rewrite ?panel_count_upd; lia).
  cbn [p_id is_label label_text label_color style first_child parent set_label set_style].
  rewrite Hsty. split; [exact Hid|]. do 4 (split; [reflexivity|]).
  split; [exact Hfc|]. split.
  - intros st top Hstk. destruct (Hpar st top Hstk) as [Hp Hl].
    split; [exact Hp|].
    assert (Hne : top <> n).
    { destruct Hb as (_ & Hlive & _). rewrite Hstk in Hlive.
      apply Forall_app in Hlive as [_ H]. apply Forall_inv in H. fold n in H. lia. }
    rewrite !get_upd_other by lia. split; [exact Hl|exact (Hfirst st top Hstk)].
  - intros i Hi. rewrite !get_upd_other by lia.
    destruct (Hold i Hi) as (A & B & _ & P & C & D). auto.
Qed.

Lemma begin_panel_with_frame (ctx : UI_Context) (id : Z) :
  measure_text (begin_panel_with ctx id) = measure_text ctx
  /\ used_ids (begin_panel_with ctx id) = used_ids ctx.
Proof.
  unfold begin_panel_with, UI_NewPanel.
  destruct (panel_count (state ctx) >=? UI_MAX_PANELS); [split; reflexivity|].
  destruct (panel_count (state ctx) <? 0); split; reflexivity.
Qed.

(** X25: a button.  With a measure callback and room for two panels in
    the arena and on the stack, the call leaves the parent stack as it
    found it and adds exactly two panels.  The first is the button: its
    id is the id generated for the text (the one the click test
    compares with the hot and the active widget), it is a row 30 high
    with padding 8, 4, 8, 4, colored by its state (the active widget
    of the previous frame, else the hot widget, else normal), and a
    child of the panel that was on top of the stack.  The second is its only child, the
    label: it holds the text cut to 255 characters, has the text color
    of that state, and gets the next id generated for the same text.
    The older panels keep their ids and styles. *)
Theorem X25_button (ui : UI_Context) (text : string) (m : string -> Z -> UI_RectI) :
  measure_text ui = Some m ->
  built_tree ui -> panel_count (state ui) + 1 < UI_MAX_PANELS ->
  Z.of_nat (length (parent_stack ui)) + 1 < 32 ->
  let n := panel_count (state ui) in
  let id := fst (UI_Generate_Id ui (Some text)) in
  let ui' := snd (UI_Button ui text) in
  let b := get_panel (state ui') n in
  let lbl := get_panel (state ui') (n + 1) in
  let is_active := active_widget_prev (interaction ui) =? id in
  let is_hot := hot_widget (interaction ui) =? id in
  parent_stack ui' = parent_stack ui
  /\ panel_count (state ui') = n + 2
  /\ p_id b = id /\ is_label b = 0
  /\ style b
     = set_direction UI_DIRECTION_ROW
         (set_padding 8 4 8 4
            (set_color (if is_active then 4279918516
                        else if is_hot then 4281697508 else 4280953390)
               (set_pref_h 30 (set_pref_w (-1) new_panel_style))))
  /\ first_child b = n + 1 /\ last_child b = n + 1
  /\ (forall st top, parent_stack ui = st ++ [top] -> parent b = top)
  /\ parent lbl = n /\ first_child lbl = -1
  /\ is_label lbl = 1 /\ label_text lbl = copy_text text
  /\ label_color lbl
     = (if is_active then 4294967295
        else if is_hot then 4294967295 else 4289374890)
  /\ p_id lbl = fst (UI_Generate_Id (snd (UI_Generate_Id ui (Some text))) (Some text))
  /\ (forall i, 0 <= i < n ->
        p_id (get_panel (state ui') i) = p_id (get_panel (state ui) i)
        /\ style (get_panel (state ui') i) = style (get_panel (state ui) i)).
Proof.
  intros Hm Hb Hroom Hdepth n id ui' b lbl is_active is_hot.
  subst b lbl ui' is_active is_hot id. unfold UI_Button.
  pose proof (built_tree_UI_Generate_Id ui (Some text) Hb) as Hg.
  pose proof (UI_Generate_Id_frame ui (Some text)) as Hfr.
  destruct (UI_Generate_Id ui (Some text)) as [id ui1]. cbn [fst snd] in *.
  assert (Hs1 : state ui1 = state ui) by (rewrite Hfr; reflexivity).
  assert (Hp1 : parent_stack ui1 = parent_stack ui) by (rewrite Hfr; reflexivity).
  assert (Hm1 : measure_text ui1 = Some m) by (rewrite Hfr; exact Hm).
  assert (Hi1 : interaction ui1 = interaction ui) by (rewrite Hfr; reflexivity).
  cbv beta iota zeta. unfold UI_Is_Widget_Hot. rewrite Hi1.
  set (is_active := active_widget_prev (interaction ui) =? id).
  set (is_hot := hot_widget (interaction ui) =? id).
  set (hit := is_active && c_true (UI_Is_Mouse_Released ui1 UI_MOUSE_LEFT) && is_hot).
  set (bg := if is_active then 4279918516
             else if is_hot then 4281697508 else 4280953390).
  set (tc := if is_active then 4294967295
             else if is_hot then 4294967295 else 4289374890).
  set (ui2 := if hit then set_last_button_clicked (copy_text text) ui1 else ui1).
  assert (H2 : state ui2 = state ui /\ parent_stack ui2 = parent_stack ui
               /\ measure_text ui2 = Some m /\ used_ids ui2 = used_ids ui1
               /\ built_tree ui2).
  { unfold ui2. destruct hit; cbn [state parent_stack measure_text used_ids
                                    set_last_button_clicked]; auto. }
  destruct H2 as (Hs2 & Hp2 & Hm2 & Hu2 & Hb2).
  unfold UI_Begin_Panel_With_Id.
  pose proof (begin_panel_with_panels ui2 id Hb2) as Hbp. cbv zeta in Hbp.
  rewrite Hs2, Hp2 in Hbp. fold n in Hbp.
  destruct (Hbp ltac:(lia)) as (Hc3 & Hst3 & Hnew & Hold3 & _). clear Hbp.
  destruct (begin_panel_with_frame ui2 id) as [Hm3 Hu3].
  pose proof (built_tree_begin_panel_with ui2 id Hb2) as Hb3.
  set (ui3 := begin_panel_with ui2 id) in *.
  destruct (Z.of_nat (length (parent_stack ui)) <? 32) eqn:E32; [|lia].
  assert (Hn : 0 <= n < panel_count (state ui3)) by (unfold n, panel_count in *; lia).
  unfold UI_Panel_Set_Size.
  rewrite (on_current_panel_top _ ui3 _ n Hst3).
  set (ui4 := set_state _ ui3).
  unfold UI_Panel_Set_Color.
  rewrite (on_current_panel_top _ ui4 (parent_stack ui) n Hst3).
  set (ui5 := set_state _ ui4).
  unfold UI_Panel_Set_Padding.
  rewrite (on_current_panel_top _ ui5 (parent_stack ui) n Hst3).
  set (ui6 := set_state _ ui5).
  unfold UI_Panel_Set_Direction.
  rewrite (on_current_panel_top _ ui6 (parent_stack ui) n Hst3).
  set (ui7 := set_state _ ui6).
  assert (Hst7 : parent_stack ui7 = parent_stack ui ++ [n]) by exact Hst3.
  assert (Hm7 : measure_text ui7 = Some m) by (rewrite <- Hm2, <- Hm3; reflexivity).
  assert (Hu7 : used_ids ui7 = used_ids ui1) by (rewrite <- Hu2, <- Hu3; reflexivity).
  assert (Hc7 : panel_count (state ui7) = n + 1).
  { unfold ui7, ui6, ui5, ui4. cbn [state set_state]. now rewrite !panel_count_upd. }
  assert (Hb7 : built_tree ui7).
  { unfold ui7, ui6, ui5, ui4.
    repeat match goal with
           | |- built_tree (set_state (upd_panel (state ?u) n (set_style ?f)) ?u) =>
               rewrite <- (on_current_panel_top (set_style f) u (parent_stack ui) n
                             Hst3);
               apply built_tree_set_style
           end.
    exact Hb3. }
  assert (Hg7 : get_panel (state ui7) n
                = set_style (set_direction UI_DIRECTION_ROW)
                    (set_style (set_padding 8 4 8 4)
                       (set_style (set_color bg)
                          (set_style (fun s => set_pref_h 30 (set_pref_w (-1) s))
                             (get_panel (state ui3) n))))).
  { unfold ui7, ui6, ui5, ui4. cbn [state set_state].
    rewrite !get_upd_same by (rewrite ?panel_count_upd; lia). reflexivity. }
  assert (Ho7 : forall i, i <> n -> get_panel (state ui7) i = get_panel (state ui3) i).
  { intros i Hi. unfold ui7, ui6, ui5, ui4. cbn [state set_state].
    now rewrite !get_upd_other by lia. }
  destruct (UI_Label_adds ui7 text tc m Hm7 Hb7 ltac:(lia)
              ltac:(rewrite Hst7, length_app; cbn [length]; lia))
    as (L1 & L2 & L3 & L4 & L5 & L6 & _ & L8 & L9 & L10).
  rewrite Hc7 in L2, L3, L4, L5, L6, L8, L9, L10.
  destruct (L9 (parent_stack ui) n Hst7) as (L9a & L9b & L9c).
  set (ui8 := UI_Label ui7 (Some text) tc) in *.
  unfold UI_End_Panel.
  assert (Hlen : (Z.of_nat (length (parent_stack ui8)) >? 0) = true).
  { rewrite L1, Hst7, length_app. cbn [length]. apply Z.gtb_lt. lia. }
  rewrite Hlen. cbn [parent_stack state set_parent_stack].
  rewrite L1, Hst7, removelast_last.
  destruct (L10 n ltac:(lia)) as (B1 & B2 & B3 & B4 & _).
  assert (Hleaf : first_child (get_panel (state ui7) n) = -1).
  { rewrite Hg7, Hnew. destruct (_ >? 0); reflexivity. }
  split; [reflexivity|]. split; [lia|].
  split; [rewrite B1, Hg7, Hnew; destruct (_ >? 0); reflexivity|].
  split; [rewrite B4, Hg7, Hnew; destruct (_ >? 0); reflexivity|].
  split; [rewrite B2, Hg7, Hnew; destruct (_ >? 0); reflexivity|].
  split; [exact (L9c Hleaf)|]. split; [exact L9b|].
  split.
  { intros st top Hstk. rewrite B3, Hg7, Hnew, Hstk.
    destruct (Z.of_nat (length (st ++ [top])) >? 0) eqn:E.
    - cbn [parent set_style set_next_sibling set_parent].
      unfold stack_top. now rewrite last_snoc.
    - rewrite Z.gtb_ltb in E. apply Z.ltb_ge in E.
      rewrite length_app in E. cbn [length] in E. lia. }
  split; [exact L9a|]. split; [exact L8|]. split; [exact L4|]. split; [exact L5|].
  split; [exact L6|].
  split; [rewrite L3; apply UI_Generate_Id_fst_used; exact Hu7|].
  intros i Hi. destruct (L10 i ltac:(lia)) as (A1 & A2 & _).
  rewrite A1, A2, (Ho7 i) by lia.
  destruct (Hold3 i Hi) as (C1 & C2 & _). auto.
Qed.

Lemma X25_button_witness :
  panel_count (state (snd (UI_Button (UI_Begin_Panel fresh_frame (Some "root")) "OK"))) = 3
  /\ parent_stack (snd (UI_Button (UI_Begin_Panel fresh_frame (Some "root")) "OK"))
     = parent_stack (UI_Begin_Panel fresh_frame (Some "root")).
Proof.
  assert (Hb : built_tree (UI_Begin_Panel fresh_frame (Some "root")))
    by apply built_tree_UI_Begin_Panel, built_tree_begin_frame.
  destruct (X25_button (UI_Begin_Panel fresh_frame (Some "root")) "OK" sample_measure
              eq_refl Hb) as (H1 & H2 & _).
  - vm_compute. reflexivity.
  - vm_compute. reflexivity.
  - split; [rewrite H2; vm_compute; reflexivity|exact H1].
Defined.

(** ** Input: pointer motion and the wheel *)

(** X26: pointer motion and wheel across a frame boundary.  Of the
    positions reported between the end of a frame and the beginning of
    the next only the last one counts: it is the position of the new
    frame, and the mouse delta is its (wrapped) difference to the
    position the previous frame ended with, whatever was reported in
    between.  Wheel notches reported before the frame begins are
    dropped when it begins: the wheel reading of a new frame starts at
    0 and only adds up what is reported after that. *)
Theorem X26_pointer_motion (ui : UI_Context) (x1 y1 x2 y2 w_ h_ : Z) (dt d d1 d2 : f32) :
  let reported :=
    UI_Input_ProcessMouseWheel
      (UI_Input_ProcessMouseMove
         (UI_Input_ProcessMouseMove (UI_Input_EndFrame ui) x1 y1) x2 y2) d in
  let ui' := fst (UI_BeginFrame_WithTime reported w_ h_ dt) in
  mouse_x (input ui') = x2 /\ mouse_y (input ui') = y2
  /\ mouse_dx (input ui') = i32 (x2 - mouse_x (input ui))
  /\ mouse_dy (input ui') = i32 (y2 - mouse_y (input ui))
  /\ UI_Get_Mouse_Wheel reported = f32_add (mouse_wheel_delta (input ui)) d
  /\ UI_Get_Mouse_Wheel ui' = f32_zero
  /\ UI_Get_Mouse_Wheel (UI_Input_ProcessMouseWheel (UI_Input_ProcessMouseWheel ui' d1) d2)
     = f32_add (f32_add f32_zero d1) d2
  /\ (forall b, UI_Is_Mouse_Down ui' b = UI_Is_Mouse_Down ui b).
Proof.
  intros reported ui'. subst ui' reported.
  repeat split.
Qed.

(** ** The order of the tree walks *)

Lemma comes_before_app_l (x y : Z) (o r : list Z) :
  comes_before x y o -> comes_before x y (o ++ r).
Proof.
  intros (l1 & l2 & l3 & ->). exists l1, l2, (l3 ++ r).
  repeat (rewrite <- app_assoc || rewrite <- app_comm_cons). reflexivity.
Qed.

Lemma comes_before_app_r (x y : Z) (o r : list Z) :
  comes_before x y o -> comes_before x y (r ++ o).
Proof.
  intros (l1 & l2 & l3 & ->). exists (r ++ l1), l2, l3.
  repeat (rewrite <- app_assoc || rewrite <- app_comm_cons). reflexivity.
Qed.

Lemma comes_before_cons (x y a : Z) (o : list Z) :
  comes_before x y o -> comes_before x y (a :: o).
Proof. intros H. exact (comes_before_app_r x y o [a] H). Qed.

Lemma comes_before_split (x y : Z) (o1 o2 : list Z) :
  In x o1 -> In y o2 -> comes_before x y (o1 ++ o2).
Proof.
  intros Hx Hy. apply in_split in Hx as (a1 & a2 & ->).
  apply in_split in Hy as (b1 & b2 & ->).
  exists a1, (a2 ++ b1), b2.
  repeat (rewrite <- app_assoc || rewrite <- app_comm_cons). reflexivity.
Qed.

(** The pre-order list of a subtree: its members, and their order. *)
Lemma preorder_subtree (fuel : nat) :
  (forall s idx o,
      tree_ok s -> 0 <= idx < panel_count s ->
      preorder fuel s idx = Some o ->
      (forall p, In p o <-> in_subtree s idx p)
      /\ NoDup o
      /\ (exists rest, o = idx :: rest)
      /\ (forall p c l, in_subtree s idx p ->
            sibling_chain (chain_fuel s) s (first_child (get_panel s p)) = Some l ->
            In c l -> comes_before p c o)
      /\ (forall p pre a post b x y, in_subtree s idx p ->
            sibling_chain (chain_fuel s) s (first_child (get_panel s p))
            = Some (pre ++ a :: post) ->
            In b post -> in_subtree s a x -> in_subtree s b y -> comes_before x y o))
  /\ (forall s c o l k par,
        tree_ok s -> 0 <= par ->
        sibling_chain k s c = Some l ->
        NoDup l ->
        (forall d, In d l -> par < d < panel_count s /\ parent (get_panel s d) = par) ->
        preorder_children fuel s c = Some o ->
        (forall p, In p o <-> exists d, In d l /\ in_subtree s d p)
        /\ NoDup o
        /\ (forall d p c' l', In d l -> in_subtree s d p ->
              sibling_chain (chain_fuel s) s (first_child (get_panel s p)) = Some l' ->
              In c' l' -> comes_before p c' o)
        /\ (forall d p pre a post b x y, In d l -> in_subtree s d p ->
              sibling_chain (chain_fuel s) s (first_child (get_panel s p))
              = Some (pre ++ a :: post) ->
              In b post -> in_subtree s a x -> in_subtree s b y -> comes_before x y o)
        /\ (forall pre a post b x y, l = pre ++ a :: post ->
              In b post -> in_subtree s a x -> in_subtree s b y -> comes_before x y o)).
Proof.
  induction fuel as [|f [IHt IHc]]; split; intros *.
  - discriminate.
  - intros _ _ Hl _ _. simpl. destruct (c =? -1) eqn:E; [|discriminate].
    intros [= <-]. rewrite (sibling_chain_nil _ _ _ _ E Hl).
    split; [|split; [apply NoDup_nil_2|split; [|split]]].
    + intros p. split; [intros []|intros (d & [] & _)].
    + intros d p c' l' [].
    + intros d p pre a post b x y [].
    + intros pre a post b x y Hnil. now destruct pre.
  - intros Hok Hi. cbn [preorder].
    pose proof (tree_ok_increasing s Hok) as Hw.
    destruct (preorder_children f s (first_child (get_panel s idx))) as [o'|] eqn:Eo;
      [|discriminate].
    intros [= <-].
    assert (Hfc : first_child (get_panel s idx) = -1
                  \/ 0 <= first_child (get_panel s idx) < panel_count s).
    { destruct (proj1 (Hw idx Hi)) as [Hn|Hn]; [now left|right; lia]. }
    destruct (sibling_chain_total s (chain_fuel s) (first_child (get_panel s idx)) Hw)
      as [l Hl].
    { destruct Hfc as [H|H]; [now left|right]. split; [exact H|].
      unfold chain_fuel, panel_count in *. lia. }
    assert (Hnd : NoDup l).
    { destruct Hfc as [H|H].
      - rewrite H in Hl. unfold chain_fuel in Hl. destruct (length s); simpl in Hl;
          injection Hl as <-; apply NoDup_nil_2.
      - exact (sibling_chain_NoDup s _ _ l Hw H Hl). }
    pose proof (child_list_parent s idx l Hok Hi Hl) as Hlp.
    destruct (IHc s (first_child (get_panel s idx)) o' l (chain_fuel s) idx
                Hok ltac:(lia) Hl Hnd Hlp Eo) as (J1 & J2 & J4 & J5 & J6).
    assert (Hsub : forall p, in_subtree s idx p <->
                             p = idx \/ exists d, In d l /\ in_subtree s d p).
    { intros p. split.
      - intros Hp. destruct (in_subtree_down s idx p Hp) as [->|(l0 & d & Hl0 & Hd & Hdp)];
          [now left|right].
        assert (l0 = l) by congruence. subst l0. eauto.
      - intros [->|(d & Hd & Hdp)]; [constructor|].
        apply (in_subtree_trans s idx d p); [|exact Hdp].
        exact (in_subtree_child s idx idx d l (in_subtree_root s idx) Hl Hd). }
    split; [|split; [|split; [|split]]].
    + intros p. rewrite Hsub. cbn [In]. rewrite J1. split; intros [H|H]; auto.
    + apply NoDup_cons. split; [|exact J2].
      intros Hin. apply list_elem_of_In in Hin. apply J1 in Hin as (d & Hd & Hdp).
      pose proof (Hlp d Hd) as Hd1.
      pose proof (in_subtree_range s d idx Hok ltac:(lia) Hdp). lia.
    + eauto.
    + intros p c l0 Hp Hl0 Hc. apply Hsub in Hp as [->|(d & Hd & Hdp)].
      * assert (l0 = l) by congruence. subst l0.
        assert (Hin : In c o') by (apply J1; exists c; split; [exact Hc|constructor]).
        apply in_split in Hin as (a1 & a2 & ->). exists [], a1, a2. reflexivity.
      * apply comes_before_cons. exact (J4 d p c l0 Hd Hdp Hl0 Hc).
    + intros p pre a post b x y Hp Hl0 Hb Hx Hy.
      apply Hsub in Hp as [->|(d & Hd & Hdp)]; apply comes_before_cons.
      * assert (l = pre ++ a :: post) by congruence.
        exact (J6 pre a post b x y H Hb Hx Hy).
      * exact (J5 d p pre a post b x y Hd Hdp Hl0 Hb Hx Hy).
  - intros Hok Hpar Hl Hnd Hlp. cbn [preorder_children].
    destruct (c =? -1) eqn:E.
    { intros [= <-]. rewrite (sibling_chain_nil _ _ _ _ E Hl).
      split; [|split; [apply NoDup_nil_2|split; [|split]]].
      + intros p. split; [intros []|intros (d & [] & _)].
      + intros d p c' l' [].
      + intros d p pre a post b x y [].
      + intros pre a post b x y Hnil. now destruct pre. }
    destruct (preorder f s c) as [o1|] eqn:E1; [|discriminate].
    destruct (preorder_children f s (next_sibling (get_panel s c))) as [o2|] eqn:E2;
      [|discriminate].
    intros [= <-].
    destruct k as [|k]; simpl in Hl; rewrite E in Hl; [discriminate|].
    destruct (sibling_chain k s (next_sibling (get_panel s c))) as [l'|] eqn:El';
      [|discriminate].
    injection Hl as <-.
    destruct (Hlp c (or_introl eq_refl)) as [Hc Hcp].
    destruct (IHt s c o1 Hok ltac:(lia) E1) as (I1 & I2 & _ & I4 & I5).
    apply NoDup_cons in Hnd. destruct Hnd as [Hnc Hnd'].
    assert (Hlp' : forall d, In d l' ->
               par < d < panel_count s /\ parent (get_panel s d) = par)
      by (intros d Hd; exact (Hlp d (or_intror Hd))).
    destruct (IHc s (next_sibling (get_panel s c)) o2 l' k par
                Hok Hpar El' Hnd' Hlp' E2) as (J1 & J2 & J4 & J5 & J6).
    split; [|split; [|split; [|split]]].
    + intros p. rewrite in_app_iff, I1, J1. split.
      * intros [H|(d & Hd & Hdp)]; [exists c; split; [now left|exact H]|].
        exists d. split; [now right|exact Hdp].
      * intros (d & [<-|Hd] & Hdp); [now left|right; eauto].
    + apply NoDup_app. split; [exact I2|]. split; [|exact J2].
      intros p Hp1 Hp2. apply list_elem_of_In in Hp1, Hp2.
      apply I1 in Hp1. apply J1 in Hp2 as (d & Hd & Hdp).
      destruct (Hlp' d Hd) as [H1 H2].
      apply (siblings_apart s par c d p Hok Hc H1 Hpar Hcp H2); [|exact Hp1|exact Hdp].
      intros ->. apply Hnc. now apply list_elem_of_In.
    + intros d p c' l0 [<-|Hd] Hdp Hl0 Hc'.
      * apply comes_before_app_l. exact (I4 p c' l0 Hdp Hl0 Hc').
      * apply comes_before_app_r. exact (J4 d p c' l0 Hd Hdp Hl0 Hc').
    + intros d p pre a post b x y [<-|Hd] Hdp Hl0 Hb Hx Hy.
      * apply comes_before_app_l. exact (I5 p pre a post b x y Hdp Hl0 Hb Hx Hy).
      * apply comes_before_app_r. exact (J5 d p pre a post b x y Hd Hdp Hl0 Hb Hx Hy).
    + intros pre a post b x y Heq Hb Hx Hy.
      destruct pre as [|c0 pre]; cbn [app] in Heq; injection Heq as Hc0 Hrest.
      * subst a l'. apply comes_before_split; [now apply I1|].
        apply J1. eauto.
      * apply comes_before_app_r. exact (J6 pre a post b x y Hrest Hb Hx Hy).
Qed.

(** X27: the order of the tree walks.  On a tree with consistent links
    the pre-order walk from [root], which the emitter and both hit-test
    passes make, visits exactly the panels of the subtree of [root],
    each of them once, [root] first; a panel comes before each of its
    children, and of two children of one panel the earlier one and its
    whole subtree come before the later one and its subtree.  So a
    child is drawn over its parent and a later sibling over an earlier
    one, and the hit tests, which keep the last hit, prefer them in the
    same way. *)
Theorem X27_traversal_order (ui : UI_Context) (s : UI_State) (root hot : Z)
    (g : option UI_Render_List) :
  tree_ok s -> 0 <= root < panel_count s ->
  exists order,
    preorder (tree_fuel s) s root = Some order
    /\ UI_EmitPanels s root g = Some (emit_list s order g)
    /\ UI_Update_Panel_Interaction_NonResizable ui s root hot
       = Some (hit_list (hot_nonresizable ui) s order hot)
    /\ UI_Update_Panel_Interaction_Resizable ui s root hot
       = Some (hit_list (hot_resizable ui) s order hot)
    /\ (forall p, In p order <-> in_subtree s root p)
    /\ NoDup order
    /\ (exists rest, order = root :: rest)
    /\ (forall p c l, in_subtree s root p ->
          sibling_chain (chain_fuel s) s (first_child (get_panel s p)) = Some l ->
          In c l -> comes_before p c order)
    /\ (forall p pre a post b x y, in_subtree s root p ->
          sibling_chain (chain_fuel s) s (first_child (get_panel s p))
          = Some (pre ++ a :: post) ->
          In b post -> in_subtree s a x -> in_subtree s b y ->
          comes_before x y order).
Proof.
  intros Hok Hr.
  pose proof (tree_ok_increasing s Hok) as Hw.
  destruct (proj1 (preorder_total (tree_fuel s)) s root Hw Hr) as [order Ho].
  { unfold tree_fuel, panel_count in *. lia. }
  exists order. split; [exact Ho|].
  split.
  { unfold UI_EmitPanels. rewrite (proj1 (emit_walk_preorder _)), Ho. reflexivity. }
  split.
  { unfold UI_Update_Panel_Interaction_NonResizable.
    rewrite (proj1 (hit_walk_preorder _ _)), Ho. reflexivity. }
  split.
  { unfold UI_Update_Panel_Interaction_Resizable.
    rewrite (proj1 (hit_walk_preorder _ _)), Ho. reflexivity. }
  exact (proj1 (preorder_subtree (tree_fuel s)) s root order Hok Hr Ho).
Qed.

Lemma X27_traversal_order_witness :
  exists order,
    preorder (tree_fuel column_example_state) column_example_state 0 = Some order
    /\ NoDup order.
Proof.
  destruct (X27_traversal_order zero_context column_example_state 0 0 None)
    as (order & Ho & _ & _ & _ & _ & Hnd & _).
  - apply tree_ok_b_sound. vm_compute. reflexivity.
  - vm_compute. split; [discriminate|reflexivity].
  - exists order. split; assumption.
Defined.
